(* ===== verification/_CoqProject ===== *)
-Q . S2P
Prelude.v
Json.v
Timestamp.v
Entities.v
Sanitize.v
Dispatch.v
Auth.v
Query.v
Params.v
Numbers.v
Utility.v
Mysql.v
MysqlDdl.v
Exceptions.v
Html.v
Unique.v
Crawl.v
Sql.v
