(* ===== verification/Prelude.v ===== *)
(** * A verification library for MySQL-DMLProject's X crawler

    The repository (src/) is a Python crawler for the X (Twitter) web API,
    [src/controller/x/xcrawl.py], together with thin MySQL helpers
    ([src/MySQL/mysqldml.py], [src/MySQL/mysqlddl.py]) and exception
    modules.  The crawler is the core: an [XCrawl] object keeps a header
    dictionary and a cookie (its session state), obtains a CSRF token from
    the cookie or a guest token from the activation endpoint, builds the
    GraphQL [variables]/[features] parameters of [SearchTimeline], sends the
    request, walks the returned timeline instructions and sanitizes every
    tweet and user record it finds, in place, by deleting noise keys,
    rewriting profile-image URLs, cutting media short links out of the tweet
    text and canonicalizing timestamps.  The MySQL helpers turn a table name
    and a dictionary into SQL text for a [mysql.connector] cursor and map
    connector errors to messages ([ErrorHandling]).

    ** Files, in dependency order

    - [Prelude] (this file): Python text as lists of Unicode code points
      ([pystr]), the Python exceptions the code raises ([exc]), an
      exception monad [res] with its notation in [py_scope], the loops
      [mapM] and [foldM] with their rules, the CPython [str] operations the
      code calls ([str_replace], [str_rstrip], the [in] test on strings),
      the loop rules [foldM_invariant], [foldM_total] and [mapS_invariant],
      the shared tactics ([py_step], [bind_inv], [binds_inv], [py_crush],
      [divk]) and the hint databases [pyx] and [pyrw].
    - [Json]: the values [json.loads] produces ([json]) and the dictionary
      operations of the code as CPython executes them on them: [d[k]],
      [k in d], [d.get], [d.update], [del d[k]], iteration and
      truthiness; the helper [__generatekey] with its delete loop, and the
      well-formedness invariant (no duplicate dictionary keys).
    - [Timestamp]: [datetime.strptime(v, "%a %b %d %H:%M:%S +0000 %Y")]
      followed by [strftime("%Y-%m-%dT%H:%M:%S")], as the regular
      expression CPython's [_strptime] compiles for that format, with its
      backtracking, followed by the range checks of [datetime].
    - [Entities]: [XCrawl.__removeallentites] and [XCrawl.__replacechar].
    - [Sanitize]: [__processuserresults], [__processretweeted],
      [__processmedia].
    - [Dispatch]: the instruction walker of [XCrawl.search] (lines
      862-1004) and the trend walker of [XCrawl.trends].
    - [Auth]: [XCrawl.__init__], the header dictionary, [__Csrftoken] and
      [__guest_token], with the HTTP transport as the class [Transport].
    - [Query]: the percent encoding of [urllib.parse] ([quote],
      [unquote]) that [search] calls, with UTF-8.
    - [Params]: [json.dumps], [int()], [__buildparams], [Utility.convertws],
      the [rawQuery] rewrite of [search] and the URL it requests.
    - [Numbers]: the decimal printing of [json.dumps] and the [int()] of
      [search] on digit strings: fuel, the 4300-digit limit, round trip.
    - [Utility]: [Utility.hashmd5] ([url.encode('utf-8')], then
      [hashlib.md5] written out over 32-bit words with their wrap-around,
      then [hexdigest]) and [Utility.UniqClear] (the NFKD table is a section
      variable; [encode('ascii', 'ignore')] is a filter).
    - [Mysql]: [str.__repr__] and [tuple.__repr__] (the printable table of
      CPython is a section variable), the connector as the class [Driver],
      [ErrorHandling] of src/MySQL/exception.py and the four methods of
      [MySQLDManipulator] as state passing over the driver's state.
    - [MysqlDdl]: [MySQLDDefinition], its timed [__execute] (the clock is
      the class [Clock]) and its four statements, with both levels of
      [ErrorHandling]; both constructors open the connection through the
      class [Connector].
    - [Exceptions]: the class statements of xcrawl.py, src/MySQL/exception.py
      and src/helper/exception.py with the library classes they extend,
      CPython's C3 linearization ([merge_go], [mro_go]), [issubclass] on
      the resulting MROs and an [except] clause on that hierarchy
      ([py_except]), against which the constructor matching of the MySQL
      helpers' clauses is checked.
    - [Html]: [HtmlParser.bs4_parser] and [pyq_parser], the libraries as the
      classes [Bs4] and [PyQuery], and their [try/except Exception/finally:
      return] body.
    - [Unique]: Python's [==] on JSON values ([py_eq]) and
      [Utility.makeunique].
    - [Crawl]: [XCrawl.search] and [XCrawl.trends] whole, as computations
      of a state-and-error monad [M] over the session: the argument checks
      and URL (Params), the token step (Auth), the [GET] through the class
      [Fetch], and the walk of a 200 answer (Dispatch); the trends query
      string is [urlencode] with [quote_plus] written out.
    - [Sql]: not repository code, but the environment the MySQL helpers
      talk to: a [Driver] instance [sql_driver] that parses the statements
      the helpers send (the [INSERT] and [DELETE] fragment, with the
      server's error numbers) and runs them on a store of tables, against
      which [insert], [manyinsert] and [delete] are proved to refine
      abstract operations on the store; it models [mysql.connector]'s
      conversion of the parameters (a [dict] or [list] value raises
      [ProgrammingError]), and its Module [SearchStore] composes [search]
      with [insert] and [manyinsert].

    Entities, Sanitize, Dispatch, Auth, Utility, Mysql, MysqlDdl,
    Exceptions, Html, Unique, Crawl and Sql declare their definitions in a
    Module ([Entities], ..., [Mysql], [Ddl], [Exceptions], [Html],
    [Unique], [Crawl], [Sql]) and their theorems in a second Module after
    it ([EntitiesProps], ..., [ExceptionsProps], [HtmlProps],
    [CrawlProps], [SqlProps], [SearchStore]); Query, Params and Numbers
    keep definitions and lemmas in one Module; Json and Timestamp are
    flat.  Components meet at interfaces: the classes [Transport] (guest
    activation), [Fetch] (the [GET]), [Driver] (the MySQL cursor),
    [Connector] ([mysql.connector.connect]), [Clock] ([time.time()]),
    [Bs4] and [PyQuery] (the HTML libraries); the theorems about their
    clients hold for every instance.

    ** How mutation is modelled

    [json.loads] returns a tree: no dictionary or list is shared between
    two places, so an in-place [del] or [update] is modelled by returning
    the updated tree, and every function that mutates its argument returns
    the mutated argument next to its result (explicit state passing).
    Python locals that may be unbound when read ([url] in
    [__removeallentites], [cursor_value] and [user_results] in [search])
    are [option]s, and reading an unbound one raises
    [UnboundLocalError], as CPython does.  The database is the state of a
    [Driver] instance; the theorems about the MySQL helpers hold for every
    instance, and their examples use a driver that records its calls.

    ** What the theorems show

    - Sanitizing: a processed tweet has the legacy schema the code means
      (noise keys gone, canonical [created_at], the retweet marker set),
      and a processed user record keeps exactly the allow-listed fields
      and the defaults; [__removeallentites] on a tweet with any number of
      media cuts, element after element, the link bound at that point out
      of [full_text]: the element's own, the previous element's for an
      element without noise keys, or [UnboundLocalError] when none is
      bound yet ([cut_links] states it on the element list).
    - Timestamps: the conversion accepts exactly the X date format and
      prints its ISO form; impossible dates raise [ValueError].
    - Authentication: the CSRF token is the first [ct0=] match; every
      session [__init__] builds has a cookie, so the guest-token branch is
      dead.
    - Requests: the URL of [search] carries the decoded raw query inside
      the serialized variables; a digit-string [count] is read as its
      value up to 4300 digits.
    - The pipeline (Crawl): the full behaviour of [search] with a CSRF
      token (the request it sends, the result or exception, the session
      left), [CSRFTokenMissingError] with the header already changed, the
      dropped exception of [trends], and an invariant of every session an
      object reaches through any sequence of calls, by induction on the
      reachability relation [api_reach]; liveness: from every reachable
      session some later [search] returns results exactly when the cookie
      carries a [ct0] token ([api_steps] is the reflexive-transitive
      closure of one call).
    - Dispatch: unknown instructions are skipped, unknown products yield a
      404 result, a [TimelineReplaceEntry] before any cursor raises
      [UnboundLocalError], an entry without [itemContent] (the cursor
      entry) appends the previous user again, and every record [search]
      returns is a dictionary holding a dictionary or a list; the
      invariant of the walk is proved once for any predicate on the
      records.
    - Composition (Sql, [SearchStore]): no record [search] returns can be
      stored: [insert] and [manyinsert] raise the connector's conversion
      error, which their [except] clause lets through.
    - Exceptions: every class statement of the three modules creates its
      class (a consistent MRO), the [except MySQLConnectorError] of the
      helpers catches exactly the project class and no connector error,
      helper/exception.py is equivalent to MySQL/exception.py, and
      [MySQLProjectException] is the base of nothing.
    - HtmlParser: neither parser raises; interrupts and exits are
      discarded silently by the [return] of [finally].
    - Utility: [hashmd5] gives the digests of the RFC 1321 test suite and
      of a non-ASCII URL, returns 32 lowercase hexadecimal digits for any
      text or raises [UnicodeEncodeError] on a lone surrogate; lemmas on
      the MD5 model show the padding and the 32-bit rotation right.
    - MySQL: [insert] and [manyinsert] send the statements they mean to
      for plain keys, but values are misaligned across rows with other key
      orders and one-key dictionaries give invalid SQL.  Against the store
      of Sql: [insert] refines adding one row, [manyinsert] stores each
      row's values in its own key order under the columns of the first
      row, [delete] without a condition clears the table, and a one-key
      dictionary is rejected with a syntax error.
    - Deduplication: [==] is an equivalence on well-formed values (a
      partial equivalence [jeqw] on all values); [makeunique] equals a
      declarative reference and leaves no two equal elements.

    The sanitizers (with one to four media per tweet for
    [__removeallentites]), the instruction walk, the query builder, the
    MySQL helpers' text, [makeunique], the C3 linearization and [hashmd5]
    were also run against the Python code (or CPython itself) on generated
    inputs, errors included, and agreed with the model.  [mysql.connector],
    bs4, pyquery and lxml are not installed: the conversion of parameters
    and the library exception classes are modelled from their sources.

    ** Bounds and fuel

    Every loop of the code iterates over a list the model has in hand, and
    every recursive definition is structural, with these exceptions: the
    decimal printing [show_N] of Timestamp divides by ten once per step, and
    its fuel [S (N.size_nat n)] (one step per bit) is more than the number
    of decimal digits ([show_N_fuel]).  [int()] refuses more than 4300
    digits, as CPython's default limit does.  Integers of the code are
    unbounded Python [int]s ([Z]); no width is involved there.  MD5
    (Utility) works on 32-bit words: [add32] reduces modulo [2^32],
    [not32] is an exclusive or with [2^32 - 1] and [rotl32] masks what
    passes bit 31; the bit length is taken modulo [2^64].  Its block split
    [chunks] takes the length of the list as fuel, one step per element at
    least.  The C3 merge takes as fuel one more than the total length of
    its sequences, enough since each round removes an element
    ([merge_go_enough]); [mro] takes [MRO_FUEL] = 8, above the depth of
    the hierarchy, and every class of the program gets its MRO with it and
    with any larger fuel ([classes_created]).  Sql bounds nothing either:
    its parser is structural on the statement text.

    ** Not modelled

    The HTTP transport ([requests]) beyond the [Transport] and [Fetch]
    interfaces (the proxy, the timeout and the [**kwargs] of [trends] are
    passed through and not modelled), the MySQL server beyond the
    statements the helpers send and the errors they provoke,
    [json.loads] itself (its output is the input of the model), [Faker]'s
    user agents, [Utility.timezone] (a format given as argument and the
    pytz database of Asia/Jakarta, data of a library), and
    [Utility.current_funcname] (it reads the interpreter's stack frames;
    in [search] its value is the constant ["search"]); the Unicode NFKD
    table, a section variable of [UniqClear]; the parsing done by
    BeautifulSoup and pyquery, which are the classes [Bs4] and [PyQuery];
    JSON floats (no code path inspects a number beyond its truthiness);
    what [mysql.connector.connect] does beyond returning a connection or
    raising, and the float formatting of the printed timings.  Limits of
    the model: [Fetch] returns the decoded JSON, so a 200 answer whose body
    is not JSON and [resp.reason] are not modelled, and [search]'s
    [**kwargs] are dropped as the code drops them; the records
    [__processmedia] returns are copies, where Python's share the [core]
    and [legacy] objects of the page (it matters only if an item is
    processed twice); the dictionary keys [insert] reads are strings; the
    empty alternative of [%b] in CPython's [_strptime] regex is left out,
    which only changes which [ValueError] is raised; the classes the
    library interfaces raise are those of the table in Exceptions.v. *)

From Stdlib Require Import String Ascii List NArith ZArith Bool Lia.
Import ListNotations.

Declare Scope py_scope.
Delimit Scope py_scope with py.

(** ** Python text *)

(** A Python [str] is a sequence of code points. *)
Definition pystr := list N.

(** String literals of the source, all ASCII, as Python text. *)
Definition u (s : string) : pystr := map N_of_ascii (list_ascii_of_string s).

Fixpoint pystr_eqb (a b : pystr) : bool :=
  match a, b with
  | [], [] => true
  | x :: a', y :: b' => N.eqb x y && pystr_eqb a' b'
  | _, _ => false
  end.

Lemma pystr_eqb_spec a b : reflect (a = b) (pystr_eqb a b).
Proof.
  revert b; induction a as [|x a IH]; intros [|y b]; simpl; try (constructor; congruence).
  destruct (N.eqb_spec x y) as [->|Hne]; simpl.
  - destruct (IH b); constructor; congruence.
  - constructor; congruence.
Qed.

Lemma pystr_eqb_refl a : pystr_eqb a a = true.
Proof. destruct (pystr_eqb_spec a a); congruence. Qed.

Lemma pystr_eqb_eq a b : pystr_eqb a b = true <-> a = b.
Proof. destruct (pystr_eqb_spec a b); split; congruence. Qed.

(** [s in l] for a Python list of strings. *)
Definition mem (s : pystr) (l : list pystr) : bool := existsb (pystr_eqb s) l.

Lemma mem_In s l : mem s l = true <-> In s l.
Proof.
  unfold mem; rewrite existsb_exists; split.
  - intros (x & Hx & E); apply pystr_eqb_eq in E; subst; exact Hx.
  - intros H; exists s; split; [exact H | apply pystr_eqb_refl].
Qed.

(** ** Python exceptions raised by the code *)

Inductive exc : Type :=
| TypeError
| KeyError (k : pystr)
| IndexError
| UnicodeEncodeError
| ValueError
| AttributeError
| UnboundLocalError (var : pystr)
| HTTPErrorException (status : Z)
| CSRFTokenMissingError
| EmptyListError
| EmptyDictionaryError
| MySQLConnectorError (errno : Z) (str : pystr)
| DriverError (errno : Z) (str : pystr).
(** The two [mysql.connector.Error]s: [MySQLConnectorError] of
    src/MySQL/exception.py and the errors the driver itself raises
    ([ProgrammingError], [DatabaseError], ...), which are not subclasses of
    it.  Each carries [e.errno] ([errno or -1] in [Error.__init__]) and
    [str(e)]. *)

(** ** The exception monad *)

Inductive res (A : Type) : Type :=
| Ok (a : A)
| Err (e : exc).
Arguments Ok {A} a.
Arguments Err {A} e.

Definition bind {A B} (m : res A) (k : A -> res B) : res B :=
  match m with
  | Ok a => k a
  | Err e => Err e
  end.

Notation "x <- m ;; k" := (bind m (fun x => k))
  (at level 60, m at next level, right associativity) : py_scope.
Notation "' p <- m ;; k" := (bind m (fun x => match x with p => k end))
  (at level 60, p pattern, m at next level, right associativity) : py_scope.
Notation "'raise' e" := (Err e) (at level 10) : py_scope.

Open Scope py_scope.

Definition res_map {A B} (f : A -> B) (m : res A) : res B :=
  x <- m ;; Ok (f x).

(** [try: body except TypeError: pass], with [dflt] the state left when
    the handler runs. *)
Definition catch_type_error {A} (m : res A) (dflt : A) : res A :=
  match m with
  | Err TypeError => Ok dflt
  | r => r
  end.

Fixpoint mapM {A B} (f : A -> res B) (l : list A) : res (list B) :=
  match l with
  | [] => Ok []
  | x :: l' => y <- f x ;; ys <- mapM f l' ;; Ok (y :: ys)
  end.

(** A [for] loop over a list with a state threaded through its body. *)
Fixpoint foldM {A S} (f : S -> A -> res S) (l : list A) (s : S) : res S :=
  match l with
  | [] => Ok s
  | x :: l' => s' <- f s x ;; foldM f l' s'
  end.

(** A [for] loop that rewrites each element of a list in place while
    threading a state. *)
Fixpoint mapS {A B S} (f : S -> A -> res (B * S)) (l : list A) (s : S) : res (list B * S) :=
  match l with
  | [] => Ok ([], s)
  | x :: l' => '(y, s1) <- f s x ;; '(ys, s2) <- mapS f l' s1 ;; Ok (y :: ys, s2)
  end.

Lemma bind_Ok {A B} (a : A) (k : A -> res B) : bind (Ok a) k = k a.
Proof. reflexivity. Qed.

Lemma bind_Err {A B} e (k : A -> res B) : bind (Err e) k = Err e.
Proof. reflexivity. Qed.

Lemma bind_Ok_inv {A B} (m : res A) (k : A -> res B) b :
  bind m k = Ok b -> exists a, m = Ok a /\ k a = Ok b.
Proof. destruct m; simpl; [eauto | discriminate]. Qed.

Lemma foldM_app {A S} (f : S -> A -> res S) l1 l2 s :
  foldM f (l1 ++ l2) s = (s' <- foldM f l1 s ;; foldM f l2 s').
Proof.
  revert s; induction l1 as [|x l1 IH]; intros s; simpl; [reflexivity|].
  destruct (f s x); simpl; [apply IH | reflexivity].
Qed.

(** The invariant rule for [for] loops: a property of the state that every
    iteration keeps holds after the loop. *)
Lemma foldM_invariant {A S} (P : S -> Prop) (f : S -> A -> res S) l s s' :
  (forall s0 x s1, In x l -> P s0 -> f s0 x = Ok s1 -> P s1) ->
  P s -> foldM f l s = Ok s' -> P s'.
Proof.
  revert s; induction l as [|x l IH]; intros s Hstep Hs H; simpl in H.
  - congruence.
  - destruct (f s x) as [s1|] eqn:E; simpl in H; [|discriminate].
    apply (IH s1); eauto using in_cons.
    eapply Hstep; [left; reflexivity | exact Hs | exact E].
Qed.

(** The total form of the loop rule: if every iteration succeeds and keeps
    [P], the loop succeeds and ends in a state satisfying [P]. *)
Lemma foldM_total {A S} (P : S -> Prop) (f : S -> A -> res S) l s :
  (forall s0 x, In x l -> P s0 -> exists s1, f s0 x = Ok s1 /\ P s1) ->
  P s -> exists s', foldM f l s = Ok s' /\ P s'.
Proof.
  revert s; induction l as [|x l IH]; intros s Hstep Hs; [exists s; split; [reflexivity|exact Hs]|].
  destruct (Hstep s x (or_introl eq_refl) Hs) as [s1 [E H1]]; cbn [foldM]; rewrite E, bind_Ok.
  apply IH; [intros s0 y Hy; apply Hstep; right; exact Hy | exact H1].
Qed.

(** The same rule for a loop that also builds a list of results. *)
Lemma mapS_invariant {A B S} (P : S -> Prop) (f : S -> A -> res (B * S)) l s ys s' :
  (forall s0 x y s1, In x l -> P s0 -> f s0 x = Ok (y, s1) -> P s1) ->
  P s -> mapS f l s = Ok (ys, s') -> P s'.
Proof.
  revert s ys; induction l as [|x l IH]; intros s ys Hstep Hs H; simpl in H.
  - congruence.
  - destruct (f s x) as [[y s1]|] eqn:E; simpl in H; [|discriminate].
    destruct (mapS f l s1) as [[ys1 s2]|] eqn:E2; simpl in H; [|discriminate].
    injection H as _ <-; apply (IH s1 ys1); eauto using in_cons.
    eapply Hstep; [left; reflexivity | exact Hs | exact E].
Qed.

Lemma mapM_length {A B} (f : A -> res B) l l' :
  mapM f l = Ok l' -> length l' = length l.
Proof.
  revert l'; induction l as [|x l IH]; intros l' H; simpl in H.
  - injection H as <-; reflexivity.
  - destruct (f x); simpl in H; [|discriminate].
    destruct (mapM f l) eqn:E; simpl in H; [|discriminate].
    injection H as <-; simpl; f_equal; apply IH; reflexivity.
Qed.

(** What a successful [mapM] computed, element by element. *)
Lemma mapM_Forall2 {A B} (f : A -> res B) l l' :
  mapM f l = Ok l' -> Forall2 (fun x y => f x = Ok y) l l'.
Proof.
  revert l'; induction l as [|x l IH]; intros l' H; simpl in H.
  - injection H as <-; constructor.
  - destruct (f x) eqn:Ex; simpl in H; [|discriminate].
    destruct (mapM f l) eqn:E; simpl in H; [|discriminate].
    injection H as <-; constructor; [exact Ex | apply IH; reflexivity].
Qed.

Lemma Ok_inj {A} (a b : A) : Ok a = Ok b -> a = b.
Proof. congruence. Qed.

Create HintDb pyx discriminated.
Create Rewrite HintDb pyrw.
#[export] Hint Rewrite @bind_Ok @bind_Err pystr_eqb_refl : pyrw.
#[export] Hint Resolve pystr_eqb_refl : pyx.

(** Case analysis on the first [bind] or [match] that blocks a goal. *)
Ltac py_step :=
  match goal with
  | |- context [bind ?m _] =>
      lazymatch m with
      | Ok _ => rewrite bind_Ok
      | Err _ => rewrite bind_Err
      | _ => let E := fresh "E" in destruct m eqn:E
      end
  | |- context [if ?b then _ else _] => let E := fresh "E" in destruct b eqn:E
  end.

(** Splits a hypothesis [x <- m ;; k = Ok b] into [m = Ok x] and the rest. *)
Ltac bind_inv H :=
  lazymatch type of H with
  | bind _ _ = Ok _ =>
      let a := fresh "a" in let Ha := fresh "Ha" in
      apply bind_Ok_inv in H as [a [Ha H]]
  end.

(** [bind_inv] repeated, splitting the pairs a [' (x, y) <- m] binds. *)
Ltac binds_inv H :=
  repeat (first [ bind_inv H
                | lazymatch type of H with
                  | (let (_, _) := ?p in _) = Ok _ => destruct p
                  end ]; cbv beta iota in H).

Ltac py_crush := repeat (autorewrite with pyrw in *; simpl in *; try py_step); try congruence.

(** [lia] does not reason about [N] division: name [x / k] and [x mod k]
    and keep only the equation and the bound of the remainder. *)
Ltac divk x k :=
  let q := fresh "q" in let r := fresh "r" in
  pose proof (N.div_mod' x k); pose proof (N.mod_lt x k ltac:(lia));
  set (q := (x / k)%N) in *; set (r := (x mod k)%N) in *; clearbody q r.

(** ** CPython [str] operations *)

(** [str.isspace] on one code point: the Unicode white space of CPython's
    [_PyUnicode_IsWhitespace] table. *)
Definition py_isspace (c : N) : bool :=
  existsb (N.eqb c)
    [9; 10; 11; 12; 13; 28; 29; 30; 31; 32; 133; 160; 5760;
     8192; 8193; 8194; 8195; 8196; 8197; 8198; 8199; 8200; 8201; 8202;
     8232; 8233; 8239; 8287; 12288]%N.

Fixpoint drop_space (l : pystr) : pystr :=
  match l with
  | c :: l' => if py_isspace c then drop_space l' else l
  | [] => []
  end.

(** [s.rstrip()]: drop the trailing white space. *)
Definition str_rstrip (s : pystr) : pystr := rev (drop_space (rev s)).

(** [prefixb p s]: [s.startswith(p)]. *)
Fixpoint prefixb (p s : pystr) : bool :=
  match p, s with
  | [], _ => true
  | x :: p', y :: s' => N.eqb x y && prefixb p' s'
  | _ :: _, [] => false
  end.

(** [needle in hay] for two strings (the empty string is in every string). *)
Fixpoint contains_sub (needle hay : pystr) : bool :=
  prefixb needle hay ||
  match hay with
  | [] => false
  | _ :: hay' => contains_sub needle hay'
  end.

(** [s.replace(old, new)]: every non-overlapping occurrence of [old], from
    the left, is replaced; [skip] counts the characters of an occurrence
    still to drop.  An empty [old] inserts [new] before every character and
    at the end, as CPython does. *)
Fixpoint replace_go (old new s : pystr) (skip : nat) : pystr :=
  match s with
  | [] => []
  | c :: s' =>
      match skip with
      | S k => replace_go old new s' k
      | O => if prefixb old s
             then new ++ replace_go old new s' (pred (length old))
             else c :: replace_go old new s' O
      end
  end.

Definition str_replace (old new s : pystr) : pystr :=
  match old with
  | [] => new ++ flat_map (fun c => c :: new) s
  | _ :: _ => replace_go old new s O
  end.

Lemma prefixb_app p s : prefixb p (p ++ s) = true.
Proof. induction p as [|x p IH]; simpl; [reflexivity|]; rewrite N.eqb_refl; exact IH. Qed.

Lemma prefixb_true p s : prefixb p s = true -> s = p ++ skipn (length p) s.
Proof.
  revert s; induction p as [|x p IH]; intros [|y s] H; simpl in *; try discriminate; [reflexivity|reflexivity|].
  apply andb_true_iff in H as [Hx Hp]; apply N.eqb_eq in Hx; subst; f_equal; apply IH, Hp.
Qed.

#[export] Hint Rewrite prefixb_app : pyrw.

Lemma replace_go_skip old new x s :
  replace_go old new (x ++ s) (length x) = replace_go old new s O.
Proof. induction x as [|c x IH]; [reflexivity|exact IH]. Qed.

(** An occurrence of [old] at the front is replaced and skipped. *)
Lemma replace_go_occ o old new rest :
  replace_go (o :: old) new ((o :: old) ++ rest) O = new ++ replace_go (o :: old) new rest O.
Proof.
  pose proof (prefixb_app (o :: old) rest) as H; cbn [app replace_go] in *; rewrite H.
  cbn [length pred]; rewrite replace_go_skip; reflexivity.
Qed.

(** [old] cannot start inside [P ++ d :: _] when it contains a character
    [x] that [P] lacks and does not contain the barrier [d]. *)
Lemma prefixb_blocked old d x P s :
  ~ In d old -> In x old -> ~ In x P -> prefixb old (P ++ d :: s) = false.
Proof.
  revert P; induction old as [|o old IH]; intros P Hd Hx HP; [destruct Hx|].
  destruct P as [|p P]; cbn [app prefixb].
  - apply andb_false_iff; left; apply N.eqb_neq; intros ->; apply Hd; left; reflexivity.
  - destruct (N.eqb_spec o p) as [->|Hop]; [cbn [andb]|reflexivity].
    apply IH; [intros H; apply Hd; right; exact H | | intros H; apply HP; right; exact H].
    destruct Hx as [->|Hx]; [destruct HP; left; reflexivity | exact Hx].
Qed.

Lemma replace_go_blocked old new d x P s :
  ~ In d old -> In x old -> ~ In x P ->
  replace_go old new (P ++ d :: s) O = P ++ d :: replace_go old new s O.
Proof.
  intros Hd Hx; induction P as [|p P IH]; intros HP.
  - pose proof (prefixb_blocked old d x [] s Hd Hx HP) as H; cbn [app replace_go] in *; rewrite H; reflexivity.
  - pose proof (prefixb_blocked old d x (p :: P) s Hd Hx HP) as Hb; cbn [app replace_go] in *; rewrite Hb.
    f_equal; apply IH; intros H; apply HP; right; exact H.
Qed.

(** Replacing a string by itself changes nothing. *)
Lemma str_replace_self old s : str_replace old old s = s.
Proof.
  destruct old as [|o old]; cbn [str_replace app].
  - induction s as [|c s IH]; cbn; [reflexivity|f_equal; exact IH].
  - remember (length s) as n eqn:Hn; revert s Hn; induction n as [n IH] using lt_wf_ind; intros s Hn.
    destruct (prefixb (o :: old) s) eqn:E.
    + apply prefixb_true in E; set (r := skipn _ s) in E; clearbody r; subst s.
      rewrite replace_go_occ, (IH (length r)); [reflexivity | rewrite Hn, length_app; cbn; lia | reflexivity].
    + destruct s as [|c s]; [reflexivity|]; cbn [replace_go]; rewrite E; f_equal.
      apply (IH (length s)); [cbn in Hn; lia | reflexivity].
Qed.

(** What [replace] produces is made of the characters of [s] and [new]. *)
Lemma replace_go_Forall (P : N -> Prop) old new s k :
  Forall P new -> Forall P s -> Forall P (replace_go old new s k).
Proof.
  intros Hn Hs; revert k; induction Hs as [|c s Hc _ IH]; intros [|k]; cbn [replace_go]; auto.
  destruct (prefixb old (c :: s)); [apply Forall_app; auto | constructor; auto].
Qed.
