(* ===== verification/Json.v ===== *)
(** * Parsed JSON values and CPython's dictionary operations on them

    [json] is what [json.loads] returns; a dictionary is an association
    list in insertion order, as a Python [dict] iterates.  The operations
    are the subscripting, membership, [get], [update], [del], iteration and
    truthiness that xcrawl.py applies to response data, each raising the
    exception CPython raises on a value of the wrong type.  [generatekey]
    is [XCrawl.__generatekey] and [strip_keys] its use with [del] in a
    loop; [wfb] is the invariant that dictionaries have no duplicate key. *)

From Stdlib Require Import String List NArith ZArith Bool Lia.
From S2P Require Import Prelude.
Import ListNotations.
Open Scope py_scope.
#[local] Set Warnings "-register-all".

Inductive json : Type :=
| JNull
| JBool (b : bool)
| JNum (z : Z)
| JStr (s : pystr)
| JList (l : list json)
| JDict (d : list (pystr * json)).

Abbreviation dict := (list (pystr * json)).

(** Induction with hypotheses for the elements of lists and dictionaries. *)
Section JsonInd.
Variable P : json -> Prop.
Hypothesis HNull : P JNull.
Hypothesis HBool : forall b, P (JBool b).
Hypothesis HNum : forall z, P (JNum z).
Hypothesis HStr : forall s, P (JStr s).
Hypothesis HList : forall l, Forall P l -> P (JList l).
Hypothesis HDict : forall d, Forall (fun kv => P (snd kv)) d -> P (JDict d).

Fixpoint json_ind' (j : json) : P j :=
  match j with
  | JNull => HNull
  | JBool b => HBool b
  | JNum z => HNum z
  | JStr s => HStr s
  | JList l =>
      HList l ((fix go (l : list json) : Forall P l :=
                  match l with
                  | [] => Forall_nil _
                  | x :: l' => Forall_cons _ (json_ind' x) (go l')
                  end) l)
  | JDict d =>
      HDict d ((fix go (d : dict) : Forall (fun kv => P (snd kv)) d :=
                  match d with
                  | [] => Forall_nil _
                  | kv :: d' => Forall_cons _ (json_ind' (snd kv)) (go d')
                  end) d)
  end.
End JsonInd.

(** ** Association-list primitives of a [dict] *)

Fixpoint dlookup (k : pystr) (d : dict) : option json :=
  match d with
  | [] => None
  | (k', v) :: d' => if pystr_eqb k k' then Some v else dlookup k d'
  end.

(** [d[k] = v]: an existing key keeps its place, a new one goes last. *)
Fixpoint dset (k : pystr) (v : json) (d : dict) : dict :=
  match d with
  | [] => [(k, v)]
  | (k', v') :: d' => if pystr_eqb k k' then (k', v) :: d' else (k', v') :: dset k v d'
  end.

Fixpoint ddel (k : pystr) (d : dict) : dict :=
  match d with
  | [] => []
  | (k', v') :: d' => if pystr_eqb k k' then d' else (k', v') :: ddel k d'
  end.

Definition dkeys (d : dict) : list pystr := map fst d.

(** ** The operations of the code on values *)

(** [j[k]] with a string key. *)
Definition getitem (j : json) (k : pystr) : res json :=
  match j with
  | JDict d => match dlookup k d with
               | Some v => Ok v
               | None => raise (KeyError k)
               end
  | _ => raise TypeError
  end.

(** The position [j[i]] designates in a sequence of length [n], negative
    indices counting from the end. *)
Definition norm_index (n : nat) (i : Z) : option nat :=
  let n' := Z.of_nat n in
  let i' := if (i <? 0)%Z then (n' + i)%Z else i in
  if ((0 <=? i') && (i' <? n'))%Z then Some (Z.to_nat i') else None.

Definition index_z {A} (l : list A) (i : Z) : res A :=
  match norm_index (length l) i with
  | Some k => match nth_error l k with Some x => Ok x | None => raise IndexError end
  | None => raise IndexError
  end.

(** [l[i] = v] on a list. *)
Definition set_index_z {A} (l : list A) (i : Z) (v : A) : res (list A) :=
  match norm_index (length l) i with
  | Some k => Ok (firstn k l ++ v :: skipn (S k) l)
  | None => raise IndexError
  end.

(** The integer a key equals, if any: a bool is an integer in Python. *)
Definition key_int (key : json) : option Z :=
  match key with
  | JNum z => Some z
  | JBool b => Some (if b then 1%Z else 0%Z)
  | _ => None
  end.

(** [j[key]] with a key taken from the data itself.  A bool indexes as the
    integer it equals; a key that is not a string is absent from every
    dictionary of a response ([KeyError], shown as [KeyError []]) or, if it
    is a list or a dictionary, unhashable ([TypeError]). *)
Definition getitem_any (j : json) (key : json) : res json :=
  let as_int := key_int key in
  match key, j with
  | JStr k, _ => getitem j k
  | (JList _ | JDict _), JDict _ => raise TypeError
  | _, JDict _ => raise (KeyError [])
  | _, JList l => match as_int with Some z => index_z l z | None => raise TypeError end
  | _, JStr s => match as_int with
                 | Some z => c <- index_z s z ;; Ok (JStr [c])
                 | None => raise TypeError
                 end
  | _, _ => raise TypeError
  end.

(** [k in j] with a string [k]: a key of a dict, an element of a list, a
    substring of a string. *)
Definition contains (k : pystr) (j : json) : res bool :=
  match j with
  | JDict d => Ok (mem k (dkeys d))
  | JList l => Ok (existsb (fun x => match x with JStr s => pystr_eqb k s | _ => false end) l)
  | JStr s => Ok (contains_sub k s)
  | _ => raise TypeError
  end.

(** [j.get(k, dflt)]. *)
Definition get (j : json) (k : pystr) (dflt : json) : res json :=
  match j with
  | JDict d => Ok (match dlookup k d with Some v => v | None => dflt end)
  | _ => raise AttributeError
  end.

(** [j.update({k: v})]. *)
Definition update (j : json) (k : pystr) (v : json) : res json :=
  match j with
  | JDict d => Ok (JDict (dset k v d))
  | _ => raise AttributeError
  end.

(** [j[k1][k2]...] and its in-place assignment. *)
Fixpoint get_path (j : json) (p : list pystr) : res json :=
  match p with
  | [] => Ok j
  | k :: p' => v <- getitem j k ;; get_path v p'
  end.

Fixpoint set_path (j : json) (p : list pystr) (v : json) : res json :=
  match p with
  | [] => Ok v
  | k :: p' => c <- getitem j k ;; c' <- set_path c p' v ;; update j k c'
  end.

(** [del j[k]] with a string key. *)
Definition delitem (j : json) (k : pystr) : res json :=
  match j with
  | JDict d => if mem k (dkeys d) then Ok (JDict (ddel k d)) else raise (KeyError k)
  | _ => raise TypeError
  end.

(** [for x in j]. *)
Definition py_iter (j : json) : res (list json) :=
  match j with
  | JDict d => Ok (map (fun kv => JStr (fst kv)) d)
  | JList l => Ok l
  | JStr s => Ok (map (fun c => JStr [c]) s)
  | _ => raise TypeError
  end.

(** [j.items()]. *)
Definition items (j : json) : res dict :=
  match j with
  | JDict d => Ok d
  | _ => raise AttributeError
  end.

(** [bool(j)]. *)
Definition truthy (j : json) : bool :=
  match j with
  | JNull => false
  | JBool b => b
  | JNum z => negb (Z.eqb z 0)
  | JStr s => negb (pystr_eqb s [])
  | JList l => match l with [] => false | _ => true end
  | JDict d => match d with [] => false | _ => true end
  end.

(** [j == s] for a string literal [s]. *)
Definition eq_str (j : json) (s : pystr) : bool :=
  match j with
  | JStr t => pystr_eqb t s
  | _ => false
  end.

(** [XCrawl.__generatekey]: [[key for key in datas if key in keys]].  Only
    a string equals a string of [keys], so the result is a list of
    strings. *)
Definition generatekey (datas : json) (keys : list pystr) : res (list pystr) :=
  l <- py_iter datas ;;
  Ok (flat_map (fun x => match x with
                         | JStr s => if mem s keys then [s] else []
                         | _ => []
                         end) l).

(** [for key in generatekey(datas=j, keys=keys): del j[key]]. *)
Definition strip_keys (keys : list pystr) (j : json) : res json :=
  ks <- generatekey j keys ;;
  foldM delitem ks j.

(** The declarative reading of [strip_keys] on a dictionary. *)
Definition dict_filter (keys : list pystr) (d : dict) : dict :=
  filter (fun kv => negb (mem (fst kv) keys)) d.

(** ** Well-formedness: no dictionary has a duplicate key *)

Fixpoint nodupb (l : list pystr) : bool :=
  match l with
  | [] => true
  | x :: l' => negb (mem x l') && nodupb l'
  end.

Fixpoint wfb (j : json) : bool :=
  match j with
  | JList l => forallb wfb l
  | JDict d => nodupb (dkeys d) && forallb (fun kv => wfb (snd kv)) d
  | _ => true
  end.

(** [del d[k]] as a step on the dictionary itself. *)
Definition ddel_res (d : dict) (k : pystr) : res dict :=
  if mem k (dkeys d) then Ok (ddel k d) else raise (KeyError k).

(** ** Lemmas on the primitives *)

Lemma mem_dkeys_dlookup k d :
  mem k (dkeys d) = true <-> exists v, dlookup k d = Some v.
Proof.
  induction d as [|[k' v'] d IH]; simpl; [split; [discriminate | intros [? ?]; discriminate]|].
  unfold mem in *; simpl; destruct (pystr_eqb_spec k k') as [->|Hne]; simpl; [split; eauto|exact IH].
Qed.

Lemma dlookup_dset_eq k v d : dlookup k (dset k v d) = Some v.
Proof.
  induction d as [|[k' v'] d IH]; simpl; [rewrite pystr_eqb_refl; reflexivity|].
  destruct (pystr_eqb_spec k k') as [->|Hne]; simpl; [rewrite pystr_eqb_refl; reflexivity|].
  destruct (pystr_eqb_spec k k'); [congruence|exact IH].
Qed.

Lemma dlookup_dset_ne k k' v d : k <> k' -> dlookup k' (dset k v d) = dlookup k' d.
Proof.
  intros Hne; induction d as [|[k0 v0] d IH]; simpl.
  - destruct (pystr_eqb_spec k' k); congruence.
  - destruct (pystr_eqb_spec k k0) as [->|]; simpl; [|rewrite IH; reflexivity].
    destruct (pystr_eqb_spec k' k0); congruence.
Qed.

(** An update of a present key keeps the key order. *)
Lemma dkeys_dset_present k v d :
  mem k (dkeys d) = true -> dkeys (dset k v d) = dkeys d.
Proof.
  induction d as [|[k' v'] d IH]; simpl; [discriminate|].
  unfold mem; simpl; destruct (pystr_eqb_spec k k') as [->|]; simpl; [reflexivity|].
  intros H; f_equal; apply IH, H.
Qed.

Lemma dlookup_filter keys k d :
  dlookup k (dict_filter keys d) = if mem k keys then None else dlookup k d.
Proof.
  induction d as [|[k' v'] d IH]; simpl; [destruct (mem k keys); reflexivity|].
  destruct (mem k' keys) eqn:Hk'; simpl; rewrite IH;
    destruct (pystr_eqb_spec k k') as [->|]; rewrite ?Hk'; reflexivity.
Qed.

Lemma nodupb_NoDup l : nodupb l = true <-> NoDup l.
Proof.
  induction l as [|x l IH]; simpl; [split; constructor|].
  rewrite andb_true_iff, negb_true_iff, IH; split.
  - intros [Hm Hn]; constructor; [|exact Hn].
    intros Hin; apply mem_In in Hin; congruence.
  - intros Hn; inversion Hn as [|? ? Hnin Hn']; subst; split; [|exact Hn'].
    destruct (mem x l) eqn:E; [apply mem_In in E; contradiction | reflexivity].
Qed.

Lemma foldM_delitem ks d :
  foldM delitem ks (JDict d) = res_map JDict (foldM ddel_res ks d).
Proof.
  revert d; induction ks as [|k ks IH]; intros d; simpl; [reflexivity|].
  unfold ddel_res; destruct (mem k (dkeys d)); simpl; [apply IH | reflexivity].
Qed.

Lemma foldM_ddel_cons ks k v d :
  ~ In k ks -> foldM ddel_res ks ((k, v) :: d) = res_map (cons (k, v)) (foldM ddel_res ks d).
Proof.
  revert d; induction ks as [|k' ks IH]; intros d Hnin; simpl; [reflexivity|].
  unfold ddel_res at 1 3; unfold mem; simpl.
  destruct (pystr_eqb_spec k' k) as [->|Hne]; [exfalso; apply Hnin; left; reflexivity|]; simpl.
  fold (mem k' (dkeys d)); destruct (mem k' (dkeys d)); simpl; [|reflexivity].
  apply IH; intros Hin; apply Hnin; right; exact Hin.
Qed.

Lemma generatekey_dict d keys :
  generatekey (JDict d) keys = Ok (filter (fun k => mem k keys) (dkeys d)).
Proof.
  unfold generatekey; simpl; f_equal.
  induction d as [|[k v] d IH]; simpl; [reflexivity|].
  destruct (mem k keys); simpl; rewrite IH; reflexivity.
Qed.

(** The delete loop is the filter, also when a key occurs twice: every
    occurrence is listed and each [del] removes the first one left. *)
Lemma strip_keys_dict keys d :
  strip_keys keys (JDict d) = Ok (JDict (dict_filter keys d)).
Proof.
  unfold strip_keys; rewrite generatekey_dict, bind_Ok, foldM_delitem.
  induction d as [|[k v] d IH]; simpl; [reflexivity|].
  destruct (mem k keys) eqn:Hk; simpl.
  - unfold ddel_res; simpl; unfold mem at 1; simpl; rewrite !pystr_eqb_refl; simpl.
    exact IH.
  - rewrite foldM_ddel_cons.
    + unfold res_map in *; destruct (foldM ddel_res _ d); simpl in *; congruence.
    + intros Hin; apply filter_In in Hin; destruct Hin as [_ Hin]; congruence.
Qed.

Lemma dkeys_filter keys d :
  dkeys (dict_filter keys d) = filter (fun k => negb (mem k keys)) (dkeys d).
Proof.
  induction d as [|[k v] d IH]; simpl; [reflexivity|].
  destruct (mem k keys); simpl; rewrite IH; reflexivity.
Qed.

Lemma NoDup_dict_filter keys d : NoDup (dkeys d) -> NoDup (dkeys (dict_filter keys d)).
Proof. rewrite dkeys_filter; apply NoDup_filter. Qed.

Lemma dict_filter_idem keys d : dict_filter keys (dict_filter keys d) = dict_filter keys d.
Proof.
  induction d as [|[k v] d IH]; simpl; [reflexivity|].
  destruct (mem k keys) eqn:Hk; simpl; rewrite ?Hk; simpl; rewrite ?IH; reflexivity.
Qed.

Lemma dict_filter_absent keys d k : In k keys -> dlookup k (dict_filter keys d) = None.
Proof. intros Hk; rewrite dlookup_filter; apply mem_In in Hk; rewrite Hk; reflexivity. Qed.

#[export] Hint Rewrite generatekey_dict foldM_delitem dlookup_dset_eq dict_filter_idem : pyrw.
#[export] Hint Resolve NoDup_dict_filter : pyx.

Lemma dkeys_dset k v d :
  dkeys (dset k v d) = if mem k (dkeys d) then dkeys d else dkeys d ++ [k].
Proof.
  induction d as [|[k' v'] d IH]; simpl; [reflexivity|].
  unfold mem in *; simpl; destruct (pystr_eqb_spec k k') as [->|Hne]; simpl; [reflexivity|].
  rewrite IH; destruct (existsb (pystr_eqb k) (dkeys d)); reflexivity.
Qed.

(** [d[k] = v] keeps a dictionary free of duplicate keys. *)
Lemma NoDup_dset k v d : NoDup (dkeys d) -> NoDup (dkeys (dset k v d)).
Proof.
  intros Hnd; rewrite dkeys_dset; destruct (mem k (dkeys d)) eqn:Hk; [exact Hnd|].
  apply NoDup_app; [exact Hnd | constructor; [intros []|constructor] |].
  intros x Hx [<-|[]]; apply mem_In in Hx; congruence.
Qed.

Lemma pystr_neq a b : pystr_eqb a b = false -> a <> b.
Proof. intros H ->; rewrite pystr_eqb_refl in H; discriminate. Qed.

(** Two distinct string literals. *)
Ltac str_neq := apply pystr_neq; vm_compute; reflexivity.

#[export] Hint Resolve NoDup_dset : pyx.

(** ** Reading after writing *)

Lemma update_dict j k v j' : update j k v = Ok j' -> exists d, j = JDict d /\ j' = JDict (dset k v d).
Proof. destruct j; cbn [update]; intros H; try discriminate; injection H as <-; eauto. Qed.

Lemma getitem_update_eq j k v j' : update j k v = Ok j' -> getitem j' k = Ok v.
Proof. intros H; apply update_dict in H as (d & -> & ->); cbn [getitem]; rewrite dlookup_dset_eq; reflexivity. Qed.

Lemma getitem_update_ne j k k' v j' : update j k v = Ok j' -> k <> k' -> getitem j' k' = getitem j k'.
Proof. intros H Hk; apply update_dict in H as (d & -> & ->); cbn [getitem]; rewrite dlookup_dset_ne by exact Hk; reflexivity. Qed.

Lemma items_dict j d : items j = Ok d -> j = JDict d.
Proof. destruct j; cbn [items]; intros H; try discriminate; injection H as ->; reflexivity. Qed.

Lemma mem_dset k v d : mem k (dkeys (dset k v d)) = true.
Proof. apply mem_dkeys_dlookup; exists v; apply dlookup_dset_eq. Qed.

(** Writing at the end of a path rewrites the first key of the path in
    the outer dictionary, through [update]. *)
Lemma set_path_cons j k p v j' :
  set_path j (k :: p) v = Ok j' ->
  exists d c c', j = JDict d /\ dlookup k d = Some c /\ set_path c p v = Ok c' /\ j' = JDict (dset k c' d).
Proof.
  cbn [set_path]; intros H; apply bind_Ok_inv in H as [c [Hc H]]; apply bind_Ok_inv in H as [c' [Hc' H]].
  apply update_dict in H as (d & -> & ->); cbn [getitem] in Hc.
  destruct (dlookup k d) eqn:E; [injection Hc as ->|discriminate]; eauto 7.
Qed.

Lemma strip_keys_to_dict keys j kvs :
  strip_keys keys j = Ok (JDict kvs) -> exists d, j = JDict d /\ kvs = dict_filter keys d.
Proof.
  destruct j as [| | | | l |d]; intros H.
  4-5: unfold strip_keys in H; apply bind_Ok_inv in H as [ks [_ H]];
       destruct ks; [discriminate | cbn [foldM delitem] in H; discriminate].
  1-3: discriminate.
  rewrite strip_keys_dict in H; injection H as <-; eauto.
Qed.

(** ** Properties *)

(** the code's loop [for key in generatekey(d, keys): del d[key]] on a
    dictionary leaves exactly the entries whose key is not in [keys], in
    their order. *)
Theorem strip_keys_is_filter keys d :
  strip_keys keys (JDict d) = Ok (JDict (dict_filter keys d)).
Proof. exact (strip_keys_dict keys d). Qed.

(** removing the noise keys a second time changes nothing. *)
Theorem strip_keys_idempotent keys d :
  bind (strip_keys keys (JDict d)) (strip_keys keys) = strip_keys keys (JDict d).
Proof.
  rewrite !strip_keys_dict, bind_Ok, strip_keys_dict, dict_filter_idem; reflexivity.
Qed.
