(* ===== verification/Timestamp.v ===== *)
(** * The timestamp canonicalization of xcrawl.py

    Lines 450-453, 547-550, 626-630 and 920-924 of xcrawl.py all do
    [datetime.strptime(v, "%a %b %d %H:%M:%S +0000 %Y").strftime("%Y-%m-%dT%H:%M:%S")].
    CPython's [_strptime] compiles the format to a regular expression, takes
    the first match that backtracking finds from the start of the text,
    raises [ValueError] if characters are left, converts the groups, and
    [datetime] checks the ranges.  A regular expression is modelled as a
    parser returning the list of its matches in backtracking order, so the
    first element of the list is the match [re.match] returns. *)

From Stdlib Require Import String List NArith ZArith Bool Lia.
From S2P Require Import Prelude.
Import ListNotations.
Open Scope py_scope.
Open Scope N_scope.

(** ** Parsers with backtracking order *)

Definition parser (A : Type) := pystr -> list (A * pystr).

Definition p_ret {A} (a : A) : parser A := fun s => [(a, s)].

Definition p_bind {A B} (p : parser A) (f : A -> parser B) : parser B :=
  fun s => flat_map (fun r => f (fst r) (snd r)) (p s).

(** [p|q]: the matches of [p] are tried first. *)
Definition p_alt {A} (p q : parser A) : parser A := fun s => p s ++ q s.

Definition p_sat (f : N -> bool) : parser N :=
  fun s => match s with
           | c :: s' => if f c then [(c, s')] else []
           | [] => []
           end.

Definition in_range (lo hi c : N) : bool := (lo <=? c) && (c <=? hi).

(** The character class [[lo-hi]] of ASCII digits, with its value. *)
Definition p_class (lo hi : N) : parser N :=
  p_bind (p_sat (in_range (48 + lo) (48 + hi))) (fun c => p_ret (c - 48)).

Definition p_lit (c : N) : parser N := p_sat (N.eqb c).

(** The first code point of each block of ten Unicode decimal digits
    (category Nd), which [\d] matches and [int] converts. *)
Definition nd_starts : list N :=
  [0x30; 0x660; 0x6f0; 0x7c0; 0x966; 0x9e6; 0xa66; 0xae6; 0xb66; 0xbe6; 0xc66;
   0xce6; 0xd66; 0xde6; 0xe50; 0xed0; 0xf20; 0x1040; 0x1090; 0x17e0; 0x1810;
   0x1946; 0x19d0; 0x1a80; 0x1a90; 0x1b50; 0x1bb0; 0x1c40; 0x1c50; 0xa620;
   0xa8d0; 0xa900; 0xa9d0; 0xa9f0; 0xaa50; 0xabf0; 0xff10; 0x104a0; 0x10d30;
   0x11066; 0x110f0; 0x11136; 0x111d0; 0x112f0; 0x11450; 0x114d0; 0x11650;
   0x116c0; 0x11730; 0x118e0; 0x11950; 0x11c50; 0x11d50; 0x11da0; 0x16a60;
   0x16ac0; 0x16b50; 0x1d7ce; 0x1d7d8; 0x1d7e2; 0x1d7ec; 0x1d7f6; 0x1e140;
   0x1e2f0; 0x1e950; 0x1fbf0].

Fixpoint digit_in (starts : list N) (c : N) : option N :=
  match starts with
  | [] => None
  | b :: starts' => if in_range b (b + 9) c then Some (c - b) else digit_in starts' c
  end.

Definition digit_value (c : N) : option N := digit_in nd_starts c.

(** [\d]. *)
Definition p_digit : parser N :=
  fun s => match s with
           | c :: s' => match digit_value c with Some v => [(v, s')] | None => [] end
           | [] => []
           end.

(** [\s+], greedy: the longest run first. *)
Fixpoint space_run (s : pystr) : nat :=
  match s with
  | c :: s' => if py_isspace c then S (space_run s') else O
  | [] => O
  end.

Definition p_spaces : parser unit :=
  fun s => map (fun k => (tt, skipn k s)) (rev (seq 1 (space_run s))).

(** Two-digit groups: [ab] is the number [10a+b], as [int] reads it. *)
Definition p_two (p q : parser N) : parser N :=
  p_bind p (fun a => p_bind q (fun b => p_ret (10 * a + b))).

(** [%d]: [3[0-1]|[1-2]\d|0[1-9]|[1-9]| [1-9]]. *)
Definition p_day : parser N :=
  p_alt (p_two (p_class 3 3) (p_class 0 1))
 (p_alt (p_two (p_class 1 2) p_digit)
 (p_alt (p_two (p_class 0 0) (p_class 1 9))
 (p_alt (p_class 1 9)
        (p_bind (p_lit 32) (fun _ => p_class 1 9))))).

(** [%H]: [2[0-3]|[0-1]\d|\d]. *)
Definition p_hour : parser N :=
  p_alt (p_two (p_class 2 2) (p_class 0 3))
 (p_alt (p_two (p_class 0 1) p_digit) p_digit).

(** [%M]: [[0-5]\d|\d]. *)
Definition p_minute : parser N :=
  p_alt (p_two (p_class 0 5) p_digit) p_digit.

(** [%S]: [6[0-1]|[0-5]\d|\d]. *)
Definition p_second : parser N :=
  p_alt (p_two (p_class 6 6) (p_class 0 1))
 (p_alt (p_two (p_class 0 5) p_digit) p_digit).

(** [%Y]: [\d\d\d\d]. *)
Definition p_year : parser N :=
  p_bind (p_two p_digit p_digit) (fun hi => p_bind (p_two p_digit p_digit)
    (fun lo => p_ret (100 * hi + lo))).

(** A character of the pattern under [re.IGNORECASE]: the character
    itself, the upper case of a lower-case ASCII letter, and the non-ASCII
    code points CPython's case-insensitive matching identifies with [i],
    [k] and [s]. *)
Definition ci_char (l c : N) : bool :=
  N.eqb c l || (in_range 97 122 l && N.eqb c (l - 32)) ||
  (N.eqb l 105 && (N.eqb c 0x130 || N.eqb c 0x131)) ||
  (N.eqb l 107 && N.eqb c 0x212a) ||
  (N.eqb l 115 && N.eqb c 0x17f).

Fixpoint p_word (w : pystr) : parser pystr :=
  match w with
  | [] => p_ret []
  | l :: w' => p_bind (p_sat (ci_char l)) (fun c => p_bind (p_word w') (fun t => p_ret (c :: t)))
  end.

Fixpoint p_names (ws : list pystr) : parser pystr :=
  match ws with
  | [] => fun _ => []
  | w :: ws' => p_alt (p_word w) (p_names ws')
  end.

Definition weekdays : list pystr := map u ["mon"; "tue"; "wed"; "thu"; "fri"; "sat"; "sun"]%string.
Definition months : list pystr :=
  map u ["jan"; "feb"; "mar"; "apr"; "may"; "jun"; "jul"; "aug"; "sep"; "oct"; "nov"; "dec"]%string.

(** The groups of a match of the format. *)
Record groups := { g_a : pystr; g_b : pystr; g_d : N; g_H : N; g_M : N; g_S : N; g_Y : N }.

(** The regular expression of ["%a %b %d %H:%M:%S +0000 %Y"]: every space of
    the format became [\s+] and [+] was escaped. *)
Definition p_format : parser groups :=
  p_bind (p_names weekdays) (fun a => p_bind p_spaces (fun _ =>
  p_bind (p_names months) (fun b => p_bind p_spaces (fun _ =>
  p_bind p_day (fun d => p_bind p_spaces (fun _ =>
  p_bind p_hour (fun hh => p_bind (p_lit 58) (fun _ =>
  p_bind p_minute (fun mm => p_bind (p_lit 58) (fun _ =>
  p_bind p_second (fun ss => p_bind p_spaces (fun _ =>
  p_bind (p_word (u "+0000")) (fun _ => p_bind p_spaces (fun _ =>
  p_bind p_year (fun y =>
  p_ret {| g_a := a; g_b := b; g_d := d; g_H := hh; g_M := mm; g_S := ss; g_Y := y |}))))))))))))))).

(** ** Conversion and range checks *)

(** [str.lower] on the code points [p_names] can match. *)
Definition lower1 (c : N) : pystr :=
  if in_range 65 90 c then [c + 32]
  else if N.eqb c 0x130 then [105; 0x307]
  else if N.eqb c 0x212a then [107]
  else [c].

Definition py_lower (s : pystr) : pystr := flat_map lower1 s.

(** [list.index]: the position of [x], or [ValueError]. *)
Fixpoint index_of (x : pystr) (l : list pystr) (i : N) : res N :=
  match l with
  | [] => raise ValueError
  | y :: l' => if pystr_eqb x y then Ok i else index_of x l' (i + 1)
  end.

Definition is_leap (y : N) : bool :=
  (N.eqb (y mod 4) 0 && negb (N.eqb (y mod 100) 0)) || N.eqb (y mod 400) 0.

Definition days_in_month (y m : N) : N :=
  match m with
  | 2 => if is_leap y then 29 else 28
  | 4 | 6 | 9 | 11 => 30
  | _ => 31
  end.

Record datetime := { year : N; month : N; day : N; hour : N; minute : N; second : N }.

(** The checks of [datetime.date] and [datetime.datetime]. *)
Definition valid_datetime (t : datetime) : bool :=
  in_range 1 9999 (year t) && in_range 1 12 (month t) &&
  in_range 1 (days_in_month (year t) (month t)) (day t) &&
  (hour t <=? 23) && (minute t <=? 59) && (second t <=? 59).

(** [datetime.strptime(s, "%a %b %d %H:%M:%S +0000 %Y")]. *)
Definition strptime_x (s : pystr) : res datetime :=
  match p_format s with
  | [] => raise ValueError
  | (g, rest) :: _ =>
      match rest with
      | _ :: _ => raise ValueError
      | [] =>
          m <- index_of (py_lower (g_b g)) months 1 ;;
          _ <- index_of (py_lower (g_a g)) weekdays 0 ;;
          let t := {| year := g_Y g; month := m; day := g_d g;
                      hour := g_H g; minute := g_M g; second := g_S g |} in
          if valid_datetime t then Ok t else raise ValueError
      end
  end.

(** ** [strftime("%Y-%m-%dT%H:%M:%S")] *)

(** Decimal digits of a number, most significant first ([str(n)]); each
    step divides by ten, so one step per bit of [n] is enough fuel. *)
Fixpoint digits_go (fuel : nat) (n : N) (acc : pystr) : pystr :=
  match fuel with
  | O => acc
  | S f => if n <? 10 then (48 + n) :: acc else digits_go f (n / 10) ((48 + n mod 10) :: acc)
  end.

Definition show_N (n : N) : pystr := digits_go (S (N.size_nat n)) n [].

(** A two-digit field, zero-padded. *)
Definition pad2 (n : N) : pystr := [48 + n / 10; 48 + n mod 10].

(** glibc prints [%Y] without padding. *)
Definition strftime_iso (t : datetime) : pystr :=
  show_N (year t) ++ [45] ++ pad2 (month t) ++ [45] ++ pad2 (day t) ++ [84] ++
  pad2 (hour t) ++ [58] ++ pad2 (minute t) ++ [58] ++ pad2 (second t).

(** The whole conversion of a [created_at] value. *)
Definition canonical_created_at (s : pystr) : res pystr :=
  t <- strptime_x s ;; Ok (strftime_iso t).

(** ** The first match of a parser *)

(** [heads p s a s']: the first match of [p] on [s] yields [a] and leaves
    [s']. *)
Definition heads {A} (p : parser A) (s : pystr) (a : A) (s' : pystr) : Prop :=
  exists l, p s = (a, s') :: l.

(** ** Timestamps as X renders them *)

Definition x_weekday (wd : nat) : pystr :=
  u (nth wd ["Mon"; "Tue"; "Wed"; "Thu"; "Fri"; "Sat"; "Sun"] EmptyString)%string.

Definition x_month (m : N) : pystr :=
  u (nth (N.to_nat m - 1) ["Jan"; "Feb"; "Mar"; "Apr"; "May"; "Jun";
                            "Jul"; "Aug"; "Sep"; "Oct"; "Nov"; "Dec"] EmptyString)%string.

Definition pad4 (y : N) : pystr := pad2 (y / 100) ++ pad2 (y mod 100).

(** ["Wed Oct 10 20:19:24 +0000 2018"]. *)
Definition render_x (wd : nat) (t : datetime) : pystr :=
  x_weekday wd ++ 32 :: x_month (month t) ++ 32 :: pad2 (day t) ++ 32 ::
  pad2 (hour t) ++ 58 :: pad2 (minute t) ++ 58 :: pad2 (second t) ++ 32 ::
  u "+0000" ++ 32 :: pad4 (year t).

(** What the regular expression accepts in each field of [render_x]. *)
Definition x_shape (wd : nat) (t : datetime) : Prop :=
  (wd < 7)%nat /\ 1 <= month t <= 12 /\ 1 <= day t <= 31 /\ hour t <= 23 /\
  minute t <= 59 /\ second t <= 61 /\ year t <= 9999.

Definition sample_time : datetime :=
  {| year := 2018; month := 10; day := 10; hour := 20; minute := 19; second := 24 |}.

Lemma heads_ret {A} (a : A) s : heads (p_ret a) s a s.
Proof. exists []; reflexivity. Qed.

Lemma heads_bind {A B} (p : parser A) (f : A -> parser B) s a s1 b s2 :
  heads p s a s1 -> heads (f a) s1 b s2 -> heads (p_bind p f) s b s2.
Proof.
  intros [l1 H1] [l2 H2]; unfold heads, p_bind; cbv beta; rewrite H1; simpl; rewrite H2.
  eexists; reflexivity.
Qed.

Lemma heads_alt_l {A} (p q : parser A) s a s' : heads p s a s' -> heads (p_alt p q) s a s'.
Proof. intros [l H]; exists (l ++ q s); unfold p_alt; cbv beta; unfold heads in H; rewrite H; reflexivity. Qed.

Lemma heads_alt_r {A} (p q : parser A) s a s' : p s = [] -> heads q s a s' -> heads (p_alt p q) s a s'.
Proof. intros H0 [l H]; exists l; unfold p_alt; cbv beta; unfold heads in H; rewrite H0, H; reflexivity. Qed.

Lemma p_bind_nil {A B} (p : parser A) (f : A -> parser B) s : p s = [] -> p_bind p f s = [].
Proof. intros H; unfold p_bind; rewrite H; reflexivity. Qed.

Lemma in_range_iff lo hi c : in_range lo hi c = true <-> lo <= c <= hi.
Proof. unfold in_range; rewrite andb_true_iff, !N.leb_le; tauto. Qed.

Lemma p_class_in lo hi o s : lo <= o <= hi -> p_class lo hi ((48 + o) :: s) = [(o, s)].
Proof.
  intros H; unfold p_class, p_bind, p_sat; cbv beta iota.
  replace (in_range (48 + lo) (48 + hi) (48 + o)) with true by (symmetry; apply in_range_iff; lia).
  cbn [flat_map fst snd]; unfold p_ret; rewrite app_nil_r; do 2 f_equal; lia.
Qed.

Lemma p_class_out lo hi o s : o < lo \/ hi < o -> p_class lo hi ((48 + o) :: s) = [].
Proof.
  intros H; unfold p_class, p_bind, p_sat; cbv beta iota.
  destruct (in_range (48 + lo) (48 + hi) (48 + o)) eqn:E; [apply in_range_iff in E; lia | reflexivity].
Qed.

Lemma digit_value_ascii o : o < 10 -> digit_value (48 + o) = Some o.
Proof.
  intros H; unfold digit_value, nd_starts, digit_in.
  destruct (in_range _ _ (48 + o)) eqn:E; [f_equal; lia|].
  exfalso; assert (in_range 48 (48 + 9) (48 + o) = true) by (apply in_range_iff; lia); congruence.
Qed.

Lemma p_digit_ascii o s : o < 10 -> p_digit ((48 + o) :: s) = [(o, s)].
Proof. intros H; unfold p_digit; rewrite digit_value_ascii by exact H; reflexivity. Qed.

Lemma heads_one {A} (p : parser A) s a s' : p s = [(a, s')] -> heads p s a s'.
Proof. intros H; exists []; exact H. Qed.

Lemma heads_two (p q : parser N) s a s1 b s2 :
  heads p s a s1 -> heads q s1 b s2 -> heads (p_two p q) s (10 * a + b) s2.
Proof. intros Hp Hq; eapply heads_bind; [exact Hp|]; eapply heads_bind; [exact Hq|apply heads_ret]. Qed.

#[export] Hint Resolve heads_ret heads_alt_l heads_one : pyx.

Lemma heads_conv {A} (p : parser A) s a b s' : heads p s a s' -> a = b -> heads p s b s'.
Proof. intros H ->; exact H. Qed.

(** Chooses the alternative of a field whose first character matches. *)
Ltac first_alt :=
  repeat first
    [ apply heads_alt_r;
      [ solve [ apply p_class_out; lia | apply p_bind_nil; apply p_class_out; lia ] | ]
    | apply heads_alt_l ].

Ltac two_digits :=
  eapply heads_two; apply heads_one;
  first [ apply p_class_in; lia | apply p_digit_ascii; lia ].

(** Names the tens and units of [n]; [lia] does not reason about
    [N.div] itself. *)
Ltac div10 n :=
  pose proof (N.div_mod' n 10) as Hdm; pose proof (N.mod_lt n 10 ltac:(lia)) as Hlt;
  set (q := n / 10) in *; set (r := n mod 10) in *; clearbody q r.

Lemma pad2_split n s : pad2 n ++ s = (48 + n / 10) :: (48 + n mod 10) :: s.
Proof. reflexivity. Qed.

(** Each two-digit field is read back as the number it prints. *)
Lemma heads_field p lo hi n s :
  (p, lo, hi) = (p_day, 1, 31) \/ (p, lo, hi) = (p_hour, 0, 23) \/
  (p, lo, hi) = (p_minute, 0, 59) \/ (p, lo, hi) = (p_second, 0, 61) ->
  lo <= n <= hi -> heads p (pad2 n ++ s) n s.
Proof.
  intros Hp Hn; rewrite pad2_split.
  apply (heads_conv _ _ (10 * (n / 10) + n mod 10)); [| symmetry; apply N.div_mod'].
  div10 n.
  assert (hi <= 61) by (destruct Hp as [H|[H|[H|H]]]; injection H; lia).
  assert (q = 0 \/ q = 1 \/ q = 2 \/ q = 3 \/ q = 4 \/ q = 5 \/ q = 6) as Ht by lia.
  destruct Hp as [Hq|[Hq|[Hq|Hq]]]; injection Hq as -> -> ->;
    [ unfold p_day | unfold p_hour | unfold p_minute | unfold p_second ];
    destruct Ht as [Ht|[Ht|[Ht|[Ht|[Ht|[Ht|Ht]]]]]]; rewrite Ht in *;
    try (exfalso; lia);
    first_alt; two_digits.
Qed.

Lemma heads_two_digits a s : a < 100 -> heads (p_two p_digit p_digit) (pad2 a ++ s) a s.
Proof.
  intros Ha; rewrite pad2_split.
  apply (heads_conv _ _ (10 * (a / 10) + a mod 10)); [| symmetry; apply N.div_mod'].
  div10 a; two_digits.
Qed.

Lemma heads_year y s : y <= 9999 -> heads p_year (pad4 y ++ s) y s.
Proof.
  intros Hy; unfold p_year, pad4; rewrite <- app_assoc.
  pose proof (N.Div0.div_lt_upper_bound y 100 100 ltac:(lia)) as Hhi.
  pose proof (N.mod_lt y 100 ltac:(lia)) as Hlo.
  eapply heads_bind; [apply heads_two_digits, Hhi|].
  eapply heads_bind; [apply heads_two_digits, Hlo|].
  apply (heads_conv _ _ _ _ _ (heads_ret _ _)); symmetry; apply N.div_mod'.
Qed.

Lemma py_isspace_false c : c < 9 \/ 13 < c < 28 \/ 32 < c < 133 -> py_isspace c = false.
Proof.
  intros Hc; unfold py_isspace; apply not_true_iff_false; intros Hx.
  apply existsb_exists in Hx; destruct Hx as (x & Hin & Heq); apply N.eqb_eq in Heq; subst x.
  simpl in Hin; intuition lia.
Qed.

Lemma heads_space s : space_run s = O -> heads p_spaces (32 :: s) tt s.
Proof. intros H; exists []; unfold p_spaces; cbn [space_run]; rewrite H; reflexivity. Qed.

Lemma space_run_pad2 n s : n < 100 -> space_run (pad2 n ++ s) = O.
Proof.
  intros Hn; rewrite pad2_split; cbn [space_run].
  div10 n; rewrite py_isspace_false by lia; reflexivity.
Qed.

Ltac enum H := repeat (destruct H as [->|H]); try subst.

Lemma month_facts m s : 1 <= m <= 12 ->
  heads (p_names months) (x_month m ++ s) (x_month m) s /\
  space_run (x_month m ++ s) = O /\ index_of (py_lower (x_month m)) months 1 = Ok m.
Proof.
  intros Hm; assert (m = 1 \/ m = 2 \/ m = 3 \/ m = 4 \/ m = 5 \/ m = 6 \/ m = 7 \/
                     m = 8 \/ m = 9 \/ m = 10 \/ m = 11 \/ m = 12) as H by lia.
  enum H; (split; [exists []; reflexivity | split; reflexivity]).
Qed.

Lemma weekday_facts wd s : (wd < 7)%nat ->
  heads (p_names weekdays) (x_weekday wd ++ s) (x_weekday wd) s /\
  index_of (py_lower (x_weekday wd)) weekdays 0 = Ok (N.of_nat wd).
Proof.
  intros Hw; assert (wd = 0 \/ wd = 1 \/ wd = 2 \/ wd = 3 \/ wd = 4 \/ wd = 5 \/ wd = 6)%nat
    as H by lia.
  enum H; (split; [exists []; reflexivity | reflexivity]).
Qed.

Lemma heads_lit c s : heads (p_lit c) (c :: s) c s.
Proof. exists []; unfold p_lit, p_sat; rewrite N.eqb_refl; reflexivity. Qed.

Lemma heads_offset s : heads (p_word (u "+0000")) (u "+0000" ++ s) (u "+0000") s.
Proof. exists []; reflexivity. Qed.

Lemma space_run_offset s : space_run (u "+0000" ++ s) = O.
Proof. reflexivity. Qed.

(** The first match of the format on a rendered timestamp has its fields. *)
Lemma heads_format wd t : x_shape wd t ->
  heads p_format (render_x wd t)
    {| g_a := x_weekday wd; g_b := x_month (month t); g_d := day t; g_H := hour t;
       g_M := minute t; g_S := second t; g_Y := year t |} [].
Proof.
  intros (Hw & Hm & Hd & Hh & Hmi & Hs & Hy); unfold p_format, render_x.
  destruct (weekday_facts wd (32 :: x_month (month t) ++ 32 :: pad2 (day t) ++ 32 ::
    pad2 (hour t) ++ 58 :: pad2 (minute t) ++ 58 :: pad2 (second t) ++ 32 ::
    u "+0000" ++ 32 :: pad4 (year t)) Hw) as [Hwd _].
  destruct (month_facts (month t) (32 :: pad2 (day t) ++ 32 :: pad2 (hour t) ++ 58 ::
    pad2 (minute t) ++ 58 :: pad2 (second t) ++ 32 :: u "+0000" ++ 32 :: pad4 (year t)) Hm)
    as [Hmo [Hsp _]].
  eapply heads_bind; [exact Hwd|].
  eapply heads_bind; [apply heads_space; exact Hsp|].
  eapply heads_bind; [exact Hmo|].
  eapply heads_bind; [apply heads_space, space_run_pad2; lia|].
  eapply heads_bind; [apply (heads_field _ 1 31); [tauto | lia]|].
  eapply heads_bind; [apply heads_space, space_run_pad2; lia|].
  eapply heads_bind; [apply (heads_field _ 0 23); [tauto | lia]|].
  eapply heads_bind; [apply heads_lit|].
  eapply heads_bind; [apply (heads_field _ 0 59); [tauto | lia]|].
  eapply heads_bind; [apply heads_lit|].
  eapply heads_bind; [apply (heads_field _ 0 61); [tauto | lia]|].
  eapply heads_bind; [apply heads_space, space_run_offset|].
  eapply heads_bind; [apply heads_offset|].
  eapply heads_bind; [apply heads_space; unfold pad4; apply space_run_pad2;
                      apply N.Div0.div_lt_upper_bound; lia|].
  eapply heads_bind; [rewrite <- (app_nil_r (pad4 (year t))); apply heads_year, Hy|].
  apply heads_ret.
Qed.

Lemma x_shape_fields wd t : x_shape wd t ->
  {| year := year t; month := month t; day := day t; hour := hour t;
     minute := minute t; second := second t |} = t.
Proof. destruct t; reflexivity. Qed.

(** ** Properties *)

(** C14: on a timestamp in the format X sends (any weekday name, each field
    within what the regular expression accepts), the conversion of
    xcrawl.py returns the ISO rendering of the same date when the date
    exists and raises [ValueError] when it does not (a day past the end of
    its month, year 0, second 60 or 61).  The weekday name is not checked
    against the date. *)
Theorem canonical_created_at_x wd t :
  x_shape wd t ->
  canonical_created_at (render_x wd t) =
  if valid_datetime t then Ok (strftime_iso t) else raise ValueError.
Proof.
  intros Hs; destruct (heads_format wd t Hs) as [l Hl].
  destruct Hs as (Hw & Hm & _).
  unfold canonical_created_at, strptime_x; rewrite Hl; cbv beta iota; simpl g_b; simpl g_a.
  rewrite (proj2 (proj2 (month_facts (month t) [] Hm))), bind_Ok.
  rewrite (proj2 (weekday_facts wd [] Hw)), bind_Ok.
  simpl g_Y; simpl g_d; simpl g_H; simpl g_M; simpl g_S.
  destruct t; simpl; destruct (valid_datetime _); reflexivity.
Qed.

(** the example of the specification. *)
Example canonical_created_at_example :
  canonical_created_at (u "Wed Oct 10 20:19:24 +0000 2018") = Ok (u "2018-10-10T20:19:24").
Proof. vm_compute; reflexivity. Qed.

Lemma canonical_created_at_x_witness :
  x_shape 2 sample_time /\
  canonical_created_at (render_x 2 sample_time) = Ok (u "2018-10-10T20:19:24").
Proof.
  assert (H : x_shape 2 sample_time) by (unfold x_shape; simpl; lia).
  split; [exact H|].
  rewrite (canonical_created_at_x 2 sample_time H); vm_compute; reflexivity.
Defined.
