(* ===== verification/Entities.v ===== *)
(** * Entity cleaning and profile-image rewriting

    [removeallentites] is [XCrawl.__removeallentites] (xcrawl.py lines
    268-354): for a tweet [datas], it cleans the [entities] or
    [extended_entities] block of [datas["legacy"]] in place and, inside
    the loop over the media elements, cuts the link bound in [url] out of
    [legacy["full_text"]] after each element.  The Python local [url]
    survives from one element, and one pass of the outer loop, to the next
    and is unbound until a media element has had a noise key deleted; it
    is an [option] threaded through the loops ([media_iter] is one
    element).  [replacechar] is [XCrawl.__replacechar]
    (lines 356-374). *)

From Stdlib Require Import String List NArith ZArith Bool Lia.
From S2P Require Import Prelude Json.
Import ListNotations.
Open Scope py_scope.

Module Entities.

Definition KEYS_REMOVE : list pystr :=
  map u ["id_str"; "indices"; "media_key"; "ext_media_availability"; "features";
         "sizes"; "original_info"; "additional_media_info"]%string.

Definition KEY_CHECK : list pystr :=
  map u ["hashtags"; "media"; "symbols"; "timestamps"; "urls"; "user_mentions"]%string.

(** [[kr for kr in KEYS_REMOVE if kr != "id_str"]]. *)
Definition KEYS_REMOVE_MENTIONS : list pystr :=
  filter (fun k => negb (pystr_eqb k (u "id_str"))) KEYS_REMOVE.

(** [datas["legacy"][keyword]]. *)
Definition get_ent (datas : json) (keyword : pystr) : res json :=
  l <- getitem datas (u "legacy") ;; getitem l keyword.

(** Stores the mutated [datas["legacy"][keyword]] back in [datas]. *)
Definition set_ent (datas : json) (keyword : pystr) (e : json) : res json :=
  l <- getitem datas (u "legacy") ;;
  l' <- update l keyword e ;;
  update datas (u "legacy") l'.

(** An element list rewritten in place: only a list holds objects that the
    loop body can mutate. *)
Definition write_back (v : json) (l' : list json) : json :=
  match v with
  | JList _ => JList l'
  | _ => v
  end.

(** Lines 293-301: flatten [hashtags] to their texts; a [TypeError] inside
    the [try] leaves the block unchanged. *)
Definition hashtags_block (datas : json) (keyword : pystr) : res json :=
  e <- get_ent datas keyword ;;
  has <- contains (u "hashtags") e ;;
  if has then
    h <- getitem e (u "hashtags") ;;
    if truthy h then
      catch_type_error
        (l <- py_iter h ;;
         texts <- mapM (fun x => getitem x (u "text")) l ;;
         e' <- update e (u "hashtags") (JList texts) ;;
         set_ent datas keyword e')
        datas
    else Ok datas
  else Ok datas.

(** Lines 305-313: one iteration of [for key in generatekey(e_media, ...)]. *)
Definition media_key_step (st : json * option json) (k : pystr) : res (json * option json) :=
  let '(em, _) := st in
  em1 <- delitem em k ;;
  hv <- contains (u "video_info") em1 ;;
  em2 <- (if hv then
            vi <- getitem em1 (u "video_info") ;;
            ha <- contains (u "aspect_ratio") vi ;;
            if ha then vi' <- delitem vi (u "aspect_ratio") ;; update em1 (u "video_info") vi'
            else Ok em1
          else Ok em1) ;;
  url <- getitem em2 (u "url") ;;
  Ok (em2, Some url).

(** One [e_media]: its noise keys deleted, [url] set after each deletion. *)
Definition media_elem (url : option json) (em : json) : res (json * option json) :=
  ks <- generatekey em KEYS_REMOVE ;;
  foldM media_key_step ks (em, url).

(** Lines 315-322: [full_text] loses every occurrence of [url], then its
    trailing white space. *)
Definition excise_step (url : option json) (datas : json) (kv : pystr * json) : res json :=
  let '(k, v) := kv in
  if pystr_eqb k (u "full_text") then
    match url with
    | None => raise (UnboundLocalError (u "url"))
    | Some uj =>
        match v with
        | JStr s =>
            match uj with
            | JStr us =>
                l <- getitem datas (u "legacy") ;;
                l' <- update l k (JStr (str_rstrip (str_replace us [] s))) ;;
                update datas (u "legacy") l'
            | _ => raise TypeError
            end
        | _ => raise AttributeError
        end
    end
  else Ok datas.

Definition excise_full_text (datas : json) (url : option json) : res json :=
  l <- getitem datas (u "legacy") ;;
  kvs <- items l ;;
  foldM (excise_step url) kvs datas.

(** One pass of [for e_media in ...] (lines 304-322): the element's noise
    keys deleted, then [full_text] cut with the [url] bound so far.  The
    cleaned elements are collected in order. *)
Definition media_iter (st : json * option json * list json) (em : json)
  : res (json * option json * list json) :=
  let '(datas, url, done) := st in
  '(em', url') <- media_elem url em ;;
  datas' <- excise_full_text datas url' ;;
  Ok (datas', url', done ++ [em']).

(** Lines 303-322.  The excision only writes [datas["legacy"]["full_text"]]
    and the element loop only the elements, so the list of cleaned
    elements is stored back once the loop is over. *)
Definition media_block (datas : json) (keyword : pystr) (url : option json)
  : res (json * option json) :=
  e <- get_ent datas keyword ;;
  has <- contains (u "media") e ;;
  if has then
    m <- getitem e (u "media") ;;
    if truthy m then
      l <- py_iter m ;;
      '(datas1, url', l') <- foldM media_iter l (datas, url, []) ;;
      e' <- update e (u "media") (write_back m l') ;;
      datas' <- set_ent datas1 keyword e' ;;
      Ok (datas', url')
    else Ok (datas, url)
  else Ok (datas, url).

(** Lines 324-354: delete [keys] from every element of [e[cat]]. *)
Definition strip_block (cat : pystr) (keys : list pystr) (datas : json) (keyword : pystr)
  : res json :=
  e <- get_ent datas keyword ;;
  has <- contains cat e ;;
  if has then
    v <- getitem e cat ;;
    if truthy v then
      l <- py_iter v ;;
      l' <- mapM (strip_keys keys) l ;;
      e' <- update e cat (write_back v l') ;;
      set_ent datas keyword e'
    else Ok datas
  else Ok datas.

(** The body of [for kc in KEY_CHECK: if kc in ...], lines 293-354. *)
Definition clean_pass (datas : json) (keyword : pystr) (url : option json)
  : res (json * option json) :=
  d1 <- hashtags_block datas keyword ;;
  '(d2, url') <- media_block d1 keyword url ;;
  d3 <- strip_block (u "symbols") KEYS_REMOVE d2 keyword ;;
  d4 <- strip_block (u "timestamps") KEYS_REMOVE d3 keyword ;;
  d5 <- strip_block (u "urls") KEYS_REMOVE d4 keyword ;;
  d6 <- strip_block (u "user_mentions") KEYS_REMOVE_MENTIONS d5 keyword ;;
  Ok (d6, url').

Definition key_check_step (keyword : pystr) (st : json * option json) (kc : pystr)
  : res (json * option json) :=
  let '(datas, url) := st in
  e <- get_ent datas keyword ;;
  b <- contains kc e ;;
  if b then clean_pass datas keyword url else Ok (datas, url).

(** [XCrawl.__removeallentites(keyword, datas)]: the mutated [datas]. *)
Definition removeallentites (keyword : pystr) (datas : json) : res json :=
  match datas with
  | JDict _ =>
      l <- getitem datas (u "legacy") ;;
      present <- contains keyword l ;;
      if present then
        '(d, _) <- foldM (key_check_step keyword) KEY_CHECK (datas, None) ;; Ok d
      else Ok datas
  | _ => raise TypeError
  end.

(** ** [__replacechar] *)

(** The characters before the first [/]. *)
Fixpoint take_seg (l : pystr) : pystr :=
  match l with
  | c :: l' => if N.eqb c 47 then [] else c :: take_seg l'
  | [] => []
  end.

(** [text.split("/")[-1]]: the characters after the last [/]. *)
Definition last_segment (s : pystr) : pystr := rev (take_seg (rev s)).

(** The lazy [(.*?)\.jpg] after an underscore: the shortest run without a
    newline that is followed by [.jpg]. *)
Fixpoint lazy_jpg (s : pystr) : option pystr :=
  if prefixb (u ".jpg") s then Some []
  else match s with
       | [] => None
       | c :: s' => if N.eqb c 10 then None else option_map (cons c) (lazy_jpg s')
       end.

(** [re.search(r'_(.*?)\.jpg', s).group(1)]: the leftmost underscore from
    which the lazy group can end on [.jpg]. *)
Fixpoint search_jpg (s : pystr) : option pystr :=
  match s with
  | [] => None
  | c :: s' =>
      if N.eqb c 95 then
        match lazy_jpg s' with
        | Some g => Some g
        | None => search_jpg s'
        end
      else search_jpg s'
  end.

Definition replacechar_str (text replacement : pystr) : pystr :=
  match search_jpg (last_segment text) with
  | Some g => str_replace g replacement text
  | None => text
  end.

(** [XCrawl.__replacechar(text, replacement)] on a value of the response. *)
Definition replacechar (text : json) (replacement : pystr) : res json :=
  match text with
  | JStr t => Ok (JStr (replacechar_str t replacement))
  | _ => raise TypeError
  end.

End Entities.

Module EntitiesProps.
Local Open Scope N_scope.
Import Entities.

(** A tweet whose text ends with the short link of its one photo. *)
Definition sample_media : json :=
  JDict [(u "id_str", JStr (u "9")); (u "indices", JList [JNum 12; JNum 35]);
         (u "media_key", JStr (u "3_9")); (u "url", JStr (u "https://t.co/abc123"));
         (u "type", JStr (u "photo"))].

Definition sample_tweet : json :=
  JDict [(u "rest_id", JStr (u "1"));
         (u "legacy", JDict [(u "full_text", JStr (u "hello world https://t.co/abc123"));
                             (u "entities", JDict [(u "hashtags", JList []);
                                                   (u "media", JList [sample_media])])])].

(** *** The media of a tweet, element by element

    A tweet whose [legacy] holds [full_text] first, then [keyword] with
    only a [media] list, then other keys. *)
Definition tweet_j (t : pystr) (keyword : pystr) (e : json) (rest : dict) (top : dict) : json :=
  JDict ((u "legacy", JDict ((u "full_text", JStr t) :: (keyword, e) :: rest)) :: top).

Definition media_ent (ms : list json) : json := JDict [(u "media", JList ms)].

(** An element with at least one noise key: the only kind for which the
    [for key in ...] loop runs and binds [url]. *)
Definition noisy_elem (m : json) : bool :=
  match m with
  | JDict d => existsb (fun k => mem k KEYS_REMOVE) (dkeys d)
  | _ => false
  end.

(** The link of an element that is a dictionary with a string [url] and
    no [video_info]. *)
Definition media_link (m : json) : option pystr :=
  match m with
  | JDict d => if mem (u "video_info") (dkeys d) then None
               else match dlookup (u "url") d with Some (JStr us) => Some us | _ => None end
  | _ => None
  end.

Definition strip_media (m : json) : json :=
  match m with
  | JDict d => JDict (dict_filter KEYS_REMOVE d)
  | _ => m
  end.

(** What the media loop does to the text, element after element: the
    link in force is the element's own when it has a noise key, the one
    bound before otherwise; none bound raises. *)
Fixpoint cut_links (url : option pystr) (ms : list json) (t : pystr) : res pystr :=
  match ms with
  | [] => Ok t
  | m :: ms' =>
      match (if noisy_elem m then media_link m else url) with
      | None => raise (UnboundLocalError (u "url"))
      | Some us => cut_links (Some us) ms' (str_rstrip (str_replace us [] t))
      end
  end.

(** The link bound after the loop. *)
Definition link_after (url : option pystr) (ms : list json) : option pystr :=
  fold_left (fun l m => if noisy_elem m then media_link m else l) ms url.

Lemma take_seg_app s d : ~ In 47 s -> take_seg (s ++ 47 :: d) = s.
Proof.
  induction s as [|c s IH]; intros H; cbn; [reflexivity|].
  rewrite (proj2 (N.eqb_neq c 47)) by (intros ->; apply H; left; reflexivity).
  f_equal; apply IH; intros H'; apply H; right; exact H'.
Qed.

Lemma last_segment_app d s : ~ In 47 s -> last_segment (d ++ 47 :: s) = s.
Proof.
  intros H; unfold last_segment; rewrite rev_app_distr; cbn [rev]; rewrite <- app_assoc; cbn [app].
  rewrite take_seg_app, rev_involutive; [reflexivity|].
  intros Hr; apply H, in_rev, Hr.
Qed.

Lemma search_jpg_skip name t : ~ In 95 name -> search_jpg (name ++ t) = search_jpg t.
Proof.
  induction name as [|c name IH]; intros H; [reflexivity|]; cbn [app search_jpg].
  rewrite (proj2 (N.eqb_neq c 95)) by (intros ->; apply H; left; reflexivity).
  apply IH; intros H'; apply H; right; exact H'.
Qed.

Lemma lazy_jpg_group g : ~ In 46 g -> ~ In 10 g -> lazy_jpg (g ++ u ".jpg") = Some g.
Proof.
  induction g as [|c g IH]; intros H46 H10; [reflexivity|]; cbn [app lazy_jpg].
  replace (prefixb (u ".jpg") (c :: g ++ u ".jpg")) with false
    by (change (u ".jpg") with [46; 106; 112; 103]; cbn [prefixb];
        rewrite (proj2 (N.eqb_neq 46 c)) by (intros <-; apply H46; left; reflexivity); reflexivity).
  rewrite (proj2 (N.eqb_neq c 10)) by (intros ->; apply H10; left; reflexivity).
  rewrite IH; [reflexivity | intros H; apply H46; right; exact H | intros H; apply H10; right; exact H].
Qed.

Lemma dlookup_ddel_ne k k' d : k <> k' -> dlookup k' (ddel k d) = dlookup k' d.
Proof.
  intros Hne; induction d as [|[k0 v0] d IH]; cbn [ddel dlookup]; [reflexivity|].
  destruct (pystr_eqb_spec k k0) as [<-|_]; cbn [dlookup]; [|rewrite IH; reflexivity].
  destruct (pystr_eqb_spec k' k); [congruence | reflexivity].
Qed.

Lemma mem_ddel x k d : mem x (dkeys d) = false -> mem x (dkeys (ddel k d)) = false.
Proof.
  induction d as [|[k0 v0] d IH]; cbn [ddel dkeys map]; [reflexivity|]; unfold mem; cbn [existsb].
  intros H; apply orb_false_iff in H as [H0 H1].
  destruct (pystr_eqb k k0); [exact H1|]; cbn [map existsb]; rewrite H0; exact (IH H1).
Qed.

Lemma match_filter_existsb {A B} (f : A -> bool) l (a b : B) :
  match filter f l with [] => a | _ => b end = if existsb f l then b else a.
Proof. induction l as [|x l IH]; cbn; [reflexivity|]; destruct (f x); cbn; [reflexivity | exact IH]. Qed.

(** The [for key in ...] loop of one element: keys deleted one by one,
    [url] rebound after each. *)
Lemma media_key_steps ks d url0 uv :
  dlookup (u "url") d = Some uv -> ~ In (u "url") ks -> mem (u "video_info") (dkeys d) = false ->
  foldM media_key_step ks (JDict d, url0) =
  res_map (fun d' => (JDict d', match ks with [] => url0 | _ => Some uv end)) (foldM ddel_res ks d).
Proof.
  revert d url0; induction ks as [|k ks IH]; intros d url0 Hu Hk Hv; [reflexivity|].
  cbn [foldM media_key_step]; unfold ddel_res; cbn [delitem].
  destruct (mem k (dkeys d)); [|reflexivity]; cbn [bind contains].
  rewrite (mem_ddel _ _ _ Hv); cbn [bind getitem].
  rewrite dlookup_ddel_ne, Hu by (intros ->; apply Hk; left; reflexivity); cbn [bind].
  rewrite IH; [destruct ks; reflexivity | rewrite dlookup_ddel_ne by (intros ->; apply Hk; left; reflexivity); exact Hu
              | intros H; apply Hk; right; exact H | apply mem_ddel, Hv].
Qed.

(** One element with a link: its noise keys removed, [url] its own link
    when it had a noise key and unchanged otherwise. *)
Lemma media_elem_link url0 m us :
  media_link m = Some us ->
  media_elem url0 m = Ok (strip_media m, if noisy_elem m then Some (JStr us) else url0).
Proof.
  destruct m as [| | | | |d]; try discriminate; cbn [media_link].
  destruct (mem (u "video_info") (dkeys d)) eqn:Hv; [discriminate|].
  destruct (dlookup (u "url") d) as [[| | | s | |]|] eqn:Hu; try discriminate; intros [= <-].
  unfold media_elem; rewrite generatekey_dict; cbn [bind].
  pose proof (strip_keys_dict KEYS_REMOVE d) as Hs; unfold strip_keys in Hs.
  rewrite generatekey_dict in Hs; cbn [bind] in Hs; rewrite foldM_delitem in Hs.
  rewrite (media_key_steps _ _ _ _ Hu); [|intros H; apply filter_In in H as [_ H]; discriminate | exact Hv].
  destruct (foldM ddel_res _ d) as [d'|]; cbn [res_map bind] in *; [|discriminate].
  injection Hs as ->; cbn [strip_media noisy_elem]; rewrite match_filter_existsb; reflexivity.
Qed.

Lemma pystr_eqb_neq a b : a <> b -> pystr_eqb a b = false.
Proof. destruct (pystr_eqb_spec a b); congruence. Qed.

Lemma excise_skip url datas kvs :
  ~ In (u "full_text") (map fst kvs) -> foldM (excise_step url) kvs datas = Ok datas.
Proof.
  induction kvs as [|[k v] kvs IH]; intros H; [reflexivity|]; cbn [foldM excise_step].
  rewrite pystr_eqb_neq by (intros ->; apply H; left; reflexivity); cbn [bind].
  apply IH; intros H'; apply H; right; exact H'.
Qed.

Lemma getitem_legacy t kw e rest top :
  getitem (tweet_j t kw e rest top) (u "legacy") = Ok (JDict ((u "full_text", JStr t) :: (kw, e) :: rest)).
Proof. reflexivity. Qed.

Lemma update_legacy t t' kw e rest top :
  update (tweet_j t kw e rest top) (u "legacy") (JDict ((u "full_text", JStr t') :: (kw, e) :: rest)) =
  Ok (tweet_j t' kw e rest top).
Proof. reflexivity. Qed.

(** Lines 315-322 on the tweet: [full_text] cut with the bound link, or
    [UnboundLocalError] when none is bound. *)
Lemma excise_tweet url t kw e rest top :
  kw <> u "full_text" -> ~ In (u "full_text") (dkeys rest) ->
  excise_full_text (tweet_j t kw e rest top) (option_map JStr url) =
  match url with
  | None => raise (UnboundLocalError (u "url"))
  | Some us => Ok (tweet_j (str_rstrip (str_replace us [] t)) kw e rest top)
  end.
Proof.
  intros Hkw Hr; destruct url as [us|]; [|reflexivity].
  unfold excise_full_text; rewrite getitem_legacy; cbn [bind items foldM excise_step option_map].
  rewrite pystr_eqb_refl, getitem_legacy; cbn [bind update dset]; rewrite pystr_eqb_refl, update_legacy.
  cbn [bind foldM excise_step]; rewrite pystr_eqb_neq by exact Hkw; cbn [bind]; apply excise_skip, Hr.
Qed.

Lemma get_ent_tweet t kw e rest top : kw <> u "full_text" -> get_ent (tweet_j t kw e rest top) kw = Ok e.
Proof.
  intros Hkw; unfold get_ent; rewrite getitem_legacy; cbn [bind getitem dlookup].
  rewrite pystr_eqb_neq, pystr_eqb_refl by exact Hkw; reflexivity.
Qed.

Lemma set_ent_tweet t kw e e' rest top :
  kw <> u "full_text" -> set_ent (tweet_j t kw e rest top) kw e' = Ok (tweet_j t kw e' rest top).
Proof.
  intros Hkw; unfold set_ent; rewrite getitem_legacy; cbn [bind update dset].
  rewrite pystr_eqb_neq, pystr_eqb_refl by exact Hkw; reflexivity.
Qed.

Lemma contains_kw t kw e rest :
  contains kw (JDict ((u "full_text", JStr t) :: (kw, e) :: rest)) = Ok true.
Proof. cbn [contains dkeys map fst]; unfold mem; cbn [existsb]; rewrite pystr_eqb_refl, orb_true_r; reflexivity. Qed.

Section MediaTweet.
Variables (kw : pystr) (rest top : dict).
Hypothesis Hkw : kw <> u "full_text".
Hypothesis Hrest : ~ In (u "full_text") (dkeys rest).

Lemma hashtags_skip t l : hashtags_block (tweet_j t kw (media_ent l) rest top) kw = Ok (tweet_j t kw (media_ent l) rest top).
Proof. unfold hashtags_block; rewrite get_ent_tweet by exact Hkw; reflexivity. Qed.

Lemma strip_skip cat keys t l :
  contains cat (media_ent l) = Ok false ->
  strip_block cat keys (tweet_j t kw (media_ent l) rest top) kw = Ok (tweet_j t kw (media_ent l) rest top).
Proof. intros H; unfold strip_block; rewrite get_ent_tweet by exact Hkw; cbn [bind]; rewrite H; reflexivity. Qed.

Lemma key_check_skip kc url t l :
  contains kc (media_ent l) = Ok false ->
  key_check_step kw (tweet_j t kw (media_ent l) rest top, url) kc = Ok (tweet_j t kw (media_ent l) rest top, url).
Proof. intros H; unfold key_check_step; rewrite get_ent_tweet by exact Hkw; cbn [bind]; rewrite H; reflexivity. Qed.

(** The [for e_media] loop against [cut_links]. *)
Lemma media_iter_fold ms url t done e :
  Forall (fun m => media_link m <> None) ms ->
  foldM media_iter ms (tweet_j t kw e rest top, option_map JStr url, done) =
  bind (cut_links url ms t)
       (fun t' => Ok (tweet_j t' kw e rest top, option_map JStr (link_after url ms), done ++ map strip_media ms)).
Proof.
  revert url t done; induction ms as [|m ms IH]; intros url t done Hms.
  - cbn; rewrite app_nil_r; reflexivity.
  - inversion Hms as [|? ? Hm Hms']; subst.
    destruct (media_link m) as [us|] eqn:Em; [|contradiction].
    cbn [foldM media_iter]; rewrite (media_elem_link _ _ _ Em); cbn [bind].
    replace (if noisy_elem m then Some (JStr us) else option_map JStr url)
      with (option_map JStr (if noisy_elem m then Some us else url)) by (destruct (noisy_elem m); reflexivity).
    rewrite excise_tweet by assumption; cbn [cut_links]; unfold link_after; cbn [fold_left]; rewrite Em.
    destruct (if noisy_elem m then Some us else url) as [us'|]; [|reflexivity].
    cbn [bind]; rewrite IH by exact Hms'; rewrite <- app_assoc; reflexivity.
Qed.

Lemma contains_media_ent l : contains (u "media") (media_ent l) = Ok true.
Proof. reflexivity. Qed.

Lemma getitem_media_ent l : getitem (media_ent l) (u "media") = Ok (JList l).
Proof. reflexivity. Qed.

Lemma update_media_ent l l' : update (media_ent l) (u "media") (write_back (JList l) l') = Ok (media_ent l').
Proof. reflexivity. Qed.

Lemma media_block_tweet t ms :
  Forall (fun m => media_link m <> None) ms ->
  media_block (tweet_j t kw (media_ent ms) rest top) kw None =
  bind (cut_links None ms t)
       (fun t' => Ok (tweet_j t' kw (media_ent (map strip_media ms)) rest top, option_map JStr (link_after None ms))).
Proof.
  intros Hms; unfold media_block; rewrite get_ent_tweet by exact Hkw; cbn [bind].
  rewrite contains_media_ent; cbn [bind]; rewrite getitem_media_ent; cbn [bind].
  destruct ms as [|m ms']; [reflexivity|]; cbn [truthy py_iter bind].
  pose proof (media_iter_fold (m :: ms') None t [] (media_ent (m :: ms')) Hms) as F; cbn [option_map app] in F.
  rewrite F; destruct (cut_links None (m :: ms') t) as [t'|err]; [|reflexivity]; cbn [bind].
  rewrite update_media_ent; cbn [bind]; rewrite set_ent_tweet by exact Hkw; reflexivity.
Qed.

(** The pass of [for kc in KEY_CHECK] for [media]: the other categories
    are absent. *)
Lemma key_check_media t ms :
  Forall (fun m => media_link m <> None) ms ->
  key_check_step kw (tweet_j t kw (media_ent ms) rest top, None) (u "media") =
  bind (cut_links None ms t)
       (fun t' => Ok (tweet_j t' kw (media_ent (map strip_media ms)) rest top, option_map JStr (link_after None ms))).
Proof.
  intros Hms; unfold key_check_step; rewrite get_ent_tweet by exact Hkw; cbn [bind].
  rewrite contains_media_ent; cbn [bind]; unfold clean_pass.
  rewrite hashtags_skip; cbn [bind]; rewrite (media_block_tweet _ _ Hms).
  destruct (cut_links None ms t); [|reflexivity]; cbn [bind].
  do 4 (rewrite strip_skip by reflexivity; cbn [bind]); reflexivity.
Qed.

(** C9: C?: [__removeallentites(keyword, datas)] on a tweet whose [keyword]
    entities hold a list of media, each a dictionary with a string [url]
    and no [video_info]: every element loses its noise keys, and
    [full_text], element after element, loses every occurrence of the
    link bound at that point and its trailing white space.  The link is
    the element's own when it has a noise key; an element without one
    cuts the previous element's link again, and a first element without
    one reads [url] unbound and raises [UnboundLocalError]
    ([cut_links]). *)
Theorem removeallentites_media t ms :
  Forall (fun m => media_link m <> None) ms ->
  removeallentites kw (tweet_j t kw (media_ent ms) rest top) =
  bind (cut_links None ms t) (fun t' => Ok (tweet_j t' kw (media_ent (map strip_media ms)) rest top)).
Proof.
  intros Hms; unfold removeallentites, tweet_j at 1; cbv beta iota.
  rewrite getitem_legacy; cbn [bind]; rewrite contains_kw; cbn [bind]; unfold KEY_CHECK; cbn [map foldM].
  rewrite key_check_skip by reflexivity; cbn [bind]; rewrite (key_check_media _ _ Hms).
  destruct (cut_links None ms t); [|reflexivity]; cbn [bind].
  do 4 (rewrite key_check_skip by reflexivity; cbn [bind]); reflexivity.
Qed.

End MediaTweet.

(** for a profile image URL whose file name is [name_size.jpg] (a
    [name] without underscore, a [size] without dot or newline, neither
    with a slash), [__replacechar] replaces every occurrence of [size] in
    the whole URL by the replacement. *)
Theorem replacechar_size dir name size r :
  ~ In 47 name -> ~ In 95 name -> ~ In 47 size -> ~ In 46 size -> ~ In 10 size ->
  replacechar (JStr (dir ++ 47 :: name ++ 95 :: size ++ u ".jpg")) r =
  Ok (JStr (str_replace size r (dir ++ 47 :: name ++ 95 :: size ++ u ".jpg"))).
Proof.
  intros Hn47 Hn95 Hs47 Hs46 Hs10; unfold replacechar, replacechar_str.
  rewrite last_segment_app.
  - rewrite search_jpg_skip by exact Hn95; cbn [search_jpg]; rewrite N.eqb_refl, lazy_jpg_group by assumption.
    reflexivity.
  - intros H; apply in_app_or in H as [H|[H|H]]; [exact (Hn47 H) | discriminate |].
    apply in_app_or in H as [H|H]; [exact (Hs47 H)|]; cbn in H; intuition discriminate.
Qed.

(** the example of the specification: the media short link is cut out
    of [full_text] and the trailing white space trimmed, and the media
    element keeps only its non-noise keys. *)
Example removeallentites_excise_example :
  removeallentites (u "entities") sample_tweet =
  Ok (JDict [(u "rest_id", JStr (u "1"));
             (u "legacy", JDict [(u "full_text", JStr (u "hello world"));
                                 (u "entities", JDict [(u "hashtags", JList []);
                                   (u "media", JList [JDict [(u "url", JStr (u "https://t.co/abc123"));
                                                             (u "type", JStr (u "photo"))]])])])]).
Proof. vm_compute; reflexivity. Qed.

(** cleaning a tweet a second time does not leave it unchanged: its
    media has no noise key left, so [url] is never bound and reading it
    raises [UnboundLocalError]. *)
Example removeallentites_not_idempotent :
  bind (removeallentites (u "entities") sample_tweet) (removeallentites (u "entities")) =
  raise (UnboundLocalError (u "url")).
Proof. vm_compute; reflexivity. Qed.

(** the example of the specification, and the replacement of the size
    everywhere in the URL, not only in the file name. *)
Example replacechar_examples :
  replacechar (JStr (u "https://pbs.twimg.com/profile_images/123/abc_normal.jpg")) (u "400x400") =
  Ok (JStr (u "https://pbs.twimg.com/profile_images/123/abc_400x400.jpg")) /\
  replacechar (JStr (u "https://pbs.twimg.com/profile_images/normal_pic/abc_normal.jpg")) (u "400x400") =
  Ok (JStr (u "https://pbs.twimg.com/profile_images/400x400_pic/abc_400x400.jpg")).
Proof. split; vm_compute; reflexivity. Qed.

(** Two photos, both with noise keys: both links are cut. *)
Definition photo (id link : string) : json :=
  JDict [(u "id_str", JStr (u id)); (u "url", JStr (u link)); (u "type", JStr (u "photo"))].

Lemma removeallentites_media_witness :
  removeallentites (u "entities")
    (tweet_j (u "hi https://t.co/AAA https://t.co/BBB") (u "entities")
             (media_ent [photo "1" "https://t.co/AAA"; photo "2" "https://t.co/BBB"]) [] []) =
  Ok (tweet_j (u "hi") (u "entities")
              (media_ent [JDict [(u "url", JStr (u "https://t.co/AAA")); (u "type", JStr (u "photo"))];
                          JDict [(u "url", JStr (u "https://t.co/BBB")); (u "type", JStr (u "photo"))]]) [] []).
Proof.
  rewrite (removeallentites_media (u "entities") [] [] ltac:(intros H; vm_compute in H; discriminate)
             ltac:(intros []) (u "hi https://t.co/AAA https://t.co/BBB")
             [photo "1" "https://t.co/AAA"; photo "2" "https://t.co/BBB"]
             ltac:(repeat constructor; vm_compute; discriminate)).
  vm_compute; reflexivity.
Defined.

(** A second photo without noise keys: the first link is cut again and
    the second stays in the text. *)
Example removeallentites_stale_link :
  removeallentites (u "entities")
    (tweet_j (u "hi https://t.co/AAA https://t.co/BBB") (u "entities")
             (media_ent [photo "1" "https://t.co/AAA";
                         JDict [(u "url", JStr (u "https://t.co/BBB")); (u "type", JStr (u "photo"))]]) [] []) =
  Ok (tweet_j (u "hi  https://t.co/BBB") (u "entities")
              (media_ent [JDict [(u "url", JStr (u "https://t.co/AAA")); (u "type", JStr (u "photo"))];
                          JDict [(u "url", JStr (u "https://t.co/BBB")); (u "type", JStr (u "photo"))]]) [] []).
Proof. vm_compute; reflexivity. Qed.

End EntitiesProps.
