(* ===== verification/Sanitize.v ===== *)
(** * Tweet and user sanitization

    [processuserresults], [processretweeted] and [processmedia] are
    [XCrawl.__processuserresults] (xcrawl.py lines 376-493),
    [__processretweeted] (495-561) and [__processmedia] (563-652).  Each
    mutates the object it is given and returns a new dictionary; the model
    returns the pair (result, mutated argument), since [search] may read a
    processed object a second time. *)

From Stdlib Require Import String List NArith ZArith Bool Lia.
From S2P Require Import Prelude Json Timestamp Entities.
Import ListNotations.
Open Scope py_scope.

Module Sanitize.
Import Entities.

Definition KEYS_RESULT_REMOVE : list pystr :=
  map u ["affiliates_highlighted_label"; "has_graduated_access"; "profile_image_shape";
         "smart_blocked_by"; "smart_blocking"; "legacy_extended_profile";
         "is_profile_translatable"; "has_hidden_likes_on_profile";
         "has_hidden_subscriptions_on_profile"; "verification_info"; "highlights_info";
         "creator_subscriptions_count"]%string.

Definition KEYS_LEGACY_REMOVE : list pystr :=
  map u ["can_dm"; "can_media_tag"; "created_at"; "default_profile"; "default_profile_image";
         "fast_followers_count"; "favourites_count"; "followers_count"; "friends_count";
         "has_custom_timelines"; "is_translator"; "listed_count"; "media_count";
         "normal_followers_count"; "pinned_tweet_ids_str"; "possibly_sensitive";
         "statuses_count"; "translator_type"; "want_retweets"; "withheld_in_countries"]%string.

(** The allow-list of lines 456-488, in its order. *)
Definition USER_FIELDS : list pystr :=
  map u ["name"; "screen_name"; "verified"; "description"; "entities"; "location";
         "profile_banner_url"; "profile_image_url_https"; "profile_interstitial_type";
         "url"]%string.

(** The noise keys of a tweet's [legacy], lines 524-537 and 601-614. *)
Definition KEYS_REMOVE_TWEET : list pystr :=
  map u ["conversation_id_str"; "display_text_range"; "is_quote_status"; "possibly_sensitive";
         "possibly_sensitive_editable"; "quoted_status_id_str"; "quoted_status_permalink";
         "favorited"; "retweeted"; "user_id_str"; "id_str"; "place"]%string.

(** [datetime.strptime(value, ...).strftime(...)] on a value of the data. *)
Definition canon_json (v : json) : res json :=
  match v with
  | JStr s => s' <- canonical_created_at s ;; Ok (JStr s')
  | _ => raise TypeError
  end.

(** [for key, value in d["legacy"].items(): if key == "created_at": ...]. *)
Definition created_at_step (datas : json) (kv : pystr * json) : res json :=
  let '(k, v) := kv in
  if pystr_eqb k (u "created_at") then
    v' <- canon_json v ;;
    l <- getitem datas (u "legacy") ;;
    l' <- update l k v' ;;
    update datas (u "legacy") l'
  else Ok datas.

(** Lines 435-439: [del item["indices"]] for the [urls] of one entry of a
    user's [entities]. *)
Definition user_entity_step (datas : json) (ek : json) : res json :=
  ents <- get_path datas [u "legacy"; u "entities"] ;;
  sub <- getitem_any ents ek ;;
  hu <- contains (u "urls") sub ;;
  if hu then
    urls <- getitem sub (u "urls") ;;
    if truthy urls then
      l <- py_iter urls ;;
      l' <- mapM (fun it => delitem it (u "indices")) l ;;
      sub' <- update sub (u "urls") (write_back urls l') ;;
      ents' <- match ek, ents, key_int ek with
               | JStr k, _, _ => update ents k sub'
               | _, JList l, Some z => l' <- set_index_z l z sub' ;; Ok (JList l')
               | _, _, _ => Ok ents
               end ;;
      set_path datas [u "legacy"; u "entities"] ents'
    else Ok datas
  else Ok datas.

(** One iteration of the loop of lines 433-454. *)
Definition user_legacy_step (datas : json) (kv : pystr * json) : res json :=
  let '(k, v) := kv in
  d1 <- (if pystr_eqb k (u "entities") then
           ents <- get_path datas [u "legacy"; u "entities"] ;;
           eks <- py_iter ents ;;
           foldM user_entity_step eks datas
         else Ok datas) ;;
  d2 <- (if pystr_eqb k (u "profile_image_url_https") then
           v' <- replacechar v (u "400x400") ;;
           l <- getitem d1 (u "legacy") ;;
           l' <- update l k v' ;;
           update d1 (u "legacy") l'
         else Ok d1) ;;
  created_at_step d2 kv.

(** [legacy.get(f, EMPTY)] for each allowed field, EMPTY the empty string. *)
Definition user_allow (leg : json) : res json :=
  vs <- mapM (fun f => get leg f (JStr [])) USER_FIELDS ;;
  Ok (JDict (combine USER_FIELDS vs)).

(** [XCrawl.__processuserresults(data)]: the cleaned user and the mutated
    [data]. *)
Definition processuserresults (data : json) : res (json * json) :=
  match data with
  | JDict _ =>
      datas <- get_path data [u "user_results"; u "result"] ;;
      d1 <- strip_keys KEYS_RESULT_REMOVE datas ;;
      leg <- getitem d1 (u "legacy") ;;
      leg1 <- strip_keys KEYS_LEGACY_REMOVE leg ;;
      d2 <- update d1 (u "legacy") leg1 ;;
      kvs <- items leg1 ;;
      d3 <- foldM user_legacy_step kvs d2 ;;
      leg3 <- getitem d3 (u "legacy") ;;
      newleg <- user_allow leg3 ;;
      d4 <- update d3 (u "legacy") newleg ;;
      hp <- contains (u "professional") d4 ;;
      d5 <- (if hp then Ok d4 else update d4 (u "professional") (JDict [])) ;;
      data' <- set_path data [u "user_results"; u "result"] d5 ;;
      Ok (d5, data')
  | _ => raise TypeError
  end.

(** [data["rest_id"] if "rest_id" in data else EMPTY], EMPTY the empty string. *)
Definition tweet_id (data : json) : res json :=
  h <- contains (u "rest_id") data ;;
  if h then getitem data (u "rest_id") else Ok (JStr []).

(** [{k: v for k, v in data["views"].items() if k != "state"} if "views" in data else {}]. *)
Definition tweet_views (data : json) : res json :=
  h <- contains (u "views") data ;;
  if h then
    v <- getitem data (u "views") ;;
    kvs <- items v ;;
    Ok (JDict (filter (fun kv => negb (pystr_eqb (fst kv) (u "state"))) kvs))
  else Ok (JDict []).

(** [core = self.__processuserresults(data["core"]) if "core" in data else {}]. *)
Definition tweet_core (data : json) : res (json * json) :=
  h <- contains (u "core") data ;;
  if h then
    c <- getitem data (u "core") ;;
    '(r, c') <- processuserresults c ;;
    data' <- update data (u "core") c' ;;
    Ok (r, data')
  else Ok (JDict [], data).

(** Lines 515-551 and 592-632: entities, noise keys and [created_at] of
    [data["legacy"]]. *)
Definition clean_legacy (data : json) : res json :=
  d1 <- removeallentites (u "entities") data ;;
  d2 <- removeallentites (u "extended_entities") d1 ;;
  leg <- getitem d2 (u "legacy") ;;
  leg1 <- strip_keys KEYS_REMOVE_TWEET leg ;;
  d3 <- update d2 (u "legacy") leg1 ;;
  kvs <- items leg1 ;;
  foldM created_at_step kvs d3.

Definition tweet_record (id views core legacy : json) : json :=
  JDict [(u "id", id); (u "views", views); (u "core", core); (u "legacy", legacy)].

(** [XCrawl.__processretweeted(data)]. *)
Definition processretweeted (data : json) : res (json * json) :=
  match data with
  | JDict _ =>
      id <- tweet_id data ;;
      views <- tweet_views data ;;
      '(core, d1) <- tweet_core data ;;
      d2 <- clean_legacy d1 ;;
      legacy <- getitem d2 (u "legacy") ;;
      Ok (tweet_record id views core legacy, d2)
  | _ => raise TypeError
  end.

(** Lines 634-644: the retweeted tweet is processed and replaces the
    [result] object in place, or an empty marker is added. *)
Definition retweet_step (d : json) : res json :=
  legacy <- getitem d (u "legacy") ;;
  h <- contains (u "retweeted_status_result") legacy ;;
  if h then
    rr <- get_path legacy [u "retweeted_status_result"; u "result"] ;;
    '(rw, _) <- processretweeted rr ;;
    set_path d [u "legacy"; u "retweeted_status_result"; u "result"] rw
  else
    legacy' <- update legacy (u "retweeted_status_result") (JDict []) ;;
    update d (u "legacy") legacy'.

(** Lines 572-578: where the tweet is inside [entry]. *)
Definition tweet_path (entry : json) : res (list pystr) :=
  hc <- contains (u "content") entry ;;
  if hc then Ok [u "content"; u "itemContent"; u "tweet_results"; u "result"]
  else hr <- contains (u "rest_id") entry ;;
       if hr then Ok [] else Ok [u "tweet"].

(** [XCrawl.__processmedia(entry)]: the cleaned tweet and the mutated
    [entry]. *)
Definition processmedia (entry : json) : res (json * json) :=
  match entry with
  | JDict _ =>
      p <- tweet_path entry ;;
      deeper <- get_path entry p ;;
      id <- tweet_id deeper ;;
      views <- tweet_views deeper ;;
      '(core, d1) <- tweet_core deeper ;;
      hl <- contains (u "legacy") d1 ;;
      '(legacy, d2) <- (if hl then
                          d2 <- clean_legacy d1 ;;
                          d3 <- retweet_step d2 ;;
                          legacy <- getitem d3 (u "legacy") ;;
                          Ok (legacy, d3)
                        else Ok (JDict [], d1)) ;;
      entry' <- set_path entry p d2 ;;
      Ok (tweet_record id views core legacy, entry')
  | _ => raise TypeError
  end.

End Sanitize.

Module SanitizeProps.
Import Entities Sanitize.

(** The [core] of a tweet as the search endpoint sends it. *)
Definition sample_core : json :=
  JDict [(u "user_results", JDict [(u "result", JDict [(u "rest_id", JStr (u "7"));
                 (u "affiliates_highlighted_label", JDict []);
                 (u "legacy", JDict [(u "created_at", JStr (u "Tue Mar 01 08:00:00 +0000 2022"));
                     (u "name", JStr (u "Nasa"));
                     (u "screen_name", JStr (u "nasa"));
                     (u "can_dm", JBool false);
                     (u "followers_count", JNum 5);
                     (u "description", JStr (u "space"));
                     (u "entities", JDict [(u "description", JDict [(u "urls", JList [JDict [(u "url", JStr (u "u"));
                                        (u "indices", JList [JNum 0; JNum 1])]])])]);
                     (u "profile_image_url_https", JStr (u "https://pbs.twimg.com/profile_images/1/abc_normal.jpg"));
                     (u "location", JStr (u "DC"))])])])].

(** A tweet with a photo, noise keys and a retweet. *)
Definition sample_tweet : json :=
  JDict [(u "rest_id", JStr (u "1"));
         (u "core", sample_core);
         (u "views", JDict [(u "count", JStr (u "42")); (u "state", JStr (u "EnabledWithCount"))]);
         (u "legacy", JDict [(u "created_at", JStr (u "Wed Oct 10 20:19:24 +0000 2018"));
             (u "full_text", JStr (u "hello world https://t.co/abc123"));
             (u "conversation_id_str", JStr (u "1"));
             (u "favorited", JBool false);
             (u "lang", JStr (u "en"));
             (u "place", JNull);
             (u "entities", JDict [(u "hashtags", JList [JDict [(u "text", JStr (u "space"));
                            (u "indices", JList [JNum 0; JNum 5])]]);
                 (u "media", JList [JDict [(u "id_str", JStr (u "9"));
                            (u "indices", JList [JNum 12; JNum 35]);
                            (u "url", JStr (u "https://t.co/abc123"));
                            (u "type", JStr (u "photo"));
                            (u "sizes", JDict [])]]);
                 (u "user_mentions", JList [JDict [(u "id_str", JStr (u "3"));
                            (u "name", JStr (u "x"));
                            (u "indices", JList [JNum 1; JNum 2])]])]);
             (u "retweeted_status_result", JDict [(u "result", JDict [(u "rest_id", JStr (u "5"));
                     (u "views", JDict [(u "count", JStr (u "9")); (u "state", JStr (u "Enabled"))]);
                     (u "legacy", JDict [(u "full_text", JStr (u "old"));
                         (u "created_at", JStr (u "Mon Jan 02 03:04:05 +0000 2017"));
                         (u "favorited", JBool false);
                         (u "id_str", JStr (u "5"))])])])])].

(** What [__processmedia] returns for [sample_tweet], computed by the code. *)
Definition sample_record : json :=
  JDict [(u "id", JStr (u "1"));
         (u "views", JDict [(u "count", JStr (u "42"))]);
         (u "core", JDict [(u "rest_id", JStr (u "7"));
             (u "legacy", JDict [(u "name", JStr (u "Nasa"));
                 (u "screen_name", JStr (u "nasa"));
                 (u "verified", JStr []);
                 (u "description", JStr (u "space"));
                 (u "entities", JDict [(u "description", JDict [(u "urls", JList [JDict [(u "url", JStr (u "u"))]])])]);
                 (u "location", JStr (u "DC"));
                 (u "profile_banner_url", JStr []);
                 (u "profile_image_url_https", JStr (u "https://pbs.twimg.com/profile_images/1/abc_400x400.jpg"));
                 (u "profile_interstitial_type", JStr []);
                 (u "url", JStr [])]);
             (u "professional", JDict [])]);
         (u "legacy", JDict [(u "created_at", JStr (u "2018-10-10T20:19:24"));
             (u "full_text", JStr (u "hello world"));
             (u "lang", JStr (u "en"));
             (u "entities", JDict [(u "hashtags", JList [JStr (u "space")]);
                 (u "media", JList [JDict [(u "url", JStr (u "https://t.co/abc123"));
                            (u "type", JStr (u "photo"))]]);
                 (u "user_mentions", JList [JDict [(u "id_str", JStr (u "3")); (u "name", JStr (u "x"))]])]);
             (u "retweeted_status_result", JDict [(u "result", JDict [(u "id", JStr (u "5"));
                     (u "views", JDict [(u "count", JStr (u "9"))]);
                     (u "core", JDict []);
                     (u "legacy", JDict [(u "full_text", JStr (u "old"));
                         (u "created_at", JStr (u "2017-01-02T03:04:05"))])])])])].

(** [sample_tweet] after [__processmedia] has cleaned it in place, computed by the code. *)
Definition sample_tweet_cleaned : json :=
  JDict [(u "rest_id", JStr (u "1"));
         (u "core", JDict [(u "user_results", JDict [(u "result", JDict [(u "rest_id", JStr (u "7"));
                     (u "legacy", JDict [(u "name", JStr (u "Nasa"));
                         (u "screen_name", JStr (u "nasa"));
                         (u "verified", JStr []);
                         (u "description", JStr (u "space"));
                         (u "entities", JDict [(u "description", JDict [(u "urls", JList [JDict [(u "url", JStr (u "u"))]])])]);
                         (u "location", JStr (u "DC"));
                         (u "profile_banner_url", JStr []);
                         (u "profile_image_url_https", JStr (u "https://pbs.twimg.com/profile_images/1/abc_400x400.jpg"));
                         (u "profile_interstitial_type", JStr []);
                         (u "url", JStr [])]);
                     (u "professional", JDict [])])])]);
         (u "views", JDict [(u "count", JStr (u "42")); (u "state", JStr (u "EnabledWithCount"))]);
         (u "legacy", JDict [(u "created_at", JStr (u "2018-10-10T20:19:24"));
             (u "full_text", JStr (u "hello world"));
             (u "lang", JStr (u "en"));
             (u "entities", JDict [(u "hashtags", JList [JStr (u "space")]);
                 (u "media", JList [JDict [(u "url", JStr (u "https://t.co/abc123"));
                            (u "type", JStr (u "photo"))]]);
                 (u "user_mentions", JList [JDict [(u "id_str", JStr (u "3")); (u "name", JStr (u "x"))]])]);
             (u "retweeted_status_result", JDict [(u "result", JDict [(u "id", JStr (u "5"));
                     (u "views", JDict [(u "count", JStr (u "9"))]);
                     (u "core", JDict []);
                     (u "legacy", JDict [(u "full_text", JStr (u "old"));
                         (u "created_at", JStr (u "2017-01-02T03:04:05"))])])])])].


(** A [legacy] without any of the noise keys of a tweet. *)
Definition noise_free (l : dict) : Prop := forall k, In k KEYS_REMOVE_TWEET -> dlookup k l = None.

(** A tweet whose [legacy] is a dictionary without noise keys. *)
Definition legacy_ok (d : json) : Prop :=
  exists l, getitem d (u "legacy") = Ok (JDict l) /\ noise_free l.

Lemma map_fst_combine {A B} (a : list A) (b : list B) : length a = length b -> map fst (combine a b) = a.
Proof.
  revert b; induction a as [|x a IH]; intros [|y b] H; cbn in *; try discriminate; [reflexivity|].
  f_equal; apply IH; congruence.
Qed.

Lemma JDict_inj a b : JDict a = JDict b -> a = b.
Proof. congruence. Qed.

Lemma user_allow_keys leg l : user_allow leg = Ok (JDict l) -> dkeys l = USER_FIELDS.
Proof.
  unfold user_allow; intros H; bind_inv H; apply Ok_inj, JDict_inj in H; subst l.
  apply map_fst_combine; symmetry; exact (mapM_length _ _ _ Ha).
Qed.

(** C4: the user record [__processuserresults] returns has a [legacy] made
    of exactly the ten allow-listed fields, in their order, and has a
    [professional] entry. *)
Theorem processuserresults_schema data r data' :
  processuserresults data = Ok (r, data') ->
  exists l, getitem r (u "legacy") = Ok (JDict l) /\ dkeys l = USER_FIELDS /\
            contains (u "professional") r = Ok true.
Proof.
  destruct data as [| | | | |dd]; intros H; try discriminate; cbn [processuserresults] in H.
  do 13 bind_inv H; injection H as <- <-.
  destruct a7 as [| | | | |l]; [unfold user_allow in Ha7; bind_inv Ha7; discriminate ..|].
  exists l; split; [|split; [exact (user_allow_keys _ _ Ha7)|]].
  - destruct a9; [injection Ha10 as <-|]; [apply (getitem_update_eq _ _ _ _ Ha8)|].
    rewrite (getitem_update_ne _ _ _ _ _ Ha10) by (apply pystr_neq; reflexivity).
    apply (getitem_update_eq _ _ _ _ Ha8).
  - destruct a9; [injection Ha10 as <-; exact Ha9|].
    apply update_dict in Ha10 as (d & -> & ->); cbn [contains]; rewrite mem_dset; reflexivity.
Qed.

Lemma noise_free_dset k v l : mem k KEYS_REMOVE_TWEET = false -> noise_free l -> noise_free (dset k v l).
Proof.
  intros Hk Hl k' Hk'; rewrite dlookup_dset_ne; [exact (Hl k' Hk')|].
  intros ->; apply mem_In in Hk'; congruence.
Qed.

Lemma created_at_step_ok d kv d' : legacy_ok d -> created_at_step d kv = Ok d' -> legacy_ok d'.
Proof.
  intros (l & Hl & Hn); destruct kv as [k v]; unfold created_at_step.
  destruct (pystr_eqb k (u "created_at")) eqn:E; [|intros H; injection H as <-; exists l; auto].
  apply pystr_eqb_eq in E; subst k; intros H; do 3 bind_inv H.
  rewrite Hl in Ha0; injection Ha0 as <-; apply update_dict in Ha1 as (l0 & [=<-] & ->).
  exists (dset (u "created_at") a l); split; [exact (getitem_update_eq _ _ _ _ H)|].
  apply noise_free_dset; [reflexivity | exact Hn].
Qed.

Lemma clean_legacy_ok d d' : clean_legacy d = Ok d' -> legacy_ok d'.
Proof.
  unfold clean_legacy; intros H; do 6 bind_inv H.
  apply items_dict in Ha4; subst a2.
  apply strip_keys_to_dict in Ha2 as (l0 & -> & ->).
  refine (foldM_invariant legacy_ok _ _ _ _ (fun s0 x s1 _ => created_at_step_ok s0 x s1) _ H).
  exists (dict_filter KEYS_REMOVE_TWEET l0); split; [exact (getitem_update_eq _ _ _ _ Ha3)|].
  intros k Hk; apply dict_filter_absent, Hk.
Qed.

Lemma retweet_step_ok d d' :
  legacy_ok d -> retweet_step d = Ok d' ->
  exists l, getitem d' (u "legacy") = Ok (JDict l) /\ noise_free l /\
            mem (u "retweeted_status_result") (dkeys l) = true.
Proof.
  intros (l & Hl & Hn); unfold retweet_step; rewrite Hl, bind_Ok; intros H; bind_inv H.
  destruct a.
  - do 2 bind_inv H; destruct a0 as [rw w]; apply set_path_cons in H as (dd & c & c' & -> & Hc & Hc' & ->).
    cbn [getitem] in Hl; rewrite Hc in Hl; injection Hl as ->.
    apply set_path_cons in Hc' as (l' & c2 & c2' & [=<-] & _ & _ & ->).
    exists (dset (u "retweeted_status_result") c2' l); split; [cbn [getitem]; rewrite dlookup_dset_eq; reflexivity|].
    split; [apply noise_free_dset; [reflexivity | exact Hn] | apply mem_dset].
  - bind_inv H; apply update_dict in Ha0 as (l' & [=<-] & ->).
    exists (dset (u "retweeted_status_result") (JDict []) l); split; [exact (getitem_update_eq _ _ _ _ H)|].
    split; [apply noise_free_dset; [reflexivity | exact Hn] | apply mem_dset].
Qed.

(** C3: the record [__processmedia] returns for a tweet with a [legacy]
    has a [legacy] without any of the twelve noise keys and with a
    [retweeted_status_result] entry (the processed retweet or the empty
    marker); for a tweet without [legacy] it is the empty dictionary. *)
Theorem processmedia_legacy entry r e' :
  processmedia entry = Ok (r, e') ->
  exists l, getitem r (u "legacy") = Ok (JDict l) /\ noise_free l /\
            (l = [] \/ mem (u "retweeted_status_result") (dkeys l) = true).
Proof.
  destruct entry as [| | | | |ed]; intros H; try discriminate; cbn [processmedia] in H.
  apply bind_Ok_inv in H as [p [_ H]]; apply bind_Ok_inv in H as [deeper [_ H]].
  apply bind_Ok_inv in H as [id [_ H]]; apply bind_Ok_inv in H as [views [_ H]].
  apply bind_Ok_inv in H as [[core d1] [_ H]]; apply bind_Ok_inv in H as [hl [_ H]].
  apply bind_Ok_inv in H as [[legacy d2] [Hleg H]]; apply bind_Ok_inv in H as [e2 [_ H]].
  injection H as <- _.
  replace (getitem (tweet_record id views core legacy) (u "legacy")) with (Ok legacy) by reflexivity.
  destruct hl.
  - apply bind_Ok_inv in Hleg as [d3 [Hc Hleg]]; apply bind_Ok_inv in Hleg as [d4 [Hr Hleg]].
    apply bind_Ok_inv in Hleg as [lg [Hg Hleg]]; injection Hleg as <- _.
    destruct (retweet_step_ok _ _ (clean_legacy_ok _ _ Hc) Hr) as (l & Hl & Hn & Hm).
    rewrite Hl in Hg; injection Hg as <-; exists l; auto.
  - injection Hleg as <- _; exists []; split; [reflexivity|]; split; [intros k _; reflexivity | left; reflexivity].
Qed.

(** [__processmedia] on a tweet with a photo, noise keys and a
    retweet gives the record and leaves the tweet as the code does: the
    expected values were computed by running xcrawl.py. *)
Example processmedia_example :
  processmedia sample_tweet = Ok (sample_record, sample_tweet_cleaned).
Proof. vm_compute; reflexivity. Qed.

Lemma processmedia_legacy_witness :
  processmedia sample_tweet = Ok (sample_record, sample_tweet_cleaned) /\
  exists l, getitem sample_record (u "legacy") = Ok (JDict l) /\ noise_free l /\
            (l = [] \/ mem (u "retweeted_status_result") (dkeys l) = true).
Proof.
  assert (E : processmedia sample_tweet = Ok (sample_record, sample_tweet_cleaned)) by (vm_compute; reflexivity).
  split; [exact E | exact (processmedia_legacy _ _ _ E)].
Defined.

Lemma processuserresults_schema_witness :
  match processuserresults sample_core with
  | Ok (r, _) => exists l, getitem r (u "legacy") = Ok (JDict l) /\ dkeys l = USER_FIELDS /\
                           contains (u "professional") r = Ok true
  | Err _ => False
  end.
Proof.
  destruct (processuserresults sample_core) as [[r d]|e] eqn:E; [exact (processuserresults_schema _ _ _ E)|].
  vm_compute in E; discriminate.
Defined.

End SanitizeProps.
