(* ===== verification/Dispatch.v ===== *)
(** * The instruction walkers of [search] and [trends]

    [search_response] is the part of [XCrawl.search] after a 200 response
    (xcrawl.py lines 862-997): it walks the timeline instructions, branches
    on the requested [product], sanitizes what it finds with
    [Sanitize.processmedia] or inline (the [People] branch), accumulates
    the [Bottom] cursor, and raises [HTTPErrorException] 404 on an empty
    result.  The loop state [walk] holds the result list and the two
    locals of [search] that are read before they may have been bound,
    [cursor_value] and [user_results].  [trends_response] is the part of
    [XCrawl.trends] after the request (lines 716-759). *)

From Stdlib Require Import String List NArith ZArith Bool Lia.
From S2P Require Import Prelude Json Timestamp Entities Sanitize.
Import ListNotations.
Open Scope py_scope.

Module Dispatch.
Import Entities Sanitize.

Record walk := mk_walk { datas : list json; cursor : option pystr; user_results : option json }.

Definition push (st : walk) (r : json) : walk :=
  mk_walk (datas st ++ [r]) (cursor st) (user_results st).

Definition with_cursor (st : walk) (c : pystr) : walk :=
  mk_walk (datas st) (Some c) (user_results st).

Definition with_user (st : walk) (ur : json) : walk :=
  mk_walk (datas st) (cursor st) (Some ur).

Definition read_cursor (st : walk) : res pystr :=
  match cursor st with
  | Some c => Ok c
  | None => raise (UnboundLocalError (u "cursor_value"))
  end.

(** [cursor_value += v] with [v] from the response. *)
Definition append_cursor (st : walk) (v : json) : res walk :=
  c <- read_cursor st ;;
  match v with
  | JStr s => Ok (with_cursor st (c ++ s))
  | _ => raise TypeError
  end.

(** [if content.get("cursorType", EMPTY) == "Bottom": cursor_value += content.get("value", EMPTY)], with EMPTY the empty string. *)
Definition cursor_check (content : json) (st : walk) : res walk :=
  ct <- get content (u "cursorType") (JStr []) ;;
  if eq_str ct (u "Bottom") then
    v <- get content (u "value") (JStr []) ;;
    append_cursor st v
  else Ok st.

Definition PEOPLE_RESULT_REMOVE : list pystr :=
  map u ["affiliates_highlighted_label"; "has_graduated_access"; "profile_image_shape"]%string.

Definition PEOPLE_LEGACY_REMOVE : list pystr :=
  map u ["can_dm"; "can_media_tag"; "fast_followers_count"; "has_custom_timelines";
         "is_translator"; "possibly_sensitive"; "translator_type"; "want_retweets";
         "withheld_in_countries"]%string.

(** Lines 909-926. *)
Definition people_legacy_step (ur : json) (kv : pystr * json) : res json :=
  let '(k, v) := kv in
  ur1 <- (if pystr_eqb k (u "profile_image_url_https") then
            v' <- replacechar v (u "400x400") ;;
            l <- getitem ur (u "legacy") ;;
            l' <- update l k v' ;;
            update ur (u "legacy") l'
          else Ok ur) ;;
  created_at_step ur1 kv.

(** [case "People"], lines 877-932: [user_results] is appended for every
    entry, also for an entry without [itemContent]. *)
Definition people_entry (st : walk) (entry : json) : res walk :=
  content <- getitem entry (u "content") ;;
  hic <- contains (u "itemContent") content ;;
  st1 <- (if hic then
            ur <- get_path content [u "itemContent"; u "user_results"; u "result"] ;;
            ur1 <- strip_keys PEOPLE_RESULT_REMOVE ur ;;
            leg <- getitem ur1 (u "legacy") ;;
            leg1 <- strip_keys PEOPLE_LEGACY_REMOVE leg ;;
            ur2 <- update ur1 (u "legacy") leg1 ;;
            kvs <- items leg1 ;;
            ur3 <- foldM people_legacy_step kvs ur2 ;;
            Ok (with_user st ur3)
          else Ok st) ;;
  st2 <- cursor_check content st1 ;;
  match user_results st2 with
  | Some ur => Ok (push st2 ur)
  | None => raise (UnboundLocalError (u "user_results"))
  end.

(** Lines 938-946 for one element of [content["items"]]. *)
Definition media_item (st : walk) (item : json) : res (json * walk) :=
  hi <- contains (u "item") item ;;
  if hi then
    inner <- getitem item (u "item") ;;
    hic <- contains (u "itemContent") inner ;;
    if hic then
      deeper <- get_path inner [u "itemContent"; u "tweet_results"; u "result"] ;;
      '(r, deeper') <- processmedia deeper ;;
      item' <- set_path item [u "item"; u "itemContent"; u "tweet_results"; u "result"] deeper' ;;
      Ok (item', push st r)
    else Ok (item, st)
  else Ok (item, st).

(** Lines 935-946: one key of [content]; every key containing [items]
    walks [content["items"]] again. *)
Definition media_key (acc : json * walk) (key_content : json) : res (json * walk) :=
  let '(content, st) := acc in
  b <- (match key_content with
        | JStr s => Ok (contains_sub (u "items") s)
        | _ => contains (u "items") key_content
        end) ;;
  if b then
    its <- getitem content (u "items") ;;
    l <- py_iter its ;;
    '(l', st') <- mapS media_item l st ;;
    content' <- update content (u "items") (write_back its l') ;;
    Ok (content', st')
  else Ok (content, st).

(** [case "Media"], lines 934-951. *)
Definition media_entry (st : walk) (entry : json) : res walk :=
  content <- getitem entry (u "content") ;;
  keys <- py_iter content ;;
  '(content', st1) <- foldM media_key keys (content, st) ;;
  cursor_check content' st1.

(** [case "Top" | "Latest"], lines 953-967. *)
Definition toplatest_entry (st : walk) (entry : json) : res walk :=
  content <- getitem entry (u "content") ;;
  hic <- contains (u "itemContent") content ;;
  st1 <- (if hic then
            c <- get entry (u "content") (JDict []) ;;
            ic <- get c (u "itemContent") (JDict []) ;;
            tr <- get ic (u "tweet_results") (JDict []) ;;
            deeper <- get tr (u "result") (JDict []) ;;
            if truthy deeper then
              '(r, _) <- processmedia deeper ;; Ok (push st r)
            else Ok st
          else Ok st) ;;
  cursor_check content st1.

(** [match product], lines 876-967. *)
Definition entry_step (product : pystr) (st : walk) (entry : json) : res walk :=
  if pystr_eqb product (u "People") then people_entry st entry
  else if pystr_eqb product (u "Media") then media_entry st entry
  else if pystr_eqb product (u "Top") || pystr_eqb product (u "Latest") then toplatest_entry st entry
  else Ok st.

(** [TimelineAddEntries], lines 872-967: [cursor_value] is reset. *)
Definition add_entries (product : pystr) (st : walk) (instr : json) : res walk :=
  entries <- getitem instr (u "entries") ;;
  es <- py_iter entries ;;
  foldM (entry_step product) es (with_cursor st []).

(** [TimelineAddToModule], lines 969-977. *)
Definition module_item (st : walk) (entry : json) : res walk :=
  hi <- contains (u "item") entry ;;
  if hi then
    deeper <- get_path entry [u "item"; u "itemContent"; u "tweet_results"; u "result"] ;;
    '(r, _) <- processmedia deeper ;;
    Ok (push st r)
  else Ok st.

Definition add_to_module (st : walk) (instr : json) : res walk :=
  mi <- getitem instr (u "moduleItems") ;;
  es <- py_iter mi ;;
  foldM module_item es st.

(** [TimelineReplaceEntry], lines 979-985. *)
Definition replace_entry (st : walk) (instr : json) : res walk :=
  c <- read_cursor st ;;
  match c with
  | [] => content <- get_path instr [u "entry"; u "content"] ;;
          cursor_check content st
  | _ :: _ => Ok st
  end.

(** [isinstance(intruction, dict) and intruction["type"] == kind]. *)
Definition is_kind (instr : json) (kind : pystr) : res bool :=
  match instr with
  | JDict _ => t <- getitem instr (u "type") ;; Ok (eq_str t kind)
  | _ => Ok false
  end.

(** The three tests of lines 872, 969 and 979, in order, on one
    instruction. *)
Definition instr_step (product : pystr) (st : walk) (instr : json) : res walk :=
  b1 <- is_kind instr (u "TimelineAddEntries") ;;
  st1 <- (if b1 then add_entries product st instr else Ok st) ;;
  b2 <- is_kind instr (u "TimelineAddToModule") ;;
  st2 <- (if b2 then add_to_module st1 instr else Ok st1) ;;
  b3 <- is_kind instr (u "TimelineReplaceEntry") ;;
  if b3 then replace_entry st2 instr else Ok st2.

Definition init_walk : walk := mk_walk [] None None.

Definition instructions_path : list pystr :=
  map u ["data"; "search_by_raw_query"; "search_timeline"; "timeline"; "instructions"]%string.

(** Lines 866-997: the results and the cursor, or the exception. *)
Definition search_response (product : pystr) (data : json) : res (list json * pystr) :=
  instrs <- get_path data instructions_path ;;
  ins <- py_iter instrs ;;
  st <- foldM (instr_step product) ins init_walk ;;
  match datas st with
  | [] => raise (HTTPErrorException 404)
  | _ :: _ => c <- read_cursor st ;; Ok (datas st, c)
  end.

(** ** [trends] *)

(** [d.get(k1, {}).get(k2, {})...get(kn, dflt)]. *)
Fixpoint get_chain (j : json) (p : list pystr) (dflt : json) : res json :=
  match p with
  | [] => Ok j
  | [k] => get j k dflt
  | k :: p' => j' <- get j k (JDict []) ;; get_chain j' p' dflt
  end.

Definition trend_item (acc : list json) (item : json) : res (list json) :=
  name <- get_chain item (map u ["item"; "content"; "trend"; "name"]%string) (JStr []) ;;
  meta <- get_chain item (map u ["item"; "content"; "trend"; "trendMetadata"; "metaDescription"]%string) (JStr []) ;;
  dom <- get_chain item (map u ["item"; "content"; "trend"; "trendMetadata"; "domainContext"]%string) (JStr []) ;;
  Ok (acc ++ [JDict [(u "name", name); (u "metaDescription", meta); (u "domainContext", dom)]]).

Definition trend_entry (acc : list json) (entry : json) : res (list json) :=
  eid <- get entry (u "entryId") JNull ;;
  if eq_str eid (u "trends") then
    its <- get_chain entry (map u ["content"; "timelineModule"; "items"]%string) (JList []) ;;
    l <- py_iter its ;;
    foldM trend_item l acc
  else Ok acc.

Definition trend_instr (acc : list json) (instr : json) : res (list json) :=
  match instr with
  | JDict _ =>
      ae <- get instr (u "addEntries") (JDict []) ;;
      if truthy ae then
        es <- get_chain instr (map u ["addEntries"; "entries"]%string) (JList []) ;;
        l <- py_iter es ;;
        foldM trend_entry l acc
      else Ok acc
  | _ => Ok acc
  end.

(** Lines 716-759: on status 200 the trends; on any other status the
    exception object is built and dropped, and [trends] returns [None]. *)
Definition trends_response (status : Z) (data : json) : res (option (list json)) :=
  if Z.eqb status 200 then
    instrs <- get_chain data (map u ["timeline"; "instructions"]%string) (JList []) ;;
    l <- py_iter instrs ;;
    r <- foldM trend_instr l [] ;;
    Ok (Some r)
  else Ok None.

End Dispatch.

Module DispatchProps.
Import Entities Sanitize Dispatch.

(** The document [json.loads] gives for a search timeline with the
    instruction list [ins]. *)
Definition response_of (ins : list json) : json :=
  JDict [(u "data", JDict [(u "search_by_raw_query", JDict [(u "search_timeline",
    JDict [(u "timeline", JDict [(u "instructions", JList ins)])])])])].

Definition KINDS : list pystr :=
  map u ["TimelineAddEntries"; "TimelineAddToModule"; "TimelineReplaceEntry"]%string.

(** An instruction none of the three tests selects: not a dictionary, or
    a dictionary whose [type] is not one of the three kinds. *)
Definition skipped (i : json) : bool :=
  match i with
  | JDict d => match dlookup (u "type") d with
               | Some t => negb (existsb (eq_str t) KINDS)
               | None => false
               end
  | _ => true
  end.

Definition PRODUCTS : list pystr := map u ["People"; "Media"; "Top"; "Latest"]%string.

(** An [AddEntries] instruction whose [entries] is a list. *)
Definition add_entries_list (i : json) : bool :=
  match i with
  | JDict d => match dlookup (u "type") d, dlookup (u "entries") d with
               | Some t, Some (JList _) => eq_str t (u "TimelineAddEntries")
               | _, _ => false
               end
  | _ => false
  end.

(** A [People] page: one user entry and the bottom cursor entry. *)
Definition people_page : list json :=
  [JDict [(u "type", JStr (u "TimelineAddEntries"));
          (u "entries", JList [JDict [(u "entryId", JStr (u "user-7"));
                     (u "content", JDict [(u "itemContent", JDict [(u "user_results", JDict [(u "result", JDict [(u "rest_id", JStr (u "7"));
                                     (u "has_graduated_access", JBool true);
                                     (u "legacy", JDict [(u "name", JStr (u "Nasa"));
                                         (u "can_dm", JBool false);
                                         (u "profile_image_url_https", JStr (u "https://pbs.twimg.com/profile_images/1/abc_normal.jpg"))])])])])])];
              JDict [(u "entryId", JStr (u "cursor-bottom"));
                     (u "content", JDict [(u "cursorType", JStr (u "Bottom")); (u "value", JStr (u "DAAC"))])]])]].

(** The user record [search] returns for it, computed by the code. *)
Definition people_user : json :=
  JDict [(u "rest_id", JStr (u "7"));
         (u "legacy", JDict [(u "name", JStr (u "Nasa"));
             (u "profile_image_url_https", JStr (u "https://pbs.twimg.com/profile_images/1/abc_400x400.jpg"))])].

(** An empty [AddEntries] and a module with one tweet. *)
Definition module_page : list json :=
  [JDict [(u "type", JStr (u "TimelineAddEntries")); (u "entries", JList [])];
   JDict [(u "type", JStr (u "TimelineAddToModule"));
          (u "moduleItems", JList [JDict [(u "entryId", JStr (u "m-2"));
                     (u "item", JDict [(u "itemContent", JDict [(u "tweet_results", JDict [(u "result", JDict [(u "rest_id", JStr (u "2"));
                                     (u "legacy", JDict [(u "full_text", JStr (u "hi"));
                                         (u "created_at", JStr (u "Wed Oct 10 20:19:24 +0000 2018"));
                                         (u "favorited", JBool true)])])])])])]])]].

(** The tweet record [search] returns for it, computed by the code. *)
Definition module_record : json :=
  JDict [(u "id", JStr (u "2"));
         (u "views", JDict []);
         (u "core", JDict []);
         (u "legacy", JDict [(u "full_text", JStr (u "hi"));
             (u "created_at", JStr (u "2018-10-10T20:19:24"));
             (u "retweeted_status_result", JDict [])])].

(** The shape the results of [search] have: [datas] holds dictionaries
    and so does the pending [user_results]. *)
Definition is_dict (j : json) : bool :=
  match j with JDict _ => true | _ => false end.

(** A property [Q] of every result and of the pending user. *)
Definition walk_ok (Q : json -> bool) (st : walk) : Prop :=
  Forall (fun j => Q j = true) (datas st) /\
  (forall ur, user_results st = Some ur -> Q ur = true).

(** A dictionary with a dictionary or a list among its values. *)
Definition nested (j : json) : bool :=
  match j with
  | JDict d => existsb (fun kv => match snd kv with JDict _ | JList _ => true | _ => false end) d
  | _ => false
  end.

Lemma get_path_response ins : get_path (response_of ins) instructions_path = Ok (JList ins).
Proof. reflexivity. Qed.

Lemma is_kind_skipped i k : skipped i = true -> In k KINDS -> is_kind i k = Ok false.
Proof.
  destruct i as [| | | | |d]; intros H Hk; try reflexivity; cbn [skipped] in H; cbn [is_kind getitem].
  destruct (dlookup (u "type") d) as [t|]; [|discriminate]; cbn [bind].
  destruct (eq_str t k) eqn:E; [|reflexivity].
  apply negb_true_iff in H; rewrite (proj2 (existsb_exists _ _) (ex_intro _ k (conj Hk E))) in H; discriminate.
Qed.

Lemma instr_step_skipped product st i : skipped i = true -> instr_step product st i = Ok st.
Proof.
  intros H; unfold instr_step.
  rewrite !(is_kind_skipped i) by (exact H || (cbn; tauto)); reflexivity.
Qed.

(** C26: an instruction of a kind the code does not handle is skipped:
    inserting it anywhere in the instruction list changes neither the
    results nor the cursor nor the exception. *)
Theorem search_skips_unknown product pre i post :
  skipped i = true ->
  search_response product (response_of (pre ++ i :: post)) =
  search_response product (response_of (pre ++ post)).
Proof.
  intros H; unfold search_response; rewrite !get_path_response; cbn [bind py_iter].
  rewrite !foldM_app; destruct (foldM (instr_step product) pre init_walk); [|reflexivity].
  cbn [bind foldM]; rewrite instr_step_skipped by exact H; reflexivity.
Qed.

Lemma search_skips_unknown_witness :
  skipped (JDict [(u "type", JStr (u "TimelineClearCache"))]) = true /\
  search_response (u "Top") (response_of [JDict [(u "type", JStr (u "TimelineClearCache"))]]) =
  search_response (u "Top") (response_of []).
Proof.
  split; [reflexivity|].
  apply (search_skips_unknown (u "Top") [] _ []); reflexivity.
Defined.

(** C29: a [TimelineReplaceEntry] before any [TimelineAddEntries] reads
    [cursor_value] before it is bound: [search] raises
    [UnboundLocalError], whatever follows. *)
Theorem search_replace_first_unbound product d rest :
  dlookup (u "type") d = Some (JStr (u "TimelineReplaceEntry")) ->
  search_response product (response_of (JDict d :: rest)) = raise (UnboundLocalError (u "cursor_value")).
Proof.
  intros H; unfold search_response; rewrite get_path_response; cbn [bind py_iter foldM].
  unfold instr_step, is_kind; cbn [getitem]; rewrite H; reflexivity.
Qed.

Lemma search_replace_first_unbound_witness :
  search_response (u "Top")
    (response_of [JDict [(u "type", JStr (u "TimelineReplaceEntry"));
                         (u "entry", JDict [(u "content", JDict [(u "cursorType", JStr (u "Bottom"))])])]]) =
  raise (UnboundLocalError (u "cursor_value")).
Proof. apply search_replace_first_unbound; reflexivity. Defined.

Lemma entry_step_unknown product st e :
  existsb (pystr_eqb product) PRODUCTS = false -> entry_step product st e = Ok st.
Proof.
  intros H; unfold entry_step; cbn [PRODUCTS map existsb] in H.
  repeat (apply orb_false_iff in H as [?H H]); rewrite H0, H1, H2, H3; reflexivity.
Qed.

Lemma instr_step_unknown_product product st i :
  existsb (pystr_eqb product) PRODUCTS = false -> add_entries_list i || skipped i = true ->
  exists st', instr_step product st i = Ok st' /\ datas st' = datas st.
Proof.
  intros Hp Hi; apply orb_true_iff in Hi as [Hi|Hi]; [|exists st; split; [apply instr_step_skipped, Hi | reflexivity]].
  destruct i as [| | | | |d]; try discriminate; cbn [add_entries_list] in Hi.
  destruct (dlookup (u "type") d) as [t|] eqn:Ht; [|discriminate].
  destruct (dlookup (u "entries") d) as [[| | | |es|]|] eqn:He; try discriminate.
  destruct t as [| | |s| |]; try discriminate; cbn [eq_str] in Hi; apply pystr_eqb_eq in Hi; subst s.
  destruct (foldM_total (fun st1 => st1 = with_cursor st []) (entry_step product) es (with_cursor st []))
    as [st' [Hf ->]]; [intros s0 x _ ->; exists (with_cursor st []); split; [apply entry_step_unknown, Hp | reflexivity] | reflexivity |].
  exists (with_cursor st []); split; [|reflexivity].
  unfold instr_step, is_kind, add_entries; cbn [getitem]; rewrite Ht; cbn [bind eq_str]; rewrite pystr_eqb_refl.
  rewrite He; cbn [bind py_iter]; rewrite Hf; reflexivity.
Qed.

(** C27: for a product other than the four the code matches, every entry of
    an [AddEntries] instruction is skipped, so a page made of such
    instructions (and of instructions of other kinds) has no result and
    [search] raises [HTTPErrorException] 404. *)
Theorem search_unknown_product_404 product ins :
  existsb (pystr_eqb product) PRODUCTS = false ->
  forallb (fun i => add_entries_list i || skipped i) ins = true ->
  search_response product (response_of ins) = raise (HTTPErrorException 404).
Proof.
  intros Hp Hins; unfold search_response; rewrite get_path_response; cbn [bind py_iter].
  destruct (foldM_total (fun st => datas st = []) (instr_step product) ins init_walk) as [st [Hf Hd]].
  - intros s0 x Hx H0; rewrite forallb_forall in Hins.
    destruct (instr_step_unknown_product product s0 x Hp (Hins x Hx)) as [s1 [E Hs]].
    exists s1; split; [exact E | rewrite Hs; exact H0].
  - reflexivity.
  - rewrite Hf; cbn [bind]; rewrite Hd; reflexivity.
Qed.

Lemma search_unknown_product_404_witness :
  search_response (u "Videos")
    (response_of [JDict [(u "type", JStr (u "TimelineAddEntries"));
                         (u "entries", JList [JDict [(u "content", JDict [])]])];
                  JDict [(u "type", JStr (u "TimelineTerminateTimeline"))]]) =
  raise (HTTPErrorException 404).
Proof. apply search_unknown_product_404; reflexivity. Defined.

Lemma cursor_check_user content st st' :
  cursor_check content st = Ok st' -> user_results st' = user_results st.
Proof.
  unfold cursor_check, append_cursor, read_cursor; intros H; bind_inv H.
  destruct (eq_str a (u "Bottom")); [|congruence].
  bind_inv H; destruct (cursor st); [|discriminate]; cbn [bind] in H.
  destruct a0; try discriminate; injection H as <-; reflexivity.
Qed.

(** C28: in the [People] branch an entry without [itemContent], such as
    the bottom cursor entry, appends the [user_results] of the previous
    entry again after the cursor update, or raises [UnboundLocalError]
    when no user came before it. *)
Theorem people_entry_without_item st e c st' :
  getitem e (u "content") = Ok (JDict c) -> dlookup (u "itemContent") c = None ->
  cursor_check (JDict c) st = Ok st' ->
  people_entry st e = match user_results st with
                      | Some ur => Ok (push st' ur)
                      | None => raise (UnboundLocalError (u "user_results"))
                      end.
Proof.
  intros He Hi Hc; unfold people_entry; rewrite He, bind_Ok; cbn [contains].
  replace (mem (u "itemContent") (dkeys c)) with false
    by (symmetry; apply not_true_iff_false; intros Hm; apply mem_dkeys_dlookup in Hm as [v Hv]; congruence).
  cbn [bind]; rewrite Hc, bind_Ok, (cursor_check_user _ _ _ Hc); reflexivity.
Qed.

(** The bottom cursor entry of [people_page] after its user: the user
    again, and the cursor read. *)
Lemma people_entry_without_item_witness :
  people_entry (mk_walk [people_user] (Some []) (Some people_user))
    (JDict [(u "entryId", JStr (u "cursor-bottom"));
            (u "content", JDict [(u "cursorType", JStr (u "Bottom")); (u "value", JStr (u "DAAC"))])]) =
  Ok (mk_walk [people_user; people_user] (Some (u "DAAC")) (Some people_user)).
Proof.
  rewrite (people_entry_without_item (mk_walk [people_user] (Some []) (Some people_user)) _
             [(u "cursorType", JStr (u "Bottom")); (u "value", JStr (u "DAAC"))]
             (mk_walk [people_user] (Some (u "DAAC")) (Some people_user))) by reflexivity.
  reflexivity.
Defined.

(** a [People] page with one user and the bottom cursor returns that
    user twice, as the code does. *)
Example search_people_duplicates :
  search_response (u "People") (response_of people_page) = Ok ([people_user; people_user], u "DAAC").
Proof. vm_compute; reflexivity. Qed.

(** for a product outside the four the code matches, the tweets of a
    [TimelineAddToModule] instruction are still returned. *)
Example search_unknown_product_module :
  search_response (u "Videos") (response_of module_page) = Ok ([module_record], []).
Proof. vm_compute; reflexivity. Qed.

(** On a status other than 200 [trends] builds an [HTTPErrorException]
    without raising it and returns [None], whatever the body. *)
Example trends_error_status_dropped :
  trends_response 503 (JDict []) = Ok None /\ trends_response 429 JNull = Ok None.
Proof. split; reflexivity. Qed.

(** *** The shape of the results *)

Lemma update_is_dict j k v j' : update j k v = Ok j' -> is_dict j' = true.
Proof. intros H; apply update_dict in H as [d [_ ->]]; reflexivity. Qed.

Lemma tweet_views_dict d v : tweet_views d = Ok v -> is_dict v = true.
Proof.
  unfold tweet_views; intros H; bind_inv H; destruct a; [|injection H as <-; reflexivity].
  repeat bind_inv H; injection H as <-; reflexivity.
Qed.

Lemma processmedia_record e r e' :
  processmedia e = Ok (r, e') ->
  exists id views core legacy, is_dict views = true /\ r = tweet_record id views core legacy.
Proof.
  destruct e as [| | | | |d]; cbn [processmedia]; try discriminate; intros H.
  binds_inv H; injection H as <- _; do 4 eexists; split; [eapply tweet_views_dict; eassumption | reflexivity].
Qed.

Lemma In_dset k v d : exists k', In (k', v) (dset k v d).
Proof.
  induction d as [|[k' v'] d IH]; cbn [dset]; [eexists; left; reflexivity|].
  destruct (pystr_eqb k k'); [eexists; left; reflexivity|].
  destruct IH as [k'' H]; exists k''; right; exact H.
Qed.

Lemma walk_ok_with_cursor Q st c : walk_ok Q st -> walk_ok Q (with_cursor st c).
Proof. intros H; exact H. Qed.

Lemma walk_ok_push Q st r : walk_ok Q st -> Q r = true -> walk_ok Q (push st r).
Proof.
  intros [Hd Hu] Hr; split; [apply Forall_app; split; [exact Hd | constructor; [exact Hr | constructor]] | exact Hu].
Qed.

Lemma cursor_check_ok Q content st st' :
  walk_ok Q st -> cursor_check content st = Ok st' -> walk_ok Q st'.
Proof.
  unfold cursor_check, append_cursor, read_cursor; intros Hs H; bind_inv H.
  destruct (eq_str a (u "Bottom")); [|congruence].
  bind_inv H; destruct (cursor st); [|discriminate]; cbn [bind] in H.
  destruct a0; try discriminate; injection H as <-; exact Hs.
Qed.

(** Every record the walk appends satisfies [Q] when the records
    [__processmedia] builds do and when storing a dictionary under
    [legacy] establishes it. *)
Section Records.
Variable Q : json -> bool.
Hypothesis Q_media : forall e r e', processmedia e = Ok (r, e') -> Q r = true.
Hypothesis Q_legacy : forall j l j', is_dict l = true -> update j (u "legacy") l = Ok j' -> Q j' = true.

Lemma people_legacy_step_Q ur kv ur' :
  people_legacy_step ur kv = Ok ur' -> Q ur = true -> Q ur' = true.
Proof.
  destruct kv as [k v]; unfold people_legacy_step, created_at_step; intros H Hd; bind_inv H.
  assert (Hu : Q a = true).
  { destruct (pystr_eqb k _); [|injection Ha as <-; exact Hd].
    repeat bind_inv Ha; eapply Q_legacy; [|eassumption]; eapply update_is_dict; eassumption. }
  destruct (pystr_eqb k (u "created_at")); [|congruence].
  repeat bind_inv H; eapply Q_legacy; [|eassumption]; eapply update_is_dict; eassumption.
Qed.

Lemma people_entry_ok st e st' : walk_ok Q st -> people_entry st e = Ok st' -> walk_ok Q st'.
Proof.
  unfold people_entry; intros Hs H; bind_inv H; bind_inv H.
  apply bind_Ok_inv in H as [st1 [Hst1 H]]; apply bind_Ok_inv in H as [st2 [Hst2 H]].
  assert (H1 : walk_ok Q st1).
  { destruct a0; [|congruence].
    repeat bind_inv Hst1; injection Hst1 as <-; split; [apply Hs|]; cbn; intros ur [= <-].
    match goal with
    | Hu : update _ (u "legacy") ?l = Ok ?j, Hi : items ?l = Ok _, Hf : foldM _ _ ?j = Ok _ |- _ =>
        apply items_dict in Hi; subst l; apply Q_legacy in Hu; [|reflexivity];
        eapply (foldM_invariant (fun j => Q j = true)); [|exact Hu|exact Hf]
    end.
    intros; eapply people_legacy_step_Q; eauto. }
  apply (cursor_check_ok _ _ _ _ H1) in Hst2.
  destruct (user_results st2) eqn:Eu; [|discriminate]; injection H as <-.
  apply walk_ok_push; [exact Hst2 | apply (proj2 Hst2); exact Eu].
Qed.

Lemma media_item_ok st i i' st' : walk_ok Q st -> media_item st i = Ok (i', st') -> walk_ok Q st'.
Proof.
  unfold media_item; intros Hs H; bind_inv H; destruct a; [|congruence].
  bind_inv H; bind_inv H; destruct a0; [|congruence].
  binds_inv H.
  injection H as _ <-; apply walk_ok_push; [exact Hs | eapply Q_media; eassumption].
Qed.

Lemma media_key_ok acc k acc' : walk_ok Q (snd acc) -> media_key acc k = Ok acc' -> walk_ok Q (snd acc').
Proof.
  destruct acc as [content st]; unfold media_key; intros Hs H; bind_inv H; destruct a; [|congruence].
  binds_inv H.
  injection H as <-; eapply mapS_invariant; [|exact Hs|eassumption].
  intros; eapply media_item_ok; eassumption.
Qed.

Lemma media_entry_ok st e st' : walk_ok Q st -> media_entry st e = Ok st' -> walk_ok Q st'.
Proof.
  unfold media_entry; intros Hs H; bind_inv H; bind_inv H; bind_inv H; destruct a1 as [c st1].
  eapply cursor_check_ok; [|exact H].
  exact (foldM_invariant (fun acc => walk_ok Q (snd acc)) _ _ (a, st) (c, st1)
           (fun s0 x s1 _ => media_key_ok s0 x s1) Hs Ha1).
Qed.

Lemma toplatest_entry_ok st e st' : walk_ok Q st -> toplatest_entry st e = Ok st' -> walk_ok Q st'.
Proof.
  unfold toplatest_entry; intros Hs H; bind_inv H; bind_inv H; bind_inv H.
  eapply cursor_check_ok; [|exact H].
  destruct a0; [|congruence]; repeat bind_inv Ha1.
  lazymatch type of Ha1 with (if truthy ?d then _ else _) = _ => destruct (truthy d) end; [|congruence].
  binds_inv Ha1; injection Ha1 as <-.
  apply walk_ok_push; [exact Hs | eapply Q_media; eassumption].
Qed.

Lemma entry_step_ok product st e st' : walk_ok Q st -> entry_step product st e = Ok st' -> walk_ok Q st'.
Proof.
  unfold entry_step; intros Hs H.
  destruct (pystr_eqb product (u "People")); [eapply people_entry_ok; eassumption|].
  destruct (pystr_eqb product (u "Media")); [eapply media_entry_ok; eassumption|].
  destruct (_ || _); [eapply toplatest_entry_ok; eassumption | congruence].
Qed.

Lemma module_item_ok st e st' : walk_ok Q st -> module_item st e = Ok st' -> walk_ok Q st'.
Proof.
  unfold module_item; intros Hs H; bind_inv H; destruct a; [|congruence].
  binds_inv H; injection H as <-.
  apply walk_ok_push; [exact Hs | eapply Q_media; eassumption].
Qed.

Lemma instr_step_ok product st i st' : walk_ok Q st -> instr_step product st i = Ok st' -> walk_ok Q st'.
Proof.
  unfold instr_step, add_entries, add_to_module, replace_entry; intros Hs H.
  apply bind_Ok_inv in H as [b1 [_ H]]; apply bind_Ok_inv in H as [st1 [E1 H]].
  apply bind_Ok_inv in H as [b2 [_ H]]; apply bind_Ok_inv in H as [st2 [E2 H]].
  apply bind_Ok_inv in H as [b3 [_ H]].
  assert (H1 : walk_ok Q st1).
  { destruct b1; [|congruence]; repeat bind_inv E1.
    eapply foldM_invariant; [|apply walk_ok_with_cursor, Hs|exact E1].
    intros; eapply entry_step_ok; eassumption. }
  assert (H2 : walk_ok Q st2).
  { destruct b2; [|congruence]; repeat bind_inv E2.
    eapply foldM_invariant; [|exact H1|exact E2].
    intros; eapply module_item_ok; eassumption. }
  destruct b3; [|congruence]; bind_inv H; destruct a; [|congruence].
  bind_inv H; eapply cursor_check_ok; eassumption.
Qed.

Lemma search_results_Q product data ds c :
  search_response product data = Ok (ds, c) -> Forall (fun j => Q j = true) ds.
Proof.
  unfold search_response; intros H; bind_inv H; bind_inv H; bind_inv H.
  assert (Hw : walk_ok Q a1).
  { apply (foldM_invariant (walk_ok Q) (instr_step product) a0 init_walk a1);
      [|split; [constructor | discriminate]|exact Ha1].
    intros; eapply instr_step_ok; eassumption. }
  destruct (datas a1) eqn:Ed; [discriminate|]; bind_inv H; injection H as <- _.
  rewrite <- Ed; apply Hw.
Qed.

End Records.

(** The tweets have a [views] dictionary; the users a [legacy] one. *)
Lemma processmedia_nested e r e' : processmedia e = Ok (r, e') -> nested r = true.
Proof.
  intros H; apply processmedia_record in H as (id & views & core & legacy & Hv & ->).
  destruct views as [| | | | |l]; try discriminate; apply existsb_exists.
  exists (u "views", JDict l); split; [right; left; reflexivity | reflexivity].
Qed.

Lemma update_legacy_nested j l j' : is_dict l = true -> update j (u "legacy") l = Ok j' -> nested j' = true.
Proof.
  intros Hl H; apply update_dict in H as [d [_ ->]]; cbn [nested]; apply existsb_exists.
  destruct (In_dset (u "legacy") l d) as [k Hk].
  exists (k, l); split; [exact Hk | destruct l; try discriminate; reflexivity].
Qed.

Lemma nested_dict j : nested j = true -> is_dict j = true.
Proof. destruct j; try discriminate; reflexivity. Qed.

Lemma search_results_nonempty product data ds c : search_response product data = Ok (ds, c) -> ds <> [].
Proof.
  unfold search_response; intros H; bind_inv H; bind_inv H; bind_inv H.
  destruct (datas a1); [discriminate|]; bind_inv H; injection H as <- _; discriminate.
Qed.

(** Every record [search] returns holds a dictionary or a list as one of
    its values. *)
Lemma search_results_nested product data ds c :
  search_response product data = Ok (ds, c) -> Forall (fun j => nested j = true) ds.
Proof. apply search_results_Q; [exact processmedia_nested | exact update_legacy_nested]. Qed.

End DispatchProps.
