(* ===== verification/Auth.v ===== *)
(** * Session state and authentication

    The session of an [XCrawl] object is its cookie and its header
    dictionary (xcrawl.py lines 164-186).  [init] is [XCrawl.__init__],
    [csrftoken] is [XCrawl.__Csrftoken] (lines 209-218), [guest_token] is
    [XCrawl.__guest_token] (lines 188-207), and [authenticate] is the token
    step of [search] and [trends] (lines 702-706 and 843-848).  The HTTP
    client is the interface [Transport]: the theorems hold whatever it
    answers. *)

From Stdlib Require Import String List NArith ZArith Bool Lia.
From S2P Require Import Prelude Json.
Import ListNotations.
Open Scope py_scope.
Open Scope N_scope.

Module Auth.

Record session := mk_session { cookie : option pystr; headers : dict }.

(** What the code needs of [requests.Session]: the status and the JSON body
    of the guest-token activation [POST] for the headers it is sent with. *)
Class Transport := { post_guest : dict -> Z * json }.

Definition BEARER : pystr :=
  u ("Bearer AAAAAAAAAAAAAAAAAAAAANRILgAAAAAAnNwIzUejRCOuH5E6I8xnZz4puTs%3D" ++
     "1Zv7ttfk8LF81IUq16cHjhLTvJu4FA33AGWWjCpTnA")%string.

(** The headers set by lines 175-180, in order. *)
Definition base_headers : dict :=
  [(u "Accept", JStr (u "application/json, text/plain, */*"));
   (u "Accept-Language", JStr (u "id-ID,id;q=0.9,en-US;q=0.8,en;q=0.7"));
   (u "Sec-Fetch-Dest", JStr (u "empty"));
   (u "Sec-Fetch-Mode", JStr (u "cors"));
   (u "Sec-Fetch-Site", JStr (u "same-site"));
   (u "Authorization", JStr BEARER)].

(** [XCrawl(cookie)]: any argument that is not a [str], [None] included,
    raises [TypeError]. *)
Definition init (c : json) : res session :=
  match c with
  | JStr s => Ok (mk_session (Some s) (dset (u "Cookie") (JStr s) base_headers))
  | _ => raise TypeError
  end.

(** [[a-zA-Z0-9_-]]. *)
Definition token_char (c : N) : bool :=
  ((97 <=? c) && (c <=? 122)) || ((65 <=? c) && (c <=? 90)) ||
  ((48 <=? c) && (c <=? 57)) || N.eqb c 95 || N.eqb c 45.

Fixpoint token_run (s : pystr) : pystr :=
  match s with
  | c :: s' => if token_char c then c :: token_run s' else []
  | [] => []
  end.

(** [re.search(r'ct0=([a-zA-Z0-9_-]+)', s).group(1)]: the leftmost [ct0=]
    followed by at least one token character, and the greedy run. *)
Fixpoint csrf_search (s : pystr) : option pystr :=
  match s with
  | [] => None
  | _ :: s' =>
      if prefixb (u "ct0=") s then
        match token_run (skipn 4%nat s) with
        | [] => csrf_search s'
        | t => Some t
        end
      else csrf_search s'
  end.

(** [XCrawl.__Csrftoken]. *)
Definition csrftoken (st : session) : res pystr :=
  match cookie st with
  | None => raise TypeError
  | Some c => match csrf_search c with
              | Some t => Ok t
              | None => raise CSRFTokenMissingError
              end
  end.

(** [XCrawl.__guest_token] with the user agent [ua] Faker draws: the token
    (the JSON value of [guest_token], [None] if absent) and the session. *)
Definition guest_token `{Transport} (ua : pystr) (st : session) : res (json * session) :=
  let h1 := dset (u "User-Agent") (JStr ua) (headers st) in
  let '(status, body) := post_guest h1 in
  content <- get body (u "guest_token") JNull ;;
  if Z.eqb status 200 then
    let h2 := dset (u "X-Guest-Token") content h1 in
    Ok (match dlookup (u "X-Guest-Token") h2 with Some v => v | None => JNull end,
        mk_session (cookie st) h2)
  else raise (HTTPErrorException status).

(** Lines 843-848: the user agent of the request, then the token header.
    [ua] is the agent of [search], [ua_guest] the one [__guest_token]
    draws. *)
Definition authenticate `{Transport} (ua ua_guest : pystr) (st : session) : res session :=
  let st1 := mk_session (cookie st) (dset (u "User-Agent") (JStr ua) (headers st)) in
  match cookie st1 with
  | None =>
      '(t, st2) <- guest_token ua_guest st1 ;;
      Ok (mk_session (cookie st2) (dset (u "X-Guest-Token") t (headers st2)))
  | Some _ =>
      t <- csrftoken st1 ;;
      Ok (mk_session (cookie st1) (dset (u "X-Csrf-Token") (JStr t) (headers st1)))
  end.

End Auth.

Module AuthProps.
Import Auth.

(** Sessions an [XCrawl] object can be in: built by the constructor, then
    authenticated any number of times with any transport and user agents. *)
Inductive reachable : session -> Prop :=
| reach_init c st : init c = Ok st -> reachable st
| reach_auth (T : Transport) ua ua' st st' :
    reachable st -> @authenticate T ua ua' st = Ok st' -> reachable st'.

(** The invariant of the session: a cookie is set and sent, the fixed
    headers keep their values, no header name is duplicated. *)
Definition session_ok (st : session) : Prop :=
  NoDup (dkeys (headers st)) /\
  Forall (fun kv => dlookup (fst kv) (headers st) = Some (snd kv)) base_headers /\
  exists c, cookie st = Some c /\ dlookup (u "Cookie") (headers st) = Some (JStr c).

(** The cookie of a logged-in browser session. *)
Definition sample_cookie : pystr := u "guest_id=v1%3A1; ct0=abc123_XY-z; lang=en".

Lemma base_headers_lookup_dset k v h :
  ~ In k (dkeys base_headers) ->
  Forall (fun kv => dlookup (fst kv) h = Some (snd kv)) base_headers ->
  Forall (fun kv => dlookup (fst kv) (dset k v h) = Some (snd kv)) base_headers.
Proof.
  intros Hk Hall; apply Forall_forall; intros [k' v'] Hin; simpl.
  rewrite dlookup_dset_ne.
  - exact (proj1 (Forall_forall _ _) Hall _ Hin).
  - intros ->; apply Hk, in_map_iff; exists (k', v'); auto.
Qed.

Lemma session_ok_dset st k v :
  ~ In k (dkeys base_headers) -> k <> u "Cookie" ->
  session_ok st -> session_ok (mk_session (cookie st) (dset k v (headers st))).
Proof.
  intros Hb Hc (Hnd & Hall & c & Hck & Hcl); split; [|split]; simpl.
  - apply NoDup_dset, Hnd.
  - apply base_headers_lookup_dset; assumption.
  - exists c; split; [exact Hck|]; rewrite dlookup_dset_ne; auto.
Qed.

Lemma not_base_ua : ~ In (u "User-Agent") (dkeys base_headers).
Proof. simpl; intuition discriminate. Qed.

Lemma not_base_csrf : ~ In (u "X-Csrf-Token") (dkeys base_headers).
Proof. simpl; intuition discriminate. Qed.

Lemma init_session_ok c st : init c = Ok st -> session_ok st.
Proof.
  destruct c; simpl; try discriminate; intros [= <-].
  split; [|split].
  - simpl; repeat constructor; simpl; intuition discriminate.
  - repeat constructor.
  - exists s; split; reflexivity.
Qed.

(** every reachable session satisfies [session_ok]: the constructor
    establishes it and each authentication keeps it. *)
Theorem reachable_session_ok st : reachable st -> session_ok st.
Proof.
  induction 1 as [c st Hinit | T ua ua' st st' Hr IH Hauth].
  - eapply init_session_ok; eauto.
  - pose proof IH as (_ & _ & c & Hck & _).
    unfold authenticate in Hauth; simpl in Hauth; rewrite Hck in Hauth.
    unfold csrftoken in Hauth; simpl in Hauth.
    destruct (csrf_search c) as [t|]; simpl in Hauth; [|discriminate].
    injection Hauth as <-; rewrite <- Hck.
    apply (session_ok_dset (mk_session (cookie st) (dset (u "User-Agent") (JStr ua) (headers st))));
      [exact not_base_csrf | discriminate |].
    apply session_ok_dset; [exact not_base_ua | discriminate | exact IH].
Qed.
(** The greedy token run: token characters, and no token character after. *)
Lemma token_run_split s :
  exists post, s = token_run s ++ post /\ token_run post = [] /\ forallb token_char (token_run s) = true.
Proof.
  induction s as [|c s IH]; simpl; [exists []; auto|].
  destruct (token_char c) eqn:Hc; simpl.
  - destruct IH as (post & E & Hp & Hf); exists post; rewrite Hc; simpl; split; [f_equal; exact E|auto].
  - exists (c :: s); simpl; rewrite Hc; auto.
Qed.

Lemma csrf_search_cons x s :
  csrf_search (x :: s) =
  if prefixb (u "ct0=") (x :: s)
  then match token_run (skipn 4 (x :: s)) with [] => csrf_search s | t => Some t end
  else csrf_search s.
Proof. reflexivity. Qed.

Lemma csrf_search_found pre c tail :
  token_char c = true -> exists t, csrf_search (pre ++ u "ct0=" ++ c :: tail) = Some t.
Proof.
  intros Hc; induction pre as [|x pre IH].
  - simpl; rewrite Hc; eexists; reflexivity.
  - rewrite <- app_comm_cons, csrf_search_cons.
    destruct (prefixb (u "ct0=") (x :: pre ++ u "ct0=" ++ c :: tail)); [|exact IH].
    destruct (token_run _); [exact IH | eexists; reflexivity].
Qed.

Lemma csrf_search_none s :
  (forall pre c tail, s = pre ++ u "ct0=" ++ c :: tail -> token_char c = false) ->
  csrf_search s = None.
Proof.
  induction s as [|x s IH]; intros H; [reflexivity|]; rewrite csrf_search_cons.
  assert (IH' : csrf_search s = None)
    by (apply IH; intros pre c tail E; apply (H (x :: pre) c tail); rewrite E; reflexivity).
  destruct (prefixb (u "ct0=") (x :: s)) eqn:Hp; [|exact IH'].
  apply prefixb_true in Hp; remember (skipn (length (u "ct0=")) (x :: s)) as r eqn:Er.
  change (length (u "ct0=")) with 4%nat in Er; rewrite <- Er.
  destruct r as [|c tail]; [exact IH'|].
  cbn [token_run]; rewrite (H [] c tail Hp); exact IH'.
Qed.

Lemma csrf_search_some s t :
  csrf_search s = Some t ->
  exists pre post, s = pre ++ u "ct0=" ++ t ++ post /\ t <> [] /\
                   forallb token_char t = true /\ token_run post = [].
Proof.
  revert t; induction s as [|x s IH]; intros t H; [discriminate|]; rewrite csrf_search_cons in H.
  destruct (prefixb (u "ct0=") (x :: s)) eqn:Hp.
  - destruct (token_run (skipn 4 (x :: s))) as [|c r] eqn:Ht.
    + destruct (IH t H) as (pre & post & E & R); exists (x :: pre), post; rewrite E; auto.
    + injection H as <-; apply prefixb_true in Hp.
      destruct (token_run_split (skipn 4 (x :: s))) as (post & E & Hpost & Hf).
      rewrite Ht in E, Hf; exists [], post; split; [|split; [discriminate | auto]].
      change (length (u "ct0=")) with 4%nat in Hp; rewrite Hp at 1; rewrite E; reflexivity.
  - destruct (IH t H) as (pre & post & E & R); exists (x :: pre), post; rewrite E; auto.
Qed.

(** C15: [__Csrftoken] raises [CSRFTokenMissingError] exactly when no [ct0=]
    of the cookie is followed by a token character, whatever surrounds it;
    otherwise the token it returns is a non-empty run of token characters
    that follows a [ct0=] of the cookie and is not followed by another
    token character. *)
Theorem csrftoken_spec st c :
  cookie st = Some c ->
  (csrftoken st = raise CSRFTokenMissingError <->
   (forall pre ch tail, c = pre ++ u "ct0=" ++ ch :: tail -> token_char ch = false)) /\
  (forall t, csrftoken st = Ok t ->
   exists pre post, c = pre ++ u "ct0=" ++ t ++ post /\ t <> [] /\
                    forallb token_char t = true /\ token_run post = []).
Proof.
  intros Hc; unfold csrftoken; rewrite Hc; split.
  - split.
    + intros Hm pre ch tail E; destruct (token_char ch) eqn:Hch; [|reflexivity].
      destruct (csrf_search_found pre ch tail Hch) as [t Ht]; rewrite E, Ht in Hm; discriminate.
    + intros H; rewrite (csrf_search_none c H); reflexivity.
  - intros t; destruct (csrf_search c) eqn:E; intros H; [injection H as <-|discriminate].
    apply csrf_search_some, E.
Qed.

Lemma csrftoken_spec_witness :
  (exists st, init (JStr sample_cookie) = Ok st /\ cookie st = Some sample_cookie) /\
  csrftoken (mk_session (Some sample_cookie) []) = Ok (u "abc123_XY-z") /\
  exists pre post, sample_cookie = pre ++ u "ct0=" ++ u "abc123_XY-z" ++ post.
Proof.
  split; [eexists; split; reflexivity|]; split; [vm_compute; reflexivity|].
  destruct (proj2 (csrftoken_spec (mk_session (Some sample_cookie) []) sample_cookie eq_refl)
             (u "abc123_XY-z") ltac:(vm_compute; reflexivity)) as (pre & post & E & _).
  exists pre, post; exact E.
Defined.

(** C32: the constructor rejects the default [cookie=None] with [TypeError],
    so every [XCrawl] object has a cookie and authentication never takes
    the guest-token branch: its result does not depend on what the
    activation endpoint would answer. *)
Theorem guest_branch_unreachable :
  init JNull = raise TypeError /\
  forall c st, init c = Ok st ->
  forall (T1 T2 : Transport) ua ua', @authenticate T1 ua ua' st = @authenticate T2 ua ua' st.
Proof.
  split; [reflexivity|].
  intros c st H T1 T2 ua ua'; destruct c; simpl in H; try discriminate.
  injection H as <-; reflexivity.
Qed.

Lemma guest_branch_unreachable_witness :
  init (JStr sample_cookie) = Ok (mk_session (Some sample_cookie) (dset (u "Cookie") (JStr sample_cookie) base_headers)) /\
  forall (T1 T2 : Transport) ua ua',
    @authenticate T1 ua ua' (mk_session (Some sample_cookie) (dset (u "Cookie") (JStr sample_cookie) base_headers)) =
    @authenticate T2 ua ua' (mk_session (Some sample_cookie) (dset (u "Cookie") (JStr sample_cookie) base_headers)).
Proof.
  split; [reflexivity|].
  intros T1 T2 ua ua'; apply (proj2 guest_branch_unreachable (JStr sample_cookie)); reflexivity.
Defined.
(** the pattern is not anchored at a cookie boundary: a cookie whose
    name ends in [ct0] hides the real token. *)
Example csrftoken_unanchored :
  csrftoken (mk_session (Some (u "xct0=evil; ct0=good")) []) = Ok (u "evil").
Proof. vm_compute; reflexivity. Qed.

End AuthProps.
