(* ===== verification/Query.v ===== *)
(** * Percent encoding: [urllib.parse.quote] and [unquote]

    [quote] and [unquote] are [urllib.parse.quote] (with its default
    [safe='/']) and [urllib.parse.unquote] (UTF-8, [errors='replace']),
    which [XCrawl.search] calls on the raw query (xcrawl.py line 784), on
    the [rawQuery] value it finds in the serialized variables (line 831)
    and on both serialized parameters (lines 836-837).  UTF-8 is written
    with division and remainder by powers of 64, which is what CPython's
    shifts and masks compute.  The main result is that [unquote] inverts
    [quote] on every string of Unicode scalar values. *)

From Stdlib Require Import String List NArith ZArith Bool Lia.
From S2P Require Import Prelude Json.
Import ListNotations.
Open Scope py_scope.
Open Scope N_scope.

Module Query.

(** ** UTF-8 *)

(** The bytes of one code point; a surrogate cannot be encoded. *)
Definition utf8_char (c : N) : res (list N) :=
  if c <? 0x80 then Ok [c]
  else if c <? 0x800 then Ok [0xC0 + c / 64; 0x80 + c mod 64]
  else if c <? 0x10000 then
    if (0xD800 <=? c) && (c <=? 0xDFFF) then raise UnicodeEncodeError
    else Ok [0xE0 + c / 4096; 0x80 + (c / 64) mod 64; 0x80 + c mod 64]
  else if c <? 0x110000 then
    Ok [0xF0 + c / 262144; 0x80 + (c / 4096) mod 64; 0x80 + (c / 64) mod 64; 0x80 + c mod 64]
  else raise UnicodeEncodeError.

(** [s.encode('utf-8')]. *)
Definition utf8_encode (s : pystr) : res (list N) :=
  l <- mapM utf8_char s ;; Ok (concat l).

Definition replacement_char : N := 0xFFFD.

Definition is_cont (b : N) : bool := (0x80 <=? b) && (b <=? 0xBF).

(** For a lead byte: the number of continuation bytes and the range of the
    first one, from the table of well-formed UTF-8. *)
Definition lead_info (b : N) : option (nat * N * N) :=
  if (0xC2 <=? b) && (b <=? 0xDF) then Some (1%nat, 0x80, 0xBF)
  else if b =? 0xE0 then Some (2%nat, 0xA0, 0xBF)
  else if (0xE1 <=? b) && (b <=? 0xEC) then Some (2%nat, 0x80, 0xBF)
  else if b =? 0xED then Some (2%nat, 0x80, 0x9F)
  else if (0xEE <=? b) && (b <=? 0xEF) then Some (2%nat, 0x80, 0xBF)
  else if b =? 0xF0 then Some (3%nat, 0x90, 0xBF)
  else if (0xF1 <=? b) && (b <=? 0xF3) then Some (3%nat, 0x80, 0xBF)
  else if b =? 0xF4 then Some (3%nat, 0x80, 0x8F)
  else None.

(** [bytes.decode('utf-8', 'replace')]: an ill-formed sequence becomes one
    U+FFFD for its longest valid prefix, and decoding resumes at the byte
    that broke it. *)
Fixpoint utf8_decode (bs : list N) : pystr :=
  match bs with
  | [] => []
  | b1 :: t1 =>
      if b1 <? 0x80 then b1 :: utf8_decode t1 else
      match lead_info b1 with
      | None => replacement_char :: utf8_decode t1
      | Some (n, lo, hi) =>
          match t1 with
          | [] => [replacement_char]
          | b2 :: t2 =>
              if (lo <=? b2) && (b2 <=? hi) then
                match n with
                | 1%nat => ((b1 - 0xC0) * 64 + (b2 - 0x80)) :: utf8_decode t2
                | 2%nat =>
                    match t2 with
                    | [] => [replacement_char]
                    | b3 :: t3 =>
                        if is_cont b3
                        then ((b1 - 0xE0) * 4096 + (b2 - 0x80) * 64 + (b3 - 0x80)) :: utf8_decode t3
                        else replacement_char :: utf8_decode t2
                    end
                | _ =>
                    match t2 with
                    | [] => [replacement_char]
                    | b3 :: t3 =>
                        if is_cont b3 then
                          match t3 with
                          | [] => [replacement_char]
                          | b4 :: t4 =>
                              if is_cont b4
                              then ((b1 - 0xF0) * 262144 + (b2 - 0x80) * 4096 +
                                    (b3 - 0x80) * 64 + (b4 - 0x80)) :: utf8_decode t4
                              else replacement_char :: utf8_decode t3
                          end
                        else replacement_char :: utf8_decode t2
                    end
                end
              else replacement_char :: utf8_decode t1
          end
      end
  end.

(** ** [urllib.parse.quote] and [unquote] *)

(** [_ALWAYS_SAFE] and the default [safe='/']. *)
Definition quote_safe (b : N) : bool :=
  ((65 <=? b) && (b <=? 90)) || ((97 <=? b) && (b <=? 122)) || ((48 <=? b) && (b <=? 57)) ||
  (b =? 95) || (b =? 46) || (b =? 45) || (b =? 126) || (b =? 47).

Definition hex_upper (d : N) : N := if d <? 10 then 48 + d else 55 + d.

Definition quote_byte (b : N) : pystr :=
  if quote_safe b then [b] else [37; hex_upper (b / 16); hex_upper (b mod 16)].

Definition quote (s : pystr) : res pystr :=
  bs <- utf8_encode s ;; Ok (flat_map quote_byte bs).

(** [_hextobyte]: two hex digits of either case. *)
Definition hex_value (c : N) : option N :=
  if (48 <=? c) && (c <=? 57) then Some (c - 48)
  else if (65 <=? c) && (c <=? 70) then Some (c - 55)
  else if (97 <=? c) && (c <=? 102) then Some (c - 87)
  else None.

(** [unquote_to_bytes] on an ASCII run: [%XX] becomes the byte, any other
    [%] stays. *)
Fixpoint unquote_bytes (s : pystr) : list N :=
  match s with
  | [] => []
  | c :: t =>
      if c =? 37 then
        match t with
        | h :: l :: s' =>
            match hex_value h, hex_value l with
            | Some a, Some b => (16 * a + b) :: unquote_bytes s'
            | _, _ => 37 :: unquote_bytes t
            end
        | _ => 37 :: unquote_bytes t
        end
      else c :: unquote_bytes t
  end.

(** [_asciire.split]: maximal runs of ASCII and of non-ASCII code points. *)
Fixpoint ascii_runs (s : pystr) : list (bool * pystr) :=
  match s with
  | [] => []
  | c :: s' =>
      let a := c <? 128 in
      match ascii_runs s' with
      | (a', r) :: rs => if Bool.eqb a a' then (a, c :: r) :: rs else (a, [c]) :: (a', r) :: rs
      | [] => [(a, [c])]
      end
  end.

(** [urllib.parse.unquote(s)]: each ASCII run is unquoted to bytes and
    decoded; non-ASCII runs are kept. *)
Definition unquote (s : pystr) : pystr :=
  if negb (existsb (N.eqb 37) s) then s
  else flat_map (fun ar : bool * pystr => if fst ar then utf8_decode (unquote_bytes (snd ar)) else snd ar)
                (ascii_runs s).


(** A Unicode scalar value: what [str.encode('utf-8')] accepts. *)
Definition is_scalar (c : N) : bool :=
  (c <? 0x110000) && negb ((0xD800 <=? c) && (c <=? 0xDFFF)).

(** A printable ASCII character that JSON writes as itself. *)
Definition json_plain (c : N) : Prop := 33 <= c <= 126 /\ c <> 34 /\ c <> 92.

(** ** The round trip [unquote (quote s) = s] *)

Lemma range_true lo hi x : lo <= x <= hi -> (lo <=? x) && (x <=? hi) = true.
Proof. intros; apply andb_true_iff; split; apply N.leb_le; lia. Qed.

Lemma range_false lo hi x : x < lo \/ hi < x -> (lo <=? x) && (x <=? hi) = false.
Proof.
  intros H; apply not_true_iff_false; intros Hx; apply andb_true_iff in Hx.
  destruct Hx as [H1 H2]; apply N.leb_le in H1; apply N.leb_le in H2; lia.
Qed.

Lemma eqb_false x y : x <> y -> (x =? y) = false.
Proof. apply N.eqb_neq. Qed.

Lemma ltb_true x y : x < y -> (x <? y) = true.
Proof. apply N.ltb_lt. Qed.

Lemma ltb_false x y : y <= x -> (x <? y) = false.
Proof. apply N.ltb_ge. Qed.

(** Evaluates a chain of range tests on a symbolic byte from its bounds. *)
Ltac eval_tests :=
  repeat (first
    [ rewrite range_true by lia | rewrite range_false by lia
    | rewrite eqb_false by lia | rewrite N.eqb_refl
    | rewrite ltb_true by lia | rewrite ltb_false by lia ]; cbv beta iota).

(** Names [x / k] and [x mod k] for [lia]. *)
Lemma utf8_decode_cons b1 t1 :
  utf8_decode (b1 :: t1) =
  if b1 <? 0x80 then b1 :: utf8_decode t1 else
  match lead_info b1 with
  | None => replacement_char :: utf8_decode t1
  | Some (n, lo, hi) =>
      match t1 with
      | [] => [replacement_char]
      | b2 :: t2 =>
          if (lo <=? b2) && (b2 <=? hi) then
            match n with
            | 1%nat => ((b1 - 0xC0) * 64 + (b2 - 0x80)) :: utf8_decode t2
            | 2%nat =>
                match t2 with
                | [] => [replacement_char]
                | b3 :: t3 =>
                    if is_cont b3
                    then ((b1 - 0xE0) * 4096 + (b2 - 0x80) * 64 + (b3 - 0x80)) :: utf8_decode t3
                    else replacement_char :: utf8_decode t2
                end
            | _ =>
                match t2 with
                | [] => [replacement_char]
                | b3 :: t3 =>
                    if is_cont b3 then
                      match t3 with
                      | [] => [replacement_char]
                      | b4 :: t4 =>
                          if is_cont b4
                          then ((b1 - 0xF0) * 262144 + (b2 - 0x80) * 4096 +
                                (b3 - 0x80) * 64 + (b4 - 0x80)) :: utf8_decode t4
                          else replacement_char :: utf8_decode t3
                      end
                    else replacement_char :: utf8_decode t2
                end
            end
          else replacement_char :: utf8_decode t1
      end
  end.
Proof. reflexivity. Qed.

Ltac dec_step := rewrite utf8_decode_cons; unfold lead_info, is_cont; eval_tests.

(** Decoding the bytes of a code point gives it back and resumes after
    them. *)
Lemma utf8_decode_char c bs rest :
  utf8_char c = Ok bs -> utf8_decode (bs ++ rest) = c :: utf8_decode rest.
Proof.
  unfold utf8_char; intros H.
  destruct (c <? 0x80) eqn:E1; [apply Ok_inj in H; subst bs; cbn [app]; rewrite utf8_decode_cons, E1; reflexivity|].
  apply N.ltb_ge in E1.
  destruct (c <? 0x800) eqn:E2.
  - apply N.ltb_lt in E2; apply Ok_inj in H; subst bs.
    divk c 64; cbn [app]; dec_step; f_equal; lia.
  - apply N.ltb_ge in E2.
    destruct (c <? 0x10000) eqn:E3.
    + apply N.ltb_lt in E3.
      destruct ((0xD800 <=? c) && (c <=? 0xDFFF)) eqn:Es; [discriminate|]; apply Ok_inj in H; subst bs.
      assert (Hs : c < 0xD800 \/ 0xDFFF < c)
        by (destruct (N.lt_ge_cases c 0xD800); [left; lia|right; apply andb_false_iff in Es;
            destruct Es as [Es|Es]; apply N.leb_gt in Es; lia]).
      pose proof (N.Div0.div_div c 64 64) as Hdd; change (64 * 64) with 4096 in Hdd.
      rewrite <- Hdd; divk c 64; divk q 64.
      assert (q0 = 0 \/ (1 <= q0 <= 12) \/ q0 = 13 \/ 14 <= q0) as Hq by lia.
      cbn [app]; destruct Hq as [->|[Hq|[->|Hq]]]; dec_step; f_equal; lia.
    + apply N.ltb_ge in E3.
      destruct (c <? 0x110000) eqn:E4; [|discriminate]; apply N.ltb_lt in E4; apply Ok_inj in H; subst bs.
      pose proof (N.Div0.div_div c 64 64) as Hd1; change (64 * 64) with 4096 in Hd1.
      pose proof (N.Div0.div_div c 4096 64) as Hd2; change (4096 * 64) with 262144 in Hd2.
      rewrite <- Hd2, <- Hd1; divk c 64; divk q 64; divk q0 64.
      assert (q1 = 0 \/ (1 <= q1 <= 3) \/ q1 = 4) as Hq by lia.
      cbn [app]; destruct Hq as [->|[Hq| ->]]; dec_step; f_equal; lia.
Qed.

(** The bytes of a code point are bytes. *)
Lemma utf8_char_bytes c bs : utf8_char c = Ok bs -> Forall (fun b => b < 256) bs.
Proof.
  unfold utf8_char; intros H.
  pose proof (N.mod_lt c 64 ltac:(lia)); pose proof (N.mod_lt (c / 64) 64 ltac:(lia)).
  pose proof (N.mod_lt (c / 4096) 64 ltac:(lia)).
  destruct (c <? 0x80) eqn:E1; [apply Ok_inj in H; subst bs; apply N.ltb_lt in E1; repeat constructor; lia|].
  destruct (c <? 0x800) eqn:E2.
  { apply N.ltb_lt in E2; apply Ok_inj in H; subst bs.
    pose proof (N.Div0.div_lt_upper_bound c 64 32 ltac:(lia)); repeat constructor; lia. }
  destruct (c <? 0x10000) eqn:E3.
  { apply N.ltb_lt in E3; destruct ((0xD800 <=? c) && (c <=? 0xDFFF)); [discriminate|].
    apply Ok_inj in H; subst bs.
    pose proof (N.Div0.div_lt_upper_bound c 4096 16 ltac:(lia)); repeat constructor; lia. }
  destruct (c <? 0x110000) eqn:E4; [|discriminate]; apply N.ltb_lt in E4; apply Ok_inj in H; subst bs.
  pose proof (N.Div0.div_lt_upper_bound c 262144 5 ltac:(lia)); repeat constructor; lia.
Qed.

(** Decoding what [utf8_encode] produced gives the string back. *)
Lemma utf8_decode_encode s bs : utf8_encode s = Ok bs -> utf8_decode bs = s.
Proof.
  unfold utf8_encode; intros H; apply bind_Ok_inv in H as [l [Hl H]]; apply Ok_inj in H; subst bs.
  apply mapM_Forall2 in Hl; induction Hl as [|c b s l Hc _ IH]; [reflexivity|].
  cbn [concat]; rewrite (utf8_decode_char _ _ _ Hc), IH; reflexivity.
Qed.

Lemma utf8_encode_bytes s bs : utf8_encode s = Ok bs -> Forall (fun b => b < 256) bs.
Proof.
  unfold utf8_encode; intros H; apply bind_Ok_inv in H as [l [Hl H]]; apply Ok_inj in H; subst bs.
  apply mapM_Forall2 in Hl; induction Hl as [|c b s l Hc _ IH]; [constructor|].
  apply Forall_app; split; [exact (utf8_char_bytes _ _ Hc) | exact IH].
Qed.

Lemma hex_value_upper d : d < 16 -> hex_value (hex_upper d) = Some d.
Proof.
  intros Hd; unfold hex_upper, hex_value.
  destruct (d <? 10) eqn:E; [apply N.ltb_lt in E | apply N.ltb_ge in E]; eval_tests; f_equal; lia.
Qed.

Lemma hex_upper_ascii d : d < 16 -> hex_upper d < 128 /\ hex_upper d <> 37.
Proof. unfold hex_upper; destruct (d <? 10) eqn:E; [apply N.ltb_lt in E | apply N.ltb_ge in E]; lia. Qed.

Lemma quote_safe_ascii b : quote_safe b = true -> b < 128 /\ b <> 37.
Proof.
  unfold quote_safe; intros H.
  repeat (apply orb_true_iff in H; destruct H as [H|H]);
    try (apply andb_true_iff in H as [H1 H2]; apply N.leb_le in H1, H2);
    try apply N.eqb_eq in H; lia.
Qed.

(** [unquote_to_bytes] undoes the escaping of [quote] on bytes. *)
Lemma unquote_bytes_quote bs :
  Forall (fun b => b < 256) bs -> unquote_bytes (flat_map quote_byte bs) = bs.
Proof.
  induction 1 as [|b bs Hb _ IH]; [reflexivity|].
  cbn [flat_map]; unfold quote_byte; destruct (quote_safe b) eqn:Es.
  - apply quote_safe_ascii in Es; cbn [app unquote_bytes]; rewrite eqb_false by lia; f_equal; exact IH.
  - pose proof (N.mod_lt b 16 ltac:(lia)); pose proof (N.Div0.div_lt_upper_bound b 16 16 ltac:(lia)).
    cbn [app unquote_bytes]; rewrite N.eqb_refl, !hex_value_upper by lia.
    f_equal; [pose proof (N.div_mod' b 16); lia | exact IH].
Qed.

Lemma utf8_char_total c : is_scalar c = true -> exists bs, utf8_char c = Ok bs.
Proof.
  unfold is_scalar, utf8_char; intros H; apply andb_true_iff in H as [H1 H2].
  apply negb_true_iff in H2; rewrite H2, H1.
  destruct (c <? 0x80), (c <? 0x800), (c <? 0x10000); eauto.
Qed.

Lemma utf8_encode_total s : forallb is_scalar s = true -> exists bs, utf8_encode s = Ok bs.
Proof.
  unfold utf8_encode; induction s as [|c s IH]; intros H.
  { eexists; reflexivity. }
  cbn [forallb mapM] in *; apply andb_true_iff in H as [Hc Hs]; destruct (utf8_char_total c Hc) as [b ->].
  destruct (IH Hs) as [bs Hbs]; destruct (mapM utf8_char s); [eexists; reflexivity|discriminate].
Qed.

Lemma quote_byte_ascii b : Forall (fun c => c < 128 /\ c <> 37) (quote_byte b) \/
                           exists h l, quote_byte b = [37; h; l].
Proof.
  unfold quote_byte; destruct (quote_safe b) eqn:E; [left; constructor; [apply quote_safe_ascii|]; auto|eauto].
Qed.

Lemma quote_ascii s q : quote s = Ok q -> Forall (fun c => c < 128) q.
Proof.
  unfold quote; intros H; apply bind_Ok_inv in H as [bs [Hbs H]]; apply Ok_inj in H; subst q.
  apply utf8_encode_bytes in Hbs; induction Hbs as [|b bs Hb _ IH]; [constructor|].
  cbn [flat_map]; apply Forall_app; split; [|exact IH].
  unfold quote_byte; destruct (quote_safe b) eqn:E.
  - constructor; [apply quote_safe_ascii; exact E | constructor].
  - pose proof (N.mod_lt b 16 ltac:(lia)); pose proof (N.Div0.div_lt_upper_bound b 16 16 ltac:(lia)).
    repeat constructor; try lia; apply hex_upper_ascii; lia.
Qed.

Lemma utf8_decode_ascii s : Forall (fun c => c < 128) s -> utf8_decode s = s.
Proof.
  induction 1 as [|c s Hc _ IH]; [reflexivity|].
  rewrite utf8_decode_cons, ltb_true by exact Hc; f_equal; exact IH.
Qed.

Lemma unquote_bytes_plain s : existsb (N.eqb 37) s = false -> unquote_bytes s = s.
Proof.
  induction s as [|c s IH]; cbn [existsb unquote_bytes]; intros H; [reflexivity|].
  apply orb_false_iff in H as [H1 H2]; rewrite N.eqb_sym, H1; f_equal; exact (IH H2).
Qed.

Lemma ascii_runs_cons c s :
  ascii_runs (c :: s) =
  match ascii_runs s with
  | (a', r) :: rs => if Bool.eqb (c <? 128) a' then (c <? 128, c :: r) :: rs
                     else (c <? 128, [c]) :: (a', r) :: rs
  | [] => [(c <? 128, [c])]
  end.
Proof. reflexivity. Qed.

Lemma ascii_runs_ascii c s :
  Forall (fun c => c < 128) (c :: s) -> ascii_runs (c :: s) = [(true, c :: s)].
Proof.
  revert c; induction s as [|c' s IH]; intros c H; inversion H as [|? ? Hc Hs]; subst.
  - rewrite ascii_runs_cons, ltb_true by exact Hc; reflexivity.
  - rewrite ascii_runs_cons, (IH c' Hs), ltb_true by exact Hc; reflexivity.
Qed.

(** On an ASCII string, [unquote] is [unquote_to_bytes] then UTF-8
    decoding, on both of its paths. *)
Lemma unquote_ascii s :
  Forall (fun c => c < 128) s -> unquote s = utf8_decode (unquote_bytes s).
Proof.
  intros H; unfold unquote; destruct (existsb (N.eqb 37) s) eqn:E; cbn [negb].
  - destruct s as [|c s]; [discriminate|]; rewrite ascii_runs_ascii by exact H.
    cbn [flat_map fst snd]; apply app_nil_r.
  - rewrite unquote_bytes_plain, utf8_decode_ascii by assumption; reflexivity.
Qed.

(** Whatever [quote] produced, [unquote] undoes. *)
Lemma unquote_quote s q : quote s = Ok q -> unquote q = s.
Proof.
  intros Hq; pose proof Hq as Hq'; unfold quote in Hq'.
  apply bind_Ok_inv in Hq' as [bs [Hbs Hq']]; apply Ok_inj in Hq'; subst q.
  rewrite unquote_ascii by exact (quote_ascii _ _ Hq).
  rewrite unquote_bytes_quote by exact (utf8_encode_bytes _ _ Hbs).
  exact (utf8_decode_encode _ _ Hbs).
Qed.

Lemma quote_plain s q : quote s = Ok q -> Forall json_plain q.
Proof.
  unfold quote, json_plain; intros H; apply bind_Ok_inv in H as [bs [Hbs H]]; apply Ok_inj in H; subst q.
  apply utf8_encode_bytes in Hbs; induction Hbs as [|b bs Hb _ IH]; [constructor|].
  cbn [flat_map]; apply Forall_app; split; [|exact IH].
  unfold quote_byte; destruct (quote_safe b) eqn:E.
  - constructor; [|constructor]; unfold quote_safe in E.
    repeat (apply orb_true_iff in E; destruct E as [E|E]);
      try (apply andb_true_iff in E as [E1 E2]; apply N.leb_le in E1, E2);
      try apply N.eqb_eq in E; lia.
  - pose proof (N.mod_lt b 16 ltac:(lia)); pose proof (N.Div0.div_lt_upper_bound b 16 16 ltac:(lia)).
    assert (Hh : forall d, d < 16 -> 33 <= hex_upper d <= 126 /\ hex_upper d <> 34 /\ hex_upper d <> 92)
      by (intros d Hd; unfold hex_upper; destruct (d <? 10) eqn:Ed;
          [apply N.ltb_lt in Ed | apply N.ltb_ge in Ed]; lia).
    repeat constructor; try lia; apply Hh; lia.
Qed.

(** [urllib.parse.quote] succeeds on every string of Unicode scalar
    values, and [urllib.parse.unquote] gives the string back from its
    result. *)
Theorem quote_unquote_roundtrip s :
  forallb is_scalar s = true -> exists q, quote s = Ok q /\ unquote q = s.
Proof.
  intros H; destruct (utf8_encode_total s H) as [bs Hbs].
  assert (Hq : quote s = Ok (flat_map quote_byte bs)) by (unfold quote; rewrite Hbs; reflexivity).
  exists (flat_map quote_byte bs); split; [exact Hq | exact (unquote_quote _ _ Hq)].
Qed.

End Query.
