(* ===== verification/Params.v ===== *)
(** * The search request: JSON text, [int()] and the URL of [search]

    [dumps] is [json.dumps] with its defaults ([ensure_ascii=True],
    separators [", "] and [": "]), [convertws] is [Utility.convertws]
    (xcrawl.py lines 143-149), [buildparams] is [XCrawl.__buildparams]
    (lines 220-266) and [search_url] is [XCrawl.search] from its argument
    checks to the URL it requests (lines 783-841).  Arguments of [search]
    are Python values, so they are [json] values here: [JNull] is [None]. *)

From Stdlib Require Import String List NArith ZArith Bool Lia.
From S2P Require Import Prelude Json Timestamp Query.
Import ListNotations.
Open Scope py_scope.
Open Scope N_scope.

Module Params.
Import Query.

(** ** [json.dumps] *)

Definition hex_lower (d : N) : N := if d <? 10 then 48 + d else 87 + d.

(** ['\\u{0:04x}'.format(n)]. *)
Definition u4 (n : N) : pystr :=
  [92; 117; hex_lower ((n / 4096) mod 16); hex_lower ((n / 256) mod 16);
   hex_lower ((n / 16) mod 16); hex_lower (n mod 16)].

(** [ESCAPE_DCT] and [replace] of [py_encode_basestring_ascii]: the
    characters outside [' '..'~'] are written as [\uXXXX], as a surrogate
    pair above U+FFFF. *)
Definition escape_char (c : N) : pystr :=
  if c =? 92 then [92; 92]
  else if c =? 34 then [92; 34]
  else if c =? 8 then [92; 98]
  else if c =? 12 then [92; 102]
  else if c =? 10 then [92; 110]
  else if c =? 13 then [92; 114]
  else if c =? 9 then [92; 116]
  else if (32 <=? c) && (c <=? 126) then [c]
  else if c <? 0x10000 then u4 c
  else let n := c - 0x10000 in
       u4 (N.lor 0xD800 (N.land (N.shiftr n 10) 0x3FF)) ++ u4 (N.lor 0xDC00 (N.land n 0x3FF)).

Definition dumps_str (s : pystr) : pystr := 34 :: flat_map escape_char s ++ [34].

(** [int.__repr__]. *)
Definition show_Z (z : Z) : pystr :=
  match z with
  | Zneg p => 45 :: show_N (Npos p)
  | _ => show_N (Z.to_N z)
  end.

Fixpoint join (sep : pystr) (l : list pystr) : pystr :=
  match l with
  | [] => []
  | [x] => x
  | x :: l' => x ++ sep ++ join sep l'
  end.

Fixpoint dumps (j : json) : pystr :=
  match j with
  | JNull => u "null"
  | JBool true => u "true"
  | JBool false => u "false"
  | JNum z => show_Z z
  | JStr s => dumps_str s
  | JList l => [91] ++ join (u ", ") (map dumps l) ++ [93]
  | JDict d => [123] ++ join (u ", ") (map (fun kv => dumps_str (fst kv) ++ u ": " ++ dumps (snd kv)) d)
               ++ [125]
  end.

(** [Utility.convertws]: [re.sub(r'\s+', '', json.dumps(data))]. *)
Definition convertws (data : json) : pystr := filter (fun c => negb (py_isspace c)) (dumps data).

(** ** [int(s)] on a [str] *)

(** White space for [int()]: [Py_ISSPACE] below 127, [str.isspace] above,
    as [_PyUnicode_TransformDecimalAndSpaceToASCII] maps it. *)
Definition int_space (c : N) : bool :=
  if c <? 127 then (c =? 32) || ((9 <=? c) && (c <=? 13)) else py_isspace c.

Fixpoint drop_int_space (s : pystr) : pystr :=
  match s with
  | c :: s' => if int_space c then drop_int_space s' else s
  | [] => []
  end.

(** Decimal digits separated by single underscores, with the count of
    digits: [None] for an empty run, a leading, doubled or trailing
    underscore, or a character that is not a decimal digit. *)
Fixpoint int_digits (s : pystr) (acc : Z) (n : N) (last_digit : bool) : option (Z * N) :=
  match s with
  | [] => if last_digit then Some (acc, n) else None
  | c :: s' =>
      if c =? 95 then if last_digit then int_digits s' acc n false else None
      else match digit_value c with
           | Some d => int_digits s' (10 * acc + Z.of_N d) (n + 1) true
           | None => None
           end
  end.

(** [int(s)]: surrounding white space, one sign, and at most 4300 digits
    ([sys.get_int_max_str_digits()]). *)
Definition int_parse (s : pystr) : res Z :=
  let t := rev (drop_int_space (rev (drop_int_space s))) in
  let '(sign, body) := match t with
                       | 45 :: b => ((-1)%Z, b)
                       | 43 :: b => (1%Z, b)
                       | _ => (1%Z, t)
                       end in
  match int_digits body 0 0 false with
  | Some (z, n) => if n <=? 4300 then Ok (sign * z)%Z else raise ValueError
  | None => raise ValueError
  end.

(** ** [__buildparams] *)

Definition FEATURES : json :=
  JDict (map (fun kb => (u (fst kb), JBool (snd kb)))
   [("responsive_web_graphql_exclude_directive_enabled", true);
    ("verified_phone_label_enabled", false);
    ("creator_subscriptions_tweet_preview_api_enabled", true);
    ("responsive_web_graphql_timeline_navigation_enabled", true);
    ("responsive_web_graphql_skip_user_profile_image_extensions_enabled", false);
    ("c9s_tweet_anatomy_moderator_badge_enabled", true);
    ("tweetypie_unmention_optimization_enabled", true);
    ("responsive_web_edit_tweet_api_enabled", true);
    ("graphql_is_translatable_rweb_tweet_is_translatable_enabled", true);
    ("view_counts_everywhere_api_enabled", true);
    ("longform_notetweets_consumption_enabled", true);
    ("responsive_web_twitter_article_tweet_consumption_enabled", false);
    ("tweet_awards_web_tipping_enabled", false);
    ("freedom_of_speech_not_reach_fetch_enabled", true);
    ("standardized_nudges_misinfo", true);
    ("tweet_with_visibility_results_prefer_gql_limited_actions_policy_enabled", true);
    ("rweb_video_timestamps_enabled", true);
    ("longform_notetweets_rich_text_read_enabled", true);
    ("longform_notetweets_inline_media_enabled", true);
    ("responsive_web_media_download_video_enabled", false);
    ("responsive_web_enhance_cards_enabled", false)]%string).

(** The [variables] mapping: [cursor] is there only when it is a non-empty
    string ([if cursor]). *)
Definition variables_of (rq : pystr) (count : json) (cursor : option pystr) (product : pystr) : json :=
  match cursor with
  | Some ((_ :: _) as c) =>
      JDict [(u "rawQuery", JStr rq); (u "count", count); (u "cursor", JStr c);
             (u "querySource", JStr (u "typed_query")); (u "product", JStr product)]
  | _ =>
      JDict [(u "rawQuery", JStr rq); (u "count", count);
             (u "querySource", JStr (u "typed_query")); (u "product", JStr product)]
  end.

Definition buildparams (rq : pystr) (count : json) (cursor : option pystr) (product : pystr) : dict :=
  [(u "variables", variables_of rq count cursor product); (u "features", FEATURES)].

(** ** The [rawQuery] pattern and the URL *)

(** The literal that opens the pattern of line 823: a double quote, the
    word rawQuery, a double quote, a colon and a double quote. *)
Definition RQ_OPEN : pystr := [34] ++ u "rawQuery" ++ [34; 58; 34].

(** The longest run without a double quote, and what follows it. *)
Fixpoint span_nq (s : pystr) : pystr * pystr :=
  match s with
  | c :: s' => if c =? 34 then ([], s) else let '(g, r) := span_nq s' in (c :: g, r)
  | [] => ([], [])
  end.

(** The pattern of line 823 matched at the front of [s]: [RQ_OPEN], then
    a group of one or more characters other than the double quote, then a
    double quote.  The greedy class stops at the first double quote, which
    must follow a non-empty group. *)
Definition rq_at (s : pystr) : option pystr :=
  if prefixb RQ_OPEN s then
    match span_nq (skipn (length RQ_OPEN) s) with
    | ((_ :: _) as g, 34 :: _) => Some g
    | _ => None
    end
  else None.

(** [pattern.search(s).group(1)]: the group of the leftmost match. *)
Fixpoint rq_search (s : pystr) : option pystr :=
  match rq_at s with
  | Some g => Some g
  | None => match s with [] => None | _ :: s' => rq_search s' end
  end.

(** One iteration of [for key in params] (lines 817-834): the value is
    serialized without white space, and for [variables] the percent-encoded
    raw query found in it is decoded, at every place it occurs. *)
Definition params_step (ps : dict) (key : pystr) : res dict :=
  v <- getitem (JDict ps) key ;;
  let s := convertws v in
  let ps1 := dset key (JStr s) ps in
  if pystr_eqb key (u "variables") then
    match rq_search s with
    | Some g => Ok (dset (u "variables") (JStr (str_replace g (unquote g) s)) ps1)
    | None => Ok ps1
    end
  else Ok ps1.

Definition str_of (j : json) : res pystr :=
  match j with
  | JStr s => Ok s
  | _ => raise TypeError
  end.

Definition URL_HEAD : pystr :=
  u "https://twitter.com/i/api/graphql/Aj1nGkALq99Xg3XI0OZBtw/SearchTimeline?variables=".

Definition URL_FEATURES : pystr := u "&features=".

(** The request [search] sends: its URL and the [params] it also passes to
    [Session.request]. *)
Record request := mk_request { req_url : pystr; req_params : dict }.

(** [count]: a [str] goes through [int()]; an [int] (a [bool] is one) is
    kept. *)
Definition search_count (count : json) : res json :=
  match count with
  | JStr s => z <- int_parse s ;; Ok (JNum z)
  | JNum _ | JBool _ => Ok count
  | _ => raise TypeError
  end.

(** [XCrawl.search(rawquery, product, count, cursor)], lines 783-841. *)
Definition search_url (rawquery product count cursor : json) : res request :=
  rq <- (match rawquery with JStr s => quote s | _ => raise TypeError end) ;;
  p <- str_of product ;;
  cnt <- search_count count ;;
  cur <- (match cursor with
          | JNull => Ok None
          | JStr c => Ok (Some c)
          | _ => raise TypeError
          end) ;;
  let params := buildparams rq cnt cur p in
  ps <- foldM params_step (dkeys params) params ;;
  vj <- getitem (JDict ps) (u "variables") ;;
  vs <- str_of vj ;;
  variables <- quote vs ;;
  fj <- getitem (JDict ps) (u "features") ;;
  fs <- str_of fj ;;
  features <- quote fs ;;
  Ok (mk_request (URL_HEAD ++ variables ++ URL_FEATURES ++ features) ps).

Definition ascii (s : pystr) : Prop := Forall (fun c => c < 128) s.

(** A JSON key or string value as [json.dumps] writes plain text. *)
Definition jstr (s : string) : pystr := [34] ++ u s ++ [34].

Lemma escape_plain c : json_plain c -> escape_char c = [c].
Proof.
  unfold json_plain, escape_char; intros (H1 & H2 & H3).
  rewrite !eqb_false by lia; rewrite range_true by lia; reflexivity.
Qed.

Lemma flat_map_escape_plain q : Forall json_plain q -> flat_map escape_char q = q.
Proof. induction 1 as [|c q Hc _ IH]; [reflexivity|]; cbn [flat_map]; rewrite escape_plain, IH by exact Hc; reflexivity. Qed.

Lemma filter_space_plain q : Forall json_plain q -> filter (fun c => negb (py_isspace c)) q = q.
Proof.
  unfold json_plain; induction 1 as [|c q Hc _ IH]; [reflexivity|]; cbn [filter].
  rewrite py_isspace_false by lia; cbn [negb]; f_equal; exact IH.
Qed.

Lemma join_cons sep x l : l <> [] -> join sep (x :: l) = x ++ sep ++ join sep l.
Proof. destruct l; [congruence|reflexivity]. Qed.

Lemma convertws_rawquery q kvs :
  Forall json_plain q -> kvs <> [] ->
  convertws (JDict ((u "rawQuery", JStr q) :: kvs)) =
  [123] ++ RQ_OPEN ++ q ++ 34 :: filter (fun c => negb (py_isspace c))
     (u ", " ++ join (u ", ") (map (fun kv => dumps_str (fst kv) ++ u ": " ++ dumps (snd kv)) kvs) ++ [125]).
Proof.
  intros Hq Hk; unfold convertws; cbn [dumps map fst snd].
  rewrite join_cons by (destruct kvs; [congruence|discriminate]).
  unfold dumps_str at 2; rewrite flat_map_escape_plain by exact Hq.
  change (34 :: q ++ [34]) with ([34] ++ q ++ [34]); rewrite !filter_app, (filter_space_plain q Hq).
  replace (filter _ [123]) with [123] by reflexivity.
  replace (filter _ (dumps_str (u "rawQuery"))) with ([34] ++ u "rawQuery" ++ [34]) by reflexivity.
  replace (filter _ (u ": ")) with [58] by reflexivity.
  replace (filter _ [34]) with [34] by reflexivity.
  unfold RQ_OPEN; rewrite <- !app_assoc; reflexivity.
Qed.

Lemma skipn_length_app {A} (l l' : list A) : skipn (length l) (l ++ l') = l'.
Proof. induction l; [reflexivity|exact IHl]. Qed.

Lemma span_nq_plain q r : ~ In 34 q -> span_nq (q ++ 34 :: r) = (q, 34 :: r).
Proof.
  induction q as [|c q IH]; intros H; [reflexivity|].
  cbn [app span_nq]; rewrite eqb_false by (intros ->; apply H; left; reflexivity).
  rewrite IH by (intros H'; apply H; right; exact H'); reflexivity.
Qed.

Lemma rq_search_found s g : rq_at s = Some g -> rq_search s = Some g.
Proof. destruct s; cbn [rq_search]; intros ->; reflexivity. Qed.

Lemma rq_search_vars q r :
  q <> [] -> ~ In 34 q -> rq_search ([123] ++ RQ_OPEN ++ q ++ 34 :: r) = Some q.
Proof.
  intros Hn H34; cbn [app rq_search].
  replace (rq_at _) with (@None pystr) by reflexivity.
  apply rq_search_found; unfold rq_at; rewrite prefixb_app, skipn_length_app, span_nq_plain by exact H34.
  destruct q; [congruence|reflexivity].
Qed.

Lemma hex_lower_ascii d : d < 16 -> hex_lower d < 128.
Proof. unfold hex_lower; destruct (d <? 10); lia. Qed.

Lemma u4_ascii n : ascii (u4 n).
Proof.
  unfold ascii, u4; repeat constructor; try lia; apply hex_lower_ascii, N.mod_lt; lia.
Qed.

Lemma escape_char_ascii c : ascii (escape_char c).
Proof.
  unfold ascii, escape_char.
  repeat match goal with
         | |- context [if (c =? ?k) then _ else _] => destruct (c =? k); [repeat constructor; lia|]
         end.
  destruct ((32 <=? c) && (c <=? 126)) eqn:E.
  - apply andb_true_iff in E as [_ E]; apply N.leb_le in E; repeat constructor; lia.
  - destruct (c <? 0x10000); [apply u4_ascii | apply Forall_app; split; apply u4_ascii].
Qed.

Lemma digits_go_ascii f n acc : ascii acc -> ascii (digits_go f n acc).
Proof.
  unfold ascii; revert n acc; induction f as [|f IH]; intros n acc H; cbn [digits_go]; [exact H|].
  destruct (n <? 10) eqn:E; [apply N.ltb_lt in E; constructor; [lia|exact H]|].
  apply IH; constructor; [pose proof (N.mod_lt n 10 ltac:(lia)); lia | exact H].
Qed.

Lemma show_Z_ascii z : ascii (show_Z z).
Proof.
  unfold show_Z, show_N; destruct z; try (apply digits_go_ascii; constructor).
  constructor; [lia | apply digits_go_ascii; constructor].
Qed.

Lemma join_Forall (P : N -> Prop) sep l :
  Forall P sep -> Forall (Forall P) l -> Forall P (join sep l).
Proof.
  intros Hs; induction 1 as [|x l Hx _ IH]; [constructor|].
  destruct l; [exact Hx|]; cbn [join] in *; repeat (apply Forall_app; split); auto.
Qed.

Lemma ascii_check s : forallb (fun c => c <? 128) s = true -> ascii s.
Proof.
  unfold ascii; intros H; apply Forall_forall; intros c Hc.
  apply forallb_forall with (x := c) in H; [apply N.ltb_lt, H | exact Hc].
Qed.

Ltac ascii_lit := apply ascii_check; reflexivity.

Lemma dumps_str_ascii s : ascii (dumps_str s).
Proof.
  unfold ascii, dumps_str; constructor; [lia|]; apply Forall_app; split; [|repeat constructor; lia].
  induction s as [|c s IH]; [constructor|]; cbn [flat_map]; apply Forall_app; split; [apply escape_char_ascii | exact IH].
Qed.

(** [json.dumps] with [ensure_ascii] writes only ASCII. *)
Lemma dumps_ascii j : ascii (dumps j).
Proof.
  unfold ascii; induction j as [| b | z | s | l IH | d IH] using json_ind'; cbn [dumps].
  - ascii_lit.
  - destruct b; ascii_lit.
  - apply show_Z_ascii.
  - apply dumps_str_ascii.
  - repeat (apply Forall_app; split); try (repeat constructor; lia).
    apply join_Forall; [ascii_lit|]; apply Forall_map; exact IH.
  - repeat (apply Forall_app; split); try (repeat constructor; lia).
    apply join_Forall; [ascii_lit|]; apply Forall_map.
    eapply Forall_impl; [|exact IH]; intros [k v] Hv; cbn [fst snd] in *.
    repeat (apply Forall_app; split); [apply dumps_str_ascii | ascii_lit | exact Hv].
Qed.

Lemma not_in_check x l : existsb (N.eqb x) l = false -> ~ In x l.
Proof. intros H Hin; assert (existsb (N.eqb x) l = true) by (apply existsb_exists; exists x; split; [exact Hin | apply N.eqb_refl]); congruence. Qed.

Lemma plain_no_quote q : Forall json_plain q -> ~ In 34 q.
Proof. intros H Hin; rewrite Forall_forall in H; destruct (H 34 Hin) as (_ & H' & _); apply H'; reflexivity. Qed.

(** Line 830: replacing the percent-encoded raw query [q] by its decoding
    puts the raw query [s] back in the [rawQuery] value; the rest of the
    text is changed only at the other occurrences of [q]. *)
Lemma replace_rawquery s q r :
  quote s = Ok q ->
  str_replace q (unquote q) ([123] ++ RQ_OPEN ++ q ++ 34 :: r) =
  [123] ++ RQ_OPEN ++ s ++ 34 :: (if existsb (N.eqb 37) q then replace_go q s r O else r).
Proof.
  intros Hq; rewrite (unquote_quote _ _ Hq).
  pose proof (plain_no_quote _ (quote_plain _ _ Hq)) as H34.
  destruct (existsb (N.eqb 37) q) eqn:E.
  - destruct q as [|o q']; [discriminate|].
    assert (H37 : In 37 (o :: q')) by (apply existsb_exists in E as [x [Hx Ex]]; apply N.eqb_eq in Ex; subst; exact Hx).
    unfold str_replace.
    change ([123] ++ RQ_OPEN ++ (o :: q') ++ 34 :: r) with ((123 :: 34 :: u "rawQuery" ++ [34; 58]) ++ 34 :: ((o :: q') ++ 34 :: r)).
    rewrite (replace_go_blocked _ _ 34 37) by (exact H34 || exact H37 || (apply not_in_check; reflexivity)).
    rewrite replace_go_occ.
    pose proof (replace_go_blocked (o :: q') s 34 37 [] r H34 H37 (fun H => H)) as Hb; cbn [app] in Hb; rewrite Hb.
    unfold RQ_OPEN; rewrite <- !app_assoc; reflexivity.
  - assert (Hu : unquote q = q) by (unfold unquote; rewrite E; reflexivity).
    rewrite (unquote_quote _ _ Hq) in Hu; subst q; rewrite str_replace_self; reflexivity.
Qed.

Lemma convertws_ascii j : ascii (convertws j).
Proof.
  unfold ascii, convertws; apply Forall_forall; intros c Hc; apply filter_In in Hc as [Hc _].
  pose proof (dumps_ascii j) as H; unfold ascii in H; rewrite Forall_forall in H; exact (H c Hc).
Qed.

Lemma vars_shape q cnt cur p :
  Forall json_plain q ->
  exists r0, convertws (variables_of q cnt cur p) = [123] ++ RQ_OPEN ++ q ++ 34 :: r0 /\ ascii r0.
Proof.
  intros Hq; pose proof (convertws_ascii (variables_of q cnt cur p)) as Ha.
  destruct cur as [[|c cs]|]; cbn [variables_of] in *; rewrite convertws_rawquery in * by (exact Hq || discriminate).
  all: (eexists; split; [reflexivity|]; unfold ascii in *; rewrite !Forall_app in Ha;
        destruct Ha as (_ & _ & _ & Hr); inversion Hr; assumption).
Qed.

Lemma quote_total s : forallb is_scalar s = true -> exists q, quote s = Ok q.
Proof.
  intros H; destruct (utf8_encode_total s H) as [bs Hbs].
  exists (flat_map quote_byte bs); unfold quote; rewrite Hbs; reflexivity.
Qed.

Lemma scalar_check s : Forall (fun c => is_scalar c = true) s -> forallb is_scalar s = true.
Proof. intros H; apply forallb_forall, Forall_forall, H. Qed.

Lemma scalar_check_inv s : forallb is_scalar s = true -> Forall (fun c => is_scalar c = true) s.
Proof. intros H; apply Forall_forall, forallb_forall, H. Qed.

Lemma ascii_scalar s : ascii s -> Forall (fun c => is_scalar c = true) s.
Proof.
  unfold ascii, is_scalar; intros H; eapply Forall_impl; [|exact H]; intros c Hc.
  cbv beta in Hc; rewrite ltb_true by lia; rewrite range_false by (left; lia); reflexivity.
Qed.

(** The loop of lines 817-834 over the two keys of [buildparams]. *)
Lemma params_loop q cnt cur p :
  foldM params_step (dkeys (buildparams q cnt cur p)) (buildparams q cnt cur p) =
  Ok [(u "variables", JStr (let w := convertws (variables_of q cnt cur p) in
                            match rq_search w with Some g => str_replace g (unquote g) w | None => w end));
      (u "features", JStr (convertws FEATURES))].
Proof.
  cbn [buildparams dkeys map fst foldM]; unfold params_step.
  replace (getitem _ (u "variables")) with (Ok (variables_of q cnt cur p)) by reflexivity.
  cbn [bind]; rewrite pystr_eqb_refl.
  destruct (rq_search _); reflexivity.
Qed.

Lemma features_scalar : forallb is_scalar (convertws FEATURES) = true.
Proof. vm_compute; reflexivity. Qed.

(** C16: for a non-empty raw query of Unicode scalar values, [search]
    builds its URL for every product, count and cursor, and the
    [variables] parameter of that URL decodes to a JSON text whose
    [rawQuery] value is the caller's raw query, verbatim. *)
Theorem search_url_rawquery s p z cur :
  s <> [] -> forallb is_scalar s = true ->
  exists r v f rest,
    search_url (JStr s) (JStr p) (JNum z) (match cur with Some c => JStr c | None => JNull end) = Ok r /\
    req_url r = URL_HEAD ++ v ++ URL_FEATURES ++ f /\
    unquote v = [123] ++ RQ_OPEN ++ s ++ 34 :: rest.
Proof.
  intros Hne Hs; destruct (utf8_encode_total s Hs) as [bs Hbs].
  assert (Hq : quote s = Ok (flat_map quote_byte bs)) by (unfold quote; rewrite Hbs; reflexivity).
  set (q := flat_map quote_byte bs) in Hq; clearbody q.
  unfold search_url; rewrite Hq; cbn [bind str_of search_count].
  replace (match match cur with Some c => JStr c | None => JNull end with
           | JNull => Ok None | JStr c => Ok (Some c) | _ => raise TypeError end) with (Ok cur)
    by (destruct cur; reflexivity).
  rewrite bind_Ok, params_loop; cbn [bind getitem dlookup]; rewrite !pystr_eqb_refl.
  replace (pystr_eqb (u "features") (u "variables")) with false by reflexivity; cbn [bind str_of].
  pose proof (quote_plain _ _ Hq) as Hp.
  assert (Hqn : q <> []) by (intros ->; apply Hne; rewrite <- (unquote_quote _ _ Hq); reflexivity).
  destruct (vars_shape q (JNum z) cur p Hp) as [r0 [-> Hr0]].
  rewrite (rq_search_vars q r0 Hqn (plain_no_quote _ Hp)).
  assert (Hrest : exists rest, str_replace q (unquote q) ([123] ++ RQ_OPEN ++ q ++ 34 :: r0) =
                               [123] ++ RQ_OPEN ++ s ++ 34 :: rest /\ Forall (fun c => is_scalar c = true) rest).
  { rewrite (replace_rawquery s q r0 Hq); eexists; split; [reflexivity|].
    destruct (existsb (N.eqb 37) q); [apply replace_go_Forall; [apply scalar_check_inv, Hs|]|];
      apply ascii_scalar, Hr0. }
  destruct Hrest as [rest [-> Hrest]].
  destruct (quote_total ([123] ++ RQ_OPEN ++ s ++ 34 :: rest)) as [v Hv].
  { apply scalar_check; repeat (apply Forall_app; split); try (apply ascii_scalar; ascii_lit).
    - apply scalar_check_inv, Hs.
    - constructor; [reflexivity | exact Hrest]. }
  destruct (quote_total (convertws FEATURES)) as [f Hf]; [apply features_scalar|].
  rewrite Hv, Hf; cbn [bind].
  exists (mk_request (URL_HEAD ++ v ++ URL_FEATURES ++ f)
            [(u "variables", JStr ([123] ++ RQ_OPEN ++ s ++ 34 :: rest)); (u "features", JStr (convertws FEATURES))]), v, f, rest.
  split; [reflexivity | split; [reflexivity | exact (unquote_quote _ _ Hv)]].
Qed.

Lemma search_url_rawquery_witness :
  u "from:nasa mars" <> [] /\ forallb is_scalar (u "from:nasa mars") = true /\
  exists r v f rest,
    search_url (JStr (u "from:nasa mars")) (JStr (u "Top")) (JNum 20) (match Some (u "abc") with Some c => JStr c | None => JNull end) = Ok r /\
    req_url r = URL_HEAD ++ v ++ URL_FEATURES ++ f /\
    unquote v = [123] ++ RQ_OPEN ++ u "from:nasa mars" ++ 34 :: rest.
Proof.
  split; [discriminate | split; [reflexivity|]].
  apply (search_url_rawquery _ _ _ (Some (u "abc"))); [discriminate | reflexivity].
Defined.

(** a cursor that is [None] and an empty cursor give the same request:
    [variables] has no [cursor] entry in both cases ([if cursor], line
    232). *)
Theorem search_url_cursor_absent rq p cnt :
  search_url rq p cnt JNull = search_url rq p cnt (JStr []).
Proof.
  unfold search_url; destruct (match rq with JStr s => quote s | _ => raise TypeError end); [|reflexivity].
  cbn [bind]; destruct (str_of p); [|reflexivity]; cbn [bind].
  destruct (search_count cnt); reflexivity.
Qed.

(** the example of the specification: with [cursor="abc"] the
    [variables] text that is percent-encoded into the URL carries the
    cursor verbatim, and with [cursor=None] it has no [cursor] key. *)
Example search_url_cursor_example :
  res_map (fun r => dlookup (u "variables") (req_params r))
    (search_url (JStr (u "hello world")) (JStr (u "Top")) (JNum 20) (JStr (u "abc"))) =
  Ok (Some (JStr ([123] ++ jstr "rawQuery" ++ u ":" ++ jstr "hello world" ++ u "," ++
                  jstr "count" ++ u ":20," ++ jstr "cursor" ++ u ":" ++ jstr "abc" ++ u "," ++
                  jstr "querySource" ++ u ":" ++ jstr "typed_query" ++ u "," ++
                  jstr "product" ++ u ":" ++ jstr "Top" ++ [125]))) /\
  res_map (fun r => dlookup (u "variables") (req_params r))
    (search_url (JStr (u "hello world")) (JStr (u "Top")) (JNum 20) JNull) =
  Ok (Some (JStr ([123] ++ jstr "rawQuery" ++ u ":" ++ jstr "hello world" ++ u "," ++
                  jstr "count" ++ u ":20," ++
                  jstr "querySource" ++ u ":" ++ jstr "typed_query" ++ u "," ++
                  jstr "product" ++ u ":" ++ jstr "Top" ++ [125]))).
Proof. split; vm_compute; reflexivity. Qed.

(** A raw query holding a double quote is put back unescaped, so the
    [variables] text is not JSON; white space inside a cursor is removed
    by [convertws]. *)
Example search_url_quote_breaks_json :
  res_map (fun r => dlookup (u "variables") (req_params r))
    (search_url (JStr (jstr "a b")) (JStr (u "Top")) (JNum 20) (JStr (u "x y"))) =
  Ok (Some (JStr ([123] ++ jstr "rawQuery" ++ u ":" ++ [34] ++ jstr "a b" ++ [34] ++ u "," ++
                  jstr "count" ++ u ":20," ++ jstr "cursor" ++ u ":" ++ jstr "xy" ++ u "," ++
                  jstr "querySource" ++ u ":" ++ jstr "typed_query" ++ u "," ++
                  jstr "product" ++ u ":" ++ jstr "Top" ++ [125]))).
Proof. vm_compute; reflexivity. Qed.

(** the decoding of line 830 replaces every occurrence of the encoded
    raw query in the variables text: a cursor that contains it is
    changed. *)
Example search_url_replace_global :
  res_map (fun r => dlookup (u "variables") (req_params r))
    (search_url (JStr [0xE9]) (JStr (u "Top")) (JNum 20) (JStr (u "x%C3%A9"))) =
  Ok (Some (JStr ([123] ++ jstr "rawQuery" ++ u ":" ++ [34; 0xE9; 34] ++ u "," ++
                  jstr "count" ++ u ":20," ++ jstr "cursor" ++ u ":" ++ [34; 120; 0xE9; 34] ++ u "," ++
                  jstr "querySource" ++ u ":" ++ jstr "typed_query" ++ u "," ++
                  jstr "product" ++ u ":" ++ jstr "Top" ++ [125]))).
Proof. vm_compute; reflexivity. Qed.

End Params.
