(* ===== verification/Numbers.v ===== *)
(** * Decimal integers: [str(n)] and [int(s)]

    [show_N] (Timestamp.v, the [%Y] of [strftime] and the digits of
    [str(n)]) is a fixpoint with fuel; [int_parse] (Params.v) is
    [int(s)] with CPython's default limit of 4300 digits, which
    [XCrawl.search] applies to a [count] given as a string (xcrawl.py
    line 794).  This file shows that the fuel of [show_N] is enough (more
    fuel changes nothing), that [int] reads back what [str] prints, and
    that the digit limit is exactly where [search] starts to raise
    [ValueError] on a string of digits. *)

From Stdlib Require Import String List NArith ZArith Bool Lia.
From S2P Require Import Prelude Json Timestamp Params.
Import ListNotations.
Open Scope py_scope.

Module Numbers.
Import Params.

Definition is_digit (c : N) : bool := ((48 <=? c) && (c <=? 57))%N.

(** The value of a run of decimal digits read from the left, from [acc]. *)
Definition dec_value (s : pystr) (acc : Z) : Z :=
  fold_left (fun a c => (10 * a + Z.of_N (c - 48))%Z) s acc.

(** ** The fuel of [show_N] *)

Lemma size_nat_bound n : (n < 10 ^ N.of_nat (N.size_nat n))%N.
Proof.
  destruct n as [|p]; [cbn; lia|]; cbn [N.size_nat].
  induction p as [p IH|p IH|]; cbn [Pos.size_nat]; rewrite ?Nat2N.inj_succ, ?N.pow_succ_r'; [| |cbn; lia].
  - replace (N.pos p~1) with (2 * N.pos p + 1)%N by reflexivity; lia.
  - replace (N.pos p~0) with (2 * N.pos p)%N by reflexivity; lia.
Qed.

Lemma digits_go_S f n acc :
  digits_go (S f) n acc = if (n <? 10)%N then (48 + n)%N :: acc else digits_go f (n / 10) ((48 + n mod 10)%N :: acc).
Proof. reflexivity. Qed.

Lemma digits_go_more f k n acc :
  (n < 10 ^ N.of_nat f)%N -> digits_go (S f + k) n acc = digits_go (S f) n acc.
Proof.
  revert n acc; induction f as [|f IH]; intros n acc Hn.
  - assert (n = 0%N) by (cbn in Hn; lia); subst; reflexivity.
  - cbn [Nat.add digits_go]; destruct (n <? 10)%N eqn:E; [reflexivity|].
    apply IH; rewrite Nat2N.inj_succ, N.pow_succ_r' in Hn.
    apply N.Div0.div_lt_upper_bound; lia.
Qed.

(** ** What [show_N] prints *)

Lemma digits_go_spec f : forall n acc,
  (n < 10 ^ N.of_nat f)%N ->
  exists D, digits_go (S f) n acc = D ++ acc /\ D <> [] /\ Forall (fun c => is_digit c = true) D /\
            (forall a, dec_value D a = (a * 10 ^ Z.of_nat (length D) + Z.of_N n)%Z) /\
            (forall k, (n < 10 ^ N.of_nat (S k))%N -> (length D <= S k)%nat).
Proof.
  induction f as [|f IH]; intros n acc Hn.
  - assert (n = 0%N) by (cbn in Hn; lia); subst.
    exists [48%N]; split; [reflexivity|]; split; [discriminate|]; split; [repeat constructor|].
    split; [intros a; unfold dec_value; cbn -[Z.mul Z.add Z.pow]; lia | intros k _; cbn; lia].
  - rewrite digits_go_S; destruct (n <? 10)%N eqn:E.
    + apply N.ltb_lt in E; exists [(48 + n)%N]; repeat split; [discriminate | | | intros k _; cbn; lia].
      * constructor; [unfold is_digit; apply andb_true_intro; split; apply N.leb_le; lia | constructor].
      * intros a; unfold dec_value; cbn -[Z.mul Z.add Z.pow N.sub N.add]; rewrite N.add_comm, N.add_sub; lia.
    + apply N.ltb_ge in E.
      rewrite Nat2N.inj_succ, N.pow_succ_r' in Hn.
      destruct (IH (n / 10)%N ((48 + n mod 10)%N :: acc)) as (D & HD & Hne & Hdig & Hval & Hlen);
        [apply N.Div0.div_lt_upper_bound; lia|].
      exists (D ++ [(48 + n mod 10)%N]); rewrite HD, <- app_assoc.
      divk n 10%N; repeat split.
      * destruct D; [congruence | discriminate].
      * apply Forall_app; split; [exact Hdig|]; constructor; [|constructor].
        unfold is_digit; apply andb_true_intro; split; apply N.leb_le; lia.
      * intros a; unfold dec_value in *; rewrite fold_left_app, Hval; cbn [fold_left].
        rewrite length_app, Nat2Z.inj_add, Z.pow_add_r by lia; cbn [length Z.of_nat].
        rewrite N.add_comm, N.add_sub, Z.pow_1_r.
        match goal with Hq : n = _ |- _ => rewrite Hq end; rewrite N2Z.inj_add, N2Z.inj_mul; ring.
      * intros k Hk; rewrite length_app; cbn [length].
        destruct k as [|k]; [cbn in Hk; lia|].
        enough ((length D <= S k)%nat) by lia; apply Hlen.
        rewrite Nat2N.inj_succ, N.pow_succ_r' in Hk; lia.
Qed.

(** ** Reading digits back *)

Lemma digit_of c : is_digit c = true -> digit_value c = Some (c - 48)%N.
Proof.
  unfold is_digit; intros H; apply andb_true_iff in H as [H1 H2]; apply N.leb_le in H1, H2.
  replace c with (48 + (c - 48))%N at 1 by lia; apply digit_value_ascii; lia.
Qed.

Lemma digit_not_space c : is_digit c = true -> int_space c = false.
Proof.
  unfold is_digit, int_space; intros H; apply andb_true_iff in H as [H1 H2]; apply N.leb_le in H1, H2.
  rewrite (proj2 (N.ltb_lt c 127)) by lia.
  apply orb_false_iff; split; [apply N.eqb_neq; lia|].
  apply andb_false_iff; right; apply N.leb_gt; lia.
Qed.

Lemma int_digits_app D rest acc cnt b :
  Forall (fun c => is_digit c = true) D ->
  int_digits (D ++ rest) acc cnt b =
  int_digits rest (dec_value D acc) (cnt + N.of_nat (length D))%N (match D with [] => b | _ => true end).
Proof.
  intros HD; revert acc cnt b; induction HD as [|c D Hc _ IH]; intros acc cnt b.
  - rewrite N.add_0_r; reflexivity.
  - cbn [app int_digits]; pose proof Hc as Hc'; unfold is_digit in Hc'.
    apply andb_true_iff in Hc' as [H1 H2]; apply N.leb_le in H1, H2.
    rewrite (proj2 (N.eqb_neq c 95)) by lia; rewrite digit_of by exact Hc.
    rewrite IH; cbn [length]; rewrite Nat2N.inj_succ.
    replace (cnt + 1 + N.of_nat (length D))%N with (cnt + N.succ (N.of_nat (length D)))%N by lia.
    destruct D; reflexivity.
Qed.

(** The digits of [int(s)] after the spaces and the sign. *)
Lemma int_body D :
  D <> [] -> Forall (fun c => is_digit c = true) D ->
  int_digits D 0 0 false = Some (dec_value D 0, N.of_nat (length D)).
Proof.
  intros Hne HD; rewrite <- (app_nil_r D), int_digits_app by exact HD; rewrite app_nil_r.
  destruct D; [congruence | reflexivity].
Qed.

Lemma drop_int_space_digits c D : is_digit c = true -> drop_int_space (c :: D) = c :: D.
Proof. intros Hc; cbn [drop_int_space]; rewrite digit_not_space by exact Hc; reflexivity. Qed.

(** A run of digits keeps its ends through the stripping of [int()]. *)
Lemma strip_digits pre D :
  D <> [] -> Forall (fun c => is_digit c = true) D -> (pre = [] \/ pre = [45%N]) ->
  rev (drop_int_space (rev (drop_int_space (pre ++ D)))) = pre ++ D.
Proof.
  intros Hne HD Hpre.
  assert (Hfirst : drop_int_space (pre ++ D) = pre ++ D).
  { destruct Hpre as [->| ->]; [|reflexivity].
    destruct D as [|c D]; [congruence|]; inversion HD; apply drop_int_space_digits; assumption. }
  rewrite Hfirst; destruct (exists_last Hne) as (D0 & x & ->).
  rewrite app_assoc, rev_app_distr; cbn [rev app].
  rewrite drop_int_space_digits; [cbn [rev]; rewrite rev_involutive; reflexivity|].
  apply Forall_app in HD as [_ Hx]; inversion Hx; assumption.
Qed.

Lemma int_parse_digits D :
  D <> [] -> Forall (fun c => is_digit c = true) D ->
  int_parse D = if (N.of_nat (length D) <=? 4300)%N then Ok (dec_value D 0) else raise ValueError.
Proof.
  intros Hne HD; unfold int_parse.
  pose proof (strip_digits [] D Hne HD (or_introl eq_refl)) as Hs; cbn [app] in Hs; rewrite Hs.
  destruct D as [|c D']; [congruence|].
  assert (Hc : is_digit c = true) by (inversion HD; assumption).
  assert (Hsign : forall A (x y z : A), match c :: D' with 45%N :: _ => x | 43%N :: _ => y | _ => z end = z).
  { unfold is_digit in Hc; apply andb_true_iff in Hc as [H1 H2]; apply N.leb_le in H1, H2.
    intros A x y z; assert (c = 48 \/ c = 49 \/ c = 50 \/ c = 51 \/ c = 52 \/ c = 53 \/ c = 54 \/ c = 55 \/
                            c = 56 \/ c = 57)%N as Hcs by lia.
    destruct Hcs as [->|[->|[->|[->|[->|[->|[->|[->|[->| ->]]]]]]]]]; reflexivity. }
  rewrite (Hsign _ (-1, D')%Z (1, D')%Z (1, c :: D')%Z), int_body by (assumption || discriminate).
  destruct (N.of_nat (length (c :: D')) <=? 4300)%N; [rewrite Z.mul_1_l|]; reflexivity.
Qed.

Lemma int_parse_neg D :
  D <> [] -> Forall (fun c => is_digit c = true) D ->
  int_parse (45%N :: D) =
    if (N.of_nat (length D) <=? 4300)%N then Ok (- dec_value D 0)%Z else raise ValueError.
Proof.
  intros Hne HD; unfold int_parse.
  pose proof (strip_digits [45%N] D Hne HD (or_intror eq_refl)) as Hs; cbn [app] in Hs; rewrite Hs.
  rewrite int_body by assumption; destruct (N.of_nat (length D) <=? 4300)%N; [|reflexivity].
  f_equal; lia.
Qed.

Lemma show_N_digits n :
  show_N n <> [] /\ Forall (fun c => is_digit c = true) (show_N n) /\ dec_value (show_N n) 0 = Z.of_N n /\
  (forall k, (n < 10 ^ N.of_nat (S k))%N -> (length (show_N n) <= S k)%nat).
Proof.
  destruct (digits_go_spec (N.size_nat n) n [] (size_nat_bound n)) as (D & HD & Hne & Hdig & Hval & Hlen).
  unfold show_N; rewrite HD, app_nil_r; repeat split; try assumption; rewrite Hval; lia.
Qed.

Lemma leb_of_nat l : (N.of_nat l <=? 4300)%N = Nat.leb l 4300.
Proof. destruct (N.leb_spec (N.of_nat l) 4300), (Nat.leb_spec l 4300); lia. Qed.

Lemma pos_bound p : (Z.pos p < 10 ^ 4300)%Z -> (N.pos p < 10 ^ N.of_nat (S 4299))%N.
Proof.
  intros H; replace (N.of_nat (S 4299)) with 4300%N by reflexivity.
  apply N2Z.inj_lt; rewrite N2Z.inj_pow; exact H.
Qed.

(** the fuel of [show_N] ([str(n)], the year of [strftime]) is
    enough: any more fuel gives the same text, and that text is a
    non-empty run of decimal digits whose value is [n]. *)
Theorem show_N_fuel n k :
  digits_go (S (N.size_nat n) + k) n [] = show_N n /\
  show_N n <> [] /\ Forall (fun c => is_digit c = true) (show_N n) /\ dec_value (show_N n) 0 = Z.of_N n.
Proof.
  split; [apply digits_go_more, size_nat_bound|].
  destruct (show_N_digits n) as (? & ? & ? & _); auto.
Qed.

(** C23: [search] reads a [count] given as a string of decimal digits with
    [int()], which accepts at most 4300 digits: up to that length the
    count is the number written, beyond it [search] raises
    [ValueError]. *)
Theorem search_count_digit_limit s :
  s <> [] -> Forall (fun c => is_digit c = true) s ->
  search_count (JStr s) =
    if Nat.leb (length s) 4300 then Ok (JNum (dec_value s 0)) else raise ValueError.
Proof.
  intros Hne Hs; unfold search_count; rewrite int_parse_digits, leb_of_nat by assumption.
  destruct (Nat.leb (length s) 4300); reflexivity.
Qed.

(** for every integer [z] of at most 4300 digits, [str(z)] (the
    digit loop of [json.dumps]) is an optional minus sign followed by a
    non-empty run of decimal digits whose value is [|z|], and a [count]
    passed to [search] as that string is read back as [z]: [int] inverts
    [str]. *)
Theorem search_count_show z :
  (Z.abs z < 10 ^ 4300)%Z ->
  (exists D, show_Z z = (if (z <? 0)%Z then [45%N] else []) ++ D /\ D <> [] /\
             Forall (fun c => is_digit c = true) D /\ dec_value D 0 = Z.abs z) /\
  search_count (JStr (show_Z z)) = Ok (JNum z).
Proof.
  intros Hz; split.
  { pose proof (show_N_digits (Z.to_N (Z.abs z))) as (? & ? & ? & _).
    exists (show_N (Z.to_N (Z.abs z))); repeat split; try assumption.
    - destruct z; reflexivity.
    - rewrite Z2N.id in *; [assumption | apply Z.abs_nonneg]. }
  unfold search_count, show_Z.
  destruct z as [|p|p]; [reflexivity| |]; cbn [Z.abs] in Hz;
    destruct (show_N_digits (N.pos p)) as (Hne & Hdig & Hval & Hlen);
    pose proof (Hlen 4299%nat (pos_bound p Hz)) as Hl.
  - cbn [Z.to_N]; rewrite int_parse_digits, leb_of_nat by assumption.
    rewrite (proj2 (Nat.leb_le _ _) Hl), Hval; reflexivity.
  - rewrite int_parse_neg, leb_of_nat by assumption.
    rewrite (proj2 (Nat.leb_le _ _) Hl), Hval; reflexivity.
Qed.

Lemma search_count_digit_limit_witness :
  search_count (JStr (u "0042")) = Ok (JNum 42) /\
  search_count (JStr (List.repeat 49%N 4301)) = raise ValueError.
Proof.
  split.
  - rewrite search_count_digit_limit by first [discriminate | repeat constructor]; reflexivity.
  - rewrite search_count_digit_limit; [reflexivity | discriminate |].
    apply Forall_forall; intros x Hx; apply repeat_spec in Hx; subst; reflexivity.
Defined.

End Numbers.
