(* ===== verification/Utility.v ===== *)
(** * [Utility.hashmd5] and [Utility.UniqClear]

    Two static helpers of [Utility] (src/controller/x/xcrawl.py):

    - [hashmd5(url)] (lines 103-111) returns
      [hashlib.md5(url.encode('utf-8')).hexdigest()].  The encoding is
      [Query.utf8_encode] (it raises [UnicodeEncodeError] on a lone
      surrogate); MD5 is written out as RFC 1321 and CPython's
      [_md5] compute it: 32-bit words held as [N] with every sum reduced
      modulo [2^32], the message padded with [0x80], zeros and its length
      in bits modulo [2^64], 64 rounds per 64-byte block, the digest the
      four words little-endian, printed as lowercase hexadecimal.
    - [UniqClear(text)] (lines 123-130) is
      [unicodedata.normalize('NFKD', text).encode('ascii', 'ignore')
      .decode('ascii')]: the ASCII code points of the normalized text.  The
      normalization needs the Unicode character database; it is the
      section variable [nfkd]. *)

From Stdlib Require Import String List NArith ZArith Bool Lia.
From S2P Require Import Prelude Query Params.
Import ListNotations.
Open Scope py_scope.
Open Scope N_scope.

Module Utility.
Import Query Params.

(** ** 32-bit words *)

Definition W32 : N := 2 ^ 32.

Definition add32 (a b : N) : N := (a + b) mod W32.

Definition not32 (x : N) : N := N.lxor x (W32 - 1).

(** [((x << c) | (x >> (32 - c))) & 0xFFFFFFFF]. *)
Definition rotl32 (x c : N) : N := N.lor (N.shiftl x c mod W32) (N.shiftr x (32 - c)).

(** [K[i] = floor(abs(sin(i + 1)) * 2^32)]. *)
Definition K : list N :=
  [0xd76aa478; 0xe8c7b756; 0x242070db; 0xc1bdceee; 0xf57c0faf; 0x4787c62a; 0xa8304613; 0xfd469501;
   0x698098d8; 0x8b44f7af; 0xffff5bb1; 0x895cd7be; 0x6b901122; 0xfd987193; 0xa679438e; 0x49b40821;
   0xf61e2562; 0xc040b340; 0x265e5a51; 0xe9b6c7aa; 0xd62f105d; 0x02441453; 0xd8a1e681; 0xe7d3fbc8;
   0x21e1cde6; 0xc33707d6; 0xf4d50d87; 0x455a14ed; 0xa9e3e905; 0xfcefa3f8; 0x676f02d9; 0x8d2a4c8a;
   0xfffa3942; 0x8771f681; 0x6d9d6122; 0xfde5380c; 0xa4beea44; 0x4bdecfa9; 0xf6bb4b60; 0xbebfbc70;
   0x289b7ec6; 0xeaa127fa; 0xd4ef3085; 0x04881d05; 0xd9d4d039; 0xe6db99e5; 0x1fa27cf8; 0xc4ac5665;
   0xf4292244; 0x432aff97; 0xab9423a7; 0xfc93a039; 0x655b59c3; 0x8f0ccc92; 0xffeff47d; 0x85845dd1;
   0x6fa87e4f; 0xfe2ce6e0; 0xa3014314; 0x4e0811a1; 0xf7537e82; 0xbd3af235; 0x2ad7d2bb; 0xeb86d391].

(** The rotation of each round. *)
Definition SHIFTS : list N :=
  [7; 12; 17; 22; 7; 12; 17; 22; 7; 12; 17; 22; 7; 12; 17; 22;
   5; 9; 14; 20; 5; 9; 14; 20; 5; 9; 14; 20; 5; 9; 14; 20;
   4; 11; 16; 23; 4; 11; 16; 23; 4; 11; 16; 23; 4; 11; 16; 23;
   6; 10; 15; 21; 6; 10; 15; 21; 6; 10; 15; 21; 6; 10; 15; 21].

(** The auxiliary function of round [i] and the message word it reads. *)
Definition aux (i : nat) (b c d : N) : N * nat :=
  if Nat.ltb i 16 then (N.lor (N.land b c) (N.land (not32 b) d), i)
  else if Nat.ltb i 32 then (N.lor (N.land d b) (N.land (not32 d) c), (5 * i + 1) mod 16)%nat
  else if Nat.ltb i 48 then (N.lxor b (N.lxor c d), (3 * i + 5) mod 16)%nat
  else (N.lxor c (N.lor b (not32 d)), (7 * i) mod 16)%nat.

Definition state : Type := N * N * N * N.

Definition INIT : state := (0x67452301, 0xefcdab89, 0x98badcfe, 0x10325476).

(** Round [i] on the words [M] of a block. *)
Definition md5_round (M : list N) (st : state) (i : nat) : state :=
  let '(a, b, c, d) := st in
  let '(f, g) := aux i b c d in
  let f' := add32 (add32 (add32 f a) (nth i K 0)) (nth g M 0) in
  (d, add32 b (rotl32 f' (nth i SHIFTS 0)), b, c).

(** One block: 64 rounds, then the sum with the state before them. *)
Definition compress (st : state) (M : list N) : state :=
  let '(a, b, c, d) := fold_left (md5_round M) (seq 0 64) st in
  let '(a0, b0, c0, d0) := st in
  (add32 a0 a, add32 b0 b, add32 c0 c, add32 d0 d).

(** ** Bytes *)

(** The [n] bytes of [x], least significant first. *)
Definition le_bytes (n : nat) (x : N) : list N :=
  map (fun i => N.land (N.shiftr x (8 * N.of_nat i)) 255) (seq 0 n).

(** The word of four bytes, least significant first. *)
Definition le_word (bs : list N) : N := fold_right (fun b acc => b + 256 * acc) 0 bs.

(** [l] cut in pieces of [k] elements. *)
Fixpoint chunks_go {A} (fuel k : nat) (l : list A) : list (list A) :=
  match fuel, l with
  | O, _ | _, [] => []
  | S f, _ => firstn k l :: chunks_go f k (skipn k l)
  end.

Definition chunks {A} (k : nat) (l : list A) : list (list A) := chunks_go (length l) k l.

(** The message, [0x80], zeros up to 56 bytes modulo 64, and the length in
    bits modulo [2^64], little-endian. *)
Definition md5_pad (m : list N) : list N :=
  m ++ [128] ++ repeat 0 ((119 - length m mod 64) mod 64)%nat ++
    le_bytes 8 ((8 * N.of_nat (length m)) mod 2 ^ 64).

Definition md5 (m : list N) : list N :=
  let '(a, b, c, d) := fold_left compress (map (fun blk => map le_word (chunks 4 blk)) (chunks 64 (md5_pad m))) INIT in
  le_bytes 4 a ++ le_bytes 4 b ++ le_bytes 4 c ++ le_bytes 4 d.

(** [bytes.hex()]. *)
Definition hexdigest (bs : list N) : pystr := flat_map (fun b => [hex_lower (b / 16); hex_lower (b mod 16)]) bs.

(** [Utility.hashmd5(url)]. *)
Definition hashmd5 (url : pystr) : res pystr :=
  bs <- utf8_encode url ;; Ok (hexdigest (md5 bs)).

(** ** [UniqClear] *)

Section UniqClear.
Variable nfkd : pystr -> pystr.

(** [unicodedata.normalize('NFKD', text).encode('ascii', 'ignore').decode('ascii')]. *)
Definition UniqClear (text : pystr) : pystr := filter (fun c => c <? 128) (nfkd text).

End UniqClear.

End Utility.

(** ** Properties of the helpers *)

Module UtilityProps.
Import Query Params Utility.

(** A lowercase hexadecimal digit. *)
Definition hex_digit (c : N) : Prop := (48 <= c <= 57) \/ (97 <= c <= 102).

(** The test suite of RFC 1321 (appendix A.5) with the digests hashlib
    gives, and a URL whose last character takes two bytes in UTF-8. *)
Definition MD5_SUITE : list (pystr * pystr) :=
  [(u "", u "d41d8cd98f00b204e9800998ecf8427e");
   (u "a", u "0cc175b9c0f1b6a831c399e269772661");
   (u "abc", u "900150983cd24fb0d6963f7d28e17f72");
   (u "message digest", u "f96b697d7cb7938d525a2f31aaf161d0");
   (u "abcdefghijklmnopqrstuvwxyz", u "c3fcd3d76192e4007dfb496cca67e13b");
   (u "ABCDEFGHIJKLMNOPQRSTUVWXYZabcdefghijklmnopqrstuvwxyz0123456789", u "d174ab98d277d9f5a5611c2c9f419d9f");
   (u "12345678901234567890123456789012345678901234567890123456789012345678901234567890",
    u "57edf4a22be3c955ac49da2e2107b67a");
   (u "https://x.com/caf" ++ [233], u "24e94951628631b5bc089370be27d2c4")].

Lemma testbit_high x n m : x < 2 ^ n -> n <= m -> N.testbit x m = false.
Proof.
  intros Hx Hm; destruct (N.eq_dec x 0) as [->|Hx0]; [apply N.bits_0|].
  apply N.bits_above_log2; apply N.log2_lt_pow2 in Hx; lia.
Qed.

Lemma mod_rot i c : i < 32 -> 0 < c < 32 ->
  (i + 32 - c) mod 32 = if i <? c then i + 32 - c else i - c.
Proof.
  intros Hi Hc; destruct (N.ltb_spec i c); [apply N.mod_small; lia|].
  replace (i + 32 - c) with (i - c + 1 * 32) by lia; rewrite N.Div0.mod_add; apply N.mod_small; lia.
Qed.

Lemma rotl32_bit x c i : x < W32 -> 0 < c < 32 ->
  N.testbit (rotl32 x c) i = if i <? 32 then N.testbit x ((i + 32 - c) mod 32) else false.
Proof.
  intros Hx Hc; unfold rotl32, W32; rewrite N.lor_spec, N.shiftr_spec'.
  destruct (N.ltb_spec i 32) as [Hi|Hi].
  - rewrite N.mod_pow2_bits_low by exact Hi; rewrite mod_rot by assumption.
    destruct (N.ltb_spec i c).
    + rewrite N.shiftl_spec_low by exact H; cbn [orb]; f_equal; lia.
    + rewrite N.shiftl_spec_high' by exact H.
      rewrite (testbit_high x 32 (i + (32 - c))) by (exact Hx || lia); apply orb_false_r.
  - rewrite N.mod_pow2_bits_high by exact Hi.
    rewrite (testbit_high x 32 (i + (32 - c))) by (exact Hx || lia); reflexivity.
Qed.

(** [le_bytes] peels the least significant byte. *)
Lemma le_bytes_S n x : le_bytes (S n) x = x mod 256 :: le_bytes n (x / 256).
Proof.
  unfold le_bytes; cbn [seq map]; f_equal.
  - change 255 with (N.ones 8); rewrite N.land_ones; reflexivity.
  - rewrite <- seq_shift, map_map; apply map_ext; intros i.
    change 256 with (2 ^ 8); rewrite <- (N.shiftr_div_pow2 x 8), N.shiftr_shiftr; f_equal; f_equal; lia.
Qed.

(** The bytes of a word read back as the word modulo [2^(8n)]. *)
Lemma le_word_bytes n x : le_word (le_bytes n x) = x mod 2 ^ (8 * N.of_nat n).
Proof.
  revert x; induction n as [|n IH]; intros x; [cbn; symmetry; apply N.mod_1_r|].
  rewrite le_bytes_S; cbn [le_word fold_right]; fold (le_word (le_bytes n (x / 256))); rewrite IH.
  replace (8 * N.of_nat (S n)) with (8 + 8 * N.of_nat n) by lia.
  rewrite N.pow_add_r, N.Div0.mod_mul_r; reflexivity.
Qed.

Lemma length_le_bytes n x : length (le_bytes n x) = n.
Proof. unfold le_bytes; rewrite length_map, length_seq; reflexivity. Qed.

Lemma le_bytes_bound n x : Forall (fun b => b < 256) (le_bytes n x).
Proof.
  unfold le_bytes; apply Forall_map, Forall_forall; intros i _.
  change 255 with (N.ones 8); rewrite N.land_ones; apply N.mod_lt; discriminate.
Qed.

Lemma length_md5 m : length (md5 m) = 16%nat.
Proof.
  unfold md5; destruct (fold_left _ _ _) as [[[a b] c] d].
  rewrite !length_app, !length_le_bytes; reflexivity.
Qed.

Lemma md5_bytes m : Forall (fun b => b < 256) (md5 m).
Proof.
  unfold md5; destruct (fold_left _ _ _) as [[[a b] c] d].
  rewrite !Forall_app; repeat split; apply le_bytes_bound.
Qed.

Lemma hex_lower_digit d : d < 16 -> hex_digit (hex_lower d).
Proof. unfold hex_lower, hex_digit; intros H; destruct (N.ltb_spec d 10); lia. Qed.

Lemma hexdigest_shape bs :
  Forall (fun b => b < 256) bs -> length (hexdigest bs) = (2 * length bs)%nat /\ Forall hex_digit (hexdigest bs).
Proof.
  induction 1 as [|b bs Hb _ [IHl IHf]]; [split; [reflexivity | constructor]|].
  cbn [hexdigest flat_map app length] in *; fold (hexdigest bs); split; [rewrite IHl; lia|].
  constructor; [apply hex_lower_digit; apply N.Div0.div_lt_upper_bound; lia|].
  constructor; [apply hex_lower_digit, N.mod_lt; discriminate | exact IHf].
Qed.

Lemma utf8_char_fail c : is_scalar c = false -> utf8_char c = raise UnicodeEncodeError.
Proof.
  unfold is_scalar, utf8_char; intros H.
  destruct ((0xD800 <=? c) && (c <=? 0xDFFF)) eqn:Hs.
  - apply andb_true_iff in Hs as [H1 H2]; apply N.leb_le in H1, H2.
    rewrite (proj2 (N.ltb_ge c 0x80)), (proj2 (N.ltb_ge c 0x800)), (proj2 (N.ltb_lt c 0x10000)) by lia; reflexivity.
  - cbn [negb] in H; rewrite andb_true_r in H; apply N.ltb_ge in H.
    rewrite (proj2 (N.ltb_ge c 0x80)), (proj2 (N.ltb_ge c 0x800)), (proj2 (N.ltb_ge c 0x10000)),
      (proj2 (N.ltb_ge c 0x110000)) by lia; reflexivity.
Qed.

Lemma utf8_encode_fail s : forallb is_scalar s = false -> utf8_encode s = raise UnicodeEncodeError.
Proof.
  unfold utf8_encode; induction s as [|c s IH]; cbn [forallb mapM]; [discriminate|].
  destruct (is_scalar c) eqn:Hc; cbn [andb]; intros H.
  - destruct (utf8_char_total c Hc) as [b ->]; cbn [bind]; specialize (IH H).
    destruct (mapM utf8_char s); [discriminate | injection IH as <-; reflexivity].
  - rewrite utf8_char_fail by exact Hc; reflexivity.
Qed.

(** [rotl32] is the 32-bit left rotation: on a 32-bit word and a
    shift of 1 to 31 it gives a 32-bit word whose bit [i] is bit
    [i - c] of the word, modulo 32, so nothing is lost past bit 31 and
    nothing is carried into it. *)
Theorem rotl32_rotates x c :
  x < W32 -> 0 < c < 32 ->
  rotl32 x c < W32 /\ forall i, i < 32 -> N.testbit (rotl32 x c) i = N.testbit x ((i + 32 - c) mod 32).
Proof.
  intros Hx Hc; split.
  - replace (rotl32 x c) with (rotl32 x c mod W32); [apply N.mod_lt; discriminate|].
    apply N.bits_inj; intros i; unfold W32; rewrite rotl32_bit by assumption.
    destruct (N.ltb_spec i 32);
      [rewrite N.mod_pow2_bits_low, rotl32_bit by assumption | rewrite N.mod_pow2_bits_high by assumption];
      [rewrite (proj2 (N.ltb_lt i 32)) by assumption|]; reflexivity.
  - intros i Hi; rewrite rotl32_bit by assumption; rewrite (proj2 (N.ltb_lt i 32)) by exact Hi; reflexivity.
Qed.

Lemma length_md5_pad m :
  length (md5_pad m) = (length m + 1 + (119 - length m mod 64) mod 64 + 8)%nat.
Proof. unfold md5_pad; rewrite !length_app, repeat_length, length_le_bytes; cbn [length]; lia. Qed.

(** The zeros of the padding: 55 bytes minus the position in the block,
    modulo 64. *)
Lemma pad_zeros a : (a < 64)%nat -> ((119 - a) mod 64 = if Nat.leb a 55 then 55 - a else 119 - a)%nat.
Proof.
  intros Ha; destruct (Nat.leb_spec a 55).
  - replace (119 - a)%nat with ((55 - a) + 1 * 64)%nat by lia; rewrite Nat.Div0.mod_add; apply Nat.mod_small; lia.
  - apply Nat.mod_small; lia.
Qed.

(** the padding of MD5 gives whole 64-byte blocks, adds between 9 and
    72 bytes after the message, and its last eight bytes read back as the
    length of the message in bits modulo [2^64]: the counter wraps, as the
    RFC and CPython's [_md5] specify, for messages of [2^61] bytes and
    more. *)
Theorem md5_pad_blocks m :
  (length (md5_pad m) mod 64 = 0 /\ length m + 9 <= length (md5_pad m) <= length m + 72)%nat /\
  firstn (length m) (md5_pad m) = m /\
  le_word (skipn (length (md5_pad m) - 8) (md5_pad m)) = (8 * N.of_nat (length m)) mod 2 ^ 64.
Proof.
  split; [|split].
  - rewrite length_md5_pad.
    pose proof (Nat.mod_upper_bound (length m) 64 ltac:(lia)) as Ha.
    pose proof (Nat.div_mod_eq (length m) 64).
    rewrite (pad_zeros _ Ha); split; [|destruct (Nat.leb_spec (length m mod 64) 55); lia].
    replace (length m + 1 + (if Nat.leb (length m mod 64) 55 then 55 - length m mod 64 else 119 - length m mod 64) + 8)%nat
      with ((length m / 64 + 1 + (if Nat.leb (length m mod 64) 55 then 0 else 1)) * 64)%nat
      by (destruct (Nat.leb_spec (length m mod 64) 55); lia).
    apply Nat.Div0.mod_mul.
  - unfold md5_pad; rewrite firstn_app, Nat.sub_diag, firstn_O, app_nil_r; apply firstn_all.
  - rewrite length_md5_pad; unfold md5_pad.
    replace (length m + 1 + (119 - length m mod 64) mod 64 + 8 - 8)%nat
      with (length (m ++ [128] ++ repeat 0 ((119 - length m mod 64) mod 64)%nat))
      by (rewrite !length_app, repeat_length; cbn [length]; lia).
    rewrite !app_assoc, skipn_app, skipn_all, Nat.sub_diag, skipn_O; cbn [app].
    rewrite le_word_bytes; apply N.Div0.mod_mod.
Qed.

(** C13: [Utility.hashmd5] returns 32 lowercase hexadecimal digits for
    every text without a lone surrogate, and raises [UnicodeEncodeError]
    from [url.encode('utf-8')] for every text with one. *)
Theorem hashmd5_hexdigest url :
  Forall (fun sh => hashmd5 (fst sh) = Ok (snd sh)) MD5_SUITE /\
  (forallb is_scalar url = true -> exists h, hashmd5 url = Ok h /\ length h = 32%nat /\ Forall hex_digit h) /\
  (forallb is_scalar url = false -> hashmd5 url = raise UnicodeEncodeError).
Proof.
  split; [unfold MD5_SUITE; repeat apply Forall_cons; try apply Forall_nil; vm_compute; reflexivity|].
  unfold hashmd5; split; intros H.
  - destruct (utf8_encode_total url H) as [bs Hbs]; rewrite Hbs; eexists; split; [reflexivity|].
    destruct (hexdigest_shape (md5 bs) (md5_bytes bs)) as [Hl Hf]; rewrite Hl, length_md5; split; [reflexivity | exact Hf].
  - rewrite utf8_encode_fail by exact H; reflexivity.
Qed.

Lemma hashmd5_hexdigest_witness :
  hashmd5 (u "abc") = Ok (u "900150983cd24fb0d6963f7d28e17f72") /\
  hashmd5 [104; 0xD800] = raise UnicodeEncodeError.
Proof.
  split; [vm_compute; reflexivity|].
  exact (proj2 (proj2 (hashmd5_hexdigest [104; 0xD800])) eq_refl).
Defined.

End UtilityProps.
