(* ===== verification/Mysql.v ===== *)
(** * The MySQL helpers: DML query text and connector errors

    [MySQLDManipulator] (src/MySQL/mysqldml.py) turns a table name and a
    dictionary into an [INSERT] statement whose column list and value
    pattern are Python tuple reprs with their quotes removed, and sends it
    to a [mysql.connector] cursor; [update] and [delete] interpolate their
    arguments into the statement.  Every method wraps its work in
    [try ... except MySQLConnectorError], and [ErrorHandling]
    (src/MySQL/exception.py) maps a connector error number to a message.

    The cursor and the connection are the interface [Driver] over a state
    [S] of the database: the theorems hold whatever the driver does.
    [str.__repr__] depends on CPython's table of printable characters for
    non-ASCII code points; it is the section variable [isprintable]. *)

From Stdlib Require Import String List NArith ZArith Bool Lia.
From S2P Require Import Prelude Json Timestamp Query Params.
Import ListNotations.
Open Scope py_scope.
Open Scope N_scope.

Module Mysql.

(** ** [str.__repr__] and [tuple.__repr__] *)

Section Repr.
Variable isprintable : N -> bool.

Definition hexd (d : N) : N := if d <? 10 then 48 + d else 87 + d.

(** The [n] low hexadecimal digits of [c], most significant first. *)
Fixpoint hex_digits (n : nat) (c : N) : pystr :=
  match n with
  | O => []
  | S n' => hex_digits n' (c / 16) ++ [hexd (c mod 16)]
  end.

(** One code point inside a repr quoted with [q]. *)
Definition repr_char (q c : N) : pystr :=
  if (c =? q) || (c =? 92) then [92; c]
  else if c =? 9 then [92; 116]
  else if c =? 10 then [92; 110]
  else if c =? 13 then [92; 114]
  else if (c <? 32) || (c =? 127) then [92; 120] ++ hex_digits 2 c
  else if c <? 127 then [c]
  else if isprintable c then [c]
  else if c <=? 0xFF then [92; 120] ++ hex_digits 2 c
  else if c <=? 0xFFFF then [92; 117] ++ hex_digits 4 c
  else [92; 85] ++ hex_digits 8 c.

(** [repr(s)]: double quotes when [s] has a single quote and no double
    quote, single quotes otherwise. *)
Definition str_repr (s : pystr) : pystr :=
  let q := if existsb (N.eqb 39) s && negb (existsb (N.eqb 34) s) then 34 else 39 in
  q :: flat_map (repr_char q) s ++ [q].

(** [repr] of a tuple of already-repr'd elements. *)
Definition tuple_repr (xs : list pystr) : pystr :=
  match xs with
  | [] => u "()"
  | [x] => [40] ++ x ++ u ",)"
  | _ => [40] ++ Params.join (u ", ") xs ++ [41]
  end.

(** [tuple(...).__str__()] with every single quote removed ([str.replace]). *)
Definition unquoted_tuple (xs : list pystr) : pystr :=
  str_replace [39] [] (tuple_repr (map str_repr xs)).

End Repr.

(** ** The connector *)

(** What the code uses of [mysql.connector]: [cursor.execute],
    [cursor.executemany] and [connection.commit], over the state of the
    database.  An error of the driver is an [exc] of its choice. *)
Class Driver (S : Type) := {
  execute : S -> pystr -> option (list json) -> res S;
  executemany : S -> pystr -> list (list json) -> res S;
  commit : S -> res S
}.

(** [mysql.connector.connect] on the keyword arguments, followed by [connection.cursor()]:
    the state of a new connection, or the error the driver raises. *)
Class Connector (S : Type) := { connect : dict -> res S }.

(** [MySQLDManipulator.__init__]: the object is its connection;
    an error of [connect] is not caught. *)
Definition dml_init {S} `{Connector S} (kwargs : dict) : res S := connect kwargs.

Definition ER_ACCESS_DENIED_ERROR : Z := 1045.
Definition ER_BAD_DB_ERROR : Z := 1049.
Definition ER_TABLE_EXISTS_ERROR : Z := 1050.
Definition ER_NO_SUCH_TABLE : Z := 1146.

(** [MySQLConnectorError(msg)] as the code raises it: no [errno], so
    [Error.__init__] sets it to [-1], and [str(e)] is [msg]. *)
Definition connector_error (msg : pystr) : exc := MySQLConnectorError (-1) msg.

Definition MSG_ACCESS : pystr := u "Error! Access denied. Check your username and password.".
Definition MSG_BAD_DB : pystr := u "Error! Database not found.".

(** [ErrorHandling(error, name)] of src/MySQL/exception.py: the message
    of the exception it raises, for [error.errno] and [str(error)]; [name]
    is formatted as Python formats it, [None] included. *)
Definition handling_msg (errno : Z) (msg : pystr) (name : option pystr) : pystr :=
  let nm := match name with Some n => n | None => u "None" end in
  if Z.eqb errno ER_ACCESS_DENIED_ERROR then MSG_ACCESS
  else if Z.eqb errno ER_BAD_DB_ERROR then MSG_BAD_DB
  else if Z.eqb errno ER_TABLE_EXISTS_ERROR then u "Error! Table '" ++ nm ++ u "' already exists"
  else if Z.eqb errno ER_NO_SUCH_TABLE then u "Error! Table '" ++ nm ++ u "' doesn't exist"
  else u "Error! " ++ msg.

(** Every branch of [ErrorHandling] raises. *)
Definition error_handling (errno : Z) (msg : pystr) (name : option pystr) : exc :=
  connector_error (handling_msg errno msg name).

(** The [except MySQLConnectorError as e] clause of every method of
    mysqldml.py: only that class is caught, and it is raised again with a
    message chosen by its [errno]. *)
Definition dml_except {S} (m : res S) : res S :=
  match m with
  | Err (MySQLConnectorError errno msg) =>
      if Z.eqb errno ER_ACCESS_DENIED_ERROR then raise (connector_error MSG_ACCESS)
      else if Z.eqb errno ER_BAD_DB_ERROR then raise (connector_error MSG_BAD_DB)
      else raise (connector_error (u "Error! " ++ msg))
  | _ => m
  end.

(** [len(x)] and the [keys()] and [values()] of a dictionary. *)
Definition py_len (j : json) : res nat :=
  match j with
  | JStr s => Ok (length s)
  | JList l => Ok (length l)
  | JDict d => Ok (length d)
  | _ => raise TypeError
  end.

Definition dict_keys (j : json) : res (list pystr) :=
  match j with
  | JDict d => Ok (map fst d)
  | _ => raise AttributeError
  end.

Definition dict_values (j : json) : res (list json) :=
  match j with
  | JDict d => Ok (map snd d)
  | _ => raise AttributeError
  end.

Section DML.
Context {S : Type} `{Driver S}.
Variable isprintable : N -> bool.

Definition insert_query (table : pystr) (columns : list pystr) (n : nat) : pystr :=
  u "INSERT INTO " ++ table ++ unquoted_tuple isprintable columns ++ u " VALUES" ++
  unquoted_tuple isprintable (repeat (u "%s") n).

(** [MySQLDManipulator.insert(table, datas)]. *)
Definition insert (s : S) (table : pystr) (datas : dict) : res S :=
  dml_except
    (match datas with
     | [] => raise EmptyDictionaryError
     | _ :: _ =>
         s1 <- execute s (insert_query table (map fst datas) (length datas)) (Some (map snd datas)) ;;
         commit s1
     end).

(** [MySQLDManipulator.manyinsert(table, datas)]: the columns and their
    number come from [datas[0]], the values of each row in its own key
    order. *)
Definition manyinsert (s : S) (table : pystr) (datas : list json) : res S :=
  dml_except
    (match datas with
     | [] => raise EmptyListError
     | d0 :: _ =>
         n <- py_len d0 ;;
         cols <- dict_keys d0 ;;
         values <- mapM dict_values datas ;;
         s1 <- executemany s (insert_query table cols n) values ;;
         commit s1
     end).

(** [MySQLDManipulator.update(table, column, set, condition)]. *)
Definition update_row (s : S) (table column set condition : pystr) : res S :=
  dml_except
    (s1 <- execute s (u "UPDATE " ++ table ++ u " SET " ++ column ++ u " = " ++ set ++
                      u " WHERE " ++ condition) None ;;
     commit s1).

(** [MySQLDManipulator.delete(table, condition)]: the [WHERE] clause is
    added only for a non-empty condition. *)
Definition delete (s : S) (table : pystr) (condition : option pystr) : res S :=
  let query := u "DELETE FROM " ++ table ++
               match condition with
               | Some ((_ :: _) as c) => u " WHERE " ++ c
               | _ => []
               end in
  dml_except (s1 <- execute s query None ;; commit s1).

End DML.

(** ** A driver that records what it is asked to do *)

Inductive op : Type :=
| Exec (q : pystr) (params : option (list json))
| ExecMany (q : pystr) (params : list (list json))
| Commit.

#[export] Instance log_driver : Driver (list op) := {
  execute s q p := Ok (s ++ [Exec q p]);
  executemany s q ps := Ok (s ++ [ExecMany q ps]);
  commit s := Ok (s ++ [Commit])
}.

End Mysql.

(** ** Properties of the DML helpers *)

Module MysqlProps.
Import Mysql.

(** A key printed by [repr] between single quotes with nothing escaped:
    printable ASCII other than the quote and the backslash. *)
Definition plain_char (c : N) : bool :=
  (32 <=? c) && (c <=? 126) && negb (c =? 39) && negb (c =? 92).

Definition plain (k : pystr) : bool := forallb plain_char k.

(** A driver that fails every statement with a [ProgrammingError] of
    [mysql.connector], access denied. *)
#[export] Instance deny_driver : Driver unit := {
  execute _ _ _ := Err (DriverError 1045 (u "1045 (28000): Access denied for user"));
  executemany _ _ _ := Err (DriverError 1045 (u "1045 (28000): Access denied for user"));
  commit _ := Ok tt
}.

(** The SQL tuple the code means to build: [(a, b)], [(a,)] for one
    element. *)
Definition sql_tuple (ks : list pystr) : pystr :=
  [40] ++ Params.join (u ", ") ks ++ (if Nat.eqb (length ks) 1 then u ",)" else [41]).

Definition insert_text (table : pystr) (ks : list pystr) : pystr :=
  u "INSERT INTO " ++ table ++ sql_tuple ks ++ u " VALUES" ++ sql_tuple (repeat (u "%s") (length ks)).

Definition not_quote (c : N) : bool := negb (N.eqb 39 c).

Lemma str_replace_quote s : str_replace [39] [] s = filter not_quote s.
Proof.
  unfold str_replace; induction s as [|c s IH]; [reflexivity|].
  cbn [replace_go prefixb filter]; unfold not_quote.
  destruct (N.eqb 39 c); cbn; [exact IH | f_equal; exact IH].
Qed.

Lemma plain_char_repr isp c : plain_char c = true -> repr_char isp 39 c = [c].
Proof.
  unfold plain_char, repr_char; intros Hc.
  repeat rewrite andb_true_iff in Hc; destruct Hc as [[[H1 H2] H3] H4].
  apply negb_true_iff in H3, H4; apply N.leb_le in H1, H2.
  rewrite H3, H4, (proj2 (N.eqb_neq c 9)), (proj2 (N.eqb_neq c 10)), (proj2 (N.eqb_neq c 13))
    by lia; cbn [orb].
  rewrite (proj2 (N.ltb_ge c 32)), (proj2 (N.eqb_neq c 127)), (proj2 (N.ltb_lt c 127)) by lia.
  reflexivity.
Qed.

Lemma key_no_quote k : plain k = true -> existsb (N.eqb 39) k = false.
Proof.
  induction k as [|c k IH]; intros H; [reflexivity|].
  cbn [plain forallb existsb] in *; apply andb_true_iff in H as [Hc Hk].
  rewrite IH by exact Hk; rewrite orb_false_r.
  destruct (N.eqb_spec 39 c); [subst; cbv in Hc; discriminate | reflexivity].
Qed.

Lemma str_repr_plain isp k : plain k = true -> str_repr isp k = 39 :: k ++ [39].
Proof.
  intros H; unfold str_repr; rewrite key_no_quote by exact H; cbn [andb].
  f_equal; f_equal.
  induction k as [|c k IH]; [reflexivity|].
  cbn in H; apply andb_true_iff in H as [Hc Hk].
  cbn [flat_map]; rewrite plain_char_repr, IH by assumption; reflexivity.
Qed.

Lemma filter_plain k : plain k = true -> filter not_quote k = k.
Proof.
  induction k as [|c k IH]; intros H; [reflexivity|].
  cbn [plain forallb filter] in *; apply andb_true_iff in H as [Hc Hk].
  change (not_quote c) with (negb (N.eqb 39 c)).
  destruct (N.eqb_spec 39 c); [subst; cbv in Hc; discriminate|].
  cbn [negb]; rewrite IH by exact Hk; reflexivity.
Qed.

Lemma filter_wrap k : plain k = true -> filter not_quote (39 :: k ++ [39]) = k.
Proof.
  intros H; cbn [filter not_quote N.eqb negb Pos.eqb].
  rewrite filter_app, filter_plain by exact H; cbn; apply app_nil_r.
Qed.

Lemma filter_join ks :
  Forall (fun k => plain k = true) ks ->
  filter not_quote (Params.join (u ", ") (map (fun k => 39 :: k ++ [39]) ks)) = Params.join (u ", ") ks.
Proof.
  induction 1 as [|k ks Hk Hks IH]; [reflexivity|].
  destruct ks as [|k' ks]; [cbn [map Params.join]; apply filter_wrap, Hk|].
  cbn [map] in *; rewrite !Params.join_cons by discriminate.
  rewrite !filter_app, filter_wrap, IH by exact Hk; reflexivity.
Qed.

Lemma unquoted_tuple_plain isp ks :
  Forall (fun k => plain k = true) ks -> unquoted_tuple isp ks = sql_tuple ks.
Proof.
  intros H; unfold unquoted_tuple; rewrite str_replace_quote.
  rewrite (map_ext_in _ (fun k => 39 :: k ++ [39])) by
    (intros k Hk; apply str_repr_plain; rewrite Forall_forall in H; auto).
  destruct H as [|k ks Hk Hks]; [reflexivity|].
  destruct Hks as [|k' ks Hk' Hks].
  - cbn [map tuple_repr]; rewrite !filter_app, filter_wrap by exact Hk; reflexivity.
  - pose proof (filter_join (k :: k' :: ks)) as Hj; cbn [map] in Hj.
    unfold tuple_repr, sql_tuple; cbn [map length Nat.eqb].
    rewrite !filter_app, Hj by (repeat constructor; assumption); reflexivity.
Qed.

Lemma mapM_dict_values rows : mapM dict_values (map JDict rows) = Ok (map (map snd) rows).
Proof. induction rows as [|d rows IH]; cbn; [reflexivity | rewrite IH; reflexivity]. Qed.

Lemma Forall_plain_percent n : Forall (fun k => plain k = true) (repeat (u "%s") n).
Proof. apply Forall_forall; intros x Hx; apply repeat_spec in Hx; subst; reflexivity. Qed.

Lemma insert_query_plain isp table ks :
  Forall (fun k => plain k = true) ks ->
  insert_query isp table ks (length ks) = insert_text table ks.
Proof.
  intros H; unfold insert_query, insert_text.
  rewrite !unquoted_tuple_plain by (exact H || apply Forall_plain_percent); reflexivity.
Qed.

(** C18: [insert(table, datas)] on a non-empty dictionary whose keys are
    plain runs the one statement [INSERT INTO table(k1, k2, ...)
    VALUES(%s, %s, ...)] with the values in the dictionary's order, then
    commits, on any driver. *)
Theorem insert_executes {S} `{Driver S} isp (s : S) table datas :
  datas <> [] -> Forall (fun k => plain k = true) (map fst datas) ->
  insert isp s table datas =
  dml_except (s1 <- execute s (insert_text table (map fst datas)) (Some (map snd datas)) ;; commit s1).
Proof.
  intros Hne Hp; destruct datas as [|kv d]; [congruence|].
  unfold insert; rewrite <- (length_map fst), insert_query_plain by exact Hp; reflexivity.
Qed.

Lemma insert_executes_witness :
  insert (fun _ => true) ([] : list op) (u "t") [(u "id", JNum 1); (u "name", JStr (u "x"))] =
  Ok [Exec (u "INSERT INTO t(id, name) VALUES(%s, %s)") (Some [JNum 1; JStr (u "x")]); Commit].
Proof.
  rewrite (insert_executes (fun _ => true) [] (u "t")); [reflexivity | discriminate | repeat constructor].
Defined.

(** C19: [manyinsert(table, datas)] on a list of dictionaries takes its
    column list and its number of placeholders from [datas[0]], and the
    parameters of each row from that row's own values in its own key
    order, whatever its keys. *)
Theorem manyinsert_rows {S} `{Driver S} isp (s : S) table d0 rows :
  Forall (fun k => plain k = true) (map fst d0) ->
  manyinsert isp s table (map JDict (d0 :: rows)) =
  dml_except (s1 <- executemany s (insert_text table (map fst d0)) (map (map snd) (d0 :: rows)) ;; commit s1).
Proof.
  intros Hp; unfold manyinsert; cbn [map py_len dict_keys]; rewrite !bind_Ok.
  rewrite <- (map_cons JDict), mapM_dict_values, bind_Ok.
  rewrite <- (length_map fst), insert_query_plain by exact Hp; reflexivity.
Qed.

Lemma manyinsert_rows_witness :
  manyinsert (fun _ => true) ([] : list op) (u "t")
    [JDict [(u "id", JNum 1); (u "name", JStr (u "x"))]; JDict [(u "name", JStr (u "y")); (u "id", JNum 2)]] =
  Ok [ExecMany (u "INSERT INTO t(id, name) VALUES(%s, %s)")
        [[JNum 1; JStr (u "x")]; [JStr (u "y"); JNum 2]]; Commit].
Proof.
  exact (manyinsert_rows (fun _ => true) [] (u "t") [(u "id", JNum 1); (u "name", JStr (u "x"))]
           [[(u "name", JStr (u "y")); (u "id", JNum 2)]] ltac:(repeat constructor)).
Defined.

(** an error the driver raises is not a [MySQLConnectorError]: the
    [except] clause of [insert] does not catch it, and the access-denied
    message of the clause is never produced for it. *)
Theorem insert_driver_error_unmapped {S} `{Driver S} isp (s : S) table datas n m :
  datas <> [] ->
  execute s (insert_query isp table (map fst datas) (length datas)) (Some (map snd datas)) =
    Err (DriverError n m) ->
  insert isp s table datas = Err (DriverError n m).
Proof.
  intros Hne He; destruct datas as [|kv d]; [congruence|].
  unfold insert; rewrite He; reflexivity.
Qed.

(** a dictionary with one key gives the Python repr of a one-element
    tuple, [(id,)], which is not valid SQL; a key with an apostrophe
    loses it and keeps the double quotes of its repr. *)
Example insert_single_column :
  insert (fun _ => true) ([] : list op) (u "t") [(u "id", JNum 7)] =
    Ok [Exec (u "INSERT INTO t(id,) VALUES(%s,)") (Some [JNum 7]); Commit] /\
  insert (fun _ => true) ([] : list op) (u "t") [(u "it's", JNum 7); (u "b", JNum 8)] =
    Ok [Exec (u "INSERT INTO t(" ++ [34] ++ u "its" ++ [34] ++ u ", b) VALUES(%s, %s)") (Some [JNum 7; JNum 8]); Commit].
Proof. split; vm_compute; reflexivity. Qed.

(** [delete] with no condition or an empty one deletes every row of
    the table; [update] with an empty condition sends a statement that
    ends in [WHERE]. *)
Example delete_update_empty_condition :
  delete ([] : list op) (u "t") None = Ok [Exec (u "DELETE FROM t") None; Commit] /\
  delete ([] : list op) (u "t") (Some []) = Ok [Exec (u "DELETE FROM t") None; Commit] /\
  update_row ([] : list op) (u "t") (u "a") (u "1") [] =
    Ok [Exec (u "UPDATE t SET a = 1 WHERE ") None; Commit].
Proof. repeat split. Qed.

End MysqlProps.

