(* ===== verification/MysqlDdl.v ===== *)
(** * The MySQL DDL helpers

    [MySQLDDefinition] (src/MySQL/mysqlddl.py) builds [CREATE DATABASE],
    [DROP DATABASE], [CREATE TABLE] and [TRUNCATE] statements by
    interpolation, runs them through its private [__execute], which times
    the call with two reads of [time.time()], and prints a [Query OK] line.
    Both [__execute] and every public method catch [MySQLConnectorError]
    and hand it to [ErrorHandling] (modelled in Mysql.v); Exceptions.v
    shows that no error of [mysql.connector] is of that class, so with a
    real connector both handlers let every error through.

    The cursor is the [Driver] of Mysql.v; the clock is the interface
    [Clock] over the same state.  The printed line is an [output] value:
    the formatting of the float [elapsed] with [: .2f] is not modelled. *)

From Stdlib Require Import String List NArith ZArith Bool Lia.
From S2P Require Import Prelude Json Mysql.
Import ListNotations Mysql.
Open Scope py_scope.

Module Ddl.

(** [time.time()], read from the state the driver has left. *)
Class Clock (S : Type) := { time : S -> Z }.

(** What [print(message)] prints: [Query OK, <rows> row affected
    (<elapsed> sec )]. *)
Inductive output : Type := QueryOK (rows : nat) (elapsed : Z).

(** The part of [self.__kwargs] the class reads: [kwargs["database"]]. *)
Record kwargs : Type := { database : option pystr }.

(** The [except MySQLConnectorError as error: ErrorHandling(error, name)]
    clause. *)
Definition ddl_except {A} (name : option pystr) (m : res A) : res A :=
  match m with
  | Err (MySQLConnectorError errno msg) => raise (error_handling errno msg name)
  | _ => m
  end.

(** [max(map(len, data_list))]: [ValueError] on an empty list. *)
Definition maxlength (data_list : list json) : res nat :=
  ls <- mapM py_len data_list ;;
  match ls with
  | [] => raise ValueError
  | l :: ls' => Ok (fold_left Nat.max ls' l)
  end.

(** [MySQLDDefinition.__init__]: the keyword dictionary is kept,
    then the connection is opened; an error of [connect] is not caught.
    The [__maxlength] attribute is the function [maxlength]. *)
Definition ddl_init {S} `{Connector S} (kw : dict) : res (dict * S) :=
  s <- connect kw ;; Ok (kw, s).

Section DDL.
Context {S : Type} `{Driver S} `{Clock S}.

(** [MySQLDDefinition.__execute(operation=query)]: the elapsed time of the
    call, or the error mapped by [ErrorHandling(error)]. *)
Definition ddl_execute (s : S) (query : pystr) : res (S * Z) :=
  ddl_except None
    (s1 <- execute s query None ;;
     Ok (s1, (time s1 - time s)%Z)).

(** The body shared by the public methods: run [query], print the line. *)
Definition run (rows : nat) (s : S) (query : pystr) : res (S * output) :=
  ' (s1, elapsed) <- ddl_execute s query ;;
  Ok (s1, QueryOK rows elapsed).

Definition create_database (s : S) (name : pystr) : res (S * output) :=
  ddl_except None (run 1 s (u "CREATE DATABASE " ++ name)).

Definition drop_database (s : S) (name : pystr) : res (S * output) :=
  ddl_except None (run 0 s (u "DROP DATABASE " ++ name)).

Definition create_table_query (name detail engine : pystr) : pystr :=
  u "CREATE TABLE " ++ name ++ u "(" ++ detail ++ u ") ENGINE = " ++ engine.

(** [create_table(name, detail, engine="InnoDB")]. *)
Definition create_table (s : S) (name detail engine : pystr) : res (S * output) :=
  ddl_except (Some name) (run 0 s (create_table_query name detail engine)).

Definition INNODB : pystr := u "InnoDB".

(** [recreate_table(name)]: [table] is bound inside the [try] before the
    query runs; a missing [database] keyword raises [KeyError], which the
    clause does not catch. *)
Definition recreate_table (k : kwargs) (s : S) (name : pystr) : res (S * output) :=
  match database k with
  | None => raise (KeyError (u "database"))
  | Some db =>
      let table := db ++ u "." ++ name in
      ddl_except (Some table) (run 0 s (u "TRUNCATE " ++ name))
  end.

End DDL.

End Ddl.

(** ** Properties of the DDL helpers *)

Module DdlProps.
Import Ddl.

Section Props.
Context {S : Type} `{Driver S} `{Clock S}.

(** when the statement succeeds, [create_database] leaves the state
    the driver returns and prints one row affected with the time read
    after the call minus the time read before it. *)
Theorem create_database_ok s s1 name :
  execute s (u "CREATE DATABASE " ++ name) None = Ok s1 ->
  create_database s name = Ok (s1, QueryOK 1 (time s1 - time s)).
Proof. intros He; unfold create_database, run, ddl_execute; rewrite He; reflexivity. Qed.

End Props.

End DdlProps.

