(* ===== verification/Exceptions.v ===== *)
(** * The exception classes and the [except] clause

    The repository declares its exceptions three times: at the top of
    src/controller/x/xcrawl.py (lines 18-54), in src/MySQL/exception.py
    (lines 5-50, imported by both MySQL helpers) and in
    src/helper/exception.py (lines 5-46, imported by nothing).  Each
    [class C(B1, ..., Bn): pass] is a [classdef] of its module; the
    builtin classes and the classes of [requests] and [mysql.connector]
    they extend are tables of the same kind, written from those libraries.

    A class statement computes the method resolution order of the new
    class by CPython's C3 linearization ([mro_implementation] and
    [pmerge] of Objects/typeobject.c) and raises [TypeError] when the
    bases admit none; [issubclass] and the matching of an [except C]
    clause ([PyErr_GivenExceptionMatches]) test membership in that order.
    The clauses [dml_except] (Mysql.v) and [ddl_except] (MysqlDdl.v) match
    the constructor [MySQLConnectorError] of [exc]; this file proves that
    this is what [except MySQLConnectorError] does on the class
    hierarchy the modules declare. *)

From Stdlib Require Import String List NArith ZArith Bool Lia.
From S2P Require Import Prelude Json Mysql MysqlDdl.
Import ListNotations Mysql Ddl.
Open Scope py_scope.

Module Exceptions.

(** ** Classes and class statements *)

(** A class by its module and its name. *)
Record cls := mk_cls { cmodule : pystr; cname : pystr }.

(** [class name(bases): pass]. *)
Record classdef := class { name : pystr; bases : list cls }.

Definition cls_eqb (a b : cls) : bool :=
  pystr_eqb (cmodule a) (cmodule b) && pystr_eqb (cname a) (cname b).

Definition BUILTINS : pystr := u "builtins".
Definition REQUESTS : pystr := u "requests.exceptions".
Definition CONNECTOR : pystr := u "mysql.connector.errors".
Definition XCRAWL : pystr := u "controller.x.xcrawl".
Definition MYSQL_EXC : pystr := u "MySQL.exception".
Definition HELPER_EXC : pystr := u "helper.exception".

Definition builtin (n : string) : cls := mk_cls BUILTINS (u n).
Definition connector (n : string) : cls := mk_cls CONNECTOR (u n).
Definition lxml (n : string) : cls := mk_cls (u "lxml.etree") (u n).

(** The builtin exception classes the code raises or extends. *)
Definition BUILTIN_CLASSES : list classdef :=
  [class (u "object") [];
   class (u "BaseException") [builtin "object"];
   class (u "Exception") [builtin "BaseException"];
   class (u "KeyboardInterrupt") [builtin "BaseException"];
   class (u "SystemExit") [builtin "BaseException"];
   class (u "GeneratorExit") [builtin "BaseException"];
   class (u "LookupError") [builtin "Exception"];
   class (u "KeyError") [builtin "LookupError"];
   class (u "IndexError") [builtin "LookupError"];
   class (u "ValueError") [builtin "Exception"];
   class (u "UnicodeError") [builtin "ValueError"];
   class (u "UnicodeEncodeError") [builtin "UnicodeError"];
   class (u "TypeError") [builtin "Exception"];
   class (u "AttributeError") [builtin "Exception"];
   class (u "NameError") [builtin "Exception"];
   class (u "UnboundLocalError") [builtin "NameError"];
   class (u "RuntimeError") [builtin "Exception"];
   class (u "SyntaxError") [builtin "Exception"];
   class (u "OSError") [builtin "Exception"]].

(** [requests.exceptions.RequestException(IOError)]; [IOError] is
    [OSError]. *)
Definition REQUESTS_CLASSES : list classdef :=
  [class (u "RequestException") [builtin "OSError"]].

(** [mysql.connector.errors]: [Error] and the classes the cursor raises. *)
Definition CONNECTOR_CLASSES : list classdef :=
  [class (u "Error") [builtin "Exception"];
   class (u "Warning") [builtin "Exception"];
   class (u "InterfaceError") [connector "Error"];
   class (u "PoolError") [connector "Error"];
   class (u "DatabaseError") [connector "Error"];
   class (u "InternalError") [connector "DatabaseError"];
   class (u "OperationalError") [connector "DatabaseError"];
   class (u "ProgrammingError") [connector "DatabaseError"];
   class (u "IntegrityError") [connector "DatabaseError"];
   class (u "DataError") [connector "DatabaseError"];
   class (u "NotSupportedError") [connector "DatabaseError"]].

(** The errors the HTML libraries raise: [bs4.FeatureNotFound] (no
    parser [lxml]) and [ParserRejectedMarkup], the selector errors of
    [soupsieve] (behind [BeautifulSoup.select]) and of [cssselect] (behind
    [PyQuery]), and the errors of [lxml.etree], which both parse with
    ([pq('')] raises its [ParserError]). *)
Definition HTML_LIBS : list (pystr * list classdef) :=
  [(u "bs4", [class (u "FeatureNotFound") [builtin "ValueError"]]);
   (u "soupsieve", [class (u "SelectorSyntaxError") [builtin "Exception"]]);
   (u "cssselect", [class (u "SelectorError") [builtin "Exception"];
                    class (u "SelectorSyntaxError") [mk_cls (u "cssselect") (u "SelectorError"); builtin "SyntaxError"];
                    class (u "ExpressionError") [mk_cls (u "cssselect") (u "SelectorError"); builtin "RuntimeError"]]);
   (u "bs4.builder", [class (u "ParserRejectedMarkup") [builtin "Exception"]]);
   (u "lxml.etree", [class (u "Error") [builtin "Exception"];
                     class (u "LxmlError") [lxml "Error"];
                     class (u "LxmlSyntaxError") [lxml "LxmlError"; builtin "SyntaxError"];
                     class (u "ParseError") [lxml "LxmlSyntaxError"];
                     class (u "XMLSyntaxError") [lxml "ParseError"];
                     class (u "ParserError") [lxml "LxmlError"];
                     class (u "XPathError") [lxml "LxmlError"];
                     class (u "XPathEvalError") [lxml "XPathError"];
                     class (u "XPathSyntaxError") [lxml "LxmlSyntaxError"; lxml "XPathError"];
                     class (u "SerialisationError") [lxml "LxmlError"];
                     class (u "DocumentInvalid") [lxml "LxmlError"]])].

(** [class n(Exception): pass]. *)
Definition exception_class (n : string) : classdef := class (u n) [builtin "Exception"].

(** xcrawl.py, lines 18-54: [from requests import RequestException]. *)
Definition XCRAWL_CLASSES : list classdef :=
  [exception_class "MySQLProjectException";
   exception_class "HTTPErrorException";
   class (u "RequestProcessingError") [mk_cls REQUESTS (u "RequestException")];
   exception_class "CSRFTokenMissingError";
   exception_class "URLValidationError";
   exception_class "FunctionNotFoundError";
   exception_class "CookieFileNotFoundError";
   exception_class "CookieCreationError"].

(** src/MySQL/exception.py, lines 5-50:
    [class MySQLConnectorError(Error, Exception)]. *)
Definition MYSQL_EXC_CLASSES : list classdef :=
  [exception_class "MySQLProjectException";
   exception_class "EmptyListError";
   exception_class "EmptyDictionaryError";
   exception_class "HTTPErrorException";
   class (u "RequestProcessingError") [mk_cls REQUESTS (u "RequestException")];
   exception_class "CSRFTokenMissingError";
   exception_class "URLValidationError";
   exception_class "FunctionNotFoundError";
   exception_class "CookieFileNotFoundError";
   exception_class "CookieCreationError";
   class (u "MySQLConnectorError") [connector "Error"; builtin "Exception"]].

(** src/helper/exception.py, lines 5-46:
    [class MySQLConnectorError(Error)]. *)
Definition HELPER_EXC_CLASSES : list classdef :=
  [exception_class "MySQLProjectException";
   exception_class "EmptyListError";
   exception_class "EmptyDictionaryError";
   exception_class "HTTPErrorException";
   class (u "RequestProcessingError") [mk_cls REQUESTS (u "RequestException")];
   exception_class "CSRFTokenMissingError";
   exception_class "URLValidationError";
   exception_class "FunctionNotFoundError";
   exception_class "CookieFileNotFoundError";
   exception_class "CookieCreationError";
   class (u "MySQLConnectorError") [connector "Error"]].

Definition PROGRAM : list (pystr * list classdef) :=
  [(BUILTINS, BUILTIN_CLASSES); (REQUESTS, REQUESTS_CLASSES); (CONNECTOR, CONNECTOR_CLASSES)] ++ HTML_LIBS ++
  [(XCRAWL, XCRAWL_CLASSES); (MYSQL_EXC, MYSQL_EXC_CLASSES); (HELPER_EXC, HELPER_EXC_CLASSES)].

(** The class a qualified name denotes in a program of modules. *)
Definition lookup_in (prog : list (pystr * list classdef)) (c : cls) : option classdef :=
  match find (fun m => pystr_eqb (fst m) (cmodule c)) prog with
  | Some (_, ds) => find (fun d => pystr_eqb (name d) (cname c)) ds
  | None => None
  end.

(** Every class of the program, module by module. *)
Definition ALL_CLASSES : list cls :=
  flat_map (fun m => map (fun d => mk_cls (fst m) (name d)) (snd m)) PROGRAM.

(** ** C3 linearization *)

Definition memc (x : cls) (l : list cls) : bool := existsb (cls_eqb x) l.

(** [x] is in the tail of no sequence. *)
Definition not_in_tails (x : cls) (seqs : list (list cls)) : bool :=
  forallb (fun l => negb (memc x (tl l))) seqs.

Definition heads (seqs : list (list cls)) : list cls :=
  flat_map (fun l => match l with [] => [] | h :: _ => [h] end) seqs.

(** The first head, in the order of the sequences, in no tail. *)
Definition candidate (seqs : list (list cls)) : option cls :=
  find (fun x => not_in_tails x seqs) (heads seqs).

Definition drop_head (x : cls) (l : list cls) : list cls :=
  match l with
  | h :: t => if cls_eqb h x then t else l
  | [] => []
  end.

(** [pmerge]: [None] is the [TypeError] "Cannot create a consistent method
    resolution order".  Each round removes at least one element, so the
    fuel [S (length (concat seqs))] of [merge] is enough. *)
Fixpoint merge_go (fuel : nat) (seqs : list (list cls)) : option (list cls) :=
  match fuel with
  | O => None
  | S f =>
      if forallb (fun l => match l with [] => true | _ => false end) seqs then Some []
      else match candidate seqs with
           | None => None
           | Some x => option_map (cons x) (merge_go f (map (drop_head x) seqs))
           end
  end.

Definition merge (seqs : list (list cls)) : option (list cls) :=
  merge_go (S (length (concat seqs))) seqs.

Fixpoint mapO {A B} (f : A -> option B) (l : list A) : option (list B) :=
  match l with
  | [] => Some []
  | x :: l' => match f x, mapO f l' with
               | Some y, Some ys => Some (y :: ys)
               | _, _ => None
               end
  end.

(** [L(C) = C + merge(L(B1), ..., L(Bn), [B1, ..., Bn])], one level of
    the hierarchy per unit of fuel; [None] for a class statement that
    raises. *)
Fixpoint mro_go (prog : list (pystr * list classdef)) (fuel : nat) (c : cls) : option (list cls) :=
  match fuel with
  | O => None
  | S f =>
      match lookup_in prog c with
      | None => None
      | Some d =>
          match mapO (mro_go prog f) (bases d) with
          | None => None
          | Some ls => option_map (cons c) (merge (ls ++ [bases d]))
          end
      end
  end.

(** The deepest class of the program ([ProgrammingError]) is six classes
    from [object]. *)
Definition MRO_FUEL : nat := 8.

Definition mro (c : cls) : option (list cls) := mro_go PROGRAM MRO_FUEL c.

(** [issubclass(c, d)]: [d] is in the MRO of [c]. *)
Definition issubclass (c d : cls) : bool :=
  match mro c with
  | Some l => memc d l
  | None => false
  end.

(** ** Raised exceptions and the [except] clause *)

(** The class of a raised exception: the builtin, the project class of
    the module that raises it, or for an error of the driver the class
    [drv errno] of mysql.connector.errors it picks by error number. *)
Definition class_of (drv : Z -> pystr) (e : exc) : cls :=
  match e with
  | TypeError => builtin "TypeError"
  | KeyError _ => builtin "KeyError"
  | IndexError => builtin "IndexError"
  | UnicodeEncodeError => builtin "UnicodeEncodeError"
  | ValueError => builtin "ValueError"
  | AttributeError => builtin "AttributeError"
  | UnboundLocalError _ => builtin "UnboundLocalError"
  | HTTPErrorException _ => mk_cls XCRAWL (u "HTTPErrorException")
  | CSRFTokenMissingError => mk_cls XCRAWL (u "CSRFTokenMissingError")
  | EmptyListError => mk_cls MYSQL_EXC (u "EmptyListError")
  | EmptyDictionaryError => mk_cls MYSQL_EXC (u "EmptyDictionaryError")
  | MySQLConnectorError _ _ => mk_cls MYSQL_EXC (u "MySQLConnectorError")
  | DriverError n _ => mk_cls CONNECTOR (drv n)
  end.

(** [try: m except c as e: raise handler(e)]: the clause catches exactly
    the exceptions whose class is a subclass of [c]. *)
Definition py_except {A} (drv : Z -> pystr) (c : cls) (handler : exc -> exc) (m : res A) : res A :=
  match m with
  | Err e => if issubclass (class_of drv e) c then raise (handler e) else m
  | Ok _ => m
  end.

(** [e.errno]: only the connector errors have the attribute. *)
Definition errno_attr (e : exc) : res Z :=
  match e with
  | MySQLConnectorError n _ | DriverError n _ => Ok n
  | _ => raise AttributeError
  end.

(** [str(e)] of a connector error; the other exceptions of the model carry
    no text. *)
Definition exc_str (e : exc) : pystr :=
  match e with
  | MySQLConnectorError _ s | DriverError _ s => s
  | _ => []
  end.

Definition MYSQL_CONNECTOR_ERROR : cls := mk_cls MYSQL_EXC (u "MySQLConnectorError").

(** The body of [except MySQLConnectorError as e] in mysqldml.py (lines
    85-98 of [insert], and the same in the other methods). *)
Definition dml_handler (e : exc) : exc :=
  match errno_attr e with
  | Err a => a
  | Ok n =>
      if Z.eqb n ER_ACCESS_DENIED_ERROR then connector_error MSG_ACCESS
      else if Z.eqb n ER_BAD_DB_ERROR then connector_error MSG_BAD_DB
      else connector_error (u "Error! " ++ exc_str e)
  end.

(** [ErrorHandling(error, name)] of src/MySQL/exception.py on the caught
    object. *)
Definition error_handling_exc (name : option pystr) (e : exc) : exc :=
  match errno_attr e with
  | Err a => a
  | Ok n => error_handling n (exc_str e) name
  end.

End Exceptions.

(** ** Properties of the class hierarchies *)

Module ExceptionsProps.
Import Exceptions.
Local Open Scope nat_scope.

(** Python's [==] on class names, and the checks the theorems evaluate
    over the whole program. *)
Fixpoint nodupc (l : list cls) : bool :=
  match l with
  | [] => true
  | x :: t => negb (memc x t) && nodupc t
  end.

(** A created class: its MRO starts with it, ends with [object], has no
    class twice and contains its bases. *)
Definition mro_ok (c : cls) : bool :=
  match mro c, lookup_in PROGRAM c with
  | Some l, Some d =>
      match l with h :: _ => cls_eqb h c | [] => false end &&
      cls_eqb (last l c) (builtin "object") && nodupc l && forallb (fun b => memc b l) (bases d)
  | _, _ => false
  end.

(** [P c d] for every class [c] of the program and every [d] in its MRO. *)
Definition over_mros (P : cls -> cls -> bool) : bool :=
  forallb (fun c => match mro c with Some l => forallb (P c) l | None => true end) ALL_CLASSES.

Definition MPE : pystr := u "MySQLProjectException".

(** A project module's classes in the order the source declares them, with
    the module renamed: what [import helper.exception] would give under the
    name [MySQL.exception]. *)
Definition rehome (c : cls) : cls :=
  if pystr_eqb (cmodule c) HELPER_EXC then mk_cls MYSQL_EXC (cname c) else c.

Lemma cls_eqb_spec a b : cls_eqb a b = true <-> a = b.
Proof.
  destruct a as [m n], b as [m' n']; unfold cls_eqb; cbn [cmodule cname].
  rewrite andb_true_iff, !pystr_eqb_eq; split; [intros [-> ->]; reflexivity | intros H; injection H as -> ->; auto].
Qed.

Lemma cls_eqb_refl a : cls_eqb a a = true.
Proof. apply cls_eqb_spec; reflexivity. Qed.

Lemma memc_In x l : memc x l = true <-> In x l.
Proof.
  unfold memc; rewrite existsb_exists; split.
  - intros (y & Hy & E); apply cls_eqb_spec in E; subst; exact Hy.
  - intros H; exists x; split; [exact H | apply cls_eqb_refl].
Qed.

Lemma nodupc_NoDup l : nodupc l = true -> NoDup l.
Proof.
  induction l as [|x l IH]; cbn [nodupc]; intros H; [constructor|].
  apply andb_true_iff in H as [Hx Hl]; constructor; [|exact (IH Hl)].
  intros Hin; apply memc_In in Hin; rewrite Hin in Hx; discriminate.
Qed.

#[local] Hint Resolve cls_eqb_refl : core.

(** *** Fuel *)

Lemma drop_head_le x l : length (drop_head x l) <= length l.
Proof. destruct l as [|h t]; cbn; [lia|]; destruct (cls_eqb h x); cbn; lia. Qed.

Lemma concat_drop_le x seqs : length (concat (map (drop_head x) seqs)) <= length (concat seqs).
Proof.
  induction seqs as [|l seqs IH]; cbn; [lia|]; rewrite !length_app.
  pose proof (drop_head_le x l); lia.
Qed.

(** Removing a head shortens the sequences. *)
Lemma concat_drop_lt x seqs :
  In x (heads seqs) -> length (concat (map (drop_head x) seqs)) < length (concat seqs).
Proof.
  induction seqs as [|l seqs IH]; cbn; [contradiction|]; rewrite !length_app; intros H.
  destruct l as [|h t]; cbn in H |- *; [apply IH, H|].
  destruct H as [<-|H].
  - rewrite cls_eqb_refl; pose proof (concat_drop_le h seqs); lia.
  - pose proof (IH H); destruct (cls_eqb h x); cbn; lia.
Qed.

Lemma candidate_head seqs x : candidate seqs = Some x -> In x (heads seqs).
Proof. unfold candidate; intros H; apply find_some in H; tauto. Qed.

Lemma merge_go_enough f : forall seqs g,
  length (concat seqs) < f -> f <= g -> merge_go g seqs = merge_go f seqs.
Proof.
  induction f as [|f IH]; intros seqs g Hf Hg; [lia|]; destruct g as [|g]; [lia|]; cbn [merge_go].
  destruct (forallb _ seqs); [reflexivity|]; destruct (candidate seqs) as [x|] eqn:Hc; [|reflexivity].
  pose proof (concat_drop_lt x seqs (candidate_head _ _ Hc)).
  rewrite (IH _ g) by lia; reflexivity.
Qed.

Lemma mapO_some {A B} (f g : A -> option B) l ys :
  (forall x y, f x = Some y -> g x = Some y) -> mapO f l = Some ys -> mapO g l = Some ys.
Proof.
  intros Hfg; revert ys; induction l as [|x l IH]; intros ys H; cbn in H |- *; [exact H|].
  destruct (f x) eqn:E1; [|discriminate]; destruct (mapO f l) eqn:E2; [|discriminate].
  rewrite (Hfg _ _ E1), (IH _ eq_refl); exact H.
Qed.

Lemma mro_go_eq prog f c :
  mro_go prog (S f) c =
    match lookup_in prog c with
    | None => None
    | Some d => match mapO (mro_go prog f) (bases d) with
                | None => None
                | Some ls => option_map (cons c) (merge (ls ++ [bases d]))
                end
    end.
Proof. reflexivity. Qed.

Lemma mro_go_S prog f c l : mro_go prog f c = Some l -> mro_go prog (S f) c = Some l.
Proof.
  revert c l; induction f as [|f IH]; intros c l H; [discriminate|].
  rewrite mro_go_eq in H |- *; destruct (lookup_in prog c) as [d|]; [|discriminate].
  destruct (mapO (mro_go prog f) (bases d)) eqn:E; [|discriminate].
  rewrite (mapO_some _ _ _ _ IH E); exact H.
Qed.

Lemma mro_go_le prog f g c l : f <= g -> mro_go prog f c = Some l -> mro_go prog g c = Some l.
Proof. induction 1; auto using mro_go_S. Qed.

Lemma mro_go_undefined prog f c : lookup_in prog c = None -> mro_go prog f c = None.
Proof. intros H; destruct f; [reflexivity | rewrite mro_go_eq, H; reflexivity]. Qed.

Lemma lookup_in_ALL c d : lookup_in PROGRAM c = Some d -> In c ALL_CLASSES.
Proof.
  unfold lookup_in, ALL_CLASSES; destruct (find _ PROGRAM) as [[m ds]|] eqn:E1; [|discriminate]; intros E2.
  apply find_some in E1 as [Hm Em]; apply find_some in E2 as [Hd Ed]; cbn [fst] in Em.
  apply pystr_eqb_eq in Em, Ed; apply in_flat_map; exists (m, ds); split; [exact Hm|].
  apply in_map_iff; exists d; split; [destruct c; cbn in *; subst; reflexivity | exact Hd].
Qed.

Lemma mro_defined c l : mro c = Some l -> In c ALL_CLASSES.
Proof.
  intros H; destruct (lookup_in PROGRAM c) as [d|] eqn:E; [exact (lookup_in_ALL _ _ E)|].
  unfold mro in H; rewrite mro_go_undefined in H by exact E; discriminate.
Qed.

(** The finite checks of [over_mros] give properties of [issubclass] on
    every pair of classes. *)
Lemma issubclass_check P : over_mros P = true -> forall c d, issubclass c d = true -> P c d = true.
Proof.
  unfold over_mros, issubclass; intros H c d Hs; destruct (mro c) as [l|] eqn:E; [|discriminate].
  rewrite forallb_forall in H; specialize (H c (mro_defined _ _ E)); rewrite E, forallb_forall in H.
  apply H, memc_In, Hs.
Qed.

Lemma all_mro_ok : forallb mro_ok ALL_CLASSES = true.
Proof. vm_compute; reflexivity. Qed.

(** The head of the MRO of a class of the program is the class. *)
Lemma mro_head c : In c ALL_CLASSES -> exists d t, mro c = Some (c :: t) /\ lookup_in PROGRAM c = Some d /\
  cls_eqb (last (c :: t) c) (builtin "object") && nodupc (c :: t) && forallb (fun b => memc b (c :: t)) (bases d) = true.
Proof.
  intros Hc; pose proof all_mro_ok as H; rewrite forallb_forall in H; specialize (H c Hc).
  unfold mro_ok in H; destruct (mro c) as [[|h t]|], (lookup_in PROGRAM c) as [d|]; try discriminate.
  apply andb_true_iff in H as [H Hb]; apply andb_true_iff in H as [H Hn]; apply andb_true_iff in H as [Hh Ho].
  apply cls_eqb_spec in Hh; subst h; exists d, t; repeat split; rewrite ?Ho, ?Hn, ?Hb; reflexivity.
Qed.

(** [In x l] for [l] a literal list: one goal per element. *)
Ltac cases_in H := cbn in H; repeat (destruct H as [<-|H]); try contradiction.

(** C11: every class statement of xcrawl.py, src/MySQL/exception.py and
    src/helper/exception.py (and of the library classes they extend)
    executes: C3 linearization gives the class a method resolution order,
    the same for any fuel from [MRO_FUEL] on, that starts with the class,
    ends with [object], holds no class twice and contains every base. *)
Theorem classes_created c :
  In c ALL_CLASSES ->
  exists d l, lookup_in PROGRAM c = Some d /\ (forall k, mro_go PROGRAM (MRO_FUEL + k) c = Some l) /\
    hd_error l = Some c /\ last l c = builtin "object" /\ NoDup l /\ incl (bases d) l.
Proof.
  intros Hc; destruct (mro_head c Hc) as (d & t & Hm & Hl & H).
  apply andb_true_iff in H as [H Hb]; apply andb_true_iff in H as [Ho Hn].
  exists d, (c :: t); repeat split; [exact Hl | | apply cls_eqb_spec, Ho | apply nodupc_NoDup, Hn |].
  - intros k; exact (mro_go_le _ _ _ _ _ (Nat.le_add_r _ _) Hm).
  - intros b Hb'; rewrite forallb_forall in Hb; apply memc_In, Hb, Hb'.
Qed.

Section Driver.

(** The class of mysql.connector.errors the driver raises for an error
    number: any of them. *)
Variable drv : Z -> pystr.
Hypothesis drv_connector : forall n, In (drv n) (map name CONNECTOR_CLASSES).

Lemma connector_not_mce n s : issubclass (class_of drv (DriverError n s)) MYSQL_CONNECTOR_ERROR = false.
Proof. cbn [class_of]; pose proof (drv_connector n) as H; destruct (drv n); cases_in H; vm_compute; reflexivity. Qed.

(** C10: the clauses [dml_except] and [ddl_except], which match the
    constructor [MySQLConnectorError], are exactly Python's
    [except MySQLConnectorError] on the class hierarchy of the modules:
    the handler runs on the exceptions whose class is a subclass of
    [MySQL.exception.MySQLConnectorError] and on no other, in particular
    on no error of mysql.connector itself. *)
Theorem dml_except_is_except {A} (m : res A) :
  dml_except m = py_except drv MYSQL_CONNECTOR_ERROR dml_handler m /\
  forall name, ddl_except name m = py_except drv MYSQL_CONNECTOR_ERROR (error_handling_exc name) m.
Proof.
  destruct m as [a|e]; [split; reflexivity|].
  destruct e; unfold py_except; try (rewrite connector_not_mce; split; reflexivity);
    lazymatch goal with |- context [issubclass ?a ?b] =>
      let v := eval vm_compute in (issubclass a b) in change (issubclass a b) with v end;
    split; try reflexivity.
  cbn [dml_except dml_handler errno_attr exc_str].
  destruct (Z.eqb errno ER_ACCESS_DENIED_ERROR); [reflexivity|]; destruct (Z.eqb errno ER_BAD_DB_ERROR); reflexivity.
Qed.

End Driver.

(** C21: src/helper/exception.py declares the classes of
    src/MySQL/exception.py, in the same order, and although its
    [MySQLConnectorError] has the bases [(Error)] instead of
    [(Error, Exception)], every class has the same method resolution
    order up to the module name, so [except] clauses behave the same with
    either module. *)
Theorem helper_exception_equivalent :
  map name HELPER_EXC_CLASSES = map name MYSQL_EXC_CLASSES /\
  (forall n, In n (map name HELPER_EXC_CLASSES) ->
     option_map (map rehome) (mro (mk_cls HELPER_EXC n)) = mro (mk_cls MYSQL_EXC n)) /\
  (forall n n', In n (map name HELPER_EXC_CLASSES) -> In n' (map name HELPER_EXC_CLASSES) ->
     issubclass (mk_cls HELPER_EXC n) (mk_cls HELPER_EXC n') = issubclass (mk_cls MYSQL_EXC n) (mk_cls MYSQL_EXC n')).
Proof.
  split; [reflexivity|]; split.
  - intros n Hn; cases_in Hn; vm_compute; reflexivity.
  - intros n n' Hn Hn'; cases_in Hn; cases_in Hn'; vm_compute; reflexivity.
Qed.

(** C22: [MySQLProjectException], documented as the base exception of the
    script, is the base of no class: in every module only the class itself
    is a subclass of it; and the homonymous classes xcrawl.py declares are
    unrelated to those of src/MySQL/exception.py, so an [except] naming
    one never catches the other. *)
Theorem project_exceptions_unrelated :
  (forall m n, issubclass (mk_cls m n) (mk_cls m MPE) = true -> n = MPE) /\
  (forall n n', issubclass (mk_cls XCRAWL n) (mk_cls MYSQL_EXC n') = false /\
                issubclass (mk_cls MYSQL_EXC n) (mk_cls XCRAWL n') = false).
Proof.
  split.
  - intros m n H.
    pose proof (issubclass_check (fun c d => negb (cls_eqb d (mk_cls (cmodule c) MPE)) || pystr_eqb (cname c) MPE)
                  ltac:(vm_compute; reflexivity) _ _ H) as E.
    cbn [cmodule cname] in E; rewrite cls_eqb_refl in E; apply pystr_eqb_eq, E.
  - intros n n'; split; apply not_true_iff_false; intros H;
      pose proof (issubclass_check (fun c d => negb (pystr_eqb (cmodule c) XCRAWL && pystr_eqb (cmodule d) MYSQL_EXC) &&
                                               negb (pystr_eqb (cmodule c) MYSQL_EXC && pystr_eqb (cmodule d) XCRAWL))
                    ltac:(vm_compute; reflexivity) _ _ H) as E;
      cbn [cmodule] in E; vm_compute in E; discriminate.
Qed.

Lemma classes_created_witness :
  In MYSQL_CONNECTOR_ERROR ALL_CLASSES /\
  exists d l, lookup_in PROGRAM MYSQL_CONNECTOR_ERROR = Some d /\
    (forall k, mro_go PROGRAM (MRO_FUEL + k) MYSQL_CONNECTOR_ERROR = Some l) /\
    hd_error l = Some MYSQL_CONNECTOR_ERROR /\ last l MYSQL_CONNECTOR_ERROR = builtin "object" /\
    NoDup l /\ incl (bases d) l.
Proof.
  assert (H : In MYSQL_CONNECTOR_ERROR ALL_CLASSES) by (apply memc_In; vm_compute; reflexivity).
  split; [exact H | exact (classes_created _ H)].
Defined.

Lemma dml_except_is_except_witness :
  (forall n : Z, In ((fun _ => u "ProgrammingError") n) (map name CONNECTOR_CLASSES)) /\
  dml_except (Err (DriverError 1064 (u "syntax")) : res unit) =
    py_except (fun _ => u "ProgrammingError") MYSQL_CONNECTOR_ERROR dml_handler (Err (DriverError 1064 (u "syntax"))).
Proof.
  assert (H : forall n : Z, In ((fun _ => u "ProgrammingError") n) (map name CONNECTOR_CLASSES))
    by (intros _; cbn; do 7 right; left; reflexivity).
  split; [exact H | exact (proj1 (dml_except_is_except _ H (Err (DriverError 1064 (u "syntax")))))].
Defined.

Lemma helper_exception_equivalent_witness :
  In (u "MySQLConnectorError") (map name HELPER_EXC_CLASSES) /\
  option_map (map rehome) (mro (mk_cls HELPER_EXC (u "MySQLConnectorError"))) = mro MYSQL_CONNECTOR_ERROR.
Proof.
  assert (H : In (u "MySQLConnectorError") (map name HELPER_EXC_CLASSES)) by (cbn; do 10 right; left; reflexivity).
  split; [exact H | exact (proj1 (proj2 helper_exception_equivalent) _ H)].
Defined.

Lemma project_exceptions_unrelated_witness :
  issubclass (mk_cls XCRAWL (u "HTTPErrorException")) (mk_cls MYSQL_EXC (u "HTTPErrorException")) = false.
Proof. exact (proj1 (proj2 project_exceptions_unrelated (u "HTTPErrorException") (u "HTTPErrorException"))). Defined.

End ExceptionsProps.
