(* ===== verification/Html.v ===== *)
(** * [HtmlParser]

    [HtmlParser] (src/controller/x/xcrawl.py, lines 57-96) wraps two HTML
    libraries: [bs4_parser] parses with [BeautifulSoup(html, "lxml")] and
    selects with [.select(selector)], [pyq_parser] parses with [pq(html)]
    and selects by calling the document.  Both bodies are

      [result = None; try: ...; except Exception as e: print(e);
       finally: return result]

    The libraries are the classes [Bs4] and [PyQuery]: each call returns a
    value or raises an exception of some class with its text ([outcome]).
    A parser gives the lines it prints and its return value; which raised
    classes [except Exception] catches is decided on the hierarchy of
    Exceptions.v. *)

From Stdlib Require Import String List NArith ZArith Bool Lia.
From S2P Require Import Prelude Exceptions.
Import ListNotations.
Open Scope py_scope.

Module Html.
Import Exceptions.

(** What a library call does: return a value, or raise an instance of a
    class with its [str]. *)
Inductive outcome (A : Type) : Type :=
| Returned (a : A)
| Raised (c : cls) (msg : pystr).
Arguments Returned {A} a.
Arguments Raised {A} c msg.

(** Two statements in sequence: the second runs when the first returns. *)
Definition then_call {A B} (o : outcome A) (f : A -> outcome B) : outcome B :=
  match o with
  | Returned a => f a
  | Raised c m => Raised c m
  end.

(** [BeautifulSoup(markup, features)] and [soup.select(selector)]. *)
Class Bs4 (Soup Res : Type) := {
  beautifulsoup : pystr -> pystr -> outcome Soup;
  soup_select : Soup -> pystr -> outcome Res
}.

(** [pq(html)] and [doc(selector)]. *)
Class PyQuery (Doc Res : Type) := {
  pq : pystr -> outcome Doc;
  pq_call : Doc -> pystr -> outcome Res
}.

(** [result = None; try: <body> except Exception as e: print(e)
    finally: return result]: the printed lines and the value returned.
    [result] is bound by the body's last statement only; an exception of
    a class outside [Exception] is not caught, and the [return] of the
    [finally] clause discards it. *)
Definition try_print_finally_return {R} (body : outcome R) : list pystr * option R :=
  match body with
  | Returned r => ([], Some r)
  | Raised c m => (if issubclass c (builtin "Exception") then [m] else [], None)
  end.

(** [HtmlParser.bs4_parser(html, selector)], lines 66-80. *)
Definition bs4_parser {Soup Res} `{Bs4 Soup Res} (html selector : pystr) : list pystr * option Res :=
  try_print_finally_return
    (then_call (beautifulsoup html (u "lxml")) (fun soup => soup_select soup selector)).

(** [HtmlParser.pyq_parser(html, selector)], lines 82-96. *)
Definition pyq_parser {Doc Res} `{PyQuery Doc Res} (html selector : pystr) : list pystr * option Res :=
  try_print_finally_return (then_call (pq html) (fun doc => pq_call doc selector)).

End Html.

(** ** Properties of the wrappers *)

Module HtmlProps.
Import Exceptions ExceptionsProps Html.

(** The exception classes of the program outside [Exception]. *)
Definition SILENT : list cls :=
  [builtin "BaseException"; builtin "KeyboardInterrupt"; builtin "SystemExit"; builtin "GeneratorExit"].

(** Of the classes deriving from [BaseException], [except Exception]
    misses exactly the four of [SILENT]. *)
Lemma caught_unless_silent c :
  issubclass c (builtin "BaseException") = true ->
  issubclass c (builtin "Exception") = negb (memc c SILENT).
Proof.
  intros H.
  pose proof (issubclass_check
                (fun c d => negb (cls_eqb d (builtin "BaseException")) ||
                            Bool.eqb (issubclass c (builtin "Exception")) (negb (memc c SILENT)))
                ltac:(vm_compute; reflexivity) _ _ H) as E.
  cbv beta in E; rewrite cls_eqb_refl in E; apply Bool.eqb_prop, E.
Qed.

Lemma try_print_raised {R} c m :
  issubclass c (builtin "BaseException") = true ->
  try_print_finally_return (Raised c m : outcome R) = (if memc c SILENT then [] else [m], None).
Proof. intros H; cbn [try_print_finally_return]; rewrite caught_unless_silent by exact H; destruct (memc c SILENT); reflexivity. Qed.

Section Libraries.
Context {Soup Doc Res : Type} `{Bs4 Soup Res} `{PyQuery Doc Res}.

(** C12: neither parser raises.  When both library calls return, it
    returns the selection and prints nothing; when one raises an exception
    of any class deriving from [BaseException], it returns [None] and
    prints the exception's text, except for [BaseException],
    [KeyboardInterrupt], [SystemExit] and [GeneratorExit], which
    [except Exception] does not catch and the [return] of the [finally]
    clause discards without a trace. *)
Theorem html_parsers_swallow html sel :
  (forall r, then_call (beautifulsoup html (u "lxml")) (fun s => soup_select s sel) = Returned r ->
             bs4_parser html sel = ([], Some r)) /\
  (forall c m, then_call (beautifulsoup html (u "lxml")) (fun s => soup_select s sel) = Raised c m ->
               issubclass c (builtin "BaseException") = true ->
               bs4_parser html sel = (if memc c SILENT then [] else [m], None)) /\
  (forall r, then_call (pq html) (fun d => pq_call d sel) = Returned r -> pyq_parser html sel = ([], Some r)) /\
  (forall c m, then_call (pq html) (fun d => pq_call d sel) = Raised c m ->
               issubclass c (builtin "BaseException") = true ->
               pyq_parser html sel = (if memc c SILENT then [] else [m], None)).
Proof.
  unfold bs4_parser, pyq_parser; repeat split; intros *; [intros E | intros E Hc | intros E | intros E Hc];
    rewrite E; [reflexivity | apply try_print_raised, Hc | reflexivity | apply try_print_raised, Hc].
Qed.

End Libraries.

(** A [BeautifulSoup] without [lxml] installed, and a user interrupting
    [pq]. *)
#[local] Instance no_lxml : Bs4 unit unit :=
  {| beautifulsoup _ _ := Raised (mk_cls (u "bs4") (u "FeatureNotFound"))
                                 (u "Couldn't find a tree builder with the features you requested: lxml.");
     soup_select _ _ := Returned tt |}.

#[local] Instance interrupted : PyQuery unit unit :=
  {| pq _ := Raised (builtin "KeyboardInterrupt") []; pq_call _ _ := Returned tt |}.

Lemma html_parsers_swallow_witness :
  bs4_parser (Soup := unit) (Res := unit) (u "<p>") (u "p") =
    ([u "Couldn't find a tree builder with the features you requested: lxml."], None) /\
  pyq_parser (Doc := unit) (Res := unit) (u "<p>") (u "p") = ([], None).
Proof.
  split.
  - rewrite (proj1 (proj2 (@html_parsers_swallow unit unit unit no_lxml interrupted (u "<p>") (u "p")))
               _ _ eq_refl ltac:(vm_compute; reflexivity)); vm_compute; reflexivity.
  - rewrite (proj2 (proj2 (proj2 (@html_parsers_swallow unit unit unit no_lxml interrupted (u "<p>") (u "p"))))
               _ _ eq_refl ltac:(vm_compute; reflexivity)); vm_compute; reflexivity.
Defined.

End HtmlProps.
