(* ===== verification/Unique.v ===== *)
(** * [Utility.makeunique] and Python equality on JSON values

    [Utility.makeunique] (src/controller/x/xcrawl.py lines 133-140) keeps
    the first of the elements of a list that are equal under Python's
    [==], in their order.  [==] on the values [json.loads] produces
    ([py_eq]) is coarser than the equality of their trees: [True == 1],
    [False == 0], and two dictionaries are equal when they have the same
    keys with equal values, whatever the order of their keys.

    The theorems show that [py_eq] is an equivalence on well-formed values
    (no dictionary with a duplicate key, which [json.loads] guarantees),
    that [makeunique] computes a declarative reference (keep an element
    when no earlier element is equal to it), that its result has no two
    equal elements, keeps every element up to [==] and is a subsequence of
    its input, and that it respects [==]: lists that are equal element by
    element give results equal element by element. *)

From Stdlib Require Import String List NArith ZArith Bool Lia SetoidList.
From S2P Require Import Prelude Json.
Import ListNotations.
Open Scope py_scope.

Module Unique.

(** [a == b] for values of [json.loads].  A [bool] is an [int]: [True]
    and [1] are equal.  [list.__eq__] compares lengths then elements in
    order; [dict.__eq__] compares lengths, then looks every key of the
    left dictionary up in the right one. *)
Fixpoint py_eq (a b : json) {struct a} : bool :=
  match a, b with
  | JNull, JNull => true
  | JBool x, JBool y => Bool.eqb x y
  | JBool x, JNum z => Z.eqb (Z.b2z x) z
  | JNum z, JBool y => Z.eqb z (Z.b2z y)
  | JNum x, JNum y => Z.eqb x y
  | JStr s, JStr t => pystr_eqb s t
  | JList l1, JList l2 =>
      (fix go (l1 l2 : list json) : bool :=
         match l1, l2 with
         | [], [] => true
         | x :: l1', y :: l2' => py_eq x y && go l1' l2'
         | _, _ => false
         end) l1 l2
  | JDict d1, JDict d2 =>
      Nat.eqb (length d1) (length d2) &&
      (fix go (d : dict) : bool :=
         match d with
         | [] => true
         | (k, v) :: d' =>
             match dlookup k d2 with
             | Some w => py_eq v w && go d'
             | None => false
             end
         end) d1
  | _, _ => false
  end.

(** [x in l] ([list.__contains__] compares [item == x] for every item). *)
Definition py_in (x : json) (l : list json) : bool := existsb (fun y => py_eq y x) l.

(** One step of [[unique_list.append(x) for x in datas if x not in
    unique_list]]. *)
Definition unique_step (unique_list : list json) (x : json) : list json :=
  if py_in x unique_list then unique_list else unique_list ++ [x].

Definition makeunique_list (datas : list json) : list json :=
  fold_left unique_step datas [].

(** [Utility.makeunique(datas)]: [datas] is iterated as Python iterates
    it (a dictionary gives its keys, a string its characters). *)
Definition makeunique (datas : json) : res (list json) :=
  l <- py_iter datas ;; Ok (makeunique_list l).

End Unique.

Module UniqueProps.
Import Unique.

(** [a == b] as a proposition. *)
Definition jeq (a b : json) : Prop := py_eq a b = true.

(** [==] between well-formed values: a partial equivalence on [json]
    whose domain is the well-formed values. *)
Definition jeqw (a b : json) : Prop := wfb a = true /\ wfb b = true /\ py_eq a b = true.

(** The declarative reference: keep an element when no element before it
    ([pre]) is equal to it. *)
Fixpoint firsts_go (pre l : list json) : list json :=
  match l with
  | [] => []
  | x :: l' => if py_in x pre then firsts_go (pre ++ [x]) l' else x :: firsts_go (pre ++ [x]) l'
  end.

Definition firsts (l : list json) : list json := firsts_go [] l.

(** [acc] holds elements of [pre] and an element equal to each of them. *)
Definition covers (acc pre : list json) : Prop :=
  incl acc pre /\ forall p, In p pre -> exists a, In a acc /\ py_eq a p = true.

Fixpoint forall2b {A} (f : A -> A -> bool) (l1 l2 : list A) : bool :=
  match l1, l2 with
  | [], [] => true
  | x :: l1', y :: l2' => f x y && forall2b f l1' l2'
  | _, _ => false
  end.

(** Every key of [d1] is in [d2] with an equal value. *)
Definition dict_sub (d1 d2 : dict) : bool :=
  forallb (fun kv => match dlookup (fst kv) d2 with
                     | Some w => py_eq (snd kv) w
                     | None => false
                     end) d1.

Lemma py_eq_list l1 l2 : py_eq (JList l1) (JList l2) = forall2b py_eq l1 l2.
Proof.
  revert l2; induction l1 as [|x l1 IH]; intros [|y l2]; try reflexivity.
  cbn [forall2b]; change (py_eq x y && py_eq (JList l1) (JList l2) = py_eq x y && forall2b py_eq l1 l2).
  rewrite IH; reflexivity.
Qed.

Lemma py_eq_dict d1 d2 :
  py_eq (JDict d1) (JDict d2) = Nat.eqb (length d1) (length d2) && dict_sub d1 d2.
Proof.
  cbn [py_eq]; f_equal; unfold dict_sub.
  induction d1 as [|[k v] d1 IH]; [reflexivity|]; cbn [forallb fst snd].
  destruct (dlookup k d2); [rewrite <- IH; reflexivity | reflexivity].
Qed.

Lemma dict_sub_spec d1 d2 :
  dict_sub d1 d2 = true <->
  forall k v, In (k, v) d1 -> exists w, dlookup k d2 = Some w /\ py_eq v w = true.
Proof.
  unfold dict_sub; rewrite forallb_forall; split.
  - intros H k v Hin; specialize (H _ Hin); cbn in H.
    destruct (dlookup k d2) as [w|]; [exists w; auto | discriminate].
  - intros H [k v] Hin; cbn; destruct (H k v Hin) as (w & -> & E); exact E.
Qed.

Lemma dlookup_In k v d : dlookup k d = Some v -> In (k, v) d.
Proof.
  induction d as [|[k' v'] d IH]; cbn; [discriminate|].
  destruct (pystr_eqb_spec k k'); [intros [= <-]; subst; left; reflexivity | intros; right; auto].
Qed.

Lemma In_dlookup k v d : NoDup (dkeys d) -> In (k, v) d -> dlookup k d = Some v.
Proof.
  induction d as [|[k' v'] d IH]; cbn; [tauto|]; intros Hnd [E|Hin]; inversion Hnd; subst.
  - inversion E; subst; rewrite pystr_eqb_refl; reflexivity.
  - destruct (pystr_eqb_spec k k'); [subst | auto].
    exfalso; match goal with H : ~ In _ _ |- _ => apply H end.
    apply (in_map fst) in Hin; exact Hin.
Qed.

Lemma wf_dict d :
  wfb (JDict d) = true <-> NoDup (dkeys d) /\ forall k v, In (k, v) d -> wfb v = true.
Proof.
  cbn [wfb]; rewrite andb_true_iff, nodupb_NoDup, forallb_forall; split.
  - intros [H1 H2]; split; [exact H1 | intros k v Hin; exact (H2 _ Hin)].
  - intros [H1 H2]; split; [exact H1 | intros [k v] Hin; exact (H2 _ _ Hin)].
Qed.

Lemma wf_list l : wfb (JList l) = true <-> Forall (fun j => wfb j = true) l.
Proof. cbn [wfb]; rewrite forallb_forall, Forall_forall; reflexivity. Qed.

Lemma dict_sub_keys d1 d2 : dict_sub d1 d2 = true -> incl (dkeys d1) (dkeys d2).
Proof.
  rewrite dict_sub_spec; intros H k Hk; unfold dkeys in Hk; apply in_map_iff in Hk as ([k' v] & <- & Hin).
  destruct (H k' v Hin) as (w & Hl & _); apply dlookup_In, (in_map fst) in Hl; exact Hl.
Qed.

Lemma in_dkeys k d : In k (dkeys d) -> exists v, In (k, v) d.
Proof. unfold dkeys; rewrite in_map_iff; intros ([k' v] & <- & Hin); exists v; exact Hin. Qed.

(** The numeric and string cases of [==]: after case analysis on the
    booleans, integer equalities. *)
Ltac scalar_eq :=
  repeat match goal with b : bool |- _ => destruct b end;
  cbn [py_eq Z.b2z Bool.eqb] in *; rewrite ?Z.eqb_eq, ?pystr_eqb_eq in *; subst;
  first [reflexivity | apply Z.eqb_refl | apply pystr_eqb_refl | discriminate | lia].

Lemma py_eq_refl a : wfb a = true -> py_eq a a = true.
Proof.
  induction a as [| | | | l IH | d IH] using json_ind'; intros Hw; try scalar_eq.
  - rewrite py_eq_list; apply wf_list in Hw.
    induction IH as [|x l Hx _ IHl]; [reflexivity|]; inversion Hw; subst.
    cbn [forall2b]; rewrite Hx, IHl by assumption; reflexivity.
  - rewrite py_eq_dict, Nat.eqb_refl; apply wf_dict in Hw as [Hnd Hv]; apply dict_sub_spec.
    intros k v Hin; exists v; split; [apply In_dlookup; assumption|].
    rewrite Forall_forall in IH; exact (IH (k, v) Hin (Hv k v Hin)).
Qed.

Lemma forall2b_sym (l l' : list json) :
  Forall (fun x => forall b, wfb x = true -> wfb b = true -> py_eq x b = true -> py_eq b x = true) l ->
  Forall (fun j => wfb j = true) l -> Forall (fun j => wfb j = true) l' ->
  forall2b py_eq l l' = true -> forall2b py_eq l' l = true.
Proof.
  intros IH; revert l'; induction IH as [|x l Hx _ IHl]; intros [|y l'] Hw Hw' E; try discriminate; [reflexivity|].
  inversion Hw; inversion Hw'; subst; cbn in E |- *; apply andb_true_iff in E as [E1 E2].
  rewrite Hx, IHl by assumption; reflexivity.
Qed.

Lemma py_eq_sym a b : wfb a = true -> wfb b = true -> py_eq a b = true -> py_eq b a = true.
Proof.
  revert b; induction a as [| | | | l IH | d IH] using json_ind';
    intros [| | | |l'|d'] Hwa Hwb E; try (cbn in E; discriminate); try scalar_eq.
  - rewrite py_eq_list in *; apply wf_list in Hwa, Hwb; apply forall2b_sym; assumption.
  - rewrite py_eq_dict in *; apply andb_true_iff in E as [El Es].
    apply Nat.eqb_eq in El; rewrite (proj2 (Nat.eqb_eq _ _) (eq_sym El)); cbn [andb].
    apply wf_dict in Hwa as [Hnd Hv], Hwb as [Hnd' Hv'].
    assert (Hk : incl (dkeys d') (dkeys d)).
    { apply NoDup_length_incl; [exact Hnd | unfold dkeys; rewrite !length_map; lia | apply dict_sub_keys, Es]. }
    apply dict_sub_spec; intros k w Hin.
    destruct (in_dkeys k d) as [v Hv0]; [apply Hk; exact (in_map fst _ _ Hin)|].
    exists v; split; [apply In_dlookup; assumption|].
    rewrite dict_sub_spec in Es; destruct (Es k v Hv0) as (w' & Hl & Ew).
    rewrite (In_dlookup k w d') in Hl by assumption; injection Hl as <-.
    rewrite Forall_forall in IH; exact (IH (k, v) Hv0 w (Hv k v Hv0) (Hv' k w Hin) Ew).
Qed.

Lemma forall2b_trans (l l' l'' : list json) :
  Forall (fun x => forall b c, wfb x = true -> wfb b = true -> wfb c = true ->
                   py_eq x b = true -> py_eq b c = true -> py_eq x c = true) l ->
  Forall (fun j => wfb j = true) l -> Forall (fun j => wfb j = true) l' -> Forall (fun j => wfb j = true) l'' ->
  forall2b py_eq l l' = true -> forall2b py_eq l' l'' = true -> forall2b py_eq l l'' = true.
Proof.
  intros IH; revert l' l''; induction IH as [|x l Hx _ IHl];
    intros [|y l'] [|z l''] Hw Hw' Hw'' E1 E2; try discriminate; [reflexivity|].
  inversion Hw; inversion Hw'; inversion Hw''; subst; cbn in E1, E2 |- *.
  apply andb_true_iff in E1 as [E1 F1], E2 as [E2 F2].
  rewrite (Hx y z), (IHl l' l'') by assumption; reflexivity.
Qed.

Lemma py_eq_trans a b c :
  wfb a = true -> wfb b = true -> wfb c = true ->
  py_eq a b = true -> py_eq b c = true -> py_eq a c = true.
Proof.
  revert b c; induction a as [| | | | l IH | d IH] using json_ind';
    intros [| | | |l'|d'] [| | | |l''|d''] Hwa Hwb Hwc E1 E2;
    try (cbn in E1; discriminate); try (cbn in E2; discriminate); try scalar_eq.
  - rewrite py_eq_list in *; apply wf_list in Hwa, Hwb, Hwc; apply (forall2b_trans l l' l''); assumption.
  - rewrite py_eq_dict in *; apply andb_true_iff in E1 as [El1 Es1], E2 as [El2 Es2].
    apply Nat.eqb_eq in El1, El2; rewrite (proj2 (Nat.eqb_eq _ _) (eq_trans El1 El2)); cbn [andb].
    apply wf_dict in Hwa as [Hnd Hv], Hwb as [Hnd' Hv'], Hwc as [Hnd'' Hv''].
    rewrite dict_sub_spec in *; intros k v Hin.
    destruct (Es1 k v Hin) as (w & Hw & Ew); apply dlookup_In in Hw.
    destruct (Es2 k w Hw) as (x & Hx & Ex); exists x; split; [exact Hx|].
    rewrite Forall_forall in IH.
    exact (IH (k, v) Hin w x (Hv k v Hin) (Hv' k w Hw) (Hv'' k x (dlookup_In _ _ _ Hx)) Ew Ex).
Qed.

#[export] Instance jeqw_PER : PER jeqw.
Proof.
  split.
  - intros a b (Ha & Hb & E); repeat split; auto using py_eq_sym.
  - intros a b c (Ha & Hb & E1) (_ & Hc & E2); repeat split; eauto using py_eq_trans.
Qed.

Lemma py_in_true x l : py_in x l = true <-> exists y, In y l /\ py_eq y x = true.
Proof. unfold py_in; apply existsb_exists. Qed.

Lemma py_in_covers x acc pre :
  wfb x = true -> Forall (fun j => wfb j = true) pre -> covers acc pre -> py_in x acc = py_in x pre.
Proof.
  intros Hx Hpre [Hincl Hcov]; rewrite Forall_forall in Hpre; apply eq_true_iff_eq; rewrite !py_in_true.
  split; intros (y & Hy & E).
  - exists y; split; [apply Hincl, Hy | exact E].
  - destruct (Hcov y Hy) as (a & Ha & Ea); exists a; split; [exact Ha|].
    apply (py_eq_trans a y x); auto.
Qed.

Lemma covers_step acc pre x :
  wfb x = true -> Forall (fun j => wfb j = true) pre -> covers acc pre ->
  covers (unique_step acc x) (pre ++ [x]).
Proof.
  intros Hx Hpre Hc; pose proof (py_in_covers x acc pre Hx Hpre Hc) as Hin.
  destruct Hc as [Hincl Hcov]; unfold unique_step; split.
  - destruct (py_in x acc); intros a Ha; apply in_app_iff;
      [left; apply Hincl, Ha | apply in_app_iff in Ha as [Ha|Ha]; [left; apply Hincl, Ha | right; exact Ha]].
  - intros p Hp; apply in_app_iff in Hp as [Hp | [<- | []]].
    + destruct (Hcov p Hp) as (a & Ha & E); exists a; split; [|exact E].
      destruct (py_in x acc); [exact Ha | apply in_app_iff; left; exact Ha].
    + destruct (py_in x acc) eqn:E.
      * apply py_in_true in E; exact E.
      * exists x; split; [apply in_app_iff; right; left; reflexivity | apply py_eq_refl, Hx].
Qed.

Lemma fold_firsts l acc pre :
  Forall (fun j => wfb j = true) l -> Forall (fun j => wfb j = true) pre -> covers acc pre ->
  fold_left unique_step l acc = acc ++ firsts_go pre l /\ covers (fold_left unique_step l acc) (pre ++ l).
Proof.
  revert acc pre; induction l as [|x l IH]; intros acc pre Hl Hpre Hc; cbn [fold_left firsts_go].
  - rewrite !app_nil_r; split; [reflexivity | exact Hc].
  - inversion Hl; subst.
    pose proof (covers_step acc pre x ltac:(assumption) Hpre Hc) as Hc'.
    assert (Hpre' : Forall (fun j => wfb j = true) (pre ++ [x])) by (apply Forall_app; auto).
    destruct (IH _ _ ltac:(assumption) Hpre' Hc') as [E Hcov]; rewrite <- app_assoc in Hcov.
    split; [|exact Hcov]; rewrite E; unfold unique_step.
    rewrite (py_in_covers x acc pre) by assumption.
    destruct (py_in x pre); [reflexivity | rewrite <- app_assoc; reflexivity].
Qed.

Lemma NoDupA_snoc (acc : list json) x :
  NoDupA jeq acc -> (forall a, In a acc -> py_eq a x = false) -> NoDupA jeq (acc ++ [x]).
Proof.
  induction 1 as [|a acc Ha Hnd IH]; intros H; cbn [app].
  - constructor; [intros Hin; inversion Hin | constructor].
  - constructor; [|apply IH; intros b Hb; apply H; right; exact Hb].
    intros Hin; apply InA_app in Hin as [Hin|Hin]; [exact (Ha Hin)|].
    inversion Hin as [? ? E|? ? E]; subst; [|inversion E].
    unfold jeq in E; rewrite (H a (or_introl eq_refl)) in E; discriminate.
Qed.

Lemma NoDupA_fold l acc : NoDupA jeq acc -> NoDupA jeq (fold_left unique_step l acc).
Proof.
  revert acc; induction l as [|x l IH]; intros acc Hnd; cbn [fold_left]; [exact Hnd|].
  apply IH; unfold unique_step; destruct (py_in x acc) eqn:E; [exact Hnd|].
  apply NoDupA_snoc; [exact Hnd|]; intros a Ha.
  destruct (py_eq a x) eqn:Ea; [|reflexivity].
  assert (py_in x acc = true) by (apply py_in_true; exists a; auto); congruence.
Qed.

Lemma NoDupA_app_not_eq (acc l : list json) a x :
  NoDupA jeq (acc ++ x :: l) -> In a acc -> py_eq a x = false.
Proof.
  induction acc as [|b acc IH]; cbn [app In]; [tauto|]; intros Hnd [->|Ha]; inversion Hnd; subst.
  - destruct (py_eq a x) eqn:E; [|reflexivity]; exfalso.
    match goal with H : ~ InA _ _ _ |- _ => apply H end.
    apply InA_app_iff; right; left; exact E.
  - apply IH; assumption.
Qed.

Lemma fold_NoDupA l acc : NoDupA jeq (acc ++ l) -> fold_left unique_step l acc = acc ++ l.
Proof.
  revert acc; induction l as [|x l IH]; intros acc Hnd; cbn [fold_left]; [rewrite app_nil_r; reflexivity|].
  unfold unique_step at 2; destruct (py_in x acc) eqn:E.
  - apply py_in_true in E as (a & Ha & Ea); rewrite (NoDupA_app_not_eq acc l a x Hnd Ha) in Ea; discriminate.
  - rewrite IH; [rewrite <- app_assoc; reflexivity | rewrite <- app_assoc; exact Hnd].
Qed.

Lemma py_eq_compat x1 x2 y1 y2 : jeqw x1 x2 -> jeqw y1 y2 -> py_eq y1 x1 = py_eq y2 x2.
Proof.
  intros Hx Hy; apply eq_true_iff_eq; split; intros E.
  - assert (jeqw y1 x1) as H by (destruct Hx as (? & _), Hy as (? & _); repeat split; assumption).
    assert (jeqw y2 x2) as (_ & _ & R) by (transitivity y1; [symmetry; exact Hy|]; transitivity x1; assumption).
    exact R.
  - assert (jeqw y2 x2) as H by (destruct Hx as (_ & ? & _), Hy as (_ & ? & _); repeat split; assumption).
    assert (jeqw y1 x1) as (_ & _ & R) by (transitivity y2; [exact Hy|]; transitivity x2; [exact H | symmetry; exact Hx]).
    exact R.
Qed.

Lemma py_in_proper x1 x2 p1 p2 : jeqw x1 x2 -> eqlistA jeqw p1 p2 -> py_in x1 p1 = py_in x2 p2.
Proof.
  intros Hx Hp; induction Hp as [|y1 y2 p1 p2 Hy _ IH]; [reflexivity|].
  unfold py_in in *; cbn [existsb]; rewrite IH, (py_eq_compat x1 x2 y1 y2 Hx Hy); reflexivity.
Qed.

Lemma eqlistA_snoc {A} (R : A -> A -> Prop) l1 l2 x1 x2 :
  eqlistA R l1 l2 -> R x1 x2 -> eqlistA R (l1 ++ [x1]) (l2 ++ [x2]).
Proof.
  intros H Hx; induction H; cbn [app]; constructor; [exact Hx | constructor | assumption | assumption].
Qed.

Lemma firsts_go_proper pre1 pre2 l1 l2 :
  eqlistA jeqw pre1 pre2 -> eqlistA jeqw l1 l2 -> eqlistA jeqw (firsts_go pre1 l1) (firsts_go pre2 l2).
Proof.
  intros Hp Hl; revert pre1 pre2 Hp; induction Hl as [|x1 x2 l1 l2 Hx _ IH]; intros pre1 pre2 Hp;
    cbn [firsts_go]; [constructor|].
  assert (Hp' : eqlistA jeqw (pre1 ++ [x1]) (pre2 ++ [x2])) by (apply eqlistA_snoc; assumption).
  rewrite (py_in_proper x1 x2 pre1 pre2 Hx Hp).
  destruct (py_in x2 pre2); [apply IH, Hp' | constructor; [exact Hx | apply IH, Hp']].
Qed.

Lemma eqlistA_jeqw_wf l1 l2 :
  eqlistA jeqw l1 l2 -> Forall (fun j => wfb j = true) l1 /\ Forall (fun j => wfb j = true) l2.
Proof. induction 1 as [|x1 x2 l1 l2 (H1 & H2 & _) _ [IH1 IH2]]; split; constructor; assumption. Qed.

Lemma covers_nil : covers [] [].
Proof. split; [intros a [] | intros p []]. Qed.

(** C30: [makeunique] computes the declarative reference on well-formed
    values: it keeps an element exactly when no element before it in
    [datas] is equal to it under [==], and keeps those in their order. *)
Theorem makeunique_reference l :
  Forall (fun j => wfb j = true) l -> makeunique_list l = firsts l.
Proof. intros H; exact (proj1 (fold_firsts l [] [] H (Forall_nil _) covers_nil)). Qed.

Lemma makeunique_reference_witness :
  Forall (fun j => wfb j = true) [JNum 1; JBool true; JNum 2] /\
  makeunique_list [JNum 1; JBool true; JNum 2] = firsts [JNum 1; JBool true; JNum 2].
Proof.
  assert (H : Forall (fun j => wfb j = true) [JNum 1; JBool true; JNum 2]) by repeat constructor.
  split; [exact H | exact (makeunique_reference _ H)].
Defined.

(** C31: the result of [makeunique] has no two elements equal under [==],
    holds only elements of [datas], and has an element equal to each
    element of [datas]. *)
Theorem makeunique_unique l :
  Forall (fun j => wfb j = true) l ->
  NoDupA jeq (makeunique_list l) /\ incl (makeunique_list l) l /\
  (forall x, In x l -> exists y, In y (makeunique_list l) /\ py_eq y x = true).
Proof.
  intros H; destruct (proj2 (fold_firsts l [] [] H (Forall_nil _) covers_nil)) as [Hincl Hcov].
  split; [apply NoDupA_fold; constructor | split; [exact Hincl | exact Hcov]].
Qed.

Lemma makeunique_unique_witness :
  Forall (fun j => wfb j = true) [JNum 1; JBool true] /\
  NoDupA jeq (makeunique_list [JNum 1; JBool true]) /\
  incl (makeunique_list [JNum 1; JBool true]) [JNum 1; JBool true] /\
  (forall x, In x [JNum 1; JBool true] ->
             exists y, In y (makeunique_list [JNum 1; JBool true]) /\ py_eq y x = true).
Proof.
  assert (H : Forall (fun j => wfb j = true) [JNum 1; JBool true]) by repeat constructor.
  split; [exact H | exact (makeunique_unique _ H)].
Defined.

(** [makeunique] is idempotent, on any list. *)
Theorem makeunique_idempotent l : makeunique_list (makeunique_list l) = makeunique_list l.
Proof.
  unfold makeunique_list at 1; apply (fold_NoDupA _ []); cbn [app].
  apply NoDupA_fold; constructor.
Qed.

(** [makeunique] respects [==]: lists of well-formed values that are
    equal element by element give results equal element by element. *)
Theorem makeunique_respects : Proper (eqlistA jeqw ==> eqlistA jeqw) makeunique_list.
Proof.
  intros l1 l2 Hl; destruct (eqlistA_jeqw_wf l1 l2 Hl) as [H1 H2].
  rewrite !makeunique_reference by assumption; apply firsts_go_proper; [constructor | exact Hl].
Qed.

(** [True == 1] and [False == 0], and dictionaries are equal whatever
    the order of their keys: [makeunique] drops [True] after [1], [0] after
    [False], and the second of two dictionaries with the same items; a
    string is iterated by characters and a number is not iterable. *)
Example makeunique_example :
  makeunique (JList [JNum 1; JBool true; JDict [(u "a", JNum 1); (u "b", JNum 2)];
                     JDict [(u "b", JNum 2); (u "a", JBool true)]; JBool false; JNum 0; JStr (u "x")]) =
    Ok [JNum 1; JDict [(u "a", JNum 1); (u "b", JNum 2)]; JBool false; JStr (u "x")] /\
  makeunique (JStr (u "aab")) = Ok [JStr (u "a"); JStr (u "b")] /\
  makeunique (JNum 5) = raise TypeError.
Proof. vm_compute; repeat split. Qed.

End UniqueProps.

