(* ===== verification/Crawl.v ===== *)
(** * The request pipeline of [search] and [trends]

    [XCrawl.search] (src/controller/x/xcrawl.py lines 761-997) and
    [XCrawl.trends] (lines 654-759) compose the components of the other
    files: the arguments are checked and the URL built ([Params.search_url]),
    the user agent and the token header are set ([Auth]), the request is
    sent through [requests.Session], and a 200 answer is walked
    ([Dispatch.search_response], [Dispatch.trends_response]).

    The header dictionary is mutated in place before any exception can be
    raised, so a failed call leaves a changed session.  The pipeline is
    therefore written in a state-and-error monad [M] over the session whose
    error case keeps the state reached: [guest_token_m] and [auth_m]
    replay [Auth.guest_token] and [Auth.authenticate] with their failing
    states, and agree with them when they succeed.  The HTTP [GET] is the
    interface [Fetch]: its answer is the status and the body after
    [content.decode('utf-8')] and [json.loads].  Faker's user agents are
    arguments.  The [proxy] and [timeout] options and the [**kwargs] passed
    on to [Session.request] are not modelled. *)

From Stdlib Require Import String List NArith ZArith Bool Lia Relations.
From S2P Require Import Prelude Json Timestamp Query Params Dispatch Auth.
Import ListNotations.
Open Scope py_scope.

Module Crawl.
Import Auth Params Dispatch Query.

(** ** A state-and-error monad over the session *)

Definition M (A : Type) : Type := session -> res A * session.

Definition mret {A} (a : A) : M A := fun s => (Ok a, s).

Definition mbind {A B} (m : M A) (k : A -> M B) : M B :=
  fun s => match m s with
           | (Ok a, s1) => k a s1
           | (Err e, s1) => (Err e, s1)
           end.

(** A computation that does not touch the session. *)
Definition lift {A} (r : res A) : M A := fun s => (r, s).

(** [self.__headers[k] = v]. *)
Definition set_header (k : pystr) (v : json) : M unit :=
  fun s => (Ok tt, mk_session (cookie s) (dset k v (headers s))).

Declare Scope crawl_scope.
Delimit Scope crawl_scope with crawl.
Notation "x <-- m ;;; k" := (mbind m (fun x => k))
  (at level 60, m at next level, right associativity) : crawl_scope.
Notation "' p <-- m ;;; k" := (mbind m (fun x => match x with p => k end))
  (at level 60, p pattern, m at next level, right associativity) : crawl_scope.
Open Scope crawl_scope.

(** ** The HTTP [GET] *)

(** [Session.request("GET", url, params=..., headers=...)]: the status and
    the decoded JSON body. *)
Class Fetch := { get_url : pystr -> option dict -> dict -> Z * json }.

(** ** Authentication, with the state of its failures *)

(** [XCrawl.__guest_token] (lines 188-207): the user agent is stored
    before the [POST]; a status other than 200 raises with that header
    kept. *)
Definition guest_token_m `{Transport} (ua : pystr) : M json :=
  _ <-- set_header (u "User-Agent") (JStr ua) ;;;
  fun s =>
    let '(status, body) := post_guest (headers s) in
    match get body (u "guest_token") JNull with
    | Err e => (Err e, s)
    | Ok content =>
        if Z.eqb status 200 then
          let h := dset (u "X-Guest-Token") content (headers s) in
          (Ok (match dlookup (u "X-Guest-Token") h with Some v => v | None => JNull end),
           mk_session (cookie s) h)
        else (Err (HTTPErrorException status), s)
    end.

(** [XCrawl.__Csrftoken] (lines 209-218) reads the session. *)
Definition csrf_m : M pystr := fun s => (csrftoken s, s).

(** Lines 702-706 of [trends] and 843-848 of [search]. *)
Definition auth_m `{Transport} (ua ua_guest : pystr) : M unit :=
  _ <-- set_header (u "User-Agent") (JStr ua) ;;;
  fun s =>
    match cookie s with
    | None => (t <-- guest_token_m ua_guest ;;; set_header (u "X-Guest-Token") t) s
    | Some _ => (t <-- csrf_m ;;; set_header (u "X-Csrf-Token") (JStr t)) s
    end.

(** ** [search] *)

(** [XCrawl.search(rawquery, product, count, cursor)]: lines 783-841 check
    the arguments and build the URL and [params], lines 843-848 set the
    headers, lines 850-860 send the request with [params] a second time,
    lines 862-991 walk a 200 answer into [{"result": ..., "cursor_value":
    ...}], and lines 996-997 raise on any other status. *)
Definition search_call `{Transport} `{Fetch} (ua ua_guest : pystr)
    (rawquery product count cursor : json) : M json :=
  req <-- lift (search_url rawquery product count cursor) ;;;
  p <-- lift (str_of product) ;;;
  _ <-- auth_m ua ua_guest ;;;
  fun s =>
    let '(status, body) := get_url (req_url req) (Some (req_params req)) (headers s) in
    if Z.eqb status 200 then
      lift ('(datas, c) <- search_response p body ;;
            Ok (JDict [(u "result", JList datas); (u "cursor_value", JStr c)])) s
    else (Err (HTTPErrorException status), s).

(** ** [trends] *)

(** The values of the [payload] literal: [int], [bool] and [str]. *)
Inductive qval : Type := QInt (z : Z) | QBool (b : bool) | QStr (s : pystr).

Definition TRENDS_API : pystr := u "https://twitter.com/i/api/2/guide.json".

(** The [payload] dictionary of lines 662-698, in order. *)
Definition TRENDS_PAYLOAD : list (pystr * qval) :=
  [(u "include_profile_interstitial_type", QInt 1);
   (u "include_blocking", QInt 1);
   (u "include_blocked_by", QInt 1);
   (u "include_followed_by", QInt 1);
   (u "include_want_retweets", QInt 1);
   (u "include_mute_edge", QInt 1);
   (u "include_can_dm", QInt 1);
   (u "include_can_media_tag", QInt 1);
   (u "include_ext_has_nft_avatar", QInt 1);
   (u "include_ext_is_blue_verified", QInt 1);
   (u "include_ext_verified_type", QInt 1);
   (u "include_ext_profile_image_shape", QInt 1);
   (u "skip_status", QInt 1);
   (u "cards_platform", QStr (u "Web-12"));
   (u "include_cards", QInt 1);
   (u "include_ext_alt_text", QBool true);
   (u "include_ext_limited_action_results", QBool true);
   (u "include_quote_count", QBool true);
   (u "include_reply_count", QInt 1);
   (u "tweet_mode", QStr (u "extended"));
   (u "include_ext_views", QBool true);
   (u "include_entities", QBool true);
   (u "include_user_entities", QBool true);
   (u "include_ext_media_color", QBool true);
   (u "include_ext_media_availability", QBool true);
   (u "include_ext_sensitive_media_warning", QBool true);
   (u "include_ext_trusted_friends_metadata", QBool true);
   (u "send_error_codes", QBool true);
   (u "simple_quoted_tweet", QBool true);
   (u "count", QInt 20);
   (u "requestContext", QStr (u "launch"));
   (u "candidate_source", QStr (u "trends"));
   (u "include_page_configuration", QBool false);
   (u "entity_tokens", QBool false);
   (u "ext", QStr (u "mediaStats,highlightedLabel,hasNftAvatar,voiceInfo,birdwatchPivot,superFollowMetadata,unmentionInfo,editControl"))].

(** [quote_plus(s, safe='')]: only [_ALWAYS_SAFE] is kept ([/] is
    encoded), and a space becomes [+]. *)
Definition always_safe (b : N) : bool := quote_safe b && negb (N.eqb b 47).

Definition quote_plus_byte (b : N) : pystr :=
  if N.eqb b 32 then [43]
  else if always_safe b then [b]
  else [37; hex_upper (b / 16); hex_upper (b mod 16)].

Definition quote_plus (s : pystr) : res pystr :=
  bs <- utf8_encode s ;; Ok (flat_map quote_plus_byte bs).

(** [str(v)] of a payload value. *)
Definition qval_str (v : qval) : pystr :=
  match v with
  | QInt z => show_Z z
  | QBool true => u "True"
  | QBool false => u "False"
  | QStr s => s
  end.

(** [urllib.parse.urlencode(query)] with its default [quote_via=quote_plus]. *)
Definition urlencode (q : list (pystr * qval)) : res pystr :=
  parts <- mapM (fun kv => k <- quote_plus (fst kv) ;;
                          v <- quote_plus (qval_str (snd kv)) ;;
                          Ok (k ++ [61] ++ v)) q ;;
  Ok (join [38] parts).

(** [XCrawl.trends()]: the URL (lines 661-700), the headers (702-706), the
    request (708-715), and the walk of a 200 answer into [{"result":
    ...}] (716-752); on any other status the [HTTPErrorException] is built
    and dropped and the method returns [None] (755-759). *)
Definition trends_call `{Transport} `{Fetch} (ua ua_guest : pystr) : M (option json) :=
  q <-- lift (urlencode TRENDS_PAYLOAD) ;;;
  _ <-- auth_m ua ua_guest ;;;
  fun s =>
    let '(status, body) := get_url (TRENDS_API ++ [63] ++ q) None (headers s) in
    lift (r <- trends_response status body ;;
          Ok (option_map (fun datas => JDict [(u "result", JList datas)]) r)) s.

End Crawl.

(** ** Properties of the pipeline *)

Module CrawlProps.
Import Auth AuthProps Params Dispatch DispatchProps Crawl.

(** [m] keeps [P] of the session, whether it returns or raises. *)
Definition keeps (P : session -> Prop) {A} (m : M A) : Prop :=
  forall s, P s -> P (snd (m s)).

Lemma keeps_lift P {A} (r : res A) : keeps P (lift r).
Proof. intros s Hs; exact Hs. Qed.

Lemma keeps_bind P {A B} (m : M A) (k : A -> M B) :
  keeps P m -> (forall a, keeps P (k a)) -> keeps P (mbind m k).
Proof.
  intros Hm Hk s Hs; unfold mbind.
  specialize (Hm s Hs); destruct (m s) as [[a|e] s1]; [apply Hk, Hm | exact Hm].
Qed.

Lemma not_base_guest : ~ In (u "X-Guest-Token") (dkeys base_headers).
Proof. cbn; intuition discriminate. Qed.

Create HintDb crawl.
#[local] Hint Resolve keeps_lift keeps_bind not_base_ua not_base_csrf not_base_guest : crawl.
#[local] Hint Extern 1 (_ <> _) => discriminate : crawl.

(** The calls keep every property of the session that setting a header
    other than the fixed ones and [Cookie] keeps. *)
Section WithTransport.
Variable P : session -> Prop.
Hypothesis P_dset : forall s k v,
  ~ In k (dkeys base_headers) -> k <> u "Cookie" -> P s -> P (mk_session (cookie s) (dset k v (headers s))).
Context `{Transport} `{Fetch}.

Lemma keeps_set_header k v :
  ~ In k (dkeys base_headers) -> k <> u "Cookie" -> keeps P (set_header k v).
Proof. intros Hb Hc s Hs; apply P_dset; assumption. Qed.

#[local] Hint Resolve keeps_set_header : crawl.

Lemma keeps_guest_token ua : keeps P (guest_token_m ua).
Proof.
  apply keeps_bind; [auto with crawl|]; intros _ s Hs; cbn.
  destruct (post_guest (headers s)) as [status body]; cbn.
  destruct (get body _ JNull) as [content|e]; cbn; [|exact Hs].
  destruct (Z.eqb status 200); cbn; [|exact Hs]; apply P_dset; auto with crawl.
Qed.

Lemma keeps_auth ua ua' : keeps P (auth_m ua ua').
Proof.
  apply keeps_bind; [auto with crawl|]; intros _ s Hs; cbn beta.
  destruct (cookie s) as [c|].
  - refine (keeps_bind _ _ _ _ _ s Hs); [intros s' Hs'; exact Hs' | intros t; auto with crawl].
  - refine (keeps_bind _ _ _ (keeps_guest_token ua') _ s Hs); intros t; auto with crawl.
Qed.

Lemma keeps_search ua ua' a b c d : keeps P (search_call ua ua' a b c d).
Proof.
  unfold search_call; repeat (apply keeps_bind; [auto using keeps_auth with crawl | intros ?]).
  intros s Hs; cbn; destruct (get_url _ _ _) as [status body]; destruct (Z.eqb status 200); exact Hs.
Qed.

Lemma keeps_trends ua ua' : keeps P (trends_call ua ua').
Proof.
  unfold trends_call; repeat (apply keeps_bind; [auto using keeps_auth with crawl | intros ?]).
  intros s Hs; cbn; destruct (get_url _ _ _); exact Hs.
Qed.

End WithTransport.

(** The sessions an [XCrawl] object goes through: built by the
    constructor, then any sequence of [search] and [trends] calls, each
    with any transport and user agents, whether it returns or raises. *)
Inductive api_reach : session -> Prop :=
| api_init c s : init c = Ok s -> api_reach s
| api_search (T : Transport) (F : Fetch) ua ua' a b c d s :
    api_reach s -> api_reach (snd (@search_call T F ua ua' a b c d s))
| api_trends (T : Transport) (F : Fetch) ua ua' s :
    api_reach s -> api_reach (snd (@trends_call T F ua ua' s)).

(** One call of the public API on an existing object, and any number of
    them. *)
Definition api_step (s s' : session) : Prop :=
  (exists (T : Transport) (F : Fetch) ua ua' a b c d, s' = snd (@search_call T F ua ua' a b c d s)) \/
  (exists (T : Transport) (F : Fetch) ua ua', s' = snd (@trends_call T F ua ua' s)).

Definition api_steps : session -> session -> Prop := clos_refl_trans_1n session api_step.

(** Some continuation of the object's life, with some server and
    arguments, has a [search] that returns. *)
Definition eventually_searches (s : session) : Prop :=
  exists s', api_steps s s' /\
    exists (T : Transport) (F : Fetch) ua ua' a b c d r, fst (@search_call T F ua ua' a b c d s') = Ok r.

(** The query string [urlencode(payload)] of [trends]. *)
Definition TRENDS_QUERY : pystr :=
  u ("include_profile_interstitial_type=1&include_blocking=1&" ++
     "include_blocked_by=1&include_followed_by=1&" ++
     "include_want_retweets=1&include_mute_edge=1&include_can_dm=1&" ++
     "include_can_media_tag=1&include_ext_has_nft_avatar=1&" ++
     "include_ext_is_blue_verified=1&include_ext_verified_type=1&" ++
     "include_ext_profile_image_shape=1&skip_status=1&" ++
     "cards_platform=Web-12&include_cards=1&include_ext_alt_text=True&" ++
     "include_ext_limited_action_results=True&include_quote_count=True&" ++
     "include_reply_count=1&tweet_mode=extended&include_ext_views=True&" ++
     "include_entities=True&include_user_entities=True&" ++
     "include_ext_media_color=True&include_ext_media_availability=True&" ++
     "include_ext_sensitive_media_warning=True&" ++
     "include_ext_trusted_friends_metadata=True&send_error_codes=True&" ++
     "simple_quoted_tweet=True&count=20&requestContext=launch&" ++
     "candidate_source=trends&include_page_configuration=False&" ++
     "entity_tokens=False&" ++
     "ext=mediaStats%2ChighlightedLabel%2ChasNftAvatar%2CvoiceInfo%2CbirdwatchPivot%2CsuperFollowMetadata%2CunmentionInfo%2CeditControl")%string.

Lemma urlencode_payload : urlencode TRENDS_PAYLOAD = Ok TRENDS_QUERY.
Proof. vm_compute; reflexivity. Qed.

(** The headers of an authenticated request. *)
Definition auth_headers (ua t : pystr) (s : session) : dict :=
  dset (u "X-Csrf-Token") (JStr t) (dset (u "User-Agent") (JStr ua) (headers s)).

Section Calls.
Context `{Transport} `{Fetch}.

Lemma auth_m_token ua ua' s c t :
  cookie s = Some c -> csrf_search c = Some t ->
  auth_m ua ua' s = (Ok tt, mk_session (Some c) (auth_headers ua t s)).
Proof.
  intros Hc Ht; unfold auth_m, mbind, set_header, csrf_m, csrftoken; cbn [cookie headers].
  rewrite Hc, Ht; reflexivity.
Qed.

Lemma auth_m_missing ua ua' s c :
  cookie s = Some c -> csrf_search c = None ->
  auth_m ua ua' s = (Err CSRFTokenMissingError, mk_session (Some c) (dset (u "User-Agent") (JStr ua) (headers s))).
Proof.
  intros Hc Ht; unfold auth_m, mbind, set_header, csrf_m, csrftoken; cbn [cookie headers].
  rewrite Hc, Ht; reflexivity.
Qed.

(** C1: with a cookie that carries a CSRF token and valid arguments,
    [search] sends one [GET] of the URL and [params] built by
    [Params.search_url], with the session's headers plus the user agent
    and the token; a 200 answer is walked by [Dispatch.search_response]
    into [{"result": ..., "cursor_value": ...}], any other status raises
    [HTTPErrorException]; the session keeps the headers sent. *)
Theorem search_call_spec ua ua' rawquery p count cursor s c t req :
  cookie s = Some c -> csrf_search c = Some t ->
  search_url rawquery (JStr p) count cursor = Ok req ->
  search_call ua ua' rawquery (JStr p) count cursor s =
    (let '(status, body) := get_url (req_url req) (Some (req_params req)) (auth_headers ua t s) in
     if Z.eqb status 200 then
       '(datas, cur) <- search_response p body ;;
       Ok (JDict [(u "result", JList datas); (u "cursor_value", JStr cur)])
     else raise (HTTPErrorException status),
     mk_session (Some c) (auth_headers ua t s)).
Proof.
  intros Hc Ht Hurl; unfold search_call, mbind at 1, lift at 1; rewrite Hurl.
  unfold mbind at 1, lift at 1; cbn [str_of].
  unfold mbind at 1; rewrite (auth_m_token ua ua' s c t Hc Ht).
  destruct (get_url _ _ _) as [status body]; destruct (Z.eqb status 200); reflexivity.
Qed.

(** C17: with a cookie without a CSRF token, [search] on valid arguments
    raises [CSRFTokenMissingError] before any request, and the session
    keeps the user agent it stored before raising. *)
Theorem search_call_csrf_missing ua ua' rawquery p count cursor s c req :
  cookie s = Some c -> csrf_search c = None ->
  search_url rawquery (JStr p) count cursor = Ok req ->
  search_call ua ua' rawquery (JStr p) count cursor s =
    (raise CSRFTokenMissingError, mk_session (Some c) (dset (u "User-Agent") (JStr ua) (headers s))).
Proof.
  intros Hc Ht Hurl; unfold search_call, mbind at 1, lift at 1; rewrite Hurl.
  unfold mbind at 1, lift at 1; cbn [str_of].
  unfold mbind at 1; rewrite (auth_m_missing ua ua' s c Hc Ht); reflexivity.
Qed.

(** C24: when the trends endpoint answers with a status other than 200,
    [trends] builds an [HTTPErrorException] without raising it and
    returns [None]: the caller cannot tell a failed request from one
    that was not made. *)
Theorem trends_call_status_dropped ua ua' s c t :
  cookie s = Some c -> csrf_search c = Some t ->
  fst (get_url (TRENDS_API ++ [63] ++ TRENDS_QUERY) None (auth_headers ua t s)) <> 200%Z ->
  trends_call ua ua' s = (Ok None, mk_session (Some c) (auth_headers ua t s)).
Proof.
  intros Hc Ht Hs; unfold trends_call, mbind at 1, lift at 1; rewrite urlencode_payload.
  unfold mbind at 1; rewrite (auth_m_token ua ua' s c t Hc Ht).
  destruct (get_url _ _ _) as [status body]; cbn [fst] in Hs; cbn beta iota.
  unfold trends_response; rewrite (proj2 (Z.eqb_neq status 200) Hs); reflexivity.
Qed.

End Calls.

(** Rule induction on [api_reach]: a property the constructor establishes
    and every header update keeps holds of every reachable session. *)
Lemma api_reach_keeps (P : session -> Prop) :
  (forall c s, init c = Ok s -> P s) ->
  (forall s k v, ~ In k (dkeys base_headers) -> k <> u "Cookie" -> P s ->
                 P (mk_session (cookie s) (dset k v (headers s)))) ->
  forall s, api_reach s -> P s.
Proof.
  intros Hi Hd s; induction 1 as [c s E | T F ua ua' a b c d s _ IH | T F ua ua' s _ IH].
  - exact (Hi c s E).
  - exact (keeps_search P Hd ua ua' a b c d s IH).
  - exact (keeps_trends P Hd ua ua' s IH).
Qed.

(** C6: every session an [XCrawl] object goes through, after any sequence
    of [search] and [trends] calls that returned or raised, has its cookie
    set and sent, the fixed headers with their values, and no header name
    twice. *)
Theorem api_reach_session_ok s : api_reach s -> session_ok s.
Proof. apply api_reach_keeps; [exact init_session_ok | exact session_ok_dset]. Qed.

(** A logged-in session, a transport whose guest activation fails and a
    server that answers every [GET] with an empty page. *)
Definition sample_session : session :=
  mk_session (Some sample_cookie) (dset (u "Cookie") (JStr sample_cookie) base_headers).

#[local] Instance down_transport : Transport := {| post_guest _ := (503%Z, JNull) |}.
#[local] Instance empty_fetch : Fetch := {| get_url _ _ _ := (200%Z, JDict []) |}.
#[local] Instance failing_fetch : Fetch := {| get_url _ _ _ := (503%Z, JNull) |}.

(** A server answering every [GET] with the [People] page of Dispatch. *)
#[local] Instance page_fetch : Fetch := {| get_url _ _ _ := (200%Z, response_of people_page) |}.

Lemma steps_cookie s s' : api_steps s s' -> cookie s' = cookie s.
Proof.
  induction 1 as [|s1 s2 s3 Hst _ IH]; [reflexivity|]; rewrite IH.
  destruct Hst as [(T & F & ua & ua' & a & b & c & d & ->) | (T & F & ua & ua' & ->)].
  - exact (keeps_search (fun x => cookie x = cookie s1) (fun _ _ _ _ _ E => E) ua ua' a b c d s1 eq_refl).
  - exact (keeps_trends (fun x => cookie x = cookie s1) (fun _ _ _ _ _ E => E) ua ua' s1 eq_refl).
Qed.

Lemma reach_cookie s : api_reach s -> exists c, cookie s = Some c.
Proof.
  apply (api_reach_keeps (fun s => exists c, cookie s = Some c)); [|intros s0 k v _ _ H; exact H].
  intros [| | |c| |] s0 E; try discriminate; injection E as <-; exists c; reflexivity.
Qed.

Lemma search_call_no_token `{Transport} `{Fetch} ua ua' a b c d s ck :
  cookie s = Some ck -> csrf_search ck = None -> exists e, fst (search_call ua ua' a b c d s) = Err e.
Proof.
  intros Hc Ht; unfold search_call, mbind, lift.
  destruct (search_url a b c d); [|eexists; reflexivity]; destruct (str_of b); [|eexists; reflexivity].
  rewrite (auth_m_missing ua ua' s ck Hc Ht); eexists; reflexivity.
Qed.

(** C8: C?: liveness of an [XCrawl] object: from any session it reaches, some
    later [search] can return results exactly when its cookie carries a
    [ct0] token.  The cookie never changes, so an object built with a
    cookie without the token raises on every [search] forever, while one
    with the token can always get a page of results. *)
Theorem search_liveness s :
  api_reach s -> (eventually_searches s <-> exists c t, cookie s = Some c /\ csrf_search c = Some t).
Proof.
  intros Hr; split.
  - intros (s' & Hst & T & F & ua & ua' & a & b & c0 & d & r & Hok).
    destruct (reach_cookie s Hr) as [c Hc]; exists c.
    destruct (csrf_search c) as [t|] eqn:Ht; [exists t; split; [exact Hc | reflexivity]|exfalso].
    pose proof (steps_cookie _ _ Hst) as Hc'; rewrite Hc in Hc'.
    destruct (@search_call_no_token T F ua ua' a b c0 d s' c Hc' Ht) as [e He]; congruence.
  - intros (c & t & Hc & Ht); exists s; split; [constructor|].
    destruct (search_url (JStr (u "python")) (JStr (u "People")) (JNum 20) JNull) as [req|e] eqn:Hurl;
      [|vm_compute in Hurl; discriminate].
    exists down_transport, page_fetch, (u "UA"), (u "UA"), (JStr (u "python")), (JStr (u "People")), (JNum 20), JNull,
      (JDict [(u "result", JList [people_user; people_user]); (u "cursor_value", JStr (u "DAAC"))]).
    unfold search_call, mbind at 1, lift at 1; rewrite Hurl.
    unfold mbind at 1, lift at 1; cbn [str_of].
    unfold mbind at 1; rewrite (auth_m_token (u "UA") (u "UA") s c t Hc Ht).
    vm_compute; reflexivity.
Qed.

Lemma search_call_spec_witness :
  @search_call down_transport empty_fetch (u "UA") (u "UA2") (JStr (u "python")) (JStr (u "Top")) (JNum 20) JNull sample_session =
    (raise (KeyError (u "data")),
     mk_session (Some sample_cookie) (auth_headers (u "UA") (u "abc123_XY-z") sample_session)).
Proof.
  destruct (search_url (JStr (u "python")) (JStr (u "Top")) (JNum 20) JNull) as [req|e] eqn:Hurl;
    [|vm_compute in Hurl; discriminate].
  rewrite (@search_call_spec down_transport empty_fetch (u "UA") (u "UA2") _ _ _ _ sample_session sample_cookie (u "abc123_XY-z") req eq_refl eq_refl Hurl).
  vm_compute; reflexivity.
Defined.

Lemma search_call_csrf_missing_witness :
  @search_call down_transport empty_fetch (u "UA") (u "UA2") (JStr (u "python")) (JStr (u "Top")) (JNum 20) JNull
    (mk_session (Some (u "lang=en")) (dset (u "Cookie") (JStr (u "lang=en")) base_headers)) =
  (raise CSRFTokenMissingError,
   mk_session (Some (u "lang=en"))
     (dset (u "User-Agent") (JStr (u "UA")) (dset (u "Cookie") (JStr (u "lang=en")) base_headers))).
Proof.
  destruct (search_url (JStr (u "python")) (JStr (u "Top")) (JNum 20) JNull) as [req|e] eqn:Hurl;
    [|vm_compute in Hurl; discriminate].
  exact (@search_call_csrf_missing down_transport empty_fetch (u "UA") (u "UA2") _ _ _ _
           (mk_session (Some (u "lang=en")) (dset (u "Cookie") (JStr (u "lang=en")) base_headers))
           (u "lang=en") req eq_refl eq_refl Hurl).
Defined.

Lemma trends_call_status_dropped_witness :
  @trends_call down_transport failing_fetch (u "UA") (u "UA2") sample_session =
    (Ok None, mk_session (Some sample_cookie) (auth_headers (u "UA") (u "abc123_XY-z") sample_session)).
Proof.
  apply (@trends_call_status_dropped down_transport failing_fetch _ _ sample_session sample_cookie); [reflexivity | reflexivity | cbn; discriminate].
Defined.

Lemma api_reach_session_ok_witness :
  let s := snd (@search_call down_transport empty_fetch (u "UA") (u "UA2") (JNum 1) JNull JNull JNull sample_session) in
  api_reach s /\ session_ok s.
Proof.
  cbv zeta.
  assert (H : api_reach (snd (@search_call down_transport empty_fetch (u "UA") (u "UA2") (JNum 1) JNull JNull JNull sample_session)))
    by (apply api_search, (api_init (JStr sample_cookie)); reflexivity).
  split; [exact H | exact (api_reach_session_ok _ H)].
Defined.

Lemma search_liveness_witness :
  api_reach sample_session /\ eventually_searches sample_session /\
  api_reach (mk_session (Some (u "lang=en")) (dset (u "Cookie") (JStr (u "lang=en")) base_headers)) /\
  ~ eventually_searches (mk_session (Some (u "lang=en")) (dset (u "Cookie") (JStr (u "lang=en")) base_headers)).
Proof.
  assert (H1 : api_reach sample_session) by (apply (api_init (JStr sample_cookie)); reflexivity).
  assert (H2 : api_reach (mk_session (Some (u "lang=en")) (dset (u "Cookie") (JStr (u "lang=en")) base_headers)))
    by (apply (api_init (JStr (u "lang=en"))); reflexivity).
  split; [exact H1|]; split; [apply (search_liveness _ H1); exists sample_cookie, (u "abc123_XY-z"); split; reflexivity|].
  split; [exact H2|]; intros H; apply (search_liveness _ H2) in H as (c & t & Hc & Ht).
  injection Hc as <-; vm_compute in Ht; discriminate.
Defined.

End CrawlProps.
