(* ===== verification/Sql.v ===== *)
(** * The MySQL helpers against a table store

    Mysql.v proves what text [MySQLDManipulator] sends to its driver; this
    file says what that text does to the data.  [store] is an abstract
    database (tables with their column lists and rows) and [spec_insert]
    and [spec_clear] are the operations the helpers are meant to perform on
    it: add a dictionary as a row (absent columns [NULL]), remove every
    row.  [sql_driver] is an instance of [Mysql.Driver] over [store] that
    does what [mysql.connector] and the server do with the fragment of SQL
    the helpers produce: the connector converts each parameter, refusing a
    [dict] or a [list] ([ProgrammingError], errno [-1]), then checks the
    number of parameters against the [%s] markers (the same error class),
    row by row; the server
    parses [INSERT INTO t(c1, c2) VALUES(%s, %s)] and [DELETE FROM t],
    rejects anything else of that shape with a syntax error (1064), an
    unknown table (1146), an unknown column (1054) or a column count that
    differs from the value count (1136).  [executemany] on an [INSERT] is
    sent as one multi-row statement, so it adds all its rows or none.
    Transactions are not modelled: the store is what [commit] leaves, and
    statements outside the fragment (a [WHERE] condition, [UPDATE]) are
    answered with error 0.  None of this is code of the repository; the
    theorems are about [Mysql.insert], [Mysql.manyinsert] and
    [Mysql.delete] run against it.  The Module [SearchStore] at the end
    hands the records of [Dispatch.search_response] to [insert] and
    [manyinsert]. *)

From Stdlib Require Import String List NArith ZArith Bool Lia.
From S2P Require Import Prelude Json Params Mysql Dispatch.
Import ListNotations.
Open Scope py_scope.

Module Sql.
Import Mysql.

(** ** The abstract store and its operations *)

Record table := mk_table { tcols : list pystr; trows : list (list json) }.

Definition store := list (pystr * table).

Definition find_table (t : pystr) (db : store) : option table :=
  option_map snd (find (fun p => pystr_eqb (fst p) t) db).

Definition map_table (t : pystr) (f : table -> table) (db : store) : store :=
  map (fun p => if pystr_eqb (fst p) t then (fst p, f (snd p)) else p) db.

(** A dictionary as a row of a table with columns [cols]. *)
Definition row_of (cols : list pystr) (d : dict) : list json :=
  map (fun c => match dlookup c d with Some v => v | None => JNull end) cols.

Definition add_rows (t : pystr) (rs : list dict) (db : store) : store :=
  map_table t (fun tb => mk_table (tcols tb) (trows tb ++ map (row_of (tcols tb)) rs)) db.

(** What [insert(table, datas)] is meant to do. *)
Definition spec_insert (db : store) (t : pystr) (datas : dict) : store := add_rows t [datas] db.

(** What [delete(table)] without a condition is meant to do. *)
Definition spec_clear (db : store) (t : pystr) : store :=
  map_table t (fun tb => mk_table (tcols tb) []) db.

(** ** Reading the statements *)

(** An unquoted identifier: [[0-9A-Za-z_]+]. *)
Definition ident_char (c : N) : bool :=
  ((48 <=? c) && (c <=? 57))%N || ((65 <=? c) && (c <=? 90))%N ||
  ((97 <=? c) && (c <=? 122))%N || N.eqb c 95.

Definition ident (s : pystr) : bool :=
  match s with [] => false | _ :: _ => forallb ident_char s end.

(** [s] up to its first [c], and what follows that [c]. *)
Fixpoint split_at (c : N) (s : pystr) : pystr * option pystr :=
  match s with
  | [] => ([], None)
  | x :: s' => if N.eqb x c then ([], Some s') else let '(a, r) := split_at c s' in (x :: a, r)
  end.

(** [s.split(c)]. *)
Fixpoint split_on (c : N) (s : pystr) : list pystr :=
  match s with
  | [] => [[]]
  | x :: s' =>
      if N.eqb x c then [] :: split_on c s'
      else match split_on c s' with
           | p :: ps => (x :: p) :: ps
           | [] => [[x]]
           end
  end.

Definition strip_prefix (p s : pystr) : option pystr :=
  if prefixb p s then Some (skipn (length p) s) else None.

(** A comma-separated list whose items, after one optional space, satisfy
    [ok]; an empty item is a syntax error. *)
Definition strip_space (p : pystr) : pystr :=
  match p with x :: q => if N.eqb x 32 then q else p | [] => [] end.

Definition list_items (ok : pystr -> bool) (s : pystr) : option (list pystr) :=
  let items := map strip_space (split_on 44 s) in
  if forallb ok items then Some items else None.

Definition PH : pystr := u "%s".

(** [INSERT INTO t(c1, ...) VALUES(%s, ...)]: the table, the columns and
    the number of values. *)
Definition parse_insert (q : pystr) : option (pystr * list pystr * nat) :=
  match strip_prefix (u "INSERT INTO ") q with
  | None => None
  | Some r1 =>
      match split_at 40 r1 with
      | (t, Some r2) =>
          match split_at 41 r2 with
          | (cs, Some r3) =>
              match strip_prefix (u " VALUES(") r3 with
              | Some r4 =>
                  match split_at 41 r4 with
                  | (vs, Some []) =>
                      match ident t, list_items ident cs, list_items (pystr_eqb PH) vs with
                      | true, Some cols, Some vals => Some (t, cols, length vals)
                      | _, _, _ => None
                      end
                  | _ => None
                  end
              | None => None
              end
          | _ => None
          end
      | _ => None
      end
  end.

(** [DELETE FROM t]. *)
Definition parse_delete (q : pystr) : option pystr :=
  match strip_prefix (u "DELETE FROM ") q with
  | Some t => if ident t then Some t else None
  | None => None
  end.

(** The number of [%s] markers the connector substitutes. *)
Fixpoint count_ph (q : pystr) : nat :=
  match q with
  | [] => 0
  | x :: q' =>
      if N.eqb x 37 then
        match q' with
        | y :: q'' => if N.eqb y 115 then S (count_ph q'') else count_ph q'
        | [] => 0
        end
      else count_ph q'
  end.

(** ** The driver *)

Definition ER_SYNTAX : exc := DriverError 1064 (u "1064 (42000): You have an error in your SQL syntax").
Definition ER_NO_TABLE : exc := DriverError 1146 (u "1146 (42S02): Table doesn't exist").
Definition ER_BAD_FIELD : exc := DriverError 1054 (u "1054 (42S22): Unknown column").
Definition ER_COUNT : exc := DriverError 1136 (u "1136 (21S01): Column count doesn't match value count").
Definition ER_PARAMS : exc := DriverError (-1) (u "Not all parameters were used in the SQL statement").
Definition ER_OUTSIDE : exc := DriverError 0 (u "statement outside the modelled fragment").

(** The server's [INSERT] of rows whose values are substituted. *)
Definition server_insert (db : store) (t : pystr) (cols : list pystr) (n : nat)
    (rows : list (list json)) : res store :=
  match find_table t db with
  | None => raise ER_NO_TABLE
  | Some tb =>
      if negb (forallb (fun c => mem c (tcols tb)) cols) then raise ER_BAD_FIELD
      else if negb (Nat.eqb (length cols) n) then raise ER_COUNT
      else Ok (add_rows t (map (combine cols) rows) db)
  end.

(** A statement the server does not read as an [INSERT] or a [DELETE]. *)
Definition unread (q : pystr) : exc :=
  if prefixb (u "INSERT INTO ") q then ER_SYNTAX else ER_OUTSIDE.

(** [MySQLConverter.to_mysql]: a [dict] or a [list] has no MySQL type. *)
Definition convertible (v : json) : bool :=
  match v with
  | JList _ | JDict _ => false
  | _ => true
  end.

Definition type_name (v : json) : pystr :=
  match v with
  | JList _ => u "list"
  | _ => u "dict"
  end.

(** The [ProgrammingError] of [_process_params], without an error number. *)
Definition ER_CONVERT (v : json) : exc :=
  DriverError (-1) (u "Failed processing format-parameters; Python '" ++ type_name v ++
                    u "' cannot be converted to a MySQL type").

(** One row of parameters: each value is converted, then the placeholders
    are counted. *)
Definition row_error (q : pystr) (r : list json) : option exc :=
  match find (fun v => negb (convertible v)) r with
  | Some v => Some (ER_CONVERT v)
  | None => if Nat.eqb (length r) (count_ph q) then None else Some ER_PARAMS
  end.

(** The rows in order: the first that fails raises. *)
Fixpoint rows_error (q : pystr) (rows : list (list json)) : option exc :=
  match rows with
  | [] => None
  | r :: rs => match row_error q r with
               | Some e => Some e
               | None => rows_error q rs
               end
  end.

(** [cursor.execute]/[executemany] with the rows of parameters. *)
Definition run_insert (db : store) (q : pystr) (rows : list (list json)) : res store :=
  match rows_error q rows with
  | Some e => raise e
  | None => match parse_insert q with
            | Some (t, cols, n) => server_insert db t cols n rows
            | None => raise (unread q)
            end
  end.

(** Without parameters nothing is substituted. *)
Definition run_plain (db : store) (q : pystr) : res store :=
  match parse_delete q with
  | Some t => match find_table t db with
              | Some _ => Ok (spec_clear db t)
              | None => raise ER_NO_TABLE
              end
  | None => raise (unread q)
  end.

#[export] Instance sql_driver : Driver store := {
  execute db q p := match p with
                    | Some ps => run_insert db q [ps]
                    | None => run_plain db q
                    end;
  executemany db q pss := match pss with
                          | [] => Ok db
                          | _ :: _ => run_insert db q pss
                          end;
  commit db := Ok db
}.

End Sql.

Module SqlProps.
Import Mysql MysqlProps Sql.

(** [c] does not occur in [s]. *)
Definition avoid (c : N) (s : pystr) : bool := forallb (fun x => negb (N.eqb x c)) s.

Lemma strip_prefix_app p s : strip_prefix p (p ++ s) = Some s.
Proof. unfold strip_prefix; rewrite prefixb_app, skipn_app, skipn_all, Nat.sub_diag; reflexivity. Qed.

Lemma split_at_app c a r : avoid c a = true -> split_at c (a ++ c :: r) = (a, Some r).
Proof.
  induction a as [|x a IH]; cbn [app split_at]; [rewrite N.eqb_refl; reflexivity|].
  intros H; apply andb_true_iff in H as [Hx Ha]; apply negb_true_iff in Hx; rewrite Hx, IH by exact Ha; reflexivity.
Qed.

Lemma split_on_avoid c a : avoid c a = true -> split_on c a = [a].
Proof.
  induction a as [|x a IH]; [reflexivity|]; cbn [split_on]; intros H.
  apply andb_true_iff in H as [Hx Ha]; apply negb_true_iff in Hx; rewrite Hx, IH by exact Ha; reflexivity.
Qed.

Lemma split_on_app c a r : avoid c a = true -> split_on c (a ++ c :: r) = a :: split_on c r.
Proof.
  induction a as [|x a IH]; cbn [app split_on]; [rewrite N.eqb_refl; reflexivity|].
  intros H; apply andb_true_iff in H as [Hx Ha]; apply negb_true_iff in Hx; rewrite Hx, IH by exact Ha; reflexivity.
Qed.

Lemma ident_avoid c k : ident k = true -> ident_char c = false -> avoid c k = true.
Proof.
  destruct k as [|x k]; [discriminate|]; intros H Hc; unfold avoid; rewrite forallb_forall.
  unfold ident in H; rewrite forallb_forall in H; intros y Hy; specialize (H y Hy).
  destruct (N.eqb_spec y c); [subst; congruence | reflexivity].
Qed.

Lemma split_on_join ks :
  ks <> [] -> Forall (fun k => avoid 44 k = true) ks ->
  split_on 44 (Params.join (u ", ") ks) = hd [] ks :: map (cons 32) (tl ks).
Proof.
  intros Hne Hall; induction Hall as [|k ks Hk Hks IH]; [congruence|].
  destruct ks as [|k' ks]; [cbn [Params.join hd tl map]; apply split_on_avoid, Hk|].
  cbn [hd tl map]; rewrite Params.join_cons by discriminate.
  change (u ", " ++ Params.join (u ", ") (k' :: ks)) with (44 :: 32 :: Params.join (u ", ") (k' :: ks)).
  rewrite split_on_app by exact Hk; cbn [split_on N.eqb Pos.eqb].
  rewrite (IH ltac:(discriminate)); reflexivity.
Qed.

Lemma avoid_app c a b : avoid c (a ++ b) = avoid c a && avoid c b.
Proof. apply forallb_app. Qed.

Lemma avoid_join c sep ks :
  avoid c sep = true -> Forall (fun k => avoid c k = true) ks -> avoid c (Params.join sep ks) = true.
Proof.
  intros Hs Hall; induction Hall as [|k ks Hk Hks IH]; [reflexivity|].
  destruct ks as [|k' ks]; [exact Hk|].
  rewrite Params.join_cons by discriminate; rewrite !avoid_app, Hk, Hs, IH; reflexivity.
Qed.

Lemma list_items_join ok ks :
  ks <> [] -> Forall (fun k => avoid 44 k = true /\ ok k = true /\ strip_space k = k) ks ->
  list_items ok (Params.join (u ", ") ks) = Some ks.
Proof.
  intros Hne Hall; unfold list_items.
  rewrite split_on_join by first [exact Hne | eapply Forall_impl; [|exact Hall]; cbv beta; tauto].
  destruct ks as [|k ks]; [congruence|]; cbn [hd tl map].
  rewrite map_map; cbn [strip_space N.eqb Pos.eqb]; rewrite map_id.
  inversion Hall as [|? ? (_ & _ & Hk) _]; subst; rewrite Hk.
  replace (forallb ok (k :: ks)) with true; [reflexivity|].
  symmetry; apply forallb_forall; intros x Hx; rewrite Forall_forall in Hall; apply (Hall x Hx).
Qed.

Lemma ident_items k : ident k = true -> avoid 44 k = true /\ ident k = true /\ strip_space k = k.
Proof.
  intros H; split; [apply ident_avoid; [exact H | reflexivity]|split; [exact H|]].
  destruct k as [|x k]; [discriminate|]; cbn in H |- *; apply andb_true_iff in H as [Hx _].
  destruct (N.eqb_spec x 32); [subst; discriminate | reflexivity].
Qed.

Lemma count_ph_avoid a b : avoid 37 a = true -> count_ph (a ++ b) = count_ph b.
Proof.
  induction a as [|x a IH]; [reflexivity|]; cbn [app count_ph]; intros H.
  apply andb_true_iff in H as [Hx Ha]; apply negb_true_iff in Hx; rewrite Hx; apply IH, Ha.
Qed.

Lemma count_ph_marks n r : count_ph (Params.join (u ", ") (repeat PH n) ++ r) = (n + count_ph r)%nat.
Proof.
  induction n as [|n IH]; [reflexivity|].
  destruct n as [|n]; [reflexivity|].
  cbn [repeat]; rewrite Params.join_cons by discriminate; cbn [repeat] in IH.
  rewrite <- !app_assoc; change (count_ph (PH ++ u ", " ++ Params.join (u ", ") (PH :: repeat PH n) ++ r))
    with (S (count_ph (u ", " ++ Params.join (u ", ") (PH :: repeat PH n) ++ r))).
  rewrite count_ph_avoid, IH by reflexivity; reflexivity.
Qed.

(** The text of [insert] for more than one column. *)
Lemma insert_text_shape t ks :
  length ks <> 1%nat ->
  insert_text t ks =
  u "INSERT INTO " ++ t ++ 40 :: Params.join (u ", ") ks ++ 41 :: u " VALUES(" ++
    Params.join (u ", ") (repeat PH (length ks)) ++ [41].
Proof.
  intros H; unfold insert_text, sql_tuple; rewrite repeat_length, (proj2 (Nat.eqb_neq _ _) H).
  rewrite <- !app_assoc; reflexivity.
Qed.

Lemma count_ph_insert t ks :
  ident t = true -> Forall (fun k => ident k = true) ks -> length ks <> 1%nat ->
  count_ph (insert_text t ks) = length ks.
Proof.
  intros Ht Hks Hl; rewrite insert_text_shape by exact Hl.
  rewrite count_ph_avoid by reflexivity; rewrite count_ph_avoid by (apply ident_avoid; auto).
  change (40 :: ?x) with ([40] ++ x); rewrite count_ph_avoid by reflexivity.
  rewrite count_ph_avoid.
  - change (41 :: u " VALUES(" ++ ?x) with ((41 :: u " VALUES(") ++ x); rewrite count_ph_avoid by reflexivity.
    rewrite count_ph_marks; cbn; lia.
  - apply avoid_join; [reflexivity|]; eapply Forall_impl; [|exact Hks]; intros k Hk; apply ident_avoid; auto.
Qed.

(** reading back the statement [insert] writes gives the table, the
    columns and one value per column, when the table and the columns are
    identifiers and there are at least two columns. *)
Theorem parse_insert_text t ks :
  ident t = true -> Forall (fun k => ident k = true) ks -> (2 <= length ks)%nat ->
  parse_insert (insert_text t ks) = Some (t, ks, length ks).
Proof.
  intros Ht Hks Hl; rewrite insert_text_shape by lia; unfold parse_insert.
  assert (Hkav : avoid 41 (Params.join (u ", ") ks) = true).
  { apply avoid_join; [reflexivity|].
    eapply Forall_impl; [|exact Hks]; intros k Hk; apply ident_avoid; auto. }
  rewrite strip_prefix_app, split_at_app by (apply ident_avoid; auto).
  rewrite split_at_app by exact Hkav.
  rewrite strip_prefix_app, split_at_app by (apply avoid_join; [reflexivity | apply Forall_forall; intros x Hx;
    apply repeat_spec in Hx; subst; reflexivity]).
  rewrite Ht, list_items_join, list_items_join.
  - rewrite repeat_length; reflexivity.
  - destruct (length ks); [lia | discriminate].
  - apply Forall_forall; intros x Hx; apply repeat_spec in Hx; subst; repeat split.
  - destruct ks; [cbn in Hl; lia | discriminate].
  - eapply Forall_impl; [|exact Hks]; intros k Hk; apply ident_items, Hk.
Qed.

Lemma ident_plain k : ident k = true -> plain k = true.
Proof.
  destruct k as [|x k]; [discriminate|]; unfold ident, plain; intros H.
  rewrite forallb_forall in H |- *; intros c Hc; specialize (H c Hc).
  unfold ident_char in H; unfold plain_char.
  repeat rewrite orb_true_iff in H; repeat rewrite andb_true_iff in H.
  assert (Hb : (48 <= c <= 57 \/ 65 <= c <= 90 \/ 97 <= c <= 122 \/ c = 95)%N).
  { rewrite !N.leb_le in H; rewrite N.eqb_eq in H; tauto. }
  repeat (apply andb_true_intro; split); rewrite ?negb_true_iff, ?N.leb_le, ?N.eqb_neq; lia.
Qed.

Lemma idents_plain ks : Forall (fun k => ident k = true) ks -> Forall (fun k => plain k = true) ks.
Proof. apply Forall_impl; intros k; apply ident_plain. Qed.

Lemma combine_fst_snd (d : dict) : combine (map fst d) (map snd d) = d.
Proof. induction d as [|[k v] d IH]; cbn; [reflexivity | rewrite IH; reflexivity]. Qed.

Lemma cols_known ks tb :
  Forall (fun k => ident k = true /\ mem k (tcols tb) = true) ks ->
  forallb (fun c => mem c (tcols tb)) ks = true.
Proof. intros H; apply forallb_forall; intros c Hc; rewrite Forall_forall in H; apply (H c Hc). Qed.

Lemma idents_of ks tb :
  Forall (fun k => ident k = true /\ mem k (tcols tb) = true) ks -> Forall (fun k => ident k = true) ks.
Proof. apply Forall_impl; tauto. Qed.

Lemma find_convertible r : forallb convertible r = true -> find (fun v => negb (convertible v)) r = None.
Proof.
  induction r as [|v r IH]; cbn [forallb find]; [reflexivity|].
  intros H; apply andb_true_iff in H as [Hv Hr]; rewrite Hv; exact (IH Hr).
Qed.

(** Rows of scalar values with one value per placeholder pass the
    driver's checks. *)
Lemma rows_error_none q rows :
  Forall (fun r => length r = count_ph q /\ forallb convertible r = true) rows -> rows_error q rows = None.
Proof.
  induction 1 as [|r rs [Hl Hc] _ IH]; cbn [rows_error]; [reflexivity|].
  unfold row_error; rewrite find_convertible, Hl, Nat.eqb_refl by exact Hc; exact IH.
Qed.

(** The server's [INSERT] of the statement [insert] writes. *)
Lemma run_insert_text db t ks tb rows :
  ident t = true -> find_table t db = Some tb ->
  Forall (fun k => ident k = true /\ mem k (tcols tb) = true) ks -> (2 <= length ks)%nat ->
  Forall (fun r => length r = length ks /\ forallb convertible r = true) rows ->
  run_insert db (insert_text t ks) rows = Ok (add_rows t (map (combine ks) rows) db).
Proof.
  intros Ht Hf Hks Hl Hrows; pose proof (idents_of _ _ Hks) as Hid; unfold run_insert.
  rewrite rows_error_none by (rewrite count_ph_insert by (assumption || lia); exact Hrows).
  rewrite parse_insert_text by assumption; unfold server_insert; rewrite Hf, cols_known, Nat.eqb_refl by exact Hks.
  reflexivity.
Qed.

(** C2: [insert(table, datas)] refines [spec_insert]: on a store where the
    table exists with every key of [datas] as a column, and with at least
    two keys whose values are scalars (no [dict] or [list], which the
    connector cannot convert), the dictionary becomes one new row of the
    table, the values under their own columns. *)
Theorem insert_refines isp db t d tb :
  ident t = true -> find_table t db = Some tb ->
  Forall (fun k => ident k = true /\ mem k (tcols tb) = true) (map fst d) -> (2 <= length d)%nat ->
  forallb convertible (map snd d) = true ->
  insert isp db t d = Ok (spec_insert db t d).
Proof.
  intros Ht Hf Hks Hl Hv; destruct d as [|kv d']; [cbn in Hl; lia|].
  unfold insert; rewrite <- (length_map fst), insert_query_plain by (apply idents_plain, (idents_of _ _ Hks)).
  cbn [execute commit sql_driver].
  rewrite (run_insert_text db t (map fst (kv :: d')) tb [map snd (kv :: d')] Ht Hf Hks
             ltac:(rewrite length_map; exact Hl)
             ltac:(constructor; [split; [rewrite !length_map; reflexivity | exact Hv] | constructor])).
  change (map (combine ?a) [?b]) with [combine a b]; rewrite combine_fst_snd; reflexivity.
Qed.

(** C5: [manyinsert(table, datas)] puts under the columns of [datas[0]]
    the values of each row in that row's own key order: it refines
    [spec_insert] of every row only for rows whose keys come in the order
    of [datas[0]].  The values are scalars. *)
Theorem manyinsert_store isp db t d0 rows tb :
  ident t = true -> find_table t db = Some tb ->
  Forall (fun k => ident k = true /\ mem k (tcols tb) = true) (map fst d0) -> (2 <= length d0)%nat ->
  Forall (fun r => length r = length d0 /\ forallb convertible (map snd r) = true) (d0 :: rows) ->
  manyinsert isp db t (map JDict (d0 :: rows)) =
    Ok (add_rows t (map (fun r => combine (map fst d0) (map snd r)) (d0 :: rows)) db).
Proof.
  intros Ht Hf Hks Hl Hrows; unfold manyinsert; cbn [map py_len dict_keys]; rewrite !bind_Ok.
  rewrite <- (map_cons JDict), mapM_dict_values, bind_Ok.
  rewrite <- (length_map fst d0), insert_query_plain by (apply idents_plain, (idents_of _ _ Hks)).
  cbn [executemany commit sql_driver map].
  rewrite (run_insert_text db t (map fst d0) tb (map snd d0 :: map (map snd) rows) Ht Hf Hks
             ltac:(rewrite length_map; exact Hl)).
  2:{ change (map snd d0 :: map (map snd) rows) with (map (map snd) (d0 :: rows)).
      rewrite Forall_map; eapply Forall_impl; [|exact Hrows]; intros r [Hr Hc]; rewrite !length_map; auto. }
  rewrite map_cons, map_map; reflexivity.
Qed.

(** The text of [insert] for one column: the repr of a one-element tuple. *)
Lemma insert_text_one t k :
  insert_text t [k] = u "INSERT INTO " ++ t ++ 40 :: (k ++ [44]) ++ 41 :: u " VALUES(%s,)".
Proof. unfold insert_text, sql_tuple; cbn [length Nat.eqb repeat]; rewrite <- !app_assoc; reflexivity. Qed.

Lemma list_items_trailing_comma ok k : ok [] = false -> avoid 44 k = true -> list_items ok (k ++ [44]) = None.
Proof.
  intros Hok Hk; unfold list_items; rewrite split_on_app by exact Hk; cbn [split_on map strip_space forallb].
  rewrite Hok, andb_false_r; reflexivity.
Qed.

(** C25: a dictionary with one key is never inserted: the statement ends
    its column list with a comma, and the server rejects it with a syntax
    error, which [insert]'s [except] clause lets through unchanged. *)
Theorem insert_single_key_rejected isp db t k v :
  ident t = true -> ident k = true -> convertible v = true -> insert isp db t [(k, v)] = raise ER_SYNTAX.
Proof.
  intros Ht Hk Hv; unfold insert.
  rewrite <- (length_map fst [(k, v)]), insert_query_plain by (repeat constructor; apply ident_plain, Hk).
  cbn [execute commit sql_driver map fst snd]; unfold run_insert.
  assert (Hc : count_ph (insert_text t [k]) = 1%nat).
  { rewrite insert_text_one, count_ph_avoid by reflexivity; rewrite count_ph_avoid by (apply ident_avoid; auto).
    change (40 :: ?x) with ([40] ++ x); rewrite count_ph_avoid by reflexivity.
    rewrite count_ph_avoid; [reflexivity|]; rewrite avoid_app, (ident_avoid 37 k Hk eq_refl); reflexivity. }
  cbn [rows_error]; unfold row_error; cbn [find]; rewrite Hv; cbn [negb]; rewrite Hc; cbn [length Nat.eqb].
  replace (parse_insert (insert_text t [k])) with (@None (pystr * list pystr * nat)).
  - unfold unread; rewrite insert_text_one, prefixb_app; reflexivity.
  - symmetry; rewrite insert_text_one; unfold parse_insert.
    rewrite strip_prefix_app, split_at_app by (apply ident_avoid; auto).
    rewrite split_at_app by (rewrite avoid_app, (ident_avoid 41 k Hk eq_refl); reflexivity).
    replace (strip_prefix (u " VALUES(") (u " VALUES(%s,)")) with (Some (u "%s,)")) by reflexivity.
    replace (split_at 41 (u "%s,)")) with (u "%s,", Some (@nil N)) by reflexivity.
    rewrite Ht, list_items_trailing_comma by (reflexivity || apply ident_avoid; auto); reflexivity.
Qed.

(** C20: [delete(table)] without a condition, or with an empty one,
    refines [spec_clear]: every row of the table is removed. *)
Theorem delete_clears db t tb :
  ident t = true -> find_table t db = Some tb ->
  delete db t None = Ok (spec_clear db t) /\ delete db t (Some []) = Ok (spec_clear db t).
Proof.
  intros Ht Hf; unfold delete; rewrite app_nil_r; cbn [execute commit sql_driver].
  unfold run_plain, parse_delete; rewrite strip_prefix_app, Ht, Hf; split; reflexivity.
Qed.

(** A table [users(id, name, age)] without rows. *)
Definition sample_store : store := [(u "users", mk_table [u "id"; u "name"; u "age"] [])].

Lemma insert_refines_witness :
  insert (fun _ => true) sample_store (u "users") [(u "id", JNum 7); (u "name", JStr (u "ann"))] =
    Ok [(u "users", mk_table [u "id"; u "name"; u "age"] [[JNum 7; JStr (u "ann"); JNull]])].
Proof.
  rewrite (insert_refines _ _ _ _ (mk_table [u "id"; u "name"; u "age"] []));
    [reflexivity | reflexivity | reflexivity | repeat constructor | cbn; lia | reflexivity].
Defined.

(** The rows of [manyinsert] when the second dictionary lists its keys in
    another order: its name lands in [id] and its id in [name], where
    [spec_insert] of each row would keep them apart. *)
Lemma manyinsert_store_witness :
  manyinsert (fun _ => true) sample_store (u "users")
    (map JDict [[(u "id", JNum 1); (u "name", JStr (u "ann"))]; [(u "name", JStr (u "bob")); (u "id", JNum 2)]]) =
    Ok [(u "users", mk_table [u "id"; u "name"; u "age"]
                      [[JNum 1; JStr (u "ann"); JNull]; [JStr (u "bob"); JNum 2; JNull]])] /\
  spec_insert (spec_insert sample_store (u "users") [(u "id", JNum 1); (u "name", JStr (u "ann"))])
    (u "users") [(u "name", JStr (u "bob")); (u "id", JNum 2)] =
    [(u "users", mk_table [u "id"; u "name"; u "age"]
                   [[JNum 1; JStr (u "ann"); JNull]; [JNum 2; JStr (u "bob"); JNull]])].
Proof.
  split; [|reflexivity].
  rewrite (manyinsert_store _ _ _ _ _ (mk_table [u "id"; u "name"; u "age"] []));
    [reflexivity | reflexivity | reflexivity | repeat constructor | cbn; lia | repeat constructor].
Defined.

Lemma insert_single_key_rejected_witness :
  insert (fun _ => true) sample_store (u "users") [(u "id", JNum 7)] = raise ER_SYNTAX.
Proof. apply insert_single_key_rejected; reflexivity. Defined.

Lemma delete_clears_witness :
  delete [(u "users", mk_table [u "id"] [[JNum 1]; [JNum 2]])] (u "users") None =
    Ok [(u "users", mk_table [u "id"] [])] /\
  delete [(u "users", mk_table [u "id"] [[JNum 1]; [JNum 2]])] (u "users") (Some []) =
    Ok [(u "users", mk_table [u "id"] [])].
Proof.
  exact (delete_clears [(u "users", mk_table [u "id"] [[JNum 1]; [JNum 2]])] (u "users")
           (mk_table [u "id"] [[JNum 1]; [JNum 2]]) eq_refl eq_refl).
Defined.

End SqlProps.


(** ** [search] into [insert]

    The records [XCrawl.search] returns go through [mysql.connector]'s
    conversion when handed to [MySQLDManipulator.insert] or [manyinsert]. *)

Module SearchStore.
Import Mysql Sql SqlProps Dispatch DispatchProps.

Lemma nested_unconvertible d :
  nested (JDict d) = true -> exists v, find (fun v => negb (convertible v)) (map snd d) = Some v /\ convertible v = false.
Proof.
  cbn [nested]; intros [[k w] [Hin Hw]]%existsb_exists.
  destruct (find _ _) as [v|] eqn:E.
  - exists v; split; [reflexivity|]; apply find_some in E as [_ E]; destruct (convertible v); [discriminate | reflexivity].
  - apply (in_map snd) in Hin; apply (find_none _ _ E), negb_false_iff in Hin.
    destruct w; discriminate.
Qed.

Lemma nested_row_error q d :
  nested (JDict d) = true -> exists v, row_error q (map snd d) = Some (ER_CONVERT v) /\ convertible v = false.
Proof. intros H; destruct (nested_unconvertible d H) as [v [E Hv]]; exists v; unfold row_error; rewrite E; auto. Qed.

Lemma mapM_dict_values_dicts ds :
  Forall (fun j => is_dict j = true) ds ->
  exists vs, mapM dict_values ds = Ok vs /\
    Forall2 (fun j v => exists d, j = JDict d /\ v = map snd d) ds vs.
Proof.
  induction 1 as [|j ds Hj _ [vs [E F]]]; [exists []; split; constructor|].
  destruct j as [| | | | |d]; try discriminate.
  exists (map snd d :: vs); cbn [mapM dict_values bind]; rewrite E; split; [reflexivity|].
  constructor; [eexists; split; reflexivity | exact F].
Qed.

(** C7: C?: no record [search] returns can be stored.  Each is a dictionary
    holding a dictionary (a tweet's [views], a user's [legacy]) or a list
    among its values; [mysql.connector] cannot convert it, so [insert] of
    any record and [manyinsert] of the whole result raise the
    [ProgrammingError] of the conversion, which the methods' [except
    MySQLConnectorError] lets through, whatever the table and the store. *)
Theorem search_records_not_storable isp product data ds c (db : store) t :
  search_response product data = Ok (ds, c) ->
  Forall (fun j => exists d v, j = JDict d /\ convertible v = false /\
                               insert isp db t d = Err (ER_CONVERT v)) ds /\
  exists v, convertible v = false /\ manyinsert isp db t ds = Err (ER_CONVERT v).
Proof.
  intros H; pose proof (search_results_nested _ _ _ _ H) as N.
  split.
  - eapply Forall_impl; [|exact N]; intros [| | | | |d] Hn; try discriminate.
    destruct (nested_row_error (insert_query isp t (map fst d) (length d)) d Hn) as [v [E Hv]].
    exists d, v; split; [reflexivity | split; [exact Hv|]].
    destruct d as [|kv d]; [discriminate|].
    unfold insert; cbn [execute sql_driver]; unfold run_insert; cbn [rows_error]; rewrite E; reflexivity.
  - destruct ds as [|j ds]; [apply search_results_nonempty in H; contradiction|].
    destruct (mapM_dict_values_dicts (j :: ds) (Forall_impl _ (fun j => nested_dict j) N)) as [vs [E F]].
    inversion F as [|? v0 ? vs' [d [-> ->]] _]; subst.
    inversion N as [|? ? Hn _]; subst.
    destruct (nested_row_error (insert_query isp t (map fst d) (length d)) d Hn) as [v [Ev Hv]].
    exists v; split; [exact Hv|].
    unfold manyinsert; cbn [py_len dict_keys bind]; rewrite E; cbn [bind].
    cbn [executemany sql_driver]; unfold run_insert; cbn [rows_error]; rewrite Ev; reflexivity.
Qed.

Lemma search_records_not_storable_witness :
  exists v, convertible v = false /\
    manyinsert (fun _ => true) sample_store (u "users") [people_user; people_user] = Err (ER_CONVERT v).
Proof.
  exact (proj2 (search_records_not_storable (fun _ => true) (u "People") (response_of people_page)
                  [people_user; people_user] (u "DAAC") sample_store (u "users")
                  ltac:(vm_compute; reflexivity))).
Defined.

End SearchStore.
